(* ===== verification/_CoqProject ===== *)
-Q . S2P
Prelude.v
PyStr.v
Regex.v
KeyNorm.v
Dates.v
Extract.v
Region.v
Location.v
Reconcile.v
Master.v
Record.v
Segment.v
Collapse.v
Pipeline.v
Watermark.v
Driver.v
Gui.v
