(* ===== verification/Prelude.v ===== *)
(** * A verification library for Production-Weekly-Extractor

    The repository turns the text of a weekly trade listing of film and TV
    productions into CSV rows and reconciles two runs of it, or a run and
    a hand-kept master table.  Its core is
    [src/Scripts/Production_Weekly_Extractor.py]; the companion script
    [src/remove_bottom_watermark.py] cuts or paints over a strip at the
    bottom of every page of the PDF before the text is read.

    ** The program and how its parts interact

    - Layout segmenter ([extract_text_structured]): puts PDF text blocks in
      reading order and cuts the lines into production blocks.
    - Field extractor and record builder ([_parse_block_to_row] and the
      helpers it calls, [build_cmd]): one CSV row per block, an exclusion
      filter ([EXCLUDE_KEYWORDS]), the baseline and filtered title lists.
    - Location parser and gazetteer ([_city_state_country_from_location],
      [world_lookup_city]): (city, region, country) triples.
    - Region bucketer ([region_bucket]): the reporting bucket of a triple.
    - Key normaliser ([_norm_key], [_norm_text], [_equiv]): matching keys
      and field equivalence.
    - Date spans ([_parse_date_range], [_inclusive_days],
      [_start_date_from_shooting_dates], [_parse_span_flexible]).
    - Reconciliation: run-to-run [compare_cmd] (fuzzy, greedy) and
      [master_compare_cmd] (exact keys, asymmetric field rule, push-back),
      both exporting through [to_master_row].

    - Watermark remover ([process_pdf], [main] of the companion script):
      preflight of the input, per-page crop or redaction, save to a
      temporary file, validation and a retried move onto the destination.

    The data flow is: cleaned PDF -> text blocks -> rows -> (keys +
    scores) -> diff rows.

    ** Files of this development (in dependency order)

    - [Prelude] (this file): the notation scope [pw_scope], the hint
      databases [pw] and [pw_bool], the tactics [bool_simpl], [case_if]
      and [case_some], and the generic list and fold lemmas.
    - [PyStr]: Python's [str] as lists of Unicode code points: the class
      [UnicodeDB] is the interface of the Unicode database the code relies
      on ([str.lower], [str.upper], [str.isalpha], [str.isdigit],
      [str.isnumeric], [unicodedata.normalize], decimal digits), with an
      instance exact on Latin-1; [str.strip], [str.split], [str.join],
      substring search, sets and dicts as lists, [sorted], a leftmost
      search and [re.sub] over hand-written matchers.
    - [Regex]: the constructs of Python's [re] the extractor uses
      (classes, greedy and lazy repetition, alternation, groups, [\b],
      [$]) as continuation-passing combinators that try the choices in the
      order of Python's backtracking engine.
    - [KeyNorm]: [_norm_text], [NA_TOKENS], [_equiv], [_norm_key] stage by
      stage (alias clause removal, accent folding, quote folding, case,
      non-alphanumeric runs, whitespace).
    - [Dates]: proleptic Gregorian dates as Python's [datetime.date]
      (constructor that fails as [ValueError] does, ordinals, order), the
      matcher of [RE_DATE_RANGE] and the span functions built on it.
    - [Extract]: the line-level extractors: the STATUS/LOCATION scan as a
      loop with its state and [break], the start month, the title, type
      and format label of the title line, the alias extractor with
      [finditer], studios, crew, VFX, company and office, phones, and the
      exclusion test.
    - [Region]: the state/province/country tables, [_as_country],
      [_looks_like_region_token] and [region_bucket].
    - [Location]: [_city_state_country_from_location]: normalisation, the
      country fast path, the split into several locations, the decision
      chain per location (country, region token, hubs, city dictionary,
      comma forms, gazetteer) and the [" + "]-joined triple, under a
      section variable for the gazetteer [world_lookup_city].
    - [Reconcile]: rows as [gmap text text], [fill_na], [_changed_fields],
      and [compare_cmd]'s greedy matching as explicit state passing over a
      list of claim flags (the ['_matched'] key the code writes into the old
      rows), under a section variable for rapidfuzz's [token_set_ratio].
    - [Master]: the comparators of [_changed_vs_master], the master-file
      reader, [to_master_row] with [detect_prod_co], and
      [master_compare_cmd] with its [KeyError] and [ValueError] paths as
      [None].
    - [Record]: [_parse_block_to_row] (composing [Extract], [Dates] and
      [Location]), loading the structured text, and the rows and title
      lists of [build_cmd].
    - [Segment]: the pure part of [extract_text_structured]: a page as
      PyMuPDF's text dictionary gives it (width, blocks, lines, spans with
      text, size and font), the gathered blocks, [col_idx], Python's
      stable sort as a stable insertion sort, the 85th-percentile size
      threshold, [TITLE_PATTERNS], [HEADER_KILL], [looks_like_title], and
      the line-by-line split as a state [(cur_prod_lines, all_prods)]
      with the flush at each title and page boundary; the structured text
      it writes is what [Record] loads.
    - [Collapse]: [_collapse_dupes] (the completeness score, the one-pass
      dictionary with its key order and duplicate list) against a
      key-by-key reference, and the key maps of [master_compare_cmd].
    - [Pipeline]: the per-production files and the productions folder (a
      map from file name to contents, files of earlier runs included),
      [_load_from_productions_folder], [load_blocks] on a file or a
      folder, [pipeline_build_one] from the cleaned pages to the rows, and
      [batch_build_cmd] over the sorted matches of its glob pattern
      ([fnmatch] for [*] and [?]) with its resume test and exception
      handler.
    - [Watermark]: [remove_bottom_watermark.py] in a state-and-exception
      monad [M] of its own (notation [do x <- m; k] in [wm_scope]) whose
      state is the file system (resolved path to bytes) and the list of
      [time.sleep] durations; the record [os_env] holds what the operating
      system and PyMuPDF decide (path resolution, the process id, whether
      a document opens and its page rectangles, the bytes [doc.save]
      writes, the outcome of each [os.replace]); pages are their
      rectangle and the calls issued on them; the frame predicates [keeps]
      and [readonly] with the hint database [wm].
    - [Driver]: the extractor's use of the remover ([clean_pdf]): the
      reuse test on modification times and the clean call of
      [pipeline_build_one], the segmenter's command line [main(argv)]
      (its targets: a file, or the sorted matches of a glob; the per-PDF
      folders; the loop that stops
      at the first exception), and [resolve_run_folder] over a folder's
      entries in [os.scandir] order.
    - [Gui]: the build handler [run_build] of the desktop window: its
      entries as [pathlib] paths, the PDF and folder branches, the build
      and the preview, with the dialogs and status updates as a list of
      events and [except Exception] (which lets [SystemExit] through) as
      [catch_exception]; the postcondition predicate [spec_ok] with its
      bind rule; the master-compare handler's output name and its batch
      over all regions, whose calls share one [summary_acc] dict (a
      record threaded through the calls: [setdefault] returns the dict's
      own list, so every append is seen through the dict).

    ** What the theorems show

    - Key normaliser: [_norm_key] is idempotent and its output is a
      canonical word list over [a-z0-9]; [_equiv] is an equivalence.
    - Dates: every parsed span has start <= end; the year wrap; a bound on
      the length when the first year is omitted; the display text reparses
      to the same dates; the findings on [_parse_span_flexible],
      [_start_date_from_shooting_dates] and a wrap from February 29.
    - Buckets and locations: the bucket table of the spec, that only the
      first component of a multi-location triple counts, the inference of
      Canada, the ambiguous codes NT and WA; the findings on Richmond, VA
      (a hub wins over the explicit state) and on Victoria (a region token
      wins over the hub the spec says wins).
    - Run-to-run reconciliation: the greedy choice is the first maximal
      score; the thresholds (strictly above 90, inclusive 50); every old
      row is claimed at most once and is either claimed or reported
      Removed; the run never fails; the summary counts; the end-to-end
      scenario of the spec; blank and N/A compare equal.
    - Master compare: it never fails when every length converts; the
      asymmetric rule; push-back detection against the spec's description;
      every written row has one of the two categories; the master reader's records are well formed; company
      detection does not depend on the order of the keys; the findings
      (Notes dropped, a false push-back from the program's own display
      text, [²] lengths).
    - Layout segmenter: the blocks of a page come out in reading order
      (the left-hand column first, by a column test written on the
      bounding box, then top edge, then left edge; equal keys keep their
      page order); the size threshold sits at rank [int(0.85 (n - 1))] of
      the sorted sizes (at most that many blocks are strictly smaller, one
      more are no larger); every
      production is its stripped lines joined by newlines (an invariant of
      the state), so writing the productions with the break marker and
      loading them back gives exactly those that start with the title
      prefix or a quote; the findings (a continuation after a page break
      is dropped, the fallback uses the block's size and boldness, noise
      patterns skip whole blocks, the headline pattern cannot match a
      headline of letters).
    - Pipeline: on a fresh folder with fewer than 10000 productions the
      blocks read back are the segmenter's productions in order (the
      zero-padded names sort as the numbers); the batch gives every PDF
      matching its glob pattern its index row whatever the others do; the findings (files of an
      earlier run are loaded, a continuation after a page break becomes a
      record named after its first line).
    - Duplicates: [_collapse_dupes] keeps, for each distinct key in
      first-seen order, the first row of largest completeness score and
      reports every other row once; the maps [m_map] and [w_map] of
      [master_compare_cmd] keep the first row instead, and [w_order] is the
      first-seen key order (the finding: the spec's completeness rule is
      in a function nothing calls).
    - Watermark remover: [process_pdf] refines a contract on the file
      system (it succeeds exactly when the paths differ, the preflight
      passes, the strip is positive, both documents open and one of ten
      moves goes through, and then only the destination and the temporary
      file change); it never touches the input unless the input bears the
      temporary file's name; the preflight passes exactly on a non-empty
      file with [%PDF-] in its first KB and no HTML marker in its first
      2 KB; the fallback open is opening the bytes; the crop box always has
      positive height; the retry loop sleeps at most 14 seconds; the
      default output is never the input; the findings (an input named
      like the temporary file and opened from its bytes is overwritten, the comment's 5 seconds are
      14, every move error is reported as a lock, the output is validated
      without the fallback and the temporary file is left behind, a PDF
      that mentions [<html] early is refused).
    - Cleaning step and command line: in [pipeline_build_one] the cleaned
      copy is [<stem>_cleaned.pdf], never the source; it is reused exactly
      when [skip_clean] is set, it exists and both [stat] calls show the
      source not newer, and otherwise the step is the [clean_pdf] call
      with strip 100, pixels, dpi 72 and redaction; the findings ([--skip-clean]
      keeps a copy made with other options, a run folder with two runs
      can pair one's rows with the other's titles).
    - Desktop window: the shared summary of the batch over all regions
      holds the issue's total, the sum of the regions' pushed-back counts
      and one file per region in order; the file the master-compare
      handler previews is the one written whenever the region is given
      and free of the extra characters it replaces; whenever extraction
      and the build raise only
      [Exception]s, [run_build] returns and ends with the status [Ready]
      or an error dialog ([run_build_reports_errors]); the finding (an
      empty output entry is [Path(".")], so the fallback to [pw_output]
      beside the input is dead code; with no region the handler looks
      for [..._All.csv] while the command names its file after the
      region read from the master rows).
    - Extraction and build: the build partitions the blocks into rows and
      filtered titles with every title in the baseline; exclusion of
      Hallmark in any case; studio detection as a set comprehension;
      aliases de-duplicated case-insensitively; the
      start month raises exactly on a blank status; the findings (last
      STATUS wins, the [ß] cut, the no-break-space crash, [gaffer]).

    ** Bounds and fuel

    Scanners over text take the length of the text as fuel: each step of
    [re.sub], of [str.split] on a separator and of a leftmost search
    consumes at least one character, and lemmas in [PyStr] show that this
    fuel is enough; for the split of the structured file on the break
    marker, [Record.split_text_fuel] shows that every fuel from the
    length of the text on gives the same pieces.  The [Regex] combinators try finite lists of choices
    and need no fuel.  Dates are in [Z] with Python's range 1..9999 for
    years checked by the constructor.  [_upperish] compares the ratio of
    upper-case letters with 0.6 in double precision; the model compares
    [3 * letters <= 5 * upper], which agrees for fewer than 10^15 letters.
    The layout coordinates, font sizes and the column margin are
    rationals: the model computes [mid - col_margin] exactly where Python
    rounds to a double, which differs only within half an ulp of a column
    boundary.  The rank [int(0.85 * (n - 1))] is [17 * (n - 1) / 20] and
    [upper_ratio >= 0.5] is [2 * upper >= letters], both exact for fewer
    than 2^50 blocks or letters.  The watermark remover's strip, dpi and
    page rectangles are rationals too (the floats of [--strip] and [--dpi]
    without infinities and NaN); its retry loop is Python's
    [range(10)] and needs no fuel.

    ** Not modelled, and why

    The PDF reader (the segmenter takes the text dictionary PyMuPDF
    returns as data), the per-page dumps and the structured file write,
    the content of PDF pages (the watermark remover records the crop and
    redaction calls it issues, and PyMuPDF's reading and saving are
    fields of [os_env]), the row count the batch reads back with pandas,
    the Tk widgets and the window's other handlers (they route entries to
    the modelled commands), argparse's parsing of the command lines (the watermark
    remover's [main] and the segmenter's [main(argv)] start from the
    parsed values and the parsers' defaults), the subcommand dispatcher
    [main()] of the extractor (it only routes the parsed arguments to the
    modelled commands), the modification times and folder listings
    (section variables of [Driver]), [out_path.parent.mkdir] (the file system holds files
    only), and CSV reading and writing are I/O plumbing; the models take
    the rows and texts they read.  rapidfuzz's similarity functions
    are a library: the reconciliation is proved for every scoring
    function.  [world_lookup_city] searches the geonames and pycountry
    tables (data of libraries) with rapidfuzz: it is a section variable of
    [Location] and [Record], and [date.today()] one of [Record].  [str.lower] is taken per code point (the Greek
    final-sigma rule is not modelled; it cannot change a matching key,
    whose characters are ASCII).  [csv.DictReader] yields [None] for the
    missing cells of a short row; the models read every missing cell as
    the empty text.  In the watermark remover, [mkdir], the page calls and
    [doc.save] never raise, and PyMuPDF's refusal of a non-incremental
    save onto the file a document was opened from is not recorded: the
    finding on an input named like the temporary file is shown for a
    document opened from its bytes, where the save does go through.
    Glob patterns with [[...]] classes are not modelled.

    ** Further work

    1. General theorems on the location parser (the split into several
       locations is componentwise).
    2. The master-file resolution of [master_compare_cmd] (a folder
       searched for the region's file) on the folder model of [Driver].
*)

From stdpp Require Export base list gmap sorting strings.
From Stdlib Require Export NArith ZArith.

Declare Scope pw_scope.
Delimit Scope pw_scope with pw.
Open Scope pw_scope.

(** The hint database of the development: boolean reflection and the small
    list facts every component uses. *)
Create HintDb pw.
Create Rewrite HintDb pw_bool.

(** ** Boolean reflection used throughout *)

Lemma N_eqb_true (a b : N) : (a =? b)%N = true <-> a = b.
Proof. apply N.eqb_eq. Qed.

Lemma N_leb_true (a b : N) : (a <=? b)%N = true <-> (a <= b)%N.
Proof. apply N.leb_le. Qed.

Lemma andb_true (a b : bool) : a && b = true <-> a = true /\ b = true.
Proof. apply andb_true_iff. Qed.

Lemma orb_true (a b : bool) : a || b = true <-> a = true \/ b = true.
Proof. apply orb_true_iff. Qed.

Lemma negb_true (a : bool) : negb a = true <-> a = false.
Proof. destruct a; simpl; split; congruence. Qed.

#[export] Hint Rewrite N_eqb_true N_leb_true andb_true orb_true negb_true : pw_bool.

(** [bool_simpl] turns the boolean tests of the model into propositions. *)
Ltac bool_simpl :=
  repeat (autorewrite with pw_bool in *; simpl in *).

(** [case_if] splits the first [if] of the goal and keeps the equation. *)
Ltac case_if :=
  match goal with
  | |- context [if ?b then _ else _] =>
      let E := fresh "E" in destruct b eqn:E
  end.

(** [case_some t as x E] names the result of a closed computation [t] that
    evaluates to [Some _], with [E : t = Some x].  The [None] case is
    refuted on the boolean [is_Some] of [t] alone, so that the value itself
    (maps with their well-formedness proofs) is never normalised. *)
Tactic Notation "case_some" constr(t) "as" ident(x) ident(E) :=
  destruct t as [x|] eqn:E;
  [|apply (f_equal (fun o => match o with Some _ => true | None => false end)) in E;
    vm_compute in E; discriminate].

(** ** Generic list lemmas shared by the components *)

Lemma existsb_app {A} (f : A -> bool) (l1 l2 : list A) :
  existsb f (l1 ++ l2) = existsb f l1 || existsb f l2.
Proof. induction l1 as [|x l1 IH]; simpl; [done|]. rewrite IH. apply orb_assoc. Qed.

Lemma forallb_true_iff {A} (f : A -> bool) (l : list A) :
  forallb f l = true <-> Forall (fun x => f x = true) l.
Proof. rewrite forallb_forall, List.Forall_forall. done. Qed.

Lemma existsb_false_iff {A} (f : A -> bool) (l : list A) :
  existsb f l = false <-> Forall (fun x => f x = false) l.
Proof.
  induction l as [|x l IH]; simpl; [split; auto|].
  rewrite orb_false_iff, Forall_cons, IH. done.
Qed.

Lemma filter_length_le {A} (f : A -> bool) (l : list A) :
  length (List.filter f l) <= length l.
Proof. induction l as [|x l IH]; simpl; [lia|]. destruct (f x); simpl; lia. Qed.

#[export] Hint Resolve filter_length_le : pw.

Lemma find_none_intro {A} (f : A -> bool) (l : list A) :
  (forall x, In x l -> f x = false) -> List.find f l = None.
Proof.
  induction l as [|x l IH]; intros H; simpl; [done|].
  rewrite (H x) by (left; done). apply IH. intros y Hy. apply H. by right.
Qed.

Lemma in_drop {A} (l : list A) j x : In x (drop j l) -> In x l.
Proof.
  revert j. induction l as [|a l IH]; intros [|j] H; simpl in *; auto.
  right. eapply IH; eauto.
Qed.

Lemma in_drop_cons {A} (l r : list A) j x : drop j l = x :: r -> In x l.
Proof. intros E. apply (in_drop l j). rewrite E. by left. Qed.

#[export] Hint Resolve in_drop in_drop_cons : pw.

Lemma filter_nil_iff {A} (f : A -> bool) (l : list A) :
  List.filter f l = [] <-> Forall (fun x => f x = false) l.
Proof.
  induction l as [|x l IH]; simpl; [split; auto|].
  rewrite Forall_cons, <- IH. destruct (f x); split; try done; intuition congruence.
Qed.

Lemma fold_left_inv {A B} (P : A -> Prop) (f : A -> B -> A) (l : list B) (a : A) :
  P a -> (forall a x, In x l -> P a -> P (f a x)) -> P (fold_left f l a).
Proof.
  revert a. induction l as [|x l IH]; intros a Ha Hf; simpl; [done|].
  apply IH; [apply Hf; [by left|done]|]. intros a' y Hy. apply Hf. by right.
Qed.

(** A loop nested in a loop is one loop over the pairs. *)
Lemma fold_left_map_pair {A B C} (f : C -> A * B -> C) (a : A) (m : list B) acc :
  fold_left f (map (pair a) m) acc = fold_left (fun acc b => f acc (a, b)) m acc.
Proof. revert acc. induction m as [|b m IH]; intros acc; simpl; [done|]. apply IH. Qed.

Lemma fold_left_nested {A B C} (f : C -> A * B -> C) (l : list A) (m : list B) acc :
  fold_left (fun acc a => fold_left (fun acc b => f acc (a, b)) m acc) l acc =
  fold_left f (flat_map (fun a => map (pair a) m) l) acc.
Proof.
  revert acc. induction l as [|a l IH]; intros acc; simpl; [done|].
  by rewrite fold_left_app, fold_left_map_pair, IH.
Qed.
