(* ===== verification/PyStr.v ===== *)
(** * Python strings as lists of Unicode code points

    A Python [str] is a sequence of code points: here [text := list N].
    The Unicode database the program relies on ([str.lower],
    [str.isalpha], [str.isupper], [unicodedata.normalize("NFKD", _)],
    [unicodedata.combining], the decimal digits matched by [\d] and read by
    [int]) is the class [UnicodeDB]; its laws fix its behaviour on ASCII,
    which is all the theorems need.  [latin1_db] is an instance exact on the
    code points below 256, used to evaluate witnesses.  Whitespace
    ([str.isspace], the [\s] of [re]) is a fixed list of code points and is
    written out.  This file also holds the drivers for [re.sub] and
    [re.search] over hand-written matchers. *)

From S2P Require Import Prelude.

Abbreviation char := N (only parsing).
Abbreviation text := (list N) (only parsing).

(** ** Literals: UTF-8 decoding of Rocq string literals *)

Fixpoint utf8 (bs : list N) : text :=
  match bs with
  | [] => []
  | b :: r =>
      if (b <? 128)%N then b :: utf8 r else
      match r with
      | [] => []
      | b1 :: r1 =>
          if (b <? 224)%N then ((b - 192) * 64 + (b1 - 128))%N :: utf8 r1 else
          match r1 with
          | [] => []
          | b2 :: r2 =>
              if (b <? 240)%N
              then (((b - 224) * 64 + (b1 - 128)) * 64 + (b2 - 128))%N :: utf8 r2
              else match r2 with
                   | [] => []
                   | b3 :: r3 =>
                       ((((b - 240) * 64 + (b1 - 128)) * 64 + (b2 - 128)) * 64
                        + (b3 - 128))%N :: utf8 r3
                   end
          end
      end
  end.

(** [u "..."] is the Python string written by a (UTF-8) literal. *)
Definition u (s : string) : text :=
  utf8 (map Ascii.N_of_ascii (String.list_ascii_of_string s)).

(** ** Character classes *)

Definition in_range (lo hi c : N) : bool := (lo <=? c)%N && (c <=? hi)%N.

(** [str.isspace] on one code point, which is also the [\s] of [re] on
    [str] patterns. *)
Definition is_space (c : char) : bool :=
  in_range 9 13 c || in_range 28 32 c || (c =? 133)%N || (c =? 160)%N
  || (c =? 5760)%N || in_range 8192 8202 c || (c =? 8232)%N || (c =? 8233)%N
  || (c =? 8239)%N || (c =? 8287)%N || (c =? 12288)%N.

Definition is_ascii_upper (c : char) : bool := in_range 65 90 c.
Definition is_ascii_lower (c : char) : bool := in_range 97 122 c.
Definition is_ascii_letter (c : char) : bool := is_ascii_upper c || is_ascii_lower c.
Definition is_ascii_digit (c : char) : bool := in_range 48 57 c.

(** The class [[a-z0-9]] (no [re.I]). *)
Definition is_lower_alnum (c : char) : bool := is_ascii_lower c || is_ascii_digit c.

Definition ascii_lower (c : char) : char :=
  if is_ascii_upper c then (c + 32)%N else c.

Definition ascii_upper (c : char) : char :=
  if is_ascii_lower c then (c - 32)%N else c.

(** [[A-Za-z]] under [re.IGNORECASE]: the 52 ASCII letters and the four
    letters U+0130, U+0131, U+017F and U+212A (Python's [re] documentation). *)
Definition is_az_ci (c : char) : bool :=
  is_ascii_letter c || (c =? 304)%N || (c =? 305)%N || (c =? 383)%N || (c =? 8490)%N.

(** A literal letter [x] (lower case) under [re.IGNORECASE]: its two ASCII
    cases, the dotted and dotless capital and small i (U+0130, U+0131)
    for [i], the Kelvin sign for [k] and the long s for [s]. *)
Definition ci_eq (x c : char) : bool :=
  (ascii_lower c =? x)%N
  || ((x =? 105)%N && ((c =? 304)%N || (c =? 305)%N))
  || ((x =? 107)%N && (c =? 8490)%N) || ((x =? 115)%N && (c =? 383)%N).

(** ** The Unicode database *)

Class UnicodeDB := {
  u_lower : char -> text;
  u_upper : char -> text;
  u_isalpha : char -> bool;
  u_isupper : char -> bool;
  u_decimal : char -> option nat;
  (** [str.isdigit] per character: decimal digits and the other digits
      such as the superscripts. *)
  u_isdigit : char -> bool;
  (** [str.isnumeric] per character: the digits and the other numeric
      characters such as the vulgar fractions. *)
  u_isnumeric : char -> bool;
  u_nfkd : char -> text;
  u_combining : char -> bool;
  u_lower_ascii c : (c < 128)%N -> u_lower c = [ascii_lower c];
  u_upper_ascii c : (c < 128)%N -> u_upper c = [ascii_upper c];
  u_isalpha_ascii c : (c < 128)%N -> u_isalpha c = is_ascii_letter c;
  u_isupper_ascii c : (c < 128)%N -> u_isupper c = is_ascii_upper c;
  u_decimal_ascii c : (c < 128)%N ->
    u_decimal c = if is_ascii_digit c then Some (N.to_nat (c - 48)) else None;
  u_isdigit_ascii c : (c < 128)%N -> u_isdigit c = is_ascii_digit c;
  u_isnumeric_ascii c : (c < 128)%N -> u_isnumeric c = is_ascii_digit c;
  u_nfkd_ascii c : (c < 128)%N -> u_nfkd c = [c];
  u_combining_ascii c : (c < 128)%N -> u_combining c = false
}.

(** *** The Latin-1 instance *)

(** Canonical decompositions of the Latin-1 letters with a diacritic:
    (upper-case letter, base letter, combining mark); the lower-case letter
    is 32 above both. *)
Definition latin1_letters : list (N * N * N) :=
  [(192,65,768); (193,65,769); (194,65,770); (195,65,771); (196,65,776);
   (197,65,778); (199,67,807); (200,69,768); (201,69,769); (202,69,770);
   (203,69,776); (204,73,768); (205,73,769); (206,73,770); (207,73,776);
   (209,78,771); (210,79,768); (211,79,769); (212,79,770); (213,79,771);
   (214,79,776); (217,85,768); (218,85,769); (219,85,770); (220,85,776);
   (221,89,769)]%N.

(** Compatibility decompositions of the other Latin-1 symbols. *)
Definition latin1_compat : list (N * text) :=
  [(160,[32]); (168,[32;776]); (170,[97]); (175,[32;772]); (178,[50]);
   (179,[51]); (180,[32;769]); (181,[956]); (184,[32;807]); (185,[49]);
   (186,[111]); (188,[49;8260;52]); (189,[49;8260;50]); (190,[51;8260;52]);
   (255,[121;776])]%N.

Definition latin1_nfkd (c : char) : text :=
  match List.find (fun '(x, _, _) => (x =? c)%N || (x + 32 =? c)%N) latin1_letters with
  | Some (x, b, m) => if (x =? c)%N then [b; m] else [(b + 32)%N; m]
  | None =>
      match List.find (fun '(x, _) => (x =? c)%N) latin1_compat with
      | Some (_, d) => d
      | None => [c]
      end
  end.

Definition latin1_upper (c : char) : bool :=
  is_ascii_upper c || (in_range 192 222 c && negb (c =? 215)%N).

(** [str.upper] on Latin-1: the lower-case letters, [µ] to Greek [Μ],
    [ß] to [SS] and [ÿ] to [Ÿ]. *)
Definition latin1_toupper (c : char) : text :=
  if is_ascii_lower c || (in_range 224 254 c && negb (c =? 247)%N) then [(c - 32)%N]
  else if (c =? 181)%N then [924%N]
  else if (c =? 223)%N then [83; 83]%N
  else if (c =? 255)%N then [376%N]
  else [c].

Definition latin1_alpha (c : char) : bool :=
  is_ascii_letter c || (c =? 170)%N || (c =? 181)%N || (c =? 186)%N
  || (in_range 192 255 c && negb (c =? 215)%N && negb (c =? 247)%N).

#[export, program] Instance latin1_db : UnicodeDB := {
  u_lower c := if latin1_upper c then [(c + 32)%N] else [c];
  u_upper := latin1_toupper;
  u_isalpha := latin1_alpha;
  u_isupper := latin1_upper;
  u_decimal c := if is_ascii_digit c then Some (N.to_nat (c - 48)) else None;
  u_isdigit c := is_ascii_digit c || (c =? 178)%N || (c =? 179)%N || (c =? 185)%N;
  u_isnumeric c := is_ascii_digit c || (c =? 178)%N || (c =? 179)%N || (c =? 185)%N
                   || in_range 188 190 c;
  u_nfkd := latin1_nfkd;
  u_combining c := in_range 768 879 c && negb (c =? 847)%N
}.
Next Obligation.
  intros c Hc. unfold latin1_upper, ascii_lower, in_range.
  destruct (is_ascii_upper c); [done|].
  replace ((192 <=? c)%N) with false by (symmetry; apply N.leb_gt; lia). done.
Qed.
Next Obligation.
  intros c Hc. unfold latin1_toupper, ascii_upper, in_range.
  destruct (is_ascii_lower c); [done|].
  replace ((224 <=? c)%N) with false by (symmetry; apply N.leb_gt; lia).
  rewrite !(proj2 (N.eqb_neq _ _)) by lia. done.
Qed.
Next Obligation.
  intros c Hc. unfold latin1_alpha, in_range.
  replace ((192 <=? c)%N) with false by (symmetry; apply N.leb_gt; lia).
  rewrite !(proj2 (N.eqb_neq _ _)) by lia. by rewrite !orb_false_r.
Qed.
Next Obligation.
  intros c Hc. unfold latin1_upper, in_range.
  replace ((192 <=? c)%N) with false by (symmetry; apply N.leb_gt; lia).
  by rewrite orb_false_r.
Qed.
Next Obligation. done. Qed.
Next Obligation.
  intros c Hc. cbv beta. rewrite !(proj2 (N.eqb_neq _ _)) by lia. by rewrite !orb_false_r.
Qed.
Next Obligation.
  intros c Hc. cbv beta. unfold in_range.
  replace ((188 <=? c)%N) with false by (symmetry; apply N.leb_gt; lia).
  rewrite !(proj2 (N.eqb_neq _ _)) by lia. by rewrite !orb_false_r.
Qed.
Next Obligation.
  intros c Hc. unfold latin1_nfkd.
  assert (Hl : List.find (fun '(x, _, _) => (x =? c)%N || (x + 32 =? c)%N)
                 latin1_letters = None).
  { apply find_none_intro. intros [[x b] m] Hin. simpl in Hin.
    repeat (destruct Hin as [Hin|Hin]; [injection Hin as <- <- <-;
      rewrite !(proj2 (N.eqb_neq _ _)) by lia; done|]); done. }
  rewrite Hl.
  assert (Hc' : List.find (fun '(x, _) => (x =? c)%N) latin1_compat = None).
  { apply find_none_intro. intros [x d] Hin. simpl in Hin.
    repeat (destruct Hin as [Hin|Hin]; [injection Hin as <- <-;
      rewrite (proj2 (N.eqb_neq _ _)) by lia; done|]); done. }
  by rewrite Hc'.
Qed.
Next Obligation.
  intros c Hc. unfold in_range.
  by replace ((768 <=? c)%N) with false by (symmetry; apply N.leb_gt; lia).
Qed.

(** ** [str] methods *)

Section StrMethods.
Context `{UnicodeDB}.

(** [s.lower()], per code point. *)
Definition py_lower (s : text) : text := List.flat_map u_lower s.

(** [s.upper()], per code point. *)
Definition py_upper (s : text) : text := List.flat_map u_upper s.

(** [s.isdigit()]: non-empty, every character a digit. *)
Definition py_isdigit (s : text) : bool := negb (bool_decide (s = [])) && forallb u_isdigit s.

End StrMethods.

Fixpoint lstrip_ws (s : text) : text :=
  match s with
  | c :: s' => if is_space c then lstrip_ws s' else s
  | [] => []
  end.

Definition rstrip_ws (s : text) : text := rev (lstrip_ws (rev s)).

(** [s.strip()] with no argument. *)
Definition py_strip (s : text) : text := rstrip_ws (lstrip_ws s).

(** [s.split()] with no argument: maximal runs of non-space characters;
    [cur] is the current word, reversed. *)
Fixpoint split_ws_aux (cur : text) (s : text) : list text :=
  match s with
  | [] => match cur with [] => [] | _ => [rev cur] end
  | c :: s' =>
      if is_space c
      then match cur with
           | [] => split_ws_aux [] s'
           | _ => rev cur :: split_ws_aux [] s'
           end
      else split_ws_aux (c :: cur) s'
  end.

Definition py_split_ws (s : text) : list text := split_ws_aux [] s.

(** [sep.join(ws)]. *)
Fixpoint py_join (sep : text) (ws : list text) : text :=
  match ws with
  | [] => []
  | [w] => w
  | w :: ws' => w ++ sep ++ py_join sep ws'
  end.

(** [s.split(sep)] for a one-character [sep]: the pieces between the
    occurrences of [sep], left to right, empty pieces kept; [cur] is the
    current piece, reversed. *)
Fixpoint split_sep_aux (sep : char) (cur : text) (s : text) : list text :=
  match s with
  | [] => [rev cur]
  | c :: s' =>
      if (c =? sep)%N then rev cur :: split_sep_aux sep [] s'
      else split_sep_aux sep (c :: cur) s'
  end.

Definition py_split_sep (sep : char) (s : text) : list text := split_sep_aux sep [] s.

(** [(s.split(sep)[0] if s else "")]: [str.split] never returns an empty
    list, so the default is never used. *)
Definition first_piece (sep : char) (s : text) : text :=
  match s with [] => [] | _ => default [] (head (py_split_sep sep s)) end.

(** ** Python sets and dict literals

    A set literal is the list of its elements with a membership test; a
    dict literal is an association list in which, as in Python, the last
    binding of a key wins. *)

Definition set_of (xs : list string) : list text := map u xs.
Definition dict_of (xs : list (string * string)) : list (text * text) :=
  map (fun '(k, v) => (u k, u v)) xs.

(** [x in S] for a set [S]. *)
Definition mem (x : text) (xs : list text) : bool := bool_decide (x ∈ xs).

(** [k in d] and [d.get(k)] for a dict literal [d]. *)
Definition has_key {V} (k : text) (d : list (text * V)) : bool := bool_decide (k ∈ map fst d).
Definition dict_get {V} (k : text) (d : list (text * V)) : option V :=
  snd <$> List.find (fun '(k', _) => bool_decide (k' = k)) (rev d).

(** [s.add(x)] on a set kept as a list in insertion order. *)
Definition set_add (x : text) (s : list text) : list text := if mem x s then s else s ++ [x].

(** [d.keys()] of a dict literal: each key once, at its first position. *)
Fixpoint dedup_first (seen : list text) (ks : list text) : list text :=
  match ks with
  | [] => []
  | k :: ks' => if bool_decide (k ∈ seen) then dedup_first seen ks' else k :: dedup_first (k :: seen) ks'
  end.
Definition dict_keys {V} (d : list (text * V)) : list text := dedup_first [] (map fst d).

(** [a < b] on [str]: lexicographic on code points. *)
Fixpoint text_ltb (a b : text) : bool :=
  match a, b with
  | [], [] => false
  | [], _ :: _ => true
  | _ :: _, [] => false
  | x :: a', y :: b' => (x <? y)%N || ((x =? y)%N && text_ltb a' b')
  end.

Definition text_le (a b : text) : Prop := text_ltb b a = false.

#[export] Instance text_le_dec : RelDecision text_le.
Proof. intros a b. unfold text_le. apply _. Defined.

(** [sorted(xs)] on a list of [str]. *)
Definition py_sorted (xs : list text) : list text := merge_sort text_le xs.

(** Text made of ASCII characters only, as a proposition and as a test. *)
Definition ascii_text (s : text) : Prop := Forall (fun c => (c < 128)%N) s.
Definition ascii_textb (s : text) : bool := forallb (fun c => (c <? 128)%N) s.

(** [s.startswith(p)] and [p in s]. *)
Fixpoint py_startswith (p s : text) : bool :=
  match p, s with
  | [], _ => true
  | a :: p', b :: s' => (a =? b)%N && py_startswith p' s'
  | _ :: _, [] => false
  end.

Fixpoint py_contains (p s : text) : bool :=
  py_startswith p s || match s with [] => false | _ :: s' => py_contains p s' end.

(** [s.replace(a, b)] for one-character [a] and [b]. *)
Definition replace_char (a b : char) (s : text) : text :=
  map (fun c => if (c =? a)%N then b else c) s.

(** ** Regex drivers

    A matcher returns the length of the match of a fixed pattern at the
    start of a text, or [None].  The matchers of this development never
    match the empty text. *)

Definition matcher := text -> option nat.

(** [re.sub(pattern, repl, s)]: left to right, non-overlapping; [fuel]
    bounds the number of characters still to read. *)
Fixpoint re_sub_fuel (fuel : nat) (m : matcher) (repl s : text) : text :=
  match fuel with
  | O => s
  | S f =>
      match s with
      | [] => []
      | c :: s' =>
          match m s with
          | Some (S k) => repl ++ re_sub_fuel f m repl (drop (S k) s)
          | _ => c :: re_sub_fuel f m repl s'
          end
      end
  end.

Definition re_sub (m : matcher) (repl s : text) : text :=
  re_sub_fuel (length s) m repl s.

(** [re.split(pattern, s)]: the pieces between the matches, left to
    right, empty pieces kept; [cur] is the current piece, reversed. *)
Fixpoint re_split_fuel (fuel : nat) (m : matcher) (cur s : text) : list text :=
  match fuel with
  | O => [rev cur ++ s]
  | S f =>
      match s with
      | [] => [rev cur]
      | c :: s' =>
          match m s with
          | Some (S k) => rev cur :: re_split_fuel f m [] (drop (S k) s)
          | _ => re_split_fuel f m (c :: cur) s'
          end
      end
  end.

Definition re_split (m : matcher) (s : text) : list text := re_split_fuel (length s) m [] s.

(** [re.search]: the leftmost position at which a matcher succeeds, with
    what it returns there; the empty suffix is tried too. *)
Fixpoint re_search_from {A} (m : text -> option A) (pos : nat) (s : text)
  : option (nat * A) :=
  match m s with
  | Some a => Some (pos, a)
  | None => match s with [] => None | _ :: s' => re_search_from m (S pos) s' end
  end.

Definition re_search {A} (m : text -> option A) (s : text) : option (nat * A) :=
  re_search_from m 0 s.

(** ** Lemmas *)

(** Fuel: any fuel at least the length of the text gives the same result,
    so [re_sub] (fuel = length) is the total function [re.sub] computes. *)
Lemma re_sub_fuel_enough m r (s : text) f1 f2 :
  length s <= f1 -> length s <= f2 -> re_sub_fuel f1 m r s = re_sub_fuel f2 m r s.
Proof.
  revert s f2. induction f1 as [|f1 IH]; intros s f2 H1 H2.
  - destruct s; simpl in *; [destruct f2; done | lia].
  - destruct f2 as [|f2]; [destruct s; simpl in *; [done|lia]|].
    destruct s as [|c s']; simpl; [done|].
    destruct (m (c :: s')) as [[|k]|] eqn:E; simpl in *.
    + f_equal. apply IH; lia.
    + f_equal. apply IH; rewrite length_drop; simpl; lia.
    + f_equal. apply IH; lia.
Qed.

(** Where the pattern matches no suffix, [re.sub] leaves the text as is. *)
Lemma re_sub_fuel_nomatch m r (s : text) f :
  (forall k, m (drop k s) = None) -> re_sub_fuel f m r s = s.
Proof.
  revert s. induction f as [|f IH]; intros s Hm; [done|].
  destruct s as [|c s']; [done|]. simpl.
  pose proof (Hm 0) as H0. simpl in H0. rewrite H0.
  f_equal. apply IH. intros k. apply (Hm (S k)).
Qed.

Lemma re_sub_nomatch m r (s : text) :
  (forall k, m (drop k s) = None) -> re_sub m r s = s.
Proof. apply re_sub_fuel_nomatch. Qed.

(** *** Whitespace splitting and joining *)

Definition nonspace (w : text) : Prop := Forall (fun c => is_space c = false) w.

(** A list of words that [" ".join] and [str.split] agree on. *)
Definition words_ok (ws : list text) : Prop :=
  Forall (fun w => w <> [] /\ nonspace w) ws.

Lemma split_ws_aux_word cur w rest :
  nonspace w -> split_ws_aux cur (w ++ rest) = split_ws_aux (rev w ++ cur) rest.
Proof.
  revert cur. induction w as [|c w IH]; intros cur Hw; [done|].
  inversion Hw as [|? ? Hc Hw']; subst. simpl. rewrite Hc, IH by done.
  by rewrite <- app_assoc.
Qed.

Lemma py_split_ws_join ws :
  words_ok ws -> py_split_ws (py_join [32%N] ws) = ws.
Proof.
  unfold py_split_ws. induction ws as [|w ws IH]; intros Hws; [done|].
  inversion Hws as [|? ? [Hne Hw] Hws']; subst.
  destruct ws as [|w2 ws].
  - simpl. rewrite <- (app_nil_r w) at 1. rewrite split_ws_aux_word, app_nil_r by done.
    simpl. destruct (rev w) eqn:E; [apply (f_equal (@rev _)) in E; rewrite rev_involutive in E; done|].
    rewrite <- E, rev_involutive. done.
  - change (py_join [32%N] (w :: w2 :: ws)) with (w ++ [32%N] ++ py_join [32%N] (w2 :: ws)).
    rewrite split_ws_aux_word, app_nil_r by done. simpl.
    destruct (rev w) eqn:E; [apply (f_equal (@rev _)) in E; rewrite rev_involutive in E; done|].
    rewrite <- E, rev_involutive. f_equal. by apply IH.
Qed.

Lemma lstrip_ws_id (s : text) :
  (forall c, hd_error s = Some c -> is_space c = false) -> lstrip_ws s = s.
Proof. destruct s as [|c s]; intros H; [done|]. simpl. by rewrite (H c). Qed.

Lemma rstrip_ws_id (s : text) :
  (forall c, hd_error (rev s) = Some c -> is_space c = false) -> rstrip_ws s = s.
Proof. intros H. unfold rstrip_ws. rewrite lstrip_ws_id by done. apply rev_involutive. Qed.

Lemma hd_error_app_l {A} (l1 l2 : list A) : l1 <> [] -> hd_error (l1 ++ l2) = hd_error l1.
Proof. by destruct l1. Qed.

Lemma py_join_nonempty sep ws : words_ok ws -> ws <> [] -> py_join sep ws <> [].
Proof.
  intros Hws Hne. destruct ws as [|w [|w2 ws]]; [done| |];
    inversion Hws as [|? ? [Hw _] _]; subst; simpl; [done|].
  intros E. apply app_eq_nil in E as [-> _]. done.
Qed.

Lemma py_join_hd sep w ws : w <> [] -> hd_error (py_join sep (w :: ws)) = hd_error w.
Proof. intros Hw. destruct ws; simpl; [done|]. by apply hd_error_app_l. Qed.

Lemma py_join_last sep ws w :
  words_ok (ws ++ [w]) -> hd_error (rev (py_join sep (ws ++ [w]))) = hd_error (rev w).
Proof.
  induction ws as [|a ws IH]; intros Hws; [done|].
  simpl in Hws. inversion Hws as [|? ? _ Hws']; subst.
  change ((a :: ws) ++ [w]) with (a :: (ws ++ [w])).
  destruct (ws ++ [w]) as [|b l] eqn:E; [destruct ws; done|].
  change (py_join sep (a :: b :: l)) with (a ++ sep ++ py_join sep (b :: l)).
  rewrite !rev_app_distr, <- app_assoc, hd_error_app_l.
  - by apply IH.
  - intros Hr. apply (f_equal (@rev _)) in Hr. rewrite rev_involutive in Hr.
    by apply (py_join_nonempty sep (b :: l)).
Qed.

Lemma hd_error_in {A} (l : list A) x : hd_error l = Some x -> In x l.
Proof. destruct l; simpl; [done|]. intros [= ->]. by left. Qed.

(** The join of words with no spaces neither starts nor ends with a space,
    so [strip] leaves it unchanged. *)
Lemma py_strip_join ws :
  words_ok ws -> py_strip (py_join [32%N] ws) = py_join [32%N] ws.
Proof.
  intros Hws. unfold py_strip. destruct ws as [|w ws]; [done|].
  assert (Hall : forall v c, In v (w :: ws) -> In c v -> is_space c = false).
  { intros v c Hv Hc. unfold words_ok in Hws. rewrite List.Forall_forall in Hws.
    destruct (Hws v Hv) as [_ Hsp]. unfold nonspace in Hsp.
    rewrite List.Forall_forall in Hsp. by apply Hsp. }
  inversion Hws as [|? ? [Hne _] _]; subst.
  rewrite lstrip_ws_id.
  2:{ intros c Hc. rewrite py_join_hd in Hc by done.
      apply (Hall w); [by left | by apply hd_error_in]. }
  destruct (exists_last (l := w :: ws) ltac:(done)) as [init [wl Hl]].
  apply rstrip_ws_id. intros c Hc. rewrite Hl in Hc. rewrite Hl in Hws.
  rewrite py_join_last in Hc by done. apply hd_error_in, in_rev in Hc.
  apply (Hall wl); [rewrite Hl; apply in_app_iff; right; by left | done].
Qed.

Section LowerAscii.
Context `{UnicodeDB}.

Lemma py_lower_ascii (s : text) :
  Forall (fun c => (c < 128)%N) s -> py_lower s = map ascii_lower s.
Proof.
  induction s as [|c s IH]; intros Hs; [done|]. inversion Hs; subst.
  unfold py_lower in *. simpl. rewrite u_lower_ascii by done. simpl. f_equal. auto.
Qed.

Lemma py_upper_ascii (s : text) :
  Forall (fun c => (c < 128)%N) s -> py_upper s = map ascii_upper s.
Proof.
  induction s as [|c s IH]; intros Hs; [done|]. inversion Hs; subst.
  unfold py_upper in *. simpl. rewrite u_upper_ascii by done. simpl. f_equal. auto.
Qed.

End LowerAscii.

(** ** Splitting on one character *)

Lemma py_join_cons_cons sep w v ws :
  py_join sep (w :: v :: ws) = w ++ sep ++ py_join sep (v :: ws).
Proof. done. Qed.

Lemma split_sep_aux_nonnil sep cur s : split_sep_aux sep cur s <> [].
Proof.
  revert cur. induction s as [|c s IH]; intros cur; simpl; [done|].
  by destruct (c =? sep)%N.
Qed.

Lemma split_sep_aux_join sep cur s :
  py_join [sep] (split_sep_aux sep cur s) = rev cur ++ s.
Proof.
  revert cur. induction s as [|c s IH]; intros cur; simpl; [by rewrite app_nil_r|].
  destruct (c =? sep)%N eqn:E.
  - apply N.eqb_eq in E as ->. destruct s as [|c' s'].
    + simpl. done.
    + destruct (split_sep_aux sep [] (c' :: s')) as [|v vs] eqn:Es.
      { by apply split_sep_aux_nonnil in Es. }
      rewrite py_join_cons_cons, <- Es, IH. done.
  - rewrite IH. simpl. by rewrite <- app_assoc.
Qed.

(** [sep.join(s.split(sep)) == s]. *)
Lemma py_split_sep_join sep s : py_join [sep] (py_split_sep sep s) = s.
Proof. apply split_sep_aux_join. Qed.

Lemma split_sep_aux_app sep cur w rest :
  (sep ∉ w) -> split_sep_aux sep cur (w ++ rest) = split_sep_aux sep (rev w ++ cur) rest.
Proof.
  revert cur. induction w as [|c w IH]; intros cur Hw; [done|].
  apply not_elem_of_cons in Hw as [Hc Hw]. simpl.
  rewrite (proj2 (N.eqb_neq c sep)) by congruence. rewrite IH by done.
  by rewrite <- app_assoc.
Qed.

(** The first piece is the text before the first separator. *)
Lemma first_piece_app sep w rest :
  (sep ∉ w) -> first_piece sep (w ++ sep :: rest) = w.
Proof.
  intros Hw. unfold first_piece, py_split_sep. destruct (w ++ sep :: rest) eqn:E.
  { by destruct w. }
  rewrite <- E, split_sep_aux_app by done. simpl. rewrite N.eqb_refl. simpl.
  by rewrite app_nil_r, rev_involutive.
Qed.

Lemma first_piece_id sep w : (sep ∉ w) -> first_piece sep w = w.
Proof.
  intros Hw. unfold first_piece, py_split_sep. destruct w as [|c w']; [done|].
  rewrite <- (app_nil_r (c :: w')), split_sep_aux_app by done.
  cbn [split_sep_aux head default]. by rewrite !app_nil_r, rev_involutive.
Qed.

(** ** Pieces of matchers *)

(** The length of the longest prefix whose characters satisfy [p]
    (a greedy [x*] over a class). *)
Fixpoint span_len (p : char -> bool) (s : text) : nat :=
  match s with
  | c :: s' => if p c then S (span_len p s') else 0
  | [] => 0
  end.

(** The index of the first character satisfying [p] ([[^x]*x] stops there). *)
Fixpoint first_index (p : char -> bool) (s : text) : option nat :=
  match s with
  | [] => None
  | c :: s' => if p c then Some 0 else S <$> first_index p s'
  end.

(** A greedy run of a class, at least one character ([x+]). *)
Definition run_plus (p : char -> bool) : matcher :=
  fun s => match span_len p s with 0 => None | n => Some n end.

Lemma span_len_le p s : span_len p s <= length s.
Proof. induction s as [|c s IH]; simpl; [lia|]. destruct (p c); simpl; lia. Qed.

(** Every character [re.sub] emits from a run matcher and a replacement
    satisfies [q], when the replacement does and unmatched characters do. *)
Lemma re_sub_run_plus_chars p (repl s : text) (q : char -> Prop) :
  Forall q repl -> (forall c, p c = false -> q c) ->
  Forall q (re_sub (run_plus p) repl s).
Proof.
  intros Hr Hc. unfold re_sub. remember (length s) as f eqn:Hf.
  assert (Hle : length s <= f) by lia. clear Hf. revert s Hle.
  induction f as [|f IH]; intros s Hle.
  - destruct s; simpl in *; [constructor | lia].
  - destruct s as [|c s']; simpl; [constructor|].
    unfold run_plus at 1. simpl. destruct (p c) eqn:E.
    + apply Forall_app; split; [done|]. apply IH.
      rewrite length_drop. simpl in *. lia.
    + constructor; [by apply Hc|]. apply IH. simpl in Hle. lia.
Qed.

(** *** Words of [str.split] *)

Lemma split_ws_aux_words cur s :
  nonspace cur ->
  Forall (fun w => w <> [] /\ Forall (fun c => is_space c = false /\ (In c cur \/ In c s)) w)
    (split_ws_aux cur s).
Proof.
  revert cur. induction s as [|c s IH]; intros cur Hcur; simpl.
  - destruct cur as [|a cur]; constructor; [|constructor].
    split; [intros E; apply (f_equal (@length _)) in E; rewrite length_rev in E; done|].
    unfold nonspace in Hcur. rewrite List.Forall_forall in *. intros x Hx.
    apply in_rev in Hx. split; [by apply Hcur | by left].
  - assert (Hmono : forall cur' l, Forall (fun w => w <> [] /\
        Forall (fun x => is_space x = false /\ (In x cur' \/ In x s)) w) l ->
        (forall x, In x cur' -> In x cur \/ c = x) ->
        Forall (fun w => w <> [] /\
        Forall (fun x => is_space x = false /\ (In x cur \/ c = x \/ In x s)) w) l).
    { intros cur' l Hl Hsub. eapply Forall_impl; [exact Hl|]. intros w [Hw Hws].
      split; [done|]. eapply Forall_impl; [exact Hws|]. intros x [Hx Hin].
      split; [done|]. destruct Hin as [Hin|Hin]; [destruct (Hsub x Hin); auto | auto]. }
    destruct (is_space c) eqn:Ec.
    + destruct cur as [|a cur0].
      * eapply Hmono; [apply IH; constructor|intros ? []].
      * constructor.
        -- split; [intros E; apply (f_equal (@length _)) in E; rewrite length_rev in E; done|].
           unfold nonspace in Hcur. rewrite List.Forall_forall in *. intros x Hx.
           apply in_rev in Hx. split; [by apply Hcur | by left].
        -- eapply Hmono; [apply IH; constructor|intros ? []].
    + eapply Hmono; [apply IH; by constructor|]. intros x [->|Hx]; auto.
Qed.

Lemma py_split_ws_words s :
  Forall (fun w => w <> [] /\ Forall (fun c => is_space c = false /\ In c s) w)
    (py_split_ws s).
Proof.
  eapply Forall_impl; [apply (split_ws_aux_words []); constructor|].
  intros w [Hw Hc]. split; [done|]. eapply Forall_impl; [exact Hc|].
  intros x [Hx [[]|Hin]]. auto.
Qed.

(** *** Unfolding [re.sub] one position at a time *)

Lemma re_sub_cons m repl c (s : text) :
  re_sub m repl (c :: s) =
  match m (c :: s) with
  | Some (S k) => repl ++ re_sub m repl (drop (S k) (c :: s))
  | _ => c :: re_sub m repl s
  end.
Proof.
  unfold re_sub. simpl. destruct (m (c :: s)) as [[|k]|]; f_equal;
    apply re_sub_fuel_enough; rewrite ?length_drop; simpl; lia.
Qed.

(** A prefix at none of whose positions the pattern matches is copied. *)
Lemma re_sub_app_nomatch m repl (w r : text) :
  (forall j, j < length w -> m (drop j w ++ r) = None) ->
  re_sub m repl (w ++ r) = w ++ re_sub m repl r.
Proof.
  induction w as [|c w IH]; intros Hm; [done|].
  simpl. rewrite re_sub_cons. pose proof (Hm 0 ltac:(simpl; lia)) as H0.
  simpl in H0. rewrite H0. f_equal. apply IH. intros j Hj.
  apply (Hm (S j)). simpl. lia.
Qed.

(** The characters of a space: below 33 or from 133 on. *)
Lemma is_space_range c : is_space c = true -> (c <= 32 \/ 133 <= c)%N.
Proof. unfold is_space, in_range. intros Hc. bool_simpl. lia. Qed.

Lemma lower_alnum_not_space c : is_lower_alnum c = true -> is_space c = false.
Proof.
  intros Hc. destruct (is_space c) eqn:E; [|done].
  apply is_space_range in E. unfold is_lower_alnum, is_ascii_lower, is_ascii_digit,
    in_range in Hc. bool_simpl. lia.
Qed.

Lemma lower_alnum_ascii c : is_lower_alnum c = true -> (c < 128)%N.
Proof.
  unfold is_lower_alnum, is_ascii_lower, is_ascii_digit, in_range. intros Hc. bool_simpl. lia.
Qed.

Lemma lower_alnum_lower c : is_lower_alnum c = true -> ascii_lower c = c.
Proof.
  unfold is_lower_alnum, ascii_lower, is_ascii_upper, is_ascii_lower, is_ascii_digit,
    in_range. intros Hc. bool_simpl.
  destruct ((65 <=? c)%N && (c <=? 90)%N) eqn:E; [bool_simpl; lia|done].
Qed.

#[export] Hint Resolve lower_alnum_not_space lower_alnum_ascii lower_alnum_lower : pw.

(** *** Runs over concatenations *)

Lemma span_len_app p (w r : text) :
  Forall (fun c => p c = true) w -> span_len p (w ++ r) = length w + span_len p r.
Proof. induction w as [|c w IH]; intros Hw; [done|]. inversion Hw; subst. simpl. rewrite H1. f_equal. auto. Qed.

Lemma span_len_stop p c (r : text) : p c = false -> span_len p (c :: r) = 0.
Proof. simpl. by intros ->. Qed.

Lemma span_len_one p c d (r : text) :
  p c = true -> p d = false -> span_len p (c :: d :: r) = 1.
Proof. simpl. by intros -> ->. Qed.

Lemma ascii_digit_not_space c : is_ascii_digit c = true -> is_space c = false.
Proof. intros. apply lower_alnum_not_space. unfold is_lower_alnum. by rewrite H, orb_true_r. Qed.

Lemma az_ci_not_space c : is_az_ci c = true -> is_space c = false.
Proof.
  intros Hc. unfold is_az_ci in Hc. destruct (is_ascii_letter c) eqn:L.
  - destruct (is_space c) eqn:E; [|done]. apply is_space_range in E.
    unfold is_ascii_letter, is_ascii_upper, is_ascii_lower, in_range in L.
    bool_simpl. lia.
  - simpl in Hc. bool_simpl.
    repeat match goal with H : _ \/ _ |- _ => destruct H end; subst; reflexivity.
Qed.

Lemma ascii_digit_not_az_ci c : is_ascii_digit c = true -> is_az_ci c = false.
Proof.
  intros Hc. destruct (is_az_ci c) eqn:E; [|done]. exfalso.
  unfold is_az_ci, is_ascii_letter, is_ascii_upper, is_ascii_lower, is_ascii_digit,
    in_range in *. bool_simpl. lia.
Qed.

#[export] Hint Resolve ascii_digit_not_space az_ci_not_space ascii_digit_not_az_ci : pw.

Lemma re_search_here {A} (m : text -> option A) s a : m s = Some a -> re_search m s = Some (0, a).
Proof. unfold re_search. destruct s; simpl; by intros ->. Qed.

Lemma take_span_len p (s : text) : Forall (fun c => p c = true) (take (span_len p s) s).
Proof.
  induction s as [|c s IH]; simpl; [constructor|].
  destruct (p c) eqn:E; simpl; [constructor; done|constructor].
Qed.

Lemma take_span_len_nonempty p (s : text) : span_len p s <> 0 -> take (span_len p s) s <> [].
Proof. destruct s as [|c s]; simpl; [done|]. destruct (p c); simpl; done. Qed.

(** ** ASCII text is closed under the string operations *)

Lemma ascii_textb_spec s : ascii_textb s = true -> ascii_text s.
Proof.
  unfold ascii_textb, ascii_text. rewrite forallb_true_iff.
  intros Hs. eapply Forall_impl; [exact Hs|]. intros c Hc. by apply N.ltb_lt.
Qed.

Lemma ascii_lstrip s : ascii_text s -> ascii_text (lstrip_ws s).
Proof.
  induction s as [|c s IH]; intros Hs; simpl; [done|].
  inversion Hs; subst. destruct (is_space c); auto.
Qed.

Lemma ascii_strip s : ascii_text s -> ascii_text (py_strip s).
Proof.
  intros Hs. unfold py_strip, rstrip_ws, ascii_text in *.
  apply Forall_rev, ascii_lstrip, Forall_rev, ascii_lstrip, Hs.
Qed.

Lemma ascii_split_sep_aux sep cur s :
  ascii_text cur -> ascii_text s -> Forall ascii_text (split_sep_aux sep cur s).
Proof.
  revert cur. induction s as [|c s IH]; intros cur Hc Hs; simpl.
  - repeat constructor. by apply Forall_rev.
  - inversion Hs; subst. destruct (c =? sep)%N.
    + constructor; [by apply Forall_rev | apply IH; [constructor | done]].
    + apply IH; [by constructor | done].
Qed.

Lemma ascii_first_piece sep s : ascii_text s -> ascii_text (first_piece sep s).
Proof.
  intros Hs. unfold first_piece, py_split_sep. destruct s as [|c s]; [constructor|].
  pose proof (ascii_split_sep_aux sep [] _ (List.Forall_nil _) Hs) as H.
  destruct (split_sep_aux sep [] (c :: s)); simpl; [constructor|]. by inversion H.
Qed.

Lemma ascii_map_upper s : ascii_text s -> ascii_text (map ascii_upper s).
Proof.
  unfold ascii_text. rewrite Forall_map. intros Hs. eapply Forall_impl; [exact Hs|].
  intros c Hc. cbv beta in *. unfold ascii_upper. destruct (is_ascii_lower c); lia.
Qed.

Lemma ascii_map_lower s : ascii_text s -> ascii_text (map ascii_lower s).
Proof.
  unfold ascii_text. rewrite Forall_map. intros Hs. eapply Forall_impl; [exact Hs|].
  intros c Hc. cbv beta in *. unfold ascii_lower, is_ascii_upper, in_range. destruct (65 <=? c)%N eqn:E1, (c <=? 90)%N eqn:E2;
    simpl; bool_simpl; lia.
Qed.

#[export] Hint Resolve ascii_textb_spec ascii_strip ascii_first_piece ascii_map_upper
  ascii_map_lower : pw.

Section AsciiDB.
Context `{UnicodeDB}.

Lemma py_lower_ascii_text s : ascii_text s -> py_lower s = map ascii_lower s.
Proof. apply py_lower_ascii. Qed.

Lemma py_upper_ascii_text s : ascii_text s -> py_upper s = map ascii_upper s.
Proof. apply py_upper_ascii. Qed.

Lemma ascii_py_lower s : ascii_text s -> ascii_text (py_lower s).
Proof. intros Hs. rewrite py_lower_ascii_text by done. by apply ascii_map_lower. Qed.

Lemma ascii_py_upper s : ascii_text s -> ascii_text (py_upper s).
Proof. intros Hs. rewrite py_upper_ascii_text by done. by apply ascii_map_upper. Qed.

End AsciiDB.

#[export] Hint Resolve ascii_py_lower ascii_py_upper : pw.

(** ** The order of [str] *)

Lemma text_ltb_irrefl a : text_ltb a a = false.
Proof. induction a as [|x a IH]; simpl; [done|]. by rewrite N.ltb_irrefl, N.eqb_refl, IH. Qed.

Lemma text_ltb_trans a b c : text_ltb a b = true -> text_ltb b c = true -> text_ltb a c = true.
Proof.
  revert b c. induction a as [|x a IH]; intros [|y b] [|z c]; simpl; try done.
  rewrite !orb_true_iff, !andb_true_iff, !N.ltb_lt, !N.eqb_eq.
  intros [Hxy|[-> Hab]] [Hyz|[-> Hbc]]; [left; lia|left; done|left; done|right; eauto].
Qed.

Lemma text_ltb_total a b : text_ltb a b = true \/ a = b \/ text_ltb b a = true.
Proof.
  revert b. induction a as [|x a IH]; intros [|y b]; simpl; auto.
  rewrite !orb_true_iff, !andb_true_iff, !N.ltb_lt, !N.eqb_eq.
  destruct (N.lt_trichotomy x y) as [Hxy|[->|Hyx]]; [by left; left| |by right; right; left].
  destruct (IH b) as [Hab|[->|Hba]]; [left; right; done|right; left; done|right; right; right; done].
Qed.

Lemma text_ltb_asym a b : text_ltb a b = true -> text_ltb b a = false.
Proof.
  intros Hab. destruct (text_ltb b a) eqn:Hba; [|done].
  pose proof (text_ltb_trans _ _ _ Hab Hba) as Haa. by rewrite text_ltb_irrefl in Haa.
Qed.

#[export] Instance text_le_total : Total text_le.
Proof.
  intros a b. unfold text_le. destruct (text_ltb_total a b) as [Hab|[->|Hba]].
  - left. by apply text_ltb_asym.
  - left. apply text_ltb_irrefl.
  - right. by apply text_ltb_asym.
Qed.

#[export] Instance text_le_trans : Transitive text_le.
Proof.
  intros a b c. unfold text_le. intros Hba Hcb.
  destruct (text_ltb c a) eqn:Hca; [|done]. exfalso.
  destruct (text_ltb_total b c) as [Hbc|[->|Hcb']]; [|congruence|congruence].
  pose proof (text_ltb_trans _ _ _ Hbc Hca). congruence.
Qed.

#[export] Instance text_le_antisymm : AntiSymm (=) text_le.
Proof.
  intros a b. unfold text_le. intros Hba Hab.
  destruct (text_ltb_total a b) as [?|[?|?]]; congruence.
Qed.

(** [sorted] gives the same list for any two orderings of its input. *)
Lemma py_sorted_perm xs ys : xs ≡ₚ ys -> py_sorted xs = py_sorted ys.
Proof.
  intros Hp. unfold py_sorted.
  apply (Sorted_unique text_le); [apply Sorted_merge_sort; apply _..|].
  rewrite (merge_sort_Permutation text_le xs), (merge_sort_Permutation text_le ys). done.
Qed.

(** ** Sets built with [set.add] in a loop *)

Lemma elem_of_set_add x y s : x ∈ set_add y s <-> x ∈ s \/ x = y.
Proof.
  unfold set_add, mem. case_bool_decide as Hy.
  - split; [by left|]. intros [?| ->]; done.
  - rewrite elem_of_app, list_elem_of_singleton. done.
Qed.

Lemma NoDup_set_add y s : NoDup s -> NoDup (set_add y s).
Proof.
  unfold set_add, mem. case_bool_decide as Hy; [done|]. intros Hs.
  apply NoDup_app. split_and!; [done| |apply NoDup_singleton].
  intros x Hx ->%list_elem_of_singleton. done.
Qed.

Section SetFold.
Context {A : Type}.
Variable p : A -> bool.
Variable h : A -> text.

Lemma fold_set_add_spec l acc :
  NoDup acc ->
  NoDup (fold_left (fun acc t => if p t then set_add (h t) acc else acc) l acc) /\
  forall x, x ∈ fold_left (fun acc t => if p t then set_add (h t) acc else acc) l acc <->
            x ∈ acc \/ exists t, t ∈ l /\ p t = true /\ x = h t.
Proof.
  revert acc. induction l as [|t l IH]; intros acc Hacc; simpl.
  - split; [done|]. intros x. split; [by left|]. intros [?|(? & ?%elem_of_nil & _)]; done.
  - destruct (p t) eqn:Ep;
      [destruct (IH _ (NoDup_set_add (h t) acc Hacc)) as [Hnd Hx]
      |destruct (IH _ Hacc) as [Hnd Hx]]; split; try done; intros x; rewrite Hx.
    + rewrite elem_of_set_add. split.
      * intros [[?| ->]|(t' & ? & ? & ->)]; [by left|right; exists t; rewrite elem_of_cons; auto|].
        right. exists t'. rewrite elem_of_cons. auto.
      * intros [?|(t' & [->|?]%elem_of_cons & ? & ->)]; [by left; left|by left; right|].
        right. eauto.
    + split.
      * intros [?|(t' & ? & ? & ->)]; [by left|]. right. exists t'. rewrite elem_of_cons. auto.
      * intros [?|(t' & [->|?]%elem_of_cons & ? & ->)]; [by left|congruence|]. right. eauto.
Qed.

End SetFold.

(** ** Blank texts and substrings *)

Lemma lstrip_ws_hd s c r : lstrip_ws s = c :: r -> is_space c = false.
Proof.
  induction s as [|d s IH]; simpl; [done|].
  destruct (is_space d) eqn:E; [apply IH|]. by intros [= <- _].
Qed.

Lemma lstrip_ws_nil s : lstrip_ws s = [] <-> Forall (fun c => is_space c = true) s.
Proof.
  induction s as [|c s IH]; simpl; [split; auto|].
  destruct (is_space c) eqn:E.
  - rewrite IH. split; [by constructor|]. by inversion 1.
  - split; [done|]. inversion 1; congruence.
Qed.

(** [s.strip()] is empty exactly when [s] is made of white space. *)
Lemma py_strip_nil s : py_strip s = [] <-> Forall (fun c => is_space c = true) s.
Proof.
  rewrite <- lstrip_ws_nil. unfold py_strip, rstrip_ws. split; [|by intros ->].
  intros E. apply (f_equal (@rev _)) in E. rewrite rev_involutive in E.
  apply lstrip_ws_nil, Forall_rev in E. rewrite rev_involutive in E.
  destruct (lstrip_ws s) as [|c r] eqn:L; [done|].
  apply lstrip_ws_hd in L. inversion E; congruence.
Qed.

(** [s.split()] is empty only on white space. *)
Lemma split_ws_aux_nil cur s :
  split_ws_aux cur s = [] -> cur = [] /\ Forall (fun c => is_space c = true) s.
Proof.
  revert cur. induction s as [|c s IH]; intros cur; simpl.
  - by destruct cur.
  - destruct (is_space c) eqn:E.
    + destruct cur; [|done]. intros Hs. destruct (IH [] Hs). split; [done|by constructor].
    + intros Hs. by destruct (IH _ Hs).
Qed.

Lemma py_startswith_app p r : py_startswith p (p ++ r) = true.
Proof. induction p as [|c p IH]; simpl; [done|]. by rewrite N.eqb_refl, IH. Qed.

Lemma py_contains_prefix p s : py_startswith p s = true -> py_contains p s = true.
Proof. destruct s; simpl; intros ->; done. Qed.

(** [p in a + p + b] *)
Lemma py_contains_app p a b : py_contains p (a ++ p ++ b) = true.
Proof.
  induction a as [|c a IH]; simpl.
  - apply py_contains_prefix, py_startswith_app.
  - rewrite IH. apply orb_true_r.
Qed.

Lemma py_lower_app `{UnicodeDB} a b : py_lower (a ++ b) = py_lower a ++ py_lower b.
Proof. apply flat_map_app. Qed.

Lemma lstrip_ws_keeps c s : c ∈ s -> is_space c = false -> c ∈ lstrip_ws s.
Proof.
  induction s as [|d s IH]; simpl; [by intros ?%elem_of_nil|].
  intros [->|Hin]%elem_of_cons Hc; [rewrite Hc; by left|].
  destruct (is_space d); [by apply IH|by right].
Qed.

(** A text whose [strip()] is white space is white space. *)
Lemma py_strip_blank s :
  Forall (fun c => is_space c = true) (py_strip s) -> Forall (fun c => is_space c = true) s.
Proof.
  intros Hf. destruct (lstrip_ws s) as [|c r] eqn:L; [by apply lstrip_ws_nil|].
  exfalso. pose proof (lstrip_ws_hd _ _ _ L) as Hc.
  assert (Hin : c ∈ py_strip s).
  { unfold py_strip, rstrip_ws. rewrite L, list_elem_of_In, <- in_rev, <- list_elem_of_In.
    apply lstrip_ws_keeps; [|done]. rewrite list_elem_of_In, <- in_rev. by left. }
  rewrite Forall_forall in Hf. apply Hf in Hin. congruence.
Qed.

(** *** [strip] on padded and stripped texts *)

Lemma lstrip_ws_suffix s : exists pre, s = pre ++ lstrip_ws s.
Proof.
  induction s as [|c s [pre IH]]; simpl; [by exists []|].
  destruct (is_space c); [exists (c :: pre); by rewrite IH at 1|by exists []].
Qed.

Lemma Forall_lstrip_ws (P : char -> Prop) s : Forall P s -> Forall P (lstrip_ws s).
Proof. destruct (lstrip_ws_suffix s) as [pre E]. rewrite E at 1. by intros [_ ?]%Forall_app. Qed.

Lemma Forall_py_strip (P : char -> Prop) s : Forall P s -> Forall P (py_strip s).
Proof.
  intros Hs. unfold py_strip, rstrip_ws. apply Forall_rev, Forall_lstrip_ws, Forall_rev, Forall_lstrip_ws, Hs.
Qed.

Lemma lstrip_ws_snoc x c : is_space c = false -> exists y, lstrip_ws (x ++ [c]) = y ++ [c].
Proof.
  intros Hc. induction x as [|d x IH]; simpl; [rewrite Hc; by exists []|].
  destruct (is_space d); [done|]. by exists (d :: x).
Qed.

Lemma py_strip_id t :
  (forall c, hd_error t = Some c -> is_space c = false) ->
  (forall c, hd_error (rev t) = Some c -> is_space c = false) -> py_strip t = t.
Proof. intros H1 H2. unfold py_strip. rewrite lstrip_ws_id by done. by apply rstrip_ws_id. Qed.

(** The first and the last character of [s.strip()] are not spaces. *)
Lemma py_strip_hd s c : hd_error (py_strip s) = Some c -> is_space c = false.
Proof.
  unfold py_strip, rstrip_ws. destruct (lstrip_ws s) as [|d r] eqn:L; [done|].
  pose proof (lstrip_ws_hd _ _ _ L) as Hd. simpl.
  destruct (lstrip_ws_snoc (rev r) d Hd) as [y ->]. rewrite rev_app_distr. simpl. congruence.
Qed.

Lemma py_strip_last s c : hd_error (rev (py_strip s)) = Some c -> is_space c = false.
Proof.
  unfold py_strip, rstrip_ws. rewrite rev_involutive.
  destruct (lstrip_ws (rev _)) as [|d r] eqn:L; [done|]. simpl. intros [= <-].
  by apply (lstrip_ws_hd _ _ _ L).
Qed.

Lemma py_strip_idem s : py_strip (py_strip s) = py_strip s.
Proof. apply py_strip_id; [apply py_strip_hd|apply py_strip_last]. Qed.

Lemma lstrip_ws_spaces pre s : Forall (fun c => is_space c = true) pre -> lstrip_ws (pre ++ s) = lstrip_ws s.
Proof. induction 1 as [|c pre Hc _ IH]; simpl; [done|]. by rewrite Hc. Qed.

(** Spaces around a stripped text are what [strip] removes. *)
Lemma py_strip_pad pre t post :
  Forall (fun c => is_space c = true) pre -> Forall (fun c => is_space c = true) post ->
  py_strip t = t -> py_strip (pre ++ t ++ post) = t.
Proof.
  intros Hpre Hpost Ht. unfold py_strip, rstrip_ws. rewrite lstrip_ws_spaces by done.
  destruct t as [|c r].
  { simpl. by rewrite (proj2 (lstrip_ws_nil post) Hpost). }
  rewrite (lstrip_ws_id ((c :: r) ++ post)).
  - rewrite rev_app_distr, lstrip_ws_spaces by (by apply Forall_rev).
    rewrite <- Ht at 2. unfold py_strip, rstrip_ws. f_equal. f_equal.
    rewrite lstrip_ws_id; [done|]. intros d Hd. apply (py_strip_hd (c :: r)). by rewrite Ht.
  - intros d [= <-]. apply (py_strip_hd (c :: r)). by rewrite Ht.
Qed.

(** ** Substring positions *)

Lemma py_startswith_take p s : py_startswith p s = true <-> take (length p) s = p.
Proof.
  revert s. induction p as [|a p IH]; intros [|b s]; simpl; try done.
  rewrite andb_true_iff, N.eqb_eq, IH. split; [by intros [-> ->]|intros E; by injection E].
Qed.

(** [p in s]: [p] occurs at some position [k] of [s]. *)
Lemma py_contains_at p s :
  py_contains p s = true <-> exists k, (k + length p <= length s)%nat /\ take (length p) (drop k s) = p.
Proof.
  induction s as [|c s IH]; simpl; rewrite orb_true_iff, py_startswith_take.
  - split; [intros [E|E]; [|done]; exists 0%nat; rewrite take_nil in E; subst; simpl; split; [lia|done]|].
    intros [k [Hk E]]. left. destruct p; simpl in *; [done|lia].
  - rewrite IH. split.
    + intros [E|[k [Hk E]]]; [exists 0%nat|exists (S k)]; simpl; split; try done; try lia.
      rewrite <- E, length_take. simpl. lia.
    + intros [[|k] [Hk E]]; [by left|right; exists k; simpl in *; split; [lia|done]].
Qed.

Lemma take_drop_take n k m (b : text) :
  (k + n <= m)%nat -> take n (drop k (take m b)) = take n (drop k b).
Proof. intros H. rewrite skipn_firstn_comm, firstn_firstn. f_equal. lia. Qed.

(** [p in f(s[:m])], for a character map [f] such as [bytes.lower]: [p]
    occurs, under [f], in the first [m] characters of [s]. *)
Lemma py_contains_map_take (f : char -> char) p m (s : text) :
  py_contains p (map f (take m s)) = true <->
  exists k, (k + length p <= m)%nat /\ map f (take (length p) (drop k s)) = p.
Proof.
  rewrite py_contains_at, length_map. split.
  - intros [k [Hk E]]. exists k. rewrite length_take in Hk. split; [lia|].
    rewrite skipn_map, firstn_map, take_drop_take in E by lia. exact E.
  - intros [k [Hk E]]. destruct p as [|a p'] eqn:Hp; [exists O; simpl; split; [lia|done]|].
    assert (Hp0 : (0 < length p)%nat) by (subst p; simpl; lia). rewrite <- Hp in *. exists k.
    pose proof (f_equal length E) as Hl. rewrite length_map, length_take, length_drop in Hl.
    rewrite length_take. split.
    + apply Nat.min_glb; [lia|].
      destruct (Nat.min_spec (length p) (length s - k)) as [[? ?]|[? ?]]; lia.
    + rewrite skipn_map, firstn_map, take_drop_take by lia. exact E.
Qed.
