(* ===== verification/Regex.v ===== *)
(** * Regex: a backtracking matcher for the patterns of the extractor

    The field extractor of [src/Scripts/Production_Weekly_Extractor.py]
    uses [re.search] and [re.match] with patterns built from character
    classes, bounded and unbounded greedy or lazy repetitions,
    alternations, optional groups, capture groups, word boundaries and
    [$].  This file gives these constructs a continuation-passing
    semantics that tries the alternatives in the order of Python's
    backtracking engine.  A pattern receives the position (the character
    before it, for [\b], and the text after it) and the rest of the match
    as a continuation, and returns the first result the continuation
    accepts.  Greedy repetition tries the longest run first and lazy
    repetition the shortest; an alternation tries its left branch first;
    an optional group tries to match first.  [rx_search] is [re.search]:
    the leftmost start position.

    The engine has no recursion of its own: each combinator tries a finite
    list of choices, so every pattern terminates on every text.  The
    lemmas give the laws of the combinators the extractor's proofs use. *)

From S2P Require Import Prelude PyStr.

(** [\w] of [re] on [str] patterns: [str.isalnum()] or the underscore. *)
Definition py_word_char `{UnicodeDB} (c : char) : bool :=
  u_isalpha c || u_isnumeric c || (c =? 95)%N.

(** A position: the character before it and the text after it. *)
Definition rpos : Type := option char * text.

(** Advance over [i] characters. *)
Definition adv (p : rpos) (i : nat) : rpos :=
  match i with
  | 0 => p
  | S _ => (match last (take i p.2) with Some c => Some c | None => p.1 end, drop i p.2)
  end.

Section Rx.
Context {R : Type}.

Definition rx := rpos -> (rpos -> option R) -> option R.

(** The first choice whose continuation succeeds. *)
Fixpoint first_some {A} (f : A -> option R) (l : list A) : option R :=
  match l with
  | [] => None
  | x :: l' => match f x with Some r => Some r | None => first_some f l' end
  end.

Definition rx_eps : rx := fun p k => k p.

(** One character of a class. *)
Definition rx_class (q : char -> bool) : rx := fun p k =>
  match p.2 with c :: s' => if q c then k (Some c, s') else None | [] => None end.

(** A literal; [eq] compares a pattern character with a text character
    (exactly, or under [re.I]). *)
Fixpoint rx_lit_by (eq : char -> char -> bool) (t : text) : rx := fun p k =>
  match t, p.2 with
  | [], _ => k p
  | x :: t', c :: s' => if eq x c then rx_lit_by eq t' (Some c, s') k else None
  | _ :: _, [] => None
  end.

Definition rx_lit : text -> rx := rx_lit_by N.eqb.

(** A pattern character under [re.IGNORECASE]: ASCII letters through
    [ci_eq], anything else exactly. *)
Definition ci_char (x c : char) : bool :=
  if is_ascii_letter x then ci_eq (ascii_lower x) c else (x =? c)%N.
Definition rx_lit_ci : text -> rx := rx_lit_by ci_char.

(** The counts a repetition [q{lo,hi}] can take at [p]. *)
Definition rep_counts (q : char -> bool) (lo hi : nat) (p : rpos) : list nat :=
  let n := Nat.min hi (span_len q p.2) in seq lo (S n - lo).

(** [q{lo,hi}] greedy (longest run first) and lazy (shortest first). *)
Definition rx_rep (q : char -> bool) (lo hi : nat) : rx := fun p k =>
  first_some (fun i => k (adv p i)) (rev (rep_counts q lo hi p)).
Definition rx_rep_lazy (q : char -> bool) (lo hi : nat) : rx := fun p k =>
  first_some (fun i => k (adv p i)) (rep_counts q lo hi p).

(** [q*] and [q+], greedy and lazy: no bound but the length of the text. *)
Definition rx_star (q : char -> bool) : rx := fun p k => rx_rep q 0 (length p.2) p k.
Definition rx_plus (q : char -> bool) : rx := fun p k => rx_rep q 1 (length p.2) p k.
Definition rx_plus_lazy (q : char -> bool) : rx := fun p k => rx_rep_lazy q 1 (length p.2) p k.
Definition rx_star_lazy (q : char -> bool) : rx := fun p k => rx_rep_lazy q 0 (length p.2) p k.

Definition rx_seq (a b : rx) : rx := fun p k => a p (fun p' => b p' k).

Definition rx_alt (a b : rx) : rx := fun p k =>
  match a p k with Some r => Some r | None => b p k end.

Definition rx_fail : rx := fun _ _ => None.

(** [a1|a2|...|an], left to right. *)
Definition rx_alts (alts : list rx) : rx := fold_right rx_alt rx_fail alts.

(** The end of a pattern that builds its own result from its groups. *)
Definition rx_ret (r : R) : rx := fun _ _ => Some r.

(** [q{lo,}], greedy. *)
Definition rx_atleast (q : char -> bool) (lo : nat) : rx := fun p k => rx_rep q lo (length p.2) p k.

(** [(?:a)?], greedy. *)
Definition rx_opt (a : rx) : rx := rx_alt a rx_eps.

(** A capture group: [f] receives the text [a] consumed. *)
Definition rx_group (a : rx) (f : text -> rx) : rx := fun p k =>
  a p (fun p' => f (take (length p.2 - length p'.2) p.2) p' k).

(** The text between two positions of one match. *)
Definition rx_span (p0 p : rpos) : text := take (length p0.2 - length p.2) p0.2.

(** [$] without [re.M]: at the end, or before a final newline. *)
Definition rx_eol : rx := fun p k =>
  match p.2 with [] => k p | [c] => if (c =? 10)%N then k p else None | _ => None end.

End Rx.

Arguments rx : clear implicits.

Section Boundary.
Context `{UnicodeDB}.

Definition word_before (p : rpos) : bool := match p.1 with Some c => py_word_char c | None => false end.
Definition word_after (p : rpos) : bool := match p.2 with c :: _ => py_word_char c | [] => false end.

(** [\b]: a word character on exactly one side. *)
Definition rx_wb {R} : rx R := fun p k => if xorb (word_before p) (word_after p) then k p else None.

End Boundary.

(** [re.search]: the leftmost start at which the pattern matches, with the
    continuation [fin] building the result from the end position. *)
Fixpoint rx_search_from {R} (a : rx R) (fin : rpos -> option R) (prev : option char) (pos : nat)
    (s : text) : option (nat * R) :=
  match a (prev, s) fin with
  | Some r => Some (pos, r)
  | None => match s with [] => None | c :: s' => rx_search_from a fin (Some c) (S pos) s' end
  end.

Definition rx_search {R} (a : rx R) (fin : rpos -> option R) (s : text) : option (nat * R) :=
  rx_search_from a fin None 0 s.

(** [re.match]: at the start only. *)
Definition rx_match {R} (a : rx R) (fin : rpos -> option R) (s : text) : option R :=
  a (None, s) fin.

(** The span of [m.group(0)] of [re.search]: its start and length. *)
Definition rx_find (a : rx nat) (s : text) : option (nat * nat) :=
  match rx_search a (fun p => Some (length p.2)) s with
  | Some (i, rest) => Some (i, length s - i - rest)
  | None => None
  end.

(** [m.group(0)] of a match, else the empty text. *)
Definition rx_group0 (a : rx nat) (s : text) : text :=
  match rx_find a s with Some (i, n) => take n (drop i s) | None => [] end.

(** A pattern as a [matcher] for the [re.sub] and [re.split] drivers of
    [PyStr] (for patterns with no leading [\b]): the length of its match
    at the start of the text. *)
Definition rx_matcher (a : rx nat) : matcher := fun s => a (None, s) (fun p => Some (length s - length p.2)).

(** [re.finditer]: the non-overlapping matches, left to right; [len]
    gives the length of a match from its result, and the search resumes
    after it (one character further for an empty match).  [fuel] is one
    more than the length of the text. *)
Fixpoint rx_finditer_fuel {R} (fuel : nat) (a : rx R) (len : R -> nat) (prev : option char) (s : text)
    : list R :=
  match fuel with
  | 0 => []
  | S f =>
      match a (prev, s) (fun _ => None) with
      | Some r =>
          match len r with
          | 0 => r :: match s with [] => [] | c :: s' => rx_finditer_fuel f a len (Some c) s' end
          | n => r :: rx_finditer_fuel f a len (adv (prev, s) n).1 (drop n s)
          end
      | None => match s with [] => [] | c :: s' => rx_finditer_fuel f a len (Some c) s' end
      end
  end.

Definition rx_finditer {R} (a : rx R) (len : R -> nat) (s : text) : list R :=
  rx_finditer_fuel (S (length s)) a len None s.

(** [bool(re.search(...))]. *)
Definition rx_test (a : rx unit) (s : text) : bool :=
  match rx_search a (fun _ => Some tt) s with Some _ => true | None => false end.

(** [bool(pat.search(s))] for a pattern that starts with [^] (no [re.M]):
    only the start of the text can match. *)
Definition rx_test_start (a : rx unit) (s : text) : bool :=
  match rx_match a (fun _ => Some tt) s with Some _ => true | None => false end.
