(* ===== verification/KeyNorm.v ===== *)
(** * Key normaliser and field equivalence

    [_norm_text], [NA_TOKENS], [_equiv] and [_norm_key] of
    [src/Scripts/Production_Weekly_Extractor.py] (lines 447-500).
    [_norm_key] is written stage by stage, each stage a definition with the
    lines it translates: removal of the parenthetical AKA / W/T clauses
    ([strip_aka_clauses]), NFKD with the combining marks dropped
    ([fold_accents]), curly quotes and dashes to ASCII ([fold_quotes]),
    lower case and strip, runs outside [[a-z0-9]] to one space
    ([collapse_nonalnum]) and the final split/join.

    The theorems: the key is a canonical list of words over [[a-z0-9]]
    ([norm_key_canonical]), a canonical key is its own key, hence
    idempotence ([norm_key_idempotent]); [_equiv] is an equivalence relation
    under which every N/A token equals the blank. *)

From S2P Require Import Prelude PyStr.

Section KeyNorm.
Context `{UnicodeDB}.

(** ** [_norm_text] and [_equiv] *)

(** [NA_TOKENS = {'', 'n/a', 'na', 'none', '-', '—'}] *)
Definition NA_TOKENS : list text :=
  [[]; u "n/a"; u "na"; u "none"; u "-"; u "—"].

Definition is_na (s : text) : bool := bool_decide (s ∈ NA_TOKENS).

(** [re.sub(r'\s+', ' ', (s or '').strip().lower())] *)
Definition _norm_text (s : text) : text :=
  re_sub (run_plus is_space) [32%N] (py_lower (py_strip s)).

(** [_equiv a b]: blanks and NA placeholders are equivalent, otherwise the
    normalised texts must be equal. *)
Definition _equiv (a b : text) : bool :=
  let sa := _norm_text a in
  let sb := _norm_text b in
  (is_na sa && is_na sb) || bool_decide (sa = sb).

(** ** [_norm_key] *)

(** A literal under [re.I]: letters (given in lower case) compare with
    [ci_eq], other characters exactly. *)
Fixpoint lit_ci (p s : text) : bool :=
  match p, s with
  | [], _ => true
  | x :: p', c :: s' =>
      (if is_ascii_lower x then ci_eq x c else (x =? c)%N) && lit_ci p' s'
  | _ :: _, [] => false
  end.

(** The first two alternatives [aka|a\.k\.a\.], in this order. *)
Definition aka_label (s : text) : option nat :=
  if lit_ci (u "aka") s then Some 3
  else if lit_ci (u "a.k.a.") s then Some 6
  else None.

(** The third alternative [w[./-]?\s*t] under [re.I]. *)
Definition wt_label (s : text) : option nat :=
  match s with
  | w :: rest =>
      if ci_eq 119 w then
        let p := match rest with
                 | c :: _ => if (c =? 46)%N || (c =? 47)%N || (c =? 45)%N then 1 else 0
                 | [] => 0
                 end in
        let sp := span_len is_space (drop p rest) in
        match drop (p + sp) rest with
        | t :: _ => if ci_eq 116 t then Some (1 + p + sp + 1) else None
        | [] => None
        end
      else None
  | [] => None
  end.

Definition alias_label (s : text) : option nat :=
  match aka_label s with
  | Some n => Some n
  | None => wt_label s
  end.

(** The pattern [\s*\((?:aka|a\.k\.a\.|w[./-]?\s*t)\s*[:\-]?\s*[^)]*\)]:
    leading whitespace, an opening parenthesis, the label, then everything
    up to and including the first closing parenthesis (the classes
    [\s], [[:\-]] and [[^)]] after the label all stop only at [)]). *)
Definition aka_clause : matcher := fun s =>
  let sp := span_len is_space s in
  match drop sp s with
  | c :: rest =>
      if (c =? 40)%N then
        match alias_label rest with
        | Some n =>
            match first_index (fun x => (x =? 41)%N) (drop n rest) with
            | Some i => Some (sp + 1 + n + i + 1)
            | None => None
            end
        | None => None
        end
      else None
  | [] => None
  end.

(** [re.sub(<aka clause>, '', name, flags=re.I).strip()] *)
Definition strip_aka_clauses (s : text) : text :=
  py_strip (re_sub aka_clause [] s).

(** [unicodedata.normalize("NFKD", s)] followed by dropping the characters
    with [unicodedata.combining(c) != 0].  NFKD reorders only combining
    marks, which are dropped, so the per-character decomposition gives the
    same result. *)
Definition fold_accents (s : text) : text :=
  List.filter (fun c => negb (u_combining c)) (List.flat_map u_nfkd s).

(** The six [.replace] calls: ’ and ‘ to the apostrophe, “ and ” to the
    ASCII double quote, – and — to the hyphen. *)
Definition fold_quotes (s : text) : text :=
  replace_char 8212 45 (replace_char 8211 45 (replace_char 8221 34
    (replace_char 8220 34 (replace_char 8216 39 (replace_char 8217 39 s)))))%N.

(** [re.sub(r'[^a-z0-9]+', ' ', s)] *)
Definition collapse_nonalnum (s : text) : text :=
  re_sub (run_plus (fun c => negb (is_lower_alnum c))) [32%N] s.

Definition _norm_key (name : text) : text :=
  match name with
  | [] => []
  | _ =>
      let s := strip_aka_clauses name in
      let s := fold_accents s in
      let s := fold_quotes s in
      let s := py_strip (py_lower s) in
      let s := collapse_nonalnum s in
      py_join [32%N] (py_split_ws s)
  end.

(** ** Canonical keys *)

(** A word of a key: non-empty, over [[a-z0-9]]. *)
Definition key_word (w : text) : Prop :=
  w <> [] /\ Forall (fun c => is_lower_alnum c = true) w.

(** A canonical key: such words joined by single spaces. *)
Definition canonical_key (k : text) : Prop :=
  exists ws, k = py_join [32%N] ws /\ Forall key_word ws.

End KeyNorm.

Section KeyNormProps.
Context `{UnicodeDB}.

Lemma drop_lt_cons {A} (l : list A) j :
  j < length l -> exists x r, drop j l = x :: r /\ In x l.
Proof.
  revert j. induction l as [|a l IH]; intros j Hj; simpl in *; [lia|].
  destruct j as [|j]; [exists a, l; split; [done|by left]|].
  destruct (IH j ltac:(lia)) as (x & r & E & Hin). exists x, r. split; [done|by right].
Qed.

Lemma key_words_ok ws : Forall key_word ws -> words_ok ws.
Proof.
  intros Hws. eapply Forall_impl; [exact Hws|]. intros w [Hw Hc]. split; [done|].
  eapply Forall_impl; [exact Hc|]. intros c. auto with pw.
Qed.

Lemma join_chars (P : char -> Prop) ws :
  P 32%N -> Forall (fun w => Forall P w) ws -> Forall P (py_join [32%N] ws).
Proof.
  intros H32. induction ws as [|w [|w2 ws] IH]; intros Hws; simpl; [constructor| |].
  - by inversion Hws.
  - inversion Hws; subst. apply Forall_app; split; [done|]. constructor; [done|]. auto.
Qed.

Lemma canonical_key_chars k :
  canonical_key k -> Forall (fun c => is_lower_alnum c = true \/ c = 32%N) k.
Proof.
  intros (ws & -> & Hws). apply join_chars; [by right|].
  eapply Forall_impl; [exact Hws|]. intros w [_ Hw].
  eapply Forall_impl; [exact Hw|]. by left.
Qed.

Lemma canonical_key_ascii k : canonical_key k -> Forall (fun c => (c < 128)%N) k.
Proof.
  intros Hk. eapply Forall_impl; [by apply canonical_key_chars|].
  intros c [Hc| ->]; [auto with pw | lia].
Qed.

Lemma canonical_key_no_paren k : canonical_key k -> ~ In 40%N k.
Proof.
  intros Hk Hin. apply canonical_key_chars in Hk. rewrite List.Forall_forall in Hk.
  destruct (Hk _ Hin) as [Hc|Hc]; [|done]. vm_compute in Hc. discriminate.
Qed.

(** An alias clause starts, after white space, with an opening parenthesis. *)
Lemma aka_clause_paren s n : aka_clause s = Some n -> In 40%N s.
Proof.
  unfold aka_clause. destruct (drop (span_len is_space s) s) as [|c rest] eqn:E; [done|].
  destruct (c =? 40)%N eqn:Ec; [|done]. intros _. apply N.eqb_eq in Ec. subst c.
  by apply (in_drop_cons _ _ _ _ E).
Qed.

Lemma strip_aka_canonical k : canonical_key k -> strip_aka_clauses k = k.
Proof.
  intros Hk. unfold strip_aka_clauses. rewrite re_sub_nomatch.
  - destruct Hk as (ws & -> & Hws). by apply py_strip_join, key_words_ok.
  - intros j. destruct (aka_clause (drop j k)) eqn:E; [|done]. exfalso.
    apply aka_clause_paren in E. apply (canonical_key_no_paren k Hk).
    by apply (in_drop _ j).
Qed.

Lemma fold_accents_ascii (s : text) : Forall (fun c => (c < 128)%N) s -> fold_accents s = s.
Proof.
  unfold fold_accents. induction s as [|c s IH]; intros Hs; [done|]. inversion Hs; subst.
  simpl. rewrite u_nfkd_ascii by done. simpl. rewrite u_combining_ascii by done.
  simpl. f_equal. auto.
Qed.

Lemma replace_char_id a b (s : text) : Forall (fun c => c <> a) s -> replace_char a b s = s.
Proof.
  unfold replace_char. induction s as [|c s IH]; intros Hs; [done|]. inversion Hs; subst.
  simpl. rewrite (proj2 (N.eqb_neq c a)) by done. f_equal. auto.
Qed.

Lemma fold_quotes_ascii (s : text) : Forall (fun c => (c < 128)%N) s -> fold_quotes s = s.
Proof.
  intros Hs. unfold fold_quotes.
  assert (Hne : forall a, (128 <= a)%N -> Forall (fun c => c <> a) s).
  { intros a Ha. eapply Forall_impl; [exact Hs|]. intros c Hc. simpl in *. lia. }
  do 6 rewrite (replace_char_id _ _ s) by (apply Hne; lia). done.
Qed.

Lemma py_lower_canonical k : canonical_key k -> py_lower k = k.
Proof.
  intros Hk. rewrite py_lower_ascii by (by apply canonical_key_ascii).
  apply canonical_key_chars in Hk. induction k as [|c k IH]; [done|].
  inversion Hk as [|? ? Hc Hk']; subst. simpl. f_equal; [|auto].
  destruct Hc as [Hc| ->]; [auto with pw | done].
Qed.

Lemma run_nonalnum_alnum c (s : text) :
  is_lower_alnum c = true -> run_plus (fun x => negb (is_lower_alnum x)) (c :: s) = None.
Proof. intros Hc. unfold run_plus. simpl. by rewrite Hc. Qed.

(** A key word is copied by [collapse_nonalnum]. *)
Lemma collapse_word w r :
  Forall (fun c => is_lower_alnum c = true) w ->
  collapse_nonalnum (w ++ r) = w ++ collapse_nonalnum r.
Proof.
  intros Hw. apply re_sub_app_nomatch. intros j Hj.
  destruct (drop_lt_cons w j Hj) as (x & t & E & Hin). rewrite E. simpl.
  apply run_nonalnum_alnum. rewrite List.Forall_forall in Hw. auto.
Qed.

Lemma collapse_canonical ws :
  Forall key_word ws -> collapse_nonalnum (py_join [32%N] ws) = py_join [32%N] ws.
Proof.
  induction ws as [|w [|w2 ws] IH]; intros Hws; [done| |].
  - inversion Hws as [|? ? [_ Hw] _]; subst. simpl.
    rewrite <- (app_nil_r w) at 1. rewrite collapse_word by done. by rewrite app_nil_r.
  - inversion Hws as [|? ? [_ Hw] Hws']; subst.
    inversion Hws' as [|? ? [Hne2 Hw2] _]; subst.
    change (py_join [32%N] (w :: w2 :: ws)) with (w ++ [32%N] ++ py_join [32%N] (w2 :: ws)).
    rewrite collapse_word by done. f_equal.
    destruct (py_join [32%N] (w2 :: ws)) as [|d r] eqn:E.
    { exfalso. apply (py_join_nonempty [32%N] (w2 :: ws)); [by apply key_words_ok|done|done]. }
    assert (Hd : is_lower_alnum d = true).
    { destruct w2 as [|d' w2']; [done|]. pose proof (py_join_hd [32%N] (d' :: w2') ws) as Hh.
      rewrite E in Hh. simpl in Hh. injection (Hh ltac:(done)) as ->. by inversion Hw2. }
    unfold collapse_nonalnum. cbn [app]. rewrite re_sub_cons. unfold run_plus at 1. simpl.
    rewrite Hd. simpl. f_equal. by apply IH.
Qed.

(** [C37] Every matching key is canonical: words over [[a-z0-9]], non-empty,
    joined by single spaces (no leading, trailing or doubled space). *)
Theorem norm_key_canonical (x : text) : canonical_key (_norm_key x).
Proof.
  destruct x as [|c x]; [exists []; split; [done|constructor]|].
  unfold _norm_key. eexists; split; [reflexivity|].
  eapply Forall_impl; [apply py_split_ws_words|]. intros w [Hw Hc]. split; [done|].
  eapply Forall_impl; [exact Hc|]. intros y [Hy Hin].
  assert (Hq : Forall (fun c => c = 32%N \/ is_lower_alnum c = true)
                 (collapse_nonalnum (py_strip (py_lower (fold_quotes
                    (fold_accents (strip_aka_clauses (c :: x)))))))).
  { apply re_sub_run_plus_chars; [by repeat constructor; left|].
    intros z Hz. right. by destruct (is_lower_alnum z). }
  rewrite List.Forall_forall in Hq. destruct (Hq y Hin) as [->|]; [done|done].
Qed.

Lemma canonical_key_fixed k : canonical_key k -> _norm_key k = k.
Proof.
  intros Hk. destruct k as [|c k']; [done|].
  set (k := c :: k') in *. change (_norm_key k) with
    (py_join [32%N] (py_split_ws (collapse_nonalnum (py_strip (py_lower
      (fold_quotes (fold_accents (strip_aka_clauses k)))))))).
  pose proof (canonical_key_ascii k Hk) as Ha.
  rewrite strip_aka_canonical, fold_accents_ascii, fold_quotes_ascii,
    py_lower_canonical by done.
  destruct Hk as (ws & Ek & Hws). rewrite Ek.
  rewrite py_strip_join, collapse_canonical, py_split_ws_join by
    (try apply key_words_ok; done). done.
Qed.

(** [C8] Idempotence (spec, section 8): normalising a key twice gives the
    key normalised once, for every title and every Unicode database. *)
Theorem norm_key_idempotent (x : text) : _norm_key (_norm_key x) = _norm_key x.
Proof. apply canonical_key_fixed, norm_key_canonical. Qed.

(** *** [_equiv] *)

Lemma equiv_true_iff a b :
  _equiv a b = true <->
  (is_na (_norm_text a) = true /\ is_na (_norm_text b) = true) \/ _norm_text a = _norm_text b.
Proof.
  unfold _equiv. rewrite orb_true_iff, andb_true_iff, bool_decide_eq_true. done.
Qed.

Lemma equiv_refl a : _equiv a a = true.
Proof. apply equiv_true_iff. by right. Qed.

Lemma equiv_sym a b : _equiv a b = true -> _equiv b a = true.
Proof. rewrite !equiv_true_iff. intros [[??]|?]; [left|right]; done. Qed.

Lemma equiv_trans a b c : _equiv a b = true -> _equiv b c = true -> _equiv a c = true.
Proof.
  rewrite !equiv_true_iff. intros [[Ha Hb]|Hab] [[Hb' Hc]|Hbc].
  - by left.
  - left. split; [done|]. by rewrite <- Hbc.
  - left. split; [by rewrite Hab|done].
  - right. congruence.
Qed.

(** [_equiv] is an equivalence relation (reflexive, symmetric and
    transitive): blanks and N/A tokens form one class, other values compare
    by their normalised text. *)
Theorem equiv_equivalence : Equivalence (fun a b => _equiv a b = true).
Proof. split; [exact equiv_refl | exact equiv_sym | exact equiv_trans]. Qed.

(** Two texts whose normal forms are N/A tokens are equivalent. *)
Lemma equiv_na a b :
  is_na (_norm_text a) = true -> is_na (_norm_text b) = true -> _equiv a b = true.
Proof. intros Ha Hb. apply equiv_true_iff. by left. Qed.

Lemma norm_text_nil : _norm_text [] = [].
Proof. done. Qed.

Lemma norm_text_ascii_word (s : text) :
  Forall (fun c => (c < 128)%N /\ is_space c = false) s ->
  _norm_text s = map ascii_lower s.
Proof.
  intros Hs. unfold _norm_text.
  assert (Hst : py_strip s = s).
  { destruct s as [|c s']; [done|]. unfold py_strip. rewrite lstrip_ws_id.
    - apply rstrip_ws_id. intros x Hx. apply hd_error_in, in_rev in Hx.
      rewrite List.Forall_forall in Hs. by apply Hs.
    - intros x Hx. simpl in Hx. injection Hx as <-. by inversion Hs as [|? ? [_ ?] _]. }
  rewrite Hst, py_lower_ascii by (eapply Forall_impl; [exact Hs|]; by intros ? []).
  apply re_sub_nomatch. intros j.
  assert (Hl : Forall (fun c => is_space c = false) (map ascii_lower s)).
  { apply List.Forall_map. eapply Forall_impl; [exact Hs|]. intros c [Hc Hsp].
    unfold ascii_lower. destruct (is_ascii_upper c) eqn:E; [|done].
    destruct (is_space (c + 32)%N) eqn:E2; [|done]. apply is_space_range in E2.
    unfold is_ascii_upper, in_range in E. bool_simpl. lia. }
  destruct (drop j (map ascii_lower s)) as [|c r] eqn:E; [done|].
  unfold run_plus. simpl. assert (In c (map ascii_lower s)) by (eapply in_drop_cons; eauto).
  rewrite List.Forall_forall in Hl. by rewrite Hl.
Qed.

(** The placeholder N/A and the blank are equivalent, whatever the case. *)
Lemma equiv_NA_blank : _equiv (u "N/A") [] = true.
Proof.
  apply equiv_na; [|done]. rewrite norm_text_ascii_word; [done|].
  repeat constructor.
Qed.

End KeyNormProps.
