(* ===== verification/Dates.v ===== *)
(** * Dates and shooting-date spans

    Python's [datetime.date] as a record of three integers: [mk_date] is
    the constructor, [None] standing for its [ValueError]; dates compare
    as [(year, month, day)] tuples, and the difference of two dates is the
    difference of their ordinals ([toordinal] of CPython's pure-Python
    [datetime]).  On top of it, from [src/Scripts/Production_Weekly_Extractor.py]:
    the table [MONTHS] (lines 1222-1223), the matcher of [RE_DATE_RANGE]
    (lines 1677-1681), [_parse_date_range] (lines 1735-1765),
    [_inclusive_days] (1767-1769), [_active_today] (1771-1773),
    [_start_date_from_shooting_dates] (2004-2031),
    [_approx_start_date_from_start_month] (2033-2058) and
    [_parse_span_flexible] (46-72) with its [_MONTHS] table (42-44). *)

From S2P Require Import Prelude PyStr.

(** ** [datetime.date] *)

Record date := mkdate { year : Z; month : Z; day : Z }.

#[export] Instance date_eq_dec : EqDecision date.
Proof. intros [y1 m1 d1] [y2 m2 d2]. unfold Decision. decide equality; apply Z.eq_dec. Defined.

(** [_is_leap] *)
Definition is_leap (y : Z) : bool :=
  Z.eqb (y mod 4) 0 && (negb (Z.eqb (y mod 100) 0) || Z.eqb (y mod 400) 0).

(** [_DAYS_IN_MONTH] and [_DAYS_BEFORE_MONTH], indexed by the month. *)
Definition _DAYS_IN_MONTH : list Z := [-1; 31; 28; 31; 30; 31; 30; 31; 31; 30; 31; 30; 31]%Z.
Definition _DAYS_BEFORE_MONTH : list Z :=
  [-1; 0; 31; 59; 90; 120; 151; 181; 212; 243; 273; 304; 334]%Z.

(** [_days_in_month] *)
Definition days_in_month (y m : Z) : Z :=
  if Z.eqb m 2 && is_leap y then 29%Z else nth (Z.to_nat m) _DAYS_IN_MONTH 0%Z.

Definition valid_ymd (y m d : Z) : bool :=
  (1 <=? y)%Z && (y <=? 9999)%Z && (1 <=? m)%Z && (m <=? 12)%Z
  && (1 <=? d)%Z && (d <=? days_in_month y m)%Z.

(** [date(y, m, d)]: [None] is the [ValueError] of an out-of-range field. *)
Definition mk_date (y m d : Z) : option date :=
  if valid_ymd y m d then Some (mkdate y m d) else None.

(** [a < b] on dates: the tuples [(year, month, day)] in lexicographic order. *)
Definition date_ltb (a b : date) : bool :=
  (year a <? year b)%Z
  || ((year a =? year b)%Z && ((month a <? month b)%Z
      || ((month a =? month b)%Z && (day a <? day b)%Z))).

Definition date_leb (a b : date) : bool := date_ltb a b || bool_decide (a = b).

(** [_days_before_year] ([//] is [Z.div] for a positive divisor) and
    [toordinal] ([_ymd2ord]). *)
Definition days_before_year (y : Z) : Z :=
  let y' := (y - 1)%Z in (y' * 365 + y' / 4 - y' / 100 + y' / 400)%Z.

(** [_days_before_month] *)
Definition days_before_month (y m : Z) : Z :=
  (nth (Z.to_nat m) _DAYS_BEFORE_MONTH 0 + (if (2 <? m)%Z && is_leap y then 1 else 0))%Z.

Definition toordinal (d : date) : Z :=
  (days_before_year (year d) + days_before_month (year d) (month d) + day d)%Z.

(** [(b - a).days] *)
Definition days_between (a b : date) : Z := (toordinal b - toordinal a)%Z.

(** ** Decimal text *)

(** [str(n)] for a natural number, in ASCII digits. *)
Fixpoint show_fuel (fuel : nat) (n : N) : text :=
  match fuel with
  | O => []
  | S f => if (n <? 10)%N then [(48 + n)%N] else show_fuel f (n / 10) ++ [(48 + n mod 10)%N]
  end.

Definition show_dec (z : Z) : text := show_fuel (S (N.size_nat (Z.to_N z))) (Z.to_N z).

Section Spans.
Context `{UnicodeDB}.

(** [\d]: the code points with a decimal value. *)
Definition is_digit (c : char) : bool := match u_decimal c with Some _ => true | None => false end.

(** [int(s)] for a text of [\d] digits. *)
Definition digits_value (ds : text) : Z :=
  fold_left (fun acc c => (acc * 10 + Z.of_nat (default 0%nat (u_decimal c)))%Z) ds 0%Z.

(** [MONTHS = {m.lower(): i for i, m in enumerate([...], 1)}] and the
    lookup [MONTHS[tok.lower()]], whose [KeyError] is [None]. *)
Definition MONTHS : list (text * Z) :=
  [(u "january", 1); (u "february", 2); (u "march", 3); (u "april", 4);
   (u "may", 5); (u "june", 6); (u "july", 7); (u "august", 8);
   (u "september", 9); (u "october", 10); (u "november", 11); (u "december", 12)]%Z.

Definition month_lookup (tok : text) : option Z :=
  snd <$> List.find (fun '(k, _) => bool_decide (k = py_lower tok)) MONTHS.

(** ** The matcher of [RE_DATE_RANGE]

    [([A-Za-z]+)\s+(\d{1,2})(?:,\s*(\d{4}))?\s*[-–]\s*([A-Za-z]+)\s+(\d{1,2}),\s*(\d{4})]
    under [re.I].  Every quantifier is greedy and is followed by a class
    its own class excludes, so backtracking cannot change the result: a
    letter run is maximal, a [\d{1,2}] group is a whole digit run of one or
    two digits, and the optional group is taken iff a comma follows the
    first day. *)

Record dr_groups := {
  g_m1 : text; g_d1 : text; g_y1 : option text;
  g_m2 : text; g_d2 : text; g_y2 : text
}.

(** [\d{1,2}] followed by a non-digit: the run, if it has one or two digits. *)
Definition day_digits (s : text) : option nat :=
  let n := span_len is_digit s in if (1 <=? n) && (n <=? 2) then Some n else None.

Definition is_dash (c : char) : bool := (c =? 45)%N || (c =? 8211)%N.

(** The part after the first day: [(?:,\s*(\d{4}))?\s*[-–]\s*([A-Za-z]+)\s+(\d{1,2}),\s*(\d{4})].
    Returns the optional first year, the second month, day and year, and
    the length read. *)
Definition dr_tail (s : text) : option (option text * text * text * text * nat) :=
  (* the optional group *)
  let '(y1, k0) :=
    match s with
    | c :: r =>
        if (c =? 44)%N then
          let sp := span_len is_space r in
          let ys := take 4 (drop sp r) in
          if (length ys =? 4) && forallb is_digit ys then (Some ys, 1 + sp + 4) else (None, 0)
        else (None, 0)
    | [] => (None, 0)
    end in
  let s1 := drop k0 s in
  (* a comma that did not start the group makes both branches fail *)
  match s1 with
  | c :: _ => if (c =? 44)%N then None else
    let sp1 := span_len is_space s1 in
    match drop sp1 s1 with
    | d :: r =>
        if is_dash d then
          let sp2 := span_len is_space r in
          let r2 := drop sp2 r in
          let lm := span_len is_az_ci r2 in
          if (lm =? 0) then None else
          let m2 := take lm r2 in
          let r3 := drop lm r2 in
          let sp3 := span_len is_space r3 in
          if (sp3 =? 0) then None else
          let r4 := drop sp3 r3 in
          match day_digits r4 with
          | None => None
          | Some nd =>
              let d2 := take nd r4 in
              match drop nd r4 with
              | cm :: r5 =>
                  if (cm =? 44)%N then
                    let sp4 := span_len is_space r5 in
                    let y2 := take 4 (drop sp4 r5) in
                    if (length y2 =? 4) && forallb is_digit y2
                    then Some (y1, m2, d2, y2,
                               k0 + sp1 + 1 + sp2 + lm + sp3 + nd + 1 + sp4 + 4)
                    else None
                  else None
              | [] => None
              end
          end
        else None
    | [] => None
    end
  | [] => None
  end.

Definition date_range_at (s : text) : option (dr_groups * nat) :=
  let lm := span_len is_az_ci s in
  if (lm =? 0) then None else
  let r1 := drop lm s in
  let sp := span_len is_space r1 in
  if (sp =? 0) then None else
  let r2 := drop sp r1 in
  match day_digits r2 with
  | None => None
  | Some nd =>
      match dr_tail (drop nd r2) with
      | Some (y1, m2, d2, y2, k) =>
          Some ({| g_m1 := take lm s; g_d1 := take nd r2; g_y1 := y1;
                   g_m2 := m2; g_d2 := d2; g_y2 := y2 |}, lm + sp + nd + k)
      | None => None
      end
  end.

(** ** [_parse_date_range] *)

(** [f"{m1} {d1} – {m2} {d2}, {ed.year}"] *)
Definition span_text (m1 : text) (d1 : Z) (m2 : text) (d2 : Z) (y : Z) : text :=
  m1 ++ [32%N] ++ show_dec d1 ++ [32; 8211; 32]%N ++ m2 ++ [32%N] ++ show_dec d2
  ++ [44; 32]%N ++ show_dec y.

(** The body of the [try] block on the groups of the match; [matched] is
    [m.group(0)], returned when the block raises. *)
Definition parse_groups (g : dr_groups) (matched : text) : text * option date * option date :=
  let d1 := digits_value (g_d1 g) in
  let d2 := digits_value (g_d2 g) in
  let y2 := digits_value (g_y2 g) in
  let start_year := match g_y1 g with Some y1 => digits_value y1 | None => y2 end in
  let fail := (matched, None, None) in
  match month_lookup (g_m1 g), month_lookup (g_m2 g) with
  | Some mo1, Some mo2 =>
      match mk_date start_year mo1 d1, mk_date y2 mo2 d2 with
      | Some sd, Some ed =>
          let sd' := if date_ltb ed sd then mk_date (y2 - 1) mo1 d1 else Some sd in
          match sd' with
          | Some sd' => (span_text (g_m1 g) d1 (g_m2 g) d2 (year ed), Some sd', Some ed)
          | None => fail
          end
      | _, _ => fail
      end
  | _, _ => fail
  end.

Definition _parse_date_range (block_text : text) : text * option date * option date :=
  match re_search date_range_at block_text with
  | None => ([], None, None)
  | Some (pos, (g, len)) => parse_groups g (take len (drop pos block_text))
  end.

(** [_inclusive_days]: [str((ed - sd).days + 1)], blank when a bound is
    unknown. *)
Definition _inclusive_days (sd ed : option date) : text :=
  match sd, ed with
  | Some a, Some b =>
      let n := (days_between a b + 1)%Z in
      if (n <? 0)%Z then 45%N :: show_dec (- n) else show_dec n
  | _, _ => []
  end.

(** [_active_today], with [date.today()] as an argument. *)
Definition _active_today (today : date) (sd ed : option date) : text :=
  match sd, ed with
  | Some a, Some b => if date_leb a today && date_leb today b then u "Yes" else u "No"
  | _, _ => []
  end.

(** ** Start dates for push-back detection *)

(** [_start_date_from_shooting_dates]: the six groups of the match,
    [y = y1 or y2] and [date(int(y), MONTHS[m1.lower()], int(d1))]. *)
Definition _start_date_from_shooting_dates (s : text) : option date :=
  match re_search date_range_at s with
  | None => None
  | Some (_, (g, _)) =>
      let y := match g_y1 g with Some y1 => y1 | None => g_y2 g end in
      match month_lookup (g_m1 g) with
      | Some mo => mk_date (digits_value y) mo (digits_value (g_d1 g))
      | None => None
      end
  end.

(** The month names of [_approx_start_date_from_start_month]'s pattern,
    matched case-sensitively. *)
Definition MONTH_NAMES : list (text * Z) :=
  [(u "January", 1); (u "February", 2); (u "March", 3); (u "April", 4);
   (u "May", 5); (u "June", 6); (u "July", 7); (u "August", 8);
   (u "September", 9); (u "October", 10); (u "November", 11); (u "December", 12)]%Z.

(** [\b] after the year: the next character is not a word character,
    [\w] being [str.isalnum()] (alphabetic or numeric, so the
    superscript digits count) or the underscore. *)
Definition word_char (c : char) : bool := u_isalpha c || u_isnumeric c || (c =? 95)%N.

(** [re.match(r"^(January|...|December)\s+(\d{4})\b", s.strip())] and
    [date(int(year), MONTHS[name.lower()], 1)]; the alternation takes the
    first name that is a prefix. *)
Definition _approx_start_date_from_start_month (s : text) : option date :=
  let t := py_strip s in
  match List.find (fun '(n, _) => py_startswith n t) MONTH_NAMES with
  | None => None
  | Some (n, mo) =>
      let r := drop (length n) t in
      let sp := span_len is_space r in
      let ys := take 4 (drop sp r) in
      let after := drop 4 (drop sp r) in
      if (sp =? 0) || negb (length ys =? 4) || negb (forallb is_digit ys) then None
      else match after with
           | c :: _ => if word_char c then None else mk_date (digits_value ys) mo 1
           | [] => mk_date (digits_value ys) mo 1
           end
  end.

(** ** [_parse_span_flexible] *)

(** [_MONTHS = {m.lower(): i for i, m in enumerate(["", "January", ...])}],
    in insertion order, the empty name first. *)
Definition _MONTHS : list (text * Z) := ([], 0%Z) :: MONTHS.

(** [mnum(tok)]: the first name of [_MONTHS] that starts with the first
    three letters of [tok.lower()]; [None] when there is none. *)
Definition mnum (tok : text) : option Z :=
  let t := take 3 (py_lower tok) in
  snd <$> List.find (fun '(full, _) => py_startswith t full) _MONTHS.

(** The pattern [([A-Za-z]+)\s+(\d{1,2})\s*-\s*([A-Za-z]+)\s+(\d{1,2})\s+(\d{4})]
    (no [re.I]: ASCII letters only), returning its five groups. *)
Definition flex_at (s : text) : option (text * text * text * text * text) :=
  let lm := span_len is_ascii_letter s in
  if lm =? 0 then None else
  let r1 := drop lm s in
  let sp := span_len is_space r1 in
  if sp =? 0 then None else
  let r2 := drop sp r1 in
  match day_digits r2 with
  | None => None
  | Some nd =>
      let r3 := drop nd r2 in
      match drop (span_len is_space r3) r3 with
      | d :: r4 =>
          if (d =? 45)%N then
            let r5 := drop (span_len is_space r4) r4 in
            let lm2 := span_len is_ascii_letter r5 in
            if lm2 =? 0 then None else
            let r6 := drop lm2 r5 in
            let sp2 := span_len is_space r6 in
            if sp2 =? 0 then None else
            let r7 := drop sp2 r6 in
            match day_digits r7 with
            | None => None
            | Some nd2 =>
                let r8 := drop nd2 r7 in
                let sp3 := span_len is_space r8 in
                let ys := take 4 (drop sp3 r8) in
                if (sp3 =? 0) || negb (length ys =? 4) || negb (forallb is_digit ys) then None
                else Some (take lm s, take nd r2, take lm2 r5, take nd2 r7, ys)
            end
          else None
      | [] => None
      end
  end.

(** [_parse_span_flexible].  When the end date is before the start date
    the code evaluates [dt.date(year - 1, a, d1)] with [year] unbound: the
    [NameError] is caught by [except Exception] and the result is [None]. *)
Definition _parse_span_flexible (s : text) : option (date * date) :=
  match s with
  | [] => None
  | _ =>
      let t := py_strip s in
      let t := List.filter (fun c => negb (c =? 44)%N)
                 (replace_char 8211 45 (replace_char 8212 45 t)) in
      match re_search flex_at t with
      | None => None
      | Some (_, (m1, d1, m2, d2, y)) =>
          match mnum m1, mnum m2 with
          | Some a, Some b =>
              match mk_date (digits_value y) b (digits_value d2),
                    mk_date (digits_value y) a (digits_value d1) with
              | Some en, Some st => if date_ltb en st then None else Some (st, en)
              | _, _ => None
              end
          | _, _ => None
          end
      end
  end.

(** [span[0].strftime("%B")]: the English name of the month. *)
Definition month_name (mo : Z) : text :=
  default [] (fst <$> List.find (fun '(_, k) => (k =? mo)%Z) MONTH_NAMES).

(** [_start_month_from_span] *)
Definition _start_month_from_span (s : text) : text :=
  match _parse_span_flexible s with
  | Some (st, _) => month_name (month st)
  | None => py_strip s
  end.

End Spans.

(** ** Texts of the span form

    The text [m1 d1 <dash> m2 d2, y]: with the hyphen it is the spec's
    form "Month D - Month D, YYYY"; with the en dash it is the display
    text [span_text] the code writes. *)

Definition dr_input (m1 d1 : text) (dash : char) (m2 d2 y : text) : text :=
  m1 ++ 32%N :: d1 ++ 32%N :: dash :: 32%N :: m2 ++ 32%N :: d2 ++ 44%N :: 32%N :: y.

Definition month_tok (m : text) : Prop := m <> [] /\ Forall (fun c => is_az_ci c = true) m.
Definition day_tok (d : text) : Prop :=
  1 <= length d <= 2 /\ Forall (fun c => is_ascii_digit c = true) d.
Definition year_tok (y : text) : Prop :=
  length y = 4 /\ Forall (fun c => is_ascii_digit c = true) y.

Definition month_tokb (m : text) : bool := negb (bool_decide (m = [])) && forallb is_az_ci m.
Definition day_tokb (d : text) : bool :=
  (1 <=? length d) && (length d <=? 2) && forallb is_ascii_digit d.
Definition year_tokb (y : text) : bool := (length y =? 4) && forallb is_ascii_digit y.

(** The components of a text of the span form, as a test. *)
Definition span_formb (m1 d1 : text) (dash : char) (m2 d2 y : text) : bool :=
  month_tokb m1 && day_tokb d1 && is_dash dash && month_tokb m2 && day_tokb d2 && year_tokb y.

(** A valid date, as a test. *)
Definition date_ok (d : date) : bool := valid_ymd (year d) (month d) (day d).

(** ** Calendar facts *)

Section Calendar.

(** [zcase] splits the integer comparisons of the goal and hypotheses. *)
Ltac zcase :=
  repeat match goal with
  | |- context [Z.ltb ?a ?b] => destruct (Z.ltb_spec a b)
  | |- context [Z.leb ?a ?b] => destruct (Z.leb_spec a b)
  | |- context [Z.eqb ?a ?b] => destruct (Z.eqb_spec a b)
  | H : context [Z.ltb ?a ?b] |- _ => destruct (Z.ltb_spec a b)
  | H : context [Z.leb ?a ?b] |- _ => destruct (Z.leb_spec a b)
  | H : context [Z.eqb ?a ?b] |- _ => destruct (Z.eqb_spec a b)
  end; simpl in *.

Lemma mk_date_some y m d x :
  mk_date y m d = Some x -> x = mkdate y m d /\ valid_ymd y m d = true.
Proof. unfold mk_date. destruct (valid_ymd y m d); [by intros [= <-] | done]. Qed.

Lemma mk_date_valid y m d : valid_ymd y m d = true -> mk_date y m d = Some (mkdate y m d).
Proof. unfold mk_date. by intros ->. Qed.

Lemma valid_ymd_spec y m d :
  valid_ymd y m d = true <->
  (1 <= y <= 9999 /\ 1 <= m <= 12 /\ 1 <= d <= days_in_month y m)%Z.
Proof. unfold valid_ymd. zcase; split; intros; (lia || done). Qed.

Lemma date_ltb_spec a b :
  date_ltb a b = true <->
  (year a < year b \/ (year a = year b /\ (month a < month b
     \/ (month a = month b /\ day a < day b))))%Z.
Proof. unfold date_ltb. zcase; split; intros; (lia || done). Qed.

(** The order is total: a date not after another is before or equal. *)
Lemma date_leb_not_ltb a b : date_ltb b a = false -> date_leb a b = true.
Proof.
  destruct a as [y1 m1 d1], b as [y2 m2 d2]. unfold date_leb, date_ltb. simpl.
  intros Hn. destruct (bool_decide _) eqn:E; [by rewrite orb_true_r|].
  apply bool_decide_eq_false in E. rewrite orb_false_r. revert Hn. zcase; try done;
    intros _; try lia; exfalso; apply E; f_equal; lia.
Qed.

Lemma date_ltb_leb a b : date_ltb a b = true -> date_leb a b = true.
Proof. unfold date_leb. by intros ->. Qed.

Lemma month_cases (m : Z) :
  (1 <= m <= 12)%Z -> m = 1%Z \/ m = 2%Z \/ m = 3%Z \/ m = 4%Z \/ m = 5%Z \/ m = 6%Z
  \/ m = 7%Z \/ m = 8%Z \/ m = 9%Z \/ m = 10%Z \/ m = 11%Z \/ m = 12%Z.
Proof. lia. Qed.

Ltac month_split m :=
  let H := fresh in
  assert (H : (1 <= m <= 12)%Z) by lia;
  apply month_cases in H; repeat destruct H as [->|H]; [..|subst m].

(** The days of the months before [m'] include month [m] whole. *)
Lemma days_before_month_mono y m m' :
  (1 <= m /\ m < m' /\ m' <= 12)%Z ->
  (days_before_month y m + days_in_month y m <= days_before_month y m')%Z.
Proof.
  intros Hm. unfold days_before_month, days_in_month.
  destruct (is_leap y); month_split m; month_split m'; simpl; lia.
Qed.

Lemma days_before_month_year_end y m :
  (1 <= m <= 12)%Z ->
  (days_before_month y m + days_in_month y m <= 365 + (if is_leap y then 1 else 0))%Z.
Proof.
  intros Hm. unfold days_before_month, days_in_month.
  destruct (is_leap y); month_split m; simpl; lia.
Qed.

Lemma days_before_month_nonneg y m :
  (1 <= m <= 12)%Z -> (0 <= days_before_month y m)%Z.
Proof. intros Hm. unfold days_before_month. destruct (is_leap y); month_split m; simpl; lia. Qed.

Lemma valid_day_le31 y m d : valid_ymd y m d = true -> (1 <= d <= 31)%Z.
Proof.
  rewrite valid_ymd_spec. intros (Hy & Hm & Hd). unfold days_in_month in Hd.
  destruct (_ && _); [lia|]. month_split m; simpl in Hd; lia.
Qed.

Lemma days_before_year_succ y :
  days_before_year (y + 1) = (days_before_year y + 365 + (if is_leap y then 1 else 0))%Z.
Proof.
  unfold days_before_year, is_leap. replace (y + 1 - 1)%Z with y by lia.
  zcase; Z.div_mod_to_equations; lia.
Qed.

Lemma days_before_year_mono y y' :
  (y <= y')%Z -> (days_before_year y <= days_before_year y')%Z.
Proof. unfold days_before_year. intros. Z.div_mod_to_equations. lia. Qed.

(** Ordinals are strictly monotone on valid dates. *)
Lemma toordinal_lt a b :
  valid_ymd (year a) (month a) (day a) = true ->
  valid_ymd (year b) (month b) (day b) = true ->
  date_ltb a b = true -> (toordinal a < toordinal b)%Z.
Proof.
  destruct a as [y m d], b as [y' m' d']. unfold toordinal. simpl.
  rewrite !valid_ymd_spec, date_ltb_spec. simpl. intros Ha Hb [Hy|[-> [Hm|[-> Hd]]]].
  - pose proof (days_before_month_year_end y m ltac:(lia)).
    pose proof (days_before_year_succ y).
    pose proof (days_before_year_mono (y + 1) y' ltac:(lia)).
    pose proof (days_before_month_nonneg y' m' ltac:(lia)).
    destruct (is_leap y); lia.
  - pose proof (days_before_month_mono y' m m' ltac:(lia)). lia.
  - lia.
Qed.

Lemma days_between_nonneg a b :
  valid_ymd (year a) (month a) (day a) = true ->
  valid_ymd (year b) (month b) (day b) = true ->
  date_leb a b = true -> (0 <= days_between a b)%Z.
Proof.
  intros Ha Hb. unfold date_leb, days_between. rewrite orb_true_iff, bool_decide_eq_true.
  intros [Hlt| ->]; [pose proof (toordinal_lt a b Ha Hb Hlt)|]; lia.
Qed.

(** The same day one year later is at most 366 days later. *)
Lemma toordinal_next_year y m d :
  (1 <= m <= 12)%Z ->
  (toordinal (mkdate (y + 1) m d) - toordinal (mkdate y m d) <= 366)%Z.
Proof.
  intros Hm. unfold toordinal, days_before_month. simpl.
  rewrite days_before_year_succ. destruct (is_leap y), (is_leap (y + 1)), (2 <? m)%Z; simpl; lia.
Qed.

End Calendar.

(** ** Decimal text facts *)

Section Decimal.

Lemma pow10_succ f : (10 ^ N.of_nat (S f) = 10 * 10 ^ N.of_nat f)%N.
Proof. rewrite Nat2N.inj_succ, N.pow_succ_r'. done. Qed.

Lemma show_fuel_stable f1 f2 n :
  (n < 10 ^ N.of_nat (S f1))%N -> (n < 10 ^ N.of_nat (S f2))%N ->
  show_fuel (S f1) n = show_fuel (S f2) n.
Proof.
  revert f2 n. induction f1 as [|f1 IH]; intros f2 n H1 H2.
  - simpl in H1. simpl. destruct (N.ltb_spec n 10); [done|lia].
  - change (show_fuel (S (S f1)) n) with
      (if (n <? 10)%N then [(48 + n)%N] else show_fuel (S f1) (n / 10) ++ [(48 + n mod 10)%N]).
    destruct (N.ltb_spec n 10) as [Hlt|Hge].
    + destruct f2; simpl; by destruct (N.ltb_spec n 10); [|lia].
    + destruct f2 as [|f2]; [simpl in H2; lia|].
      change (show_fuel (S (S f2)) n) with
        (if (n <? 10)%N then [(48 + n)%N] else show_fuel (S f2) (n / 10) ++ [(48 + n mod 10)%N]).
      destruct (N.ltb_spec n 10); [lia|]. f_equal.
      rewrite pow10_succ in H1, H2. apply IH; apply N.Div0.div_lt_upper_bound; lia.
Qed.

Lemma size_nat_bound n : (n < 2 ^ N.of_nat (N.size_nat n))%N.
Proof.
  destruct n as [|p]; [simpl; lia|]. simpl.
  induction p as [p IH|p IH|]; simpl; [| |lia];
    rewrite Nat2N.inj_succ, N.pow_succ_r'; lia.
Qed.

Lemma pow2_le_pow10 k : (2 ^ N.of_nat k <= 10 ^ N.of_nat k)%N.
Proof. apply N.pow_le_mono_l. lia. Qed.

Lemma show_dec_fuel (z : Z) f :
  (Z.to_N z < 10 ^ N.of_nat (S f))%N -> show_dec z = show_fuel (S f) (Z.to_N z).
Proof.
  intros Hf. unfold show_dec. apply show_fuel_stable; [|done].
  pose proof (size_nat_bound (Z.to_N z)). pose proof (pow2_le_pow10 (N.size_nat (Z.to_N z))).
  rewrite pow10_succ. lia.
Qed.

Lemma show_fuel_ascii f n : Forall (fun c => is_ascii_digit c = true) (show_fuel f n).
Proof.
  revert n. induction f as [|f IH]; intros n; cbn [show_fuel]; [constructor|].
  unfold is_ascii_digit, in_range.
  destruct (n <? 10)%N eqn:E.
  - constructor; [|constructor]. apply N.ltb_lt in E.
    apply andb_true_iff; split; apply N.leb_le; lia.
  - apply Forall_app. split; [apply IH|]. constructor; [|constructor].
    pose proof (N.mod_lt n 10 ltac:(lia)).
    revert H. generalize (n mod 10)%N. intros k Hk. apply andb_true_iff; split; apply N.leb_le; lia.
Qed.

Lemma show_dec_ascii z : Forall (fun c => is_ascii_digit c = true) (show_dec z).
Proof. apply show_fuel_ascii. Qed.

(** A number of [S f] digits is printed with [S f] characters. *)
Lemma length_show_fuel f n :
  (10 ^ N.of_nat f <= n < 10 ^ N.of_nat (S f))%N -> length (show_fuel (S f) n) = S f.
Proof.
  revert n. induction f as [|f IH]; intros n Hn.
  - simpl in *. destruct (N.ltb_spec n 10); [done|lia].
  - change (show_fuel (S (S f)) n) with
      (if (n <? 10)%N then [(48 + n)%N] else show_fuel (S f) (n / 10) ++ [(48 + n mod 10)%N]).
    rewrite !pow10_succ in Hn. destruct (N.ltb_spec n 10).
    { pose proof (N.pow_nonzero 10 (N.of_nat f)). lia. }
    rewrite length_app, IH; [simpl; lia|]. rewrite pow10_succ. split.
    + apply N.div_le_lower_bound; lia.
    + apply N.Div0.div_lt_upper_bound; lia.
Qed.

Lemma length_show_dec_year (y : Z) : (1000 <= y <= 9999)%Z -> length (show_dec y) = 4.
Proof.
  intros Hy. rewrite (show_dec_fuel y 3) by (simpl; lia).
  apply length_show_fuel. simpl. lia.
Qed.

Lemma length_show_dec_day (d : Z) : (1 <= d <= 99)%Z -> 1 <= length (show_dec d) <= 2.
Proof.
  intros Hd. rewrite (show_dec_fuel d 1) by (simpl; lia).
  destruct (Z.ltb_spec d 10).
  - change (show_fuel 2 (Z.to_N d)) with
      (if (Z.to_N d <? 10)%N then [(48 + Z.to_N d)%N]
       else show_fuel 1 (Z.to_N d / 10) ++ [(48 + Z.to_N d mod 10)%N]).
    destruct (N.ltb_spec (Z.to_N d) 10); simpl; [lia|]. exfalso; lia.
  - rewrite length_show_fuel; [lia|]. simpl. lia.
Qed.

End Decimal.

(** ** Span facts *)

Section SpanFacts.
Context `{UnicodeDB}.

Lemma is_digit_ascii c : (c < 128)%N -> is_digit c = is_ascii_digit c.
Proof. intros Hc. unfold is_digit. rewrite u_decimal_ascii by done. by destruct (is_ascii_digit c). Qed.

Lemma ascii_digit_lt c : is_ascii_digit c = true -> (c < 128)%N.
Proof. unfold is_ascii_digit, in_range. intros Hc. bool_simpl. lia. Qed.

Lemma is_digit_of_ascii c : is_ascii_digit c = true -> is_digit c = true.
Proof. intros Hc. rewrite is_digit_ascii; [done|]. by apply ascii_digit_lt. Qed.

Lemma is_digit_small c : (c < 48)%N -> is_digit c = false.
Proof.
  intros Hc. rewrite is_digit_ascii by lia. unfold is_ascii_digit, in_range.
  destruct (N.leb_spec 48 c); [lia|done].
Qed.

Lemma ascii_digits_digit (w : text) :
  Forall (fun c => is_ascii_digit c = true) w -> Forall (fun c => is_digit c = true) w.
Proof. intros Hw. eapply Forall_impl; [exact Hw|]. intros c. apply is_digit_of_ascii. Qed.

Lemma digits_value_snoc (l : text) c :
  digits_value (l ++ [c]) = (digits_value l * 10 + Z.of_nat (default 0%nat (u_decimal c)))%Z.
Proof. unfold digits_value. by rewrite fold_left_app. Qed.

Lemma show_fuel_value f n :
  (n < 10 ^ N.of_nat f)%N -> digits_value (show_fuel f n) = Z.of_N n.
Proof.
  revert n. induction f as [|f IH]; intros n Hn.
  - simpl in Hn. replace n with 0%N by lia. done.
  - change (show_fuel (S f) n) with
      (if (n <? 10)%N then [(48 + n)%N] else show_fuel f (n / 10) ++ [(48 + n mod 10)%N]).
    rewrite pow10_succ in Hn.
    destruct (N.ltb_spec n 10).
    + unfold digits_value. simpl. rewrite u_decimal_ascii by lia.
      unfold is_ascii_digit, in_range. destruct (N.leb_spec 48 (48 + n)); [|lia].
      destruct (N.leb_spec (48 + n) 57); [|lia]. simpl. lia.
    + rewrite digits_value_snoc, IH by (apply N.Div0.div_lt_upper_bound; lia).
      pose proof (N.mod_lt n 10 ltac:(lia)) as Hm.
      pose proof (N.div_mod n 10 ltac:(lia)) as Hdm.
      revert Hm Hdm. generalize (n / 10)%N (n mod 10)%N. intros q r Hr Hdm.
      rewrite u_decimal_ascii by lia.
      unfold is_ascii_digit, in_range. destruct (N.leb_spec 48 (48 + r)); [|lia].
      destruct (N.leb_spec (48 + r) 57); [|lia]. simpl. lia.
Qed.

Lemma show_dec_value (z : Z) : (0 <= z)%Z -> digits_value (show_dec z) = z.
Proof.
  intros Hz. unfold show_dec. rewrite show_fuel_value; [lia|].
  pose proof (size_nat_bound (Z.to_N z)). pose proof (pow2_le_pow10 (N.size_nat (Z.to_N z))).
  rewrite pow10_succ. lia.
Qed.

(** The matcher of [RE_DATE_RANGE] reads a text of the span form and returns
    its groups, with no first year. *)
Lemma date_range_at_input m1 d1 dash m2 d2 y rest :
  month_tok m1 -> day_tok d1 -> is_dash dash = true -> month_tok m2 -> day_tok d2 -> year_tok y ->
  date_range_at (dr_input m1 d1 dash m2 d2 (y ++ rest)) =
    Some ({| g_m1 := m1; g_d1 := d1; g_y1 := None; g_m2 := m2; g_d2 := d2; g_y2 := y |},
          length (dr_input m1 d1 dash m2 d2 y)).
Proof.
  intros [Hm1n Hm1] [Hd1l Hd1] Hdash [Hm2n Hm2] [Hd2l Hd2] [Hyl Hy].
  destruct d1 as [|c1 d1']; [simpl in Hd1l; lia|].
  destruct d2 as [|c2 d2']; [simpl in Hd2l; lia|].
  destruct m2 as [|a2 m2']; [done|].
  destruct y as [|e y']; [done|].
  assert (Hd : dash = 45%N \/ dash = 8211%N) by (unfold is_dash in Hdash; bool_simpl; done).
  clear Hdash.
  inversion Hd1 as [|? ? Hc1 Hd1']; inversion Hd2 as [|? ? Hc2 Hd2']; inversion Hy as [|? ? He Hy'];
    inversion Hm2 as [|? ? Ha2 Hm2']; subst.
  pose proof (ascii_digit_not_space _ Hc1) as Hc1s. pose proof (ascii_digit_not_space _ Hc2) as Hc2s.
  pose proof (ascii_digit_not_space _ He) as Hes. pose proof (az_ci_not_space _ Ha2) as Ha2s.
  pose proof (is_digit_of_ascii _ Hc1) as Hc1d. pose proof (is_digit_of_ascii _ Hc2) as Hc2d.
  pose proof (ascii_digits_digit _ Hd1') as Hd1d. pose proof (ascii_digits_digit _ Hd2') as Hd2d.
  pose proof (ascii_digits_digit _ Hy') as Hyd.
  assert (H32 : is_digit 32 = false) by (apply is_digit_small; lia).
  assert (H44 : is_digit 44 = false) by (apply is_digit_small; lia).
  unfold date_range_at, dr_input.
  rewrite span_len_app, span_len_stop by done. rewrite Nat.add_0_r, drop_app_length, take_app_length.
  replace (length m1 =? 0) with false by (destruct m1; done).
  simpl. rewrite Hc1s. simpl.
  unfold day_digits. simpl. rewrite Hc1d. rewrite (span_len_app is_digit d1') by done. simpl. rewrite H32. simpl. rewrite Nat.add_0_r.
  replace (length d1' <=? 1) with true by (simpl in Hd1l; symmetry; apply Nat.leb_le; lia).
  cbn [drop take]. rewrite drop_app_length, take_app_length.
  unfold dr_tail. destruct Hd as [-> | ->]; simpl; rewrite Ha2s; simpl.
  all: rewrite ?Ha2; simpl.
  all: rewrite (span_len_app is_az_ci m2'), span_len_stop by done.
  all: rewrite Nat.add_0_r, drop_app_length, take_app_length; simpl; rewrite Hc2s; simpl.
  all: unfold day_digits; simpl; rewrite Hc2d, (span_len_app is_digit d2'), span_len_stop by done.
  all: simpl; rewrite Nat.add_0_r.
  all: replace (length d2' <=? 1) with true by (simpl in Hd2l; symmetry; apply Nat.leb_le; lia).
  all: simpl; rewrite drop_app_length, take_app_length; simpl; rewrite Hes; simpl.
  all: rewrite (take_app_length' y' rest 3) by (simpl in Hyl; lia).
  all: assert (Hfy : forallb is_digit y' = true) by (apply forallb_true_iff; done).
  all: rewrite Hfy, (is_digit_of_ascii e He); simpl in Hyl; injection Hyl as Hyl; rewrite Hyl; simpl.
  all: repeat f_equal; repeat (rewrite length_app; simpl); lia.
Qed.

Lemma dr_input_app m1 d1 dash m2 d2 y rest :
  dr_input m1 d1 dash m2 d2 (y ++ rest) = dr_input m1 d1 dash m2 d2 y ++ rest.
Proof. unfold dr_input. repeat (rewrite <- app_assoc; simpl). done. Qed.

Lemma span_formb_spec m1 d1 dash m2 d2 y :
  span_formb m1 d1 dash m2 d2 y = true ->
  month_tok m1 /\ day_tok d1 /\ is_dash dash = true /\ month_tok m2 /\ day_tok d2 /\ year_tok y.
Proof.
  unfold span_formb, month_tokb, day_tokb, year_tokb, month_tok, day_tok, year_tok.
  rewrite !andb_true_iff, !forallb_true_iff, !negb_true_iff, !bool_decide_eq_false,
    !Nat.leb_le, !Nat.eqb_eq. tauto.
Qed.

(** The search finds the span at the start of the text. *)
Lemma parse_date_range_input m1 d1 dash m2 d2 y rest :
  month_tok m1 -> day_tok d1 -> is_dash dash = true -> month_tok m2 -> day_tok d2 -> year_tok y ->
  _parse_date_range (dr_input m1 d1 dash m2 d2 (y ++ rest)) =
  parse_groups {| g_m1 := m1; g_d1 := d1; g_y1 := None; g_m2 := m2; g_d2 := d2; g_y2 := y |}
    (dr_input m1 d1 dash m2 d2 y).
Proof.
  intros. unfold _parse_date_range. rewrite (re_search_here _ _ _ (date_range_at_input
    m1 d1 dash m2 d2 y rest ltac:(done) ltac:(done) ltac:(done) ltac:(done) ltac:(done) ltac:(done))).
  simpl. f_equal. by rewrite drop_0, dr_input_app, take_app_length.
Qed.

(** The [try] block on groups without a first year: the start date is in
    the end year, or in the year before when it would come after the end. *)
Lemma parse_groups_no_year g matched mo1 mo2 :
  g_y1 g = None -> month_lookup (g_m1 g) = Some mo1 -> month_lookup (g_m2 g) = Some mo2 ->
  let d1 := digits_value (g_d1 g) in let d2 := digits_value (g_d2 g) in
  let y := digits_value (g_y2 g) in
  valid_ymd y mo1 d1 = true -> valid_ymd y mo2 d2 = true ->
  parse_groups g matched =
  if date_ltb (mkdate y mo2 d2) (mkdate y mo1 d1) then
    match mk_date (y - 1) mo1 d1 with
    | Some sd => (span_text (g_m1 g) d1 (g_m2 g) d2 y, Some sd, Some (mkdate y mo2 d2))
    | None => (matched, None, None)
    end
  else (span_text (g_m1 g) d1 (g_m2 g) d2 y, Some (mkdate y mo1 d1), Some (mkdate y mo2 d2)).
Proof.
  intros Hy1 Hm1 Hm2 d1 d2 y Hv1 Hv2. unfold parse_groups. rewrite Hy1, Hm1, Hm2.
  rewrite !mk_date_valid by done. simpl. by destruct (date_ltb _ _).
Qed.

Lemma re_search_from_some {A} (m : text -> option A) k s pos a :
  re_search_from m k s = Some (pos, a) -> k <= pos /\ m (drop (pos - k) s) = Some a.
Proof.
  revert k. induction s as [|c s IH]; intros k; simpl.
  - destruct (m []) eqn:E; [intros [= <- <-]; rewrite Nat.sub_diag; done|done].
  - destruct (m (c :: s)) eqn:E; [intros [= <- <-]; rewrite Nat.sub_diag; done|].
    intros Hs. destruct (IH (S k) Hs) as [Hle Hm]. split; [lia|].
    replace (pos - k) with (S (pos - S k)) by lia. done.
Qed.

Lemma re_search_some {A} (m : text -> option A) s pos a :
  re_search m s = Some (pos, a) -> m (drop pos s) = Some a.
Proof. intros Hs. apply re_search_from_some in Hs. rewrite Nat.sub_0_r in Hs. tauto. Qed.

Lemma month_tok_span (s : text) :
  (span_len is_az_ci s =? 0) = false -> month_tok (take (span_len is_az_ci s) s).
Proof.
  intros E. split; [apply take_span_len_nonempty; by apply Nat.eqb_neq | apply take_span_len].
Qed.

Lemma dr_tail_month s y1 m2 d2 y2 k : dr_tail s = Some (y1, m2, d2, y2, k) -> month_tok m2.
Proof.
  unfold dr_tail. repeat (case_match; try done).
  all: intros [= _ <- _ _ _]; by apply month_tok_span.
Qed.

(** Both month groups of a match are runs of letters. *)
Lemma date_range_at_months s g len :
  date_range_at s = Some (g, len) -> month_tok (g_m1 g) /\ month_tok (g_m2 g).
Proof.
  unfold date_range_at. repeat (case_match; try done). intros [= <- _]. simpl.
  split; [by apply month_tok_span | by eapply dr_tail_month].
Qed.

Lemma span_text_input m1 d1 m2 d2 y :
  span_text m1 d1 m2 d2 y = dr_input m1 (show_dec d1) 8211 m2 (show_dec d2) (show_dec y).
Proof. done. Qed.

Lemma day_tok_show d : (1 <= d <= 31)%Z -> day_tok (show_dec d).
Proof. intros Hd. split; [apply length_show_dec_day; lia | apply show_dec_ascii]. Qed.

Lemma year_tok_show y : (1000 <= y <= 9999)%Z -> year_tok (show_dec y).
Proof. intros Hy. split; [by apply length_show_dec_year | apply show_dec_ascii]. Qed.

Lemma is_leap_succ z : is_leap z = true -> is_leap (z + 1) = false.
Proof.
  unfold is_leap. intros [Hz _]%andb_true_iff. apply Z.eqb_eq in Hz.
  rewrite Zplus_mod, Hz. done.
Qed.

Lemma digits_value_ascii (ds : text) :
  Forall (fun c => is_ascii_digit c = true) ds ->
  digits_value ds = fold_left (fun acc c => (acc * 10 + Z.of_N (c - 48))%Z) ds 0%Z.
Proof.
  unfold digits_value. generalize 0%Z. induction ds as [|c ds IH]; intros acc Hds; [done|].
  inversion Hds as [|? ? Hc Hds']; subst. simpl. rewrite IH by done.
  rewrite u_decimal_ascii by (by apply ascii_digit_lt). rewrite Hc. simpl. f_equal. lia.
Qed.

Lemma month_lookup_ascii (tok : text) :
  Forall (fun c => (c < 128)%N) tok ->
  month_lookup tok = snd <$> List.find (fun '(k, _) => bool_decide (k = map ascii_lower tok)) MONTHS.
Proof. intros Htok. unfold month_lookup. by rewrite py_lower_ascii. Qed.

(** Inversion of the [try] block on groups without a first year. *)
Lemma parse_groups_inv g matched t sd ed :
  g_y1 g = None -> parse_groups g matched = (t, Some sd, Some ed) ->
  let d1 := digits_value (g_d1 g) in let d2 := digits_value (g_d2 g) in
  let y := digits_value (g_y2 g) in
  exists mo1 mo2,
    month_lookup (g_m1 g) = Some mo1 /\ month_lookup (g_m2 g) = Some mo2 /\
    t = span_text (g_m1 g) d1 (g_m2 g) d2 y /\ ed = mkdate y mo2 d2 /\
    valid_ymd y mo1 d1 = true /\ valid_ymd y mo2 d2 = true /\
    ((date_ltb ed (mkdate y mo1 d1) = false /\ sd = mkdate y mo1 d1)
     \/ (date_ltb ed (mkdate y mo1 d1) = true /\ sd = mkdate (y - 1) mo1 d1
         /\ valid_ymd (y - 1) mo1 d1 = true)).
Proof.
  intros Hy1 Hp d1 d2 y. unfold parse_groups in Hp. rewrite Hy1 in Hp.
  destruct (month_lookup (g_m1 g)) as [mo1|]; [|done].
  destruct (month_lookup (g_m2 g)) as [mo2|]; [|done].
  destruct (mk_date _ mo1 _) as [sd0|] eqn:E1; [|done].
  destruct (mk_date _ mo2 _) as [ed0|] eqn:E2; [|done].
  apply mk_date_some in E1 as [-> Hv1]. apply mk_date_some in E2 as [-> Hv2].
  exists mo1, mo2. destruct (date_ltb _ _) eqn:Elt.
  - destruct (mk_date (_ - 1) mo1 _) as [sd1|] eqn:E3; [|done].
    apply mk_date_some in E3 as [-> Hv3]. injection Hp as <- <- <-.
    repeat split; try done. right. done.
  - injection Hp as <- <- <-. repeat split; try done. left. done.
Qed.

End SpanFacts.

(** ** Theorems on spans *)

Section SpanTheorems.
Context `{UnicodeDB}.

(** [C10] Year wrap (spec, DateSpan and section 8): on the span form
    "Month D - Month D, YYYY", an end before the start in the same year is
    read as a span crossing the new year, the start moving to the year
    before, when that start date exists. *)
Theorem parse_date_range_year_wrap m1 dt1 dash m2 dt2 yt rest mo1 mo2 :
  span_formb m1 dt1 dash m2 dt2 yt = true ->
  month_lookup m1 = Some mo1 -> month_lookup m2 = Some mo2 ->
  let d1 := digits_value dt1 in let d2 := digits_value dt2 in let y := digits_value yt in
  valid_ymd y mo1 d1 = true -> valid_ymd (y - 1) mo1 d1 = true ->
  valid_ymd y mo2 d2 = true ->
  date_ltb (mkdate y mo2 d2) (mkdate y mo1 d1) = true ->
  _parse_date_range (dr_input m1 dt1 dash m2 dt2 (yt ++ rest)) =
  (span_text m1 d1 m2 d2 y, Some (mkdate (y - 1) mo1 d1), Some (mkdate y mo2 d2)).
Proof.
  intros Hf Hm1 Hm2 d1 d2 y Hv1 Hv0 Hv2 Hlt.
  apply span_formb_spec in Hf. rewrite parse_date_range_input by tauto.
  rewrite (parse_groups_no_year _ _ mo1 mo2) by done. simpl.
  fold d1 d2 y. by rewrite Hlt, mk_date_valid.
Qed.

(** Without a wrap, both dates are in the year written. *)
Lemma parse_date_range_same_year m1 dt1 dash m2 dt2 yt rest mo1 mo2 :
  span_formb m1 dt1 dash m2 dt2 yt = true ->
  month_lookup m1 = Some mo1 -> month_lookup m2 = Some mo2 ->
  let d1 := digits_value dt1 in let d2 := digits_value dt2 in let y := digits_value yt in
  valid_ymd y mo1 d1 = true -> valid_ymd y mo2 d2 = true ->
  date_ltb (mkdate y mo2 d2) (mkdate y mo1 d1) = false ->
  _parse_date_range (dr_input m1 dt1 dash m2 dt2 (yt ++ rest)) =
  (span_text m1 d1 m2 d2 y, Some (mkdate y mo1 d1), Some (mkdate y mo2 d2)).
Proof.
  intros Hf Hm1 Hm2 d1 d2 y Hv1 Hv2 Hlt.
  apply span_formb_spec in Hf. rewrite parse_date_range_input by tauto.
  rewrite (parse_groups_no_year _ _ mo1 mo2) by done. simpl. fold d1 d2 y. by rewrite Hlt.
Qed.

(** Inclusive length (spec, section 8): a span within one month, from
    day [d1] to day [d2], has the length [d2 - d1 + 1] (March 1 to March 3
    gives 3, not 2). *)
Theorem inclusive_days_same_month m dt1 dash dt2 yt rest mo :
  span_formb m dt1 dash m dt2 yt = true -> month_lookup m = Some mo ->
  let d1 := digits_value dt1 in let d2 := digits_value dt2 in let y := digits_value yt in
  valid_ymd y mo d1 = true -> valid_ymd y mo d2 = true -> (d1 <= d2)%Z ->
  let '(_, sd, ed) := _parse_date_range (dr_input m dt1 dash m dt2 (yt ++ rest)) in
  _inclusive_days sd ed = show_dec (d2 - d1 + 1).
Proof.
  intros Hf Hm d1 d2 y Hv1 Hv2 Hle.
  rewrite (parse_date_range_same_year _ _ _ _ _ _ _ mo mo) by
    (try done; apply Bool.not_true_iff_false; rewrite date_ltb_spec; simpl; lia).
  unfold _inclusive_days, days_between, toordinal. simpl.
  match goal with |- context [(?A + ?b - (?A + ?a) + 1)%Z] =>
    replace (A + b - (A + a) + 1)%Z with (b - a + 1)%Z by lia end.
  subst d1 d2. destruct (Z.ltb_spec (digits_value dt2 - digits_value dt1 + 1) 0); [lia|done].
Qed.

(** [C9] Span invariant (spec, DateSpan): whenever [_parse_date_range]
    returns two dates, both are valid dates, the start is not after the
    end, and the day count [(ed - sd).days] is not negative. *)
Theorem parse_date_range_ordered s t sd ed :
  _parse_date_range s = (t, Some sd, Some ed) ->
  date_ok sd = true /\ date_ok ed = true /\ date_leb sd ed = true /\ (0 <= days_between sd ed)%Z.
Proof.
  unfold _parse_date_range. destruct (re_search date_range_at s) as [[pos [g len]]|]; [|done].
  unfold parse_groups.
  destruct (month_lookup (g_m1 g)) as [mo1|]; [|done].
  destruct (month_lookup (g_m2 g)) as [mo2|]; [|done].
  destruct (mk_date _ mo1 _) as [sd0|] eqn:E1; [|done].
  destruct (mk_date _ mo2 _) as [ed0|] eqn:E2; [|done].
  apply mk_date_some in E1 as [-> Hv1]. apply mk_date_some in E2 as [-> Hv2].
  assert (Hord : forall a b, date_ok a = true -> date_ok b = true -> date_leb a b = true ->
            date_ok a = true /\ date_ok b = true /\ date_leb a b = true /\ (0 <= days_between a b)%Z).
  { intros a b Ha Hb Hab. repeat split; try done. by apply days_between_nonneg. }
  destruct (date_ltb _ _) eqn:Elt.
  - destruct (mk_date (_ - 1) mo1 _) as [sd1|] eqn:E3; [|done].
    apply mk_date_some in E3 as [-> Hv3]. intros [= <- <- <-]. apply Hord; try done.
    apply date_ltb_leb, date_ltb_spec. simpl. lia.
  - intros [= <- <- <-]. apply Hord; try done. by apply date_leb_not_ltb.
Qed.

(** [C30] Length bound: when the first date carries no year, the span is at
    most 366 days long, inclusive. *)
Theorem parse_date_range_length_bound s pos g len t sd ed :
  re_search date_range_at s = Some (pos, (g, len)) -> g_y1 g = None ->
  _parse_date_range s = (t, Some sd, Some ed) -> (days_between sd ed + 1 <= 366)%Z.
Proof.
  intros Hs Hy1 Hp. unfold _parse_date_range in Hp. rewrite Hs in Hp.
  destruct (parse_groups_inv _ _ _ _ _ Hy1 Hp) as (mo1 & mo2 & _ & _ & _ & -> & Hv1 & Hv2 & Hc).
  set (y := digits_value (g_y2 g)) in *. set (d1 := digits_value (g_d1 g)) in *.
  set (d2 := digits_value (g_d2 g)) in *.
  apply valid_ymd_spec in Hv1, Hv2.
  destruct Hc as [[Hn ->]|[Hlt [-> Hv0]]]; unfold days_between.
  - pose proof (date_leb_not_ltb _ _ Hn) as Hle. unfold toordinal. simpl.
    pose proof (days_before_month_nonneg y mo1 ltac:(lia)).
    pose proof (days_before_month_year_end y mo2 ltac:(lia)).
    destruct (is_leap y); lia.
  - apply toordinal_lt in Hlt; [|by apply valid_ymd_spec|by apply valid_ymd_spec].
    pose proof (toordinal_next_year (y - 1) mo1 d1 ltac:(lia)) as Hn.
    replace (y - 1 + 1)%Z with y in Hn by lia. lia.
Qed.

(** [C40] Round trip (spec, section 8): the display text [_parse_date_range]
    returns for a span written without a first year, read again, gives the
    same display text and the same two dates (years from 1000 on, which
    print with four digits). *)
Theorem parse_date_range_roundtrip s pos g len t sd ed :
  re_search date_range_at s = Some (pos, (g, len)) -> g_y1 g = None ->
  _parse_date_range s = (t, Some sd, Some ed) -> (1000 <= year ed)%Z ->
  _parse_date_range t = (t, Some sd, Some ed).
Proof.
  intros Hs Hy1 Hp Hy. pose proof (re_search_some _ _ _ _ Hs) as Hm.
  destruct (date_range_at_months _ _ _ Hm) as [Hm1 Hm2].
  unfold _parse_date_range in Hp. rewrite Hs in Hp.
  destruct (parse_groups_inv _ _ _ _ _ Hy1 Hp)
    as (mo1 & mo2 & Hl1 & Hl2 & -> & -> & Hv1 & Hv2 & Hc).
  set (y := digits_value (g_y2 g)) in *. set (d1 := digits_value (g_d1 g)) in *.
  set (d2 := digits_value (g_d2 g)) in *. simpl in Hy.
  pose proof (valid_day_le31 _ _ _ Hv1). pose proof (valid_day_le31 _ _ _ Hv2).
  pose proof Hv1 as Hy9. apply valid_ymd_spec in Hy9.
  rewrite span_text_input, <- (app_nil_r (show_dec y)), parse_date_range_input;
    [| done | by apply day_tok_show | done | done | by apply day_tok_show
     | apply year_tok_show; lia].
  rewrite (parse_groups_no_year _ _ mo1 mo2); simpl; rewrite ?show_dec_value by lia; try done.
  rewrite app_nil_r, <- span_text_input.
  destruct Hc as [[Hn ->]|[Hlt [-> Hv0]]]; [by rewrite Hn|].
  by rewrite Hlt, mk_date_valid.
Qed.

(** Finding: the start date that push-back detection reads from the
    display text of a span crossing the new year is one year after the
    start [_parse_date_range] computed: [_start_date_from_shooting_dates]
    takes the year of the end date for the start. *)
Theorem start_date_of_wrapped_display s pos g len t sd ed :
  re_search date_range_at s = Some (pos, (g, len)) -> g_y1 g = None ->
  _parse_date_range s = (t, Some sd, Some ed) -> (1000 <= year ed)%Z -> (year sd < year ed)%Z ->
  _start_date_from_shooting_dates t = Some (mkdate (year ed) (month sd) (day sd)).
Proof.
  intros Hs Hy1 Hp Hy Hlty. pose proof (re_search_some _ _ _ _ Hs) as Hm.
  destruct (date_range_at_months _ _ _ Hm) as [Hm1 Hm2].
  unfold _parse_date_range in Hp. rewrite Hs in Hp.
  destruct (parse_groups_inv _ _ _ _ _ Hy1 Hp)
    as (mo1 & mo2 & Hl1 & Hl2 & -> & -> & Hv1 & Hv2 & Hc).
  set (y := digits_value (g_y2 g)) in *. set (d1 := digits_value (g_d1 g)) in *.
  set (d2 := digits_value (g_d2 g)) in *. simpl in Hy, Hlty |- *.
  destruct Hc as [[_ ->]|[_ [-> _]]]; simpl in Hlty; [lia|]. simpl.
  pose proof (valid_day_le31 _ _ _ Hv1). pose proof (valid_day_le31 _ _ _ Hv2).
  pose proof Hv1 as Hy9. apply valid_ymd_spec in Hy9.
  unfold _start_date_from_shooting_dates.
  rewrite span_text_input, <- (app_nil_r (show_dec y)), (re_search_here _ _ _
    (date_range_at_input _ _ _ _ _ _ _ Hm1 (day_tok_show d1 ltac:(lia)) (eq_refl : is_dash 8211 = true) Hm2
       (day_tok_show d2 ltac:(lia)) (year_tok_show y ltac:(lia)))).
  simpl. rewrite Hl1, !show_dec_value by lia. by apply mk_date_valid.
Qed.

(** Finding: a span crossing the new year that starts on February 29
    of a leap year is rejected.  The code builds the start date in the end
    year first, where February 29 does not exist, and the [ValueError] is
    caught before the year is moved back: the text comes back with no
    dates, although the start date exists in the year before. *)
Theorem parse_date_range_feb29_wrap_rejected dash m2 dt2 yt rest mo2 :
  span_formb (u "February") (u "29") dash m2 dt2 yt = true -> month_lookup m2 = Some mo2 ->
  let y := digits_value yt in let d2 := digits_value dt2 in
  is_leap (y - 1) = true -> valid_ymd y mo2 d2 = true -> (2 <= y)%Z ->
  valid_ymd (y - 1) 2 29 = true /\
  _parse_date_range (dr_input (u "February") (u "29") dash m2 dt2 (yt ++ rest)) =
    (dr_input (u "February") (u "29") dash m2 dt2 yt, None, None).
Proof.
  intros Hf Hm2 y d2 Hleap Hv2 Hy2. apply span_formb_spec in Hf.
  pose proof Hv2 as Hy9. apply valid_ymd_spec in Hy9.
  assert (Hny : is_leap y = false).
  { replace y with (y - 1 + 1)%Z by lia. by apply is_leap_succ. }
  split.
  - apply valid_ymd_spec. unfold days_in_month. rewrite Hleap. simpl. lia.
  - rewrite parse_date_range_input by tauto. unfold parse_groups. simpl.
    rewrite month_lookup_ascii by (repeat constructor). simpl. rewrite Hm2.
    rewrite (digits_value_ascii (u "29")) by (repeat constructor). simpl.
    unfold mk_date at 1. replace (valid_ymd (digits_value yt) 2 29) with false; [done|].
    symmetry. apply Bool.not_true_iff_false. rewrite valid_ymd_spec.
    unfold days_in_month. fold y. rewrite Hny. simpl. lia.
Qed.

(** Finding: [_parse_span_flexible] never returns a span crossing the
    new year.  When the end comes before the start it evaluates
    [dt.date(year - 1, a, d1)] with [year] unbound; the [NameError] is
    caught by [except Exception] and the function returns [None], so every
    span it returns has both dates in one year, the start first. *)
Theorem parse_span_flexible_same_year s a b :
  _parse_span_flexible s = Some (a, b) -> year a = year b /\ date_leb a b = true.
Proof.
  unfold _parse_span_flexible. destruct s as [|c s]; [done|].
  repeat (case_match; try done). intros [= <- <-].
  match goal with
  | H1 : mk_date _ _ _ = Some ?e, H2 : mk_date _ _ _ = Some ?st |- _ =>
      apply mk_date_some in H1 as [-> _]; apply mk_date_some in H2 as [-> _]
  end.
  split; [done|]. by apply date_leb_not_ltb.
Qed.

End SpanTheorems.

(** ** The spec's year-wrap example, and witnesses on the Latin-1 database *)

(** Finding: the example the spec gives for a span crossing the new
    year, [November 3 - March 15 2026] (no comma before the year), is
    parsed by neither date parser: [RE_DATE_RANGE] wants a comma after the
    second day, so [_parse_date_range] returns no text and no dates, and
    [_parse_span_flexible] reaches the unbound [year] and returns [None]. *)
Theorem spec_year_wrap_example_unparsed :
  _parse_date_range (u "November 3 - March 15 2026") = ([], None, None) /\
  _parse_span_flexible (u "November 3 - March 15 2026") = None /\
  _parse_span_flexible (u "November 3 - March 15, 2026") = None.
Proof. vm_compute. repeat split. Qed.

(** [witness_of t] applies the instance [t] of a theorem at a closed input:
    both are brought to normal form, and the hypotheses left are closed
    tests that evaluate to [true]. *)
Ltac discharge := first [reflexivity | vm_compute; congruence | vm_compute; lia].
Ltac witness_of t := let W := fresh "W" in
  pose proof t as W; vm_compute in W |- *; apply W; discharge.

Lemma parse_date_range_year_wrap_witness :
  _parse_date_range (dr_input (u "November") (u "3") 8211 (u "March") (u "15") (u "2026" ++ [])) =
  (span_text (u "November") 3 (u "March") 15 2026,
   Some (mkdate 2025 11 3), Some (mkdate 2026 3 15)).
Proof.
  witness_of (parse_date_range_year_wrap (u "November") (u "3") 8211 (u "March") (u "15")
           (u "2026") [] 11 3).
Defined.

Lemma inclusive_days_same_month_witness :
  let '(_, sd, ed) := _parse_date_range
                        (dr_input (u "March") (u "3") 45 (u "March") (u "15") (u "2026" ++ [])) in
  _inclusive_days sd ed = u "13".
Proof.
  witness_of (inclusive_days_same_month (u "March") (u "3") 45 (u "15") (u "2026") [] 3).
Defined.

Definition wrap_example : text := u "November 3 – March 15, 2026".
Definition wrap_groups : dr_groups :=
  {| g_m1 := u "November"; g_d1 := u "3"; g_y1 := None;
     g_m2 := u "March"; g_d2 := u "15"; g_y2 := u "2026" |}.
Definition wrap_display : text := span_text (u "November") 3 (u "March") 15 2026.

Lemma parse_date_range_ordered_witness :
  date_ok (mkdate 2025 11 3) = true /\ date_ok (mkdate 2026 3 15) = true /\
  date_leb (mkdate 2025 11 3) (mkdate 2026 3 15) = true /\
  (0 <= days_between (mkdate 2025 11 3) (mkdate 2026 3 15))%Z.
Proof. witness_of (parse_date_range_ordered wrap_example wrap_display
           (mkdate 2025 11 3) (mkdate 2026 3 15)). Defined.

Lemma parse_date_range_length_bound_witness :
  (days_between (mkdate 2025 11 3) (mkdate 2026 3 15) + 1 <= 366)%Z.
Proof.
  witness_of (parse_date_range_length_bound wrap_example 0 wrap_groups 27 wrap_display
           (mkdate 2025 11 3) (mkdate 2026 3 15)).
Defined.

Lemma parse_date_range_roundtrip_witness :
  _parse_date_range wrap_display = (wrap_display, Some (mkdate 2025 11 3), Some (mkdate 2026 3 15)).
Proof.
  witness_of (parse_date_range_roundtrip wrap_example 0 wrap_groups 27 wrap_display
           (mkdate 2025 11 3) (mkdate 2026 3 15)).
Defined.

Lemma start_date_of_wrapped_display_witness :
  _start_date_from_shooting_dates wrap_display = Some (mkdate 2026 11 3).
Proof.
  witness_of (start_date_of_wrapped_display wrap_example 0 wrap_groups 27 wrap_display
           (mkdate 2025 11 3) (mkdate 2026 3 15)).
Defined.

Lemma parse_date_range_feb29_wrap_rejected_witness :
  valid_ymd 2024 2 29 = true /\
  _parse_date_range (dr_input (u "February") (u "29") 8211 (u "January") (u "5") (u "2025" ++ [])) =
    (dr_input (u "February") (u "29") 8211 (u "January") (u "5") (u "2025"), None, None).
Proof.
  witness_of (parse_date_range_feb29_wrap_rejected 8211 (u "January") (u "5") (u "2025") [] 1).
Defined.

Lemma parse_span_flexible_same_year_witness :
  year (mkdate 2026 3 3) = year (mkdate 2026 5 15) /\
  date_leb (mkdate 2026 3 3) (mkdate 2026 5 15) = true.
Proof.
  witness_of (parse_span_flexible_same_year (u "March 3 - May 15, 2026")
           (mkdate 2026 3 3) (mkdate 2026 5 15)).
Defined.
