(* ===== verification/Extract.v ===== *)
(** * Extract: the line-level field extractors

    Models, from [src/Scripts/Production_Weekly_Extractor.py]:
    - [TITLE_PREFIX] (line 387), [EXCLUDE_KEYWORDS] (1683), the exclusion
      test of [_parse_block_to_row] (lines 702-703), [_normalize_spaces]
      (1386-1387) and [str.splitlines];
    - [_status_and_location_from_lines] (lines 598-654): a scan over the
      lines with the state [(status_val, location_val)], three cases per
      line and a [break] once both are found;
    - [_start_month_from_status] (lines 656-686) with its month-and-year
      pattern;
    - [_quoted_title_from_title_line] and [_type_from_title_line]
      (lines 1699-1709);
    - [_extract_studio_name] (lines 564-584), [_gather_director_producer]
      with [RE_LABEL_LINE] (lines 1675, 1775-1783), [_gather_vfx]
      (1785-1786), [_addressy] and [_upperish] (1791-1796), and the
      company/office scan of [_parse_block_to_row] (lines 713-734);
    - [RE_PHONE] and [_extract_all_phones] (lines 1672, 587-590), [RE_STATUS]
      and [RE_LOCATION] (lines 1673-1674).

    The patterns are written with the combinators of [Regex].  Python
    raises [IndexError] in [_start_month_from_status] on a status made of
    characters [strip] keeps and [split] drops; that function returns
    [option]. *)

From S2P Require Import Prelude PyStr Regex Dates.

Definition TITLE_PREFIX : text := u "### ".
Definition EXCLUDE_KEYWORDS : list text := set_of ["telefilm"; "hallmark"; "gaf"; "great american family"].

Section Extract.
Context `{UnicodeDB}.

(** ** Text helpers *)

(** [re.sub(r"[ \t]+", " ", s.strip())], the empty text for [None]. *)
Definition _normalize_spaces (s : text) : text :=
  re_sub (run_plus (fun c => (c =? 32)%N || (c =? 9)%N)) [32%N] (py_strip s).

(** The line boundaries of [str.splitlines]. *)
Definition is_line_break (c : char) : bool :=
  in_range 10 13 c || in_range 28 30 c || (c =? 133)%N || (c =? 8232)%N || (c =? 8233)%N.

(** [s.splitlines()]: [\r\n] is one boundary; no empty last line. *)
Fixpoint splitlines_aux (cur : text) (s : text) : list text :=
  match s with
  | [] => match cur with [] => [] | _ => [rev cur] end
  | c :: s' =>
      if is_line_break c then
        rev cur :: splitlines_aux []
          (if (c =? 13)%N then match s' with d :: s'' => if (d =? 10)%N then s'' else s' | [] => s' end
           else s')
      else splitlines_aux (c :: cur) s'
  end.
Definition py_splitlines (s : text) : list text := splitlines_aux [] s.

(** [s.find(p)], [None] for [-1]. *)
Fixpoint py_find (p s : text) : option nat :=
  if py_startswith p s then Some 0
  else match s with [] => None | _ :: s' => S <$> py_find p s' end.

(** [s.lstrip] of the characters satisfying [p], and [s.strip(cs)] for a
    set of characters. *)
Fixpoint lstrip_by (p : char -> bool) (s : text) : text :=
  match s with c :: s' => if p c then lstrip_by p s' else s | [] => [] end.
Definition lstrip_chars (cs : list char) (s : text) : text := lstrip_by (fun c => bool_decide (c ∈ cs)) s.
Definition py_strip_chars (cs : list char) (s : text) : text :=
  rev (lstrip_chars cs (rev (lstrip_chars cs s))).

Definition has_colon (s : text) : bool := bool_decide (58%N ∈ s).

(** [s.split(":", 1)[1]] on a text holding a colon. *)
Definition after_colon (s : text) : text :=
  drop (S (default 0 (first_index (fun c => (c =? 58)%N) s))) s.

(** [after = s.split(None, 1)] and its second piece, else the empty
    text: the text after the first word and the spaces following it. *)
Definition split1_rest (s : text) : text :=
  let t := lstrip_ws s in lstrip_ws (drop (span_len (fun c => negb (is_space c)) t) t).

(** ** Alternative titles ([_extract_alt_titles]) *)

Definition any_quote (c : char) : bool := bool_decide (c ∈ [34; 8220; 8221; 39; 8216; 8217]%N).

(** [\b(?:aka|w[./-]?\s*t)\b\s*[:=]?\s*] under [re.I]: the label. *)
Definition alias_label_rx {R} (rest : rx R) : rx R :=
  rx_seq rx_wb (rx_seq (rx_alt (rx_lit_ci (u "aka"))
                               (rx_seq (rx_lit_ci (u "w")) (rx_seq (rx_rep (fun c => bool_decide (c ∈ [46; 47; 45]%N)) 0 1)
                                 (rx_seq (rx_star is_space) (rx_lit_ci (u "t"))))))
    (rx_seq rx_wb (rx_seq (rx_star is_space) (rx_seq (rx_rep (fun c => (c =? 58)%N || (c =? 61)%N) 0 1)
      (rx_seq (rx_star is_space) rest))))).

(** [QUOTED]: the label, a quote, the shortest run of characters other than
    a closing quote or a line break as the group, a quote; the result is
    [(m.group(0), m.group(1))]. *)
Definition quoted_alias_rx : rx (text * text) := fun p0 _ =>
  alias_label_rx (rx_seq (rx_class any_quote) (rx_seq (rx_star is_space)
    (rx_group (rx_plus_lazy (fun c => negb (bool_decide (c ∈ [34; 8221; 39; 8217; 13; 10]%N))))
      (fun g1 => rx_seq (rx_star is_space) (rx_seq (rx_class any_quote)
        (fun p _ => Some (rx_span p0 p, g1))))))) p0 (fun _ => None).

(** [UNQUOTED]: the label, an optional [as], and a run of at least two
    characters other than [)], [\]], [|], [;], [,] or a line break. *)
Definition unquoted_alias_rx : rx (text * text) := fun p0 _ =>
  alias_label_rx (rx_seq (rx_opt (rx_seq (rx_lit_ci (u "as")) (rx_plus is_space)))
    (rx_group (rx_atleast (fun c => negb (bool_decide (c ∈ [41; 93; 124; 59; 44; 13; 10]%N))) 2)
      (fun g1 p _ => Some (rx_span p0 p, g1)))) p0 (fun _ => None).

(** [re.sub(r'[\s\)\]\|;,\u2014\u2013-]+$', '', alias)]: the trailing run of
    these characters (the alias has no line break). *)
Definition trailing_cruft (c : char) : bool :=
  is_space c || bool_decide (c ∈ [41; 93; 124; 59; 44; 8212; 8211; 45]%N).
Definition strip_trailing_cruft (s : text) : text :=
  rev (lstrip_by trailing_cruft (rev s)).

(** The [(label, alias)] pairs: the quoted matches, then the unquoted ones. *)
Definition alias_matches (t : text) : list (text * text) :=
  map (fun '(g0, g1) => (default [] (head (py_split_ws g0)), py_strip g1))
      (rx_finditer quoted_alias_rx (fun r => length r.1) t)
  ++ map (fun '(g0, g1) => (default [] (head (py_split_ws g0)), py_strip (strip_trailing_cruft (py_strip g1))))
      (rx_finditer unquoted_alias_rx (fun r => length r.1) t).

(** The loop of [pretty] and [seen]: the [(tag, alias_clean)] pairs kept. *)
Fixpoint pretty_aliases (seen : list (text * text)) (found : list (text * text)) : list (text * text) :=
  match found with
  | [] => []
  | (label, alias) :: rest =>
      let tag := if py_startswith (u "w") (py_lower label) then u "W/T" else u "AKA" in
      let clean := py_strip (List.filter (fun c => negb (any_quote c)) alias) in
      let key := (tag, py_lower clean) in
      if bool_decide (clean = []) || bool_decide (key ∈ seen) then pretty_aliases seen rest
      else (tag, clean) :: pretty_aliases (key :: seen) rest
  end.

Definition _extract_alt_titles (t : text) : text :=
  match t with
  | [] => []
  | _ =>
      match pretty_aliases [] (alias_matches t) with
      | [] => []
      | ps => u "(" ++ py_join (u ", ") (map (fun '(tag, a) => tag ++ u ": " ++ a) ps) ++ u ")"
      end
  end.

(** ** STATUS and LOCATION(S) *)

(** The status value of a part starting with [STATUS]: after the first
    colon, else [part[len("STATUS"):].strip(" :-\t")]. *)
Definition status_value (part : text) : text :=
  if has_colon part then py_strip (after_colon part) else py_strip_chars [32; 58; 45; 9]%N (drop 6 part).

(** One iteration of the scan, on the line [ln] and the line after it. *)
Definition sl_step (ln : text) (next : option text) (st : text * text) : text * text :=
  let up := py_strip (py_upper ln) in
  if py_startswith (u "STATUS") up && py_contains (u "LOCATION") up then
    let i := default 0 (py_find (u "LOCATION") up) in
    let loc_part := drop i ln in
    (status_value (take i ln),
     if has_colon loc_part then py_strip (after_colon loc_part) else py_strip (split1_rest loc_part))
  else
    (if py_startswith (u "STATUS") up then status_value ln else st.1,
     if py_startswith (u "LOCATION") up then
       (if has_colon ln then py_strip (after_colon ln)
        else match next with Some n => py_strip n | None => st.2 end)
     else st.2).

(** The loop, with [if status_val and location_val: break]. *)
Fixpoint sl_loop (st : text * text) (lines : list text) : text * text :=
  match lines with
  | [] => st
  | ln :: rest =>
      let st' := sl_step ln (head rest) st in
      match st' with
      | (_ :: _, _ :: _) => st'
      | _ => sl_loop st' rest
      end
  end.

Definition _status_and_location_from_lines (lines : list text) : text * text :=
  sl_loop ([], []) lines.

(** ** Start month *)

Definition MONTH_WORDS : list text := set_of
  ["January"; "February"; "March"; "April"; "May"; "June"; "July"; "August";
   "September"; "October"; "November"; "December"].

Definition not_ascii_digit (c : char) : bool := negb (is_ascii_digit c).

(** [\b(January|...|December)\b(?:[^0-9]{0,10}\d{1,2})?[^0-9]{0,10}(\d{4})] *)
Definition month_year_rx : rx (text * text) :=
  rx_seq rx_wb (rx_group (rx_alts (map rx_lit MONTH_WORDS)) (fun mo =>
  rx_seq rx_wb (rx_seq (rx_opt (rx_seq (rx_rep not_ascii_digit 0 10) (rx_rep is_digit 1 2)))
  (rx_seq (rx_rep not_ascii_digit 0 10) (rx_group (rx_rep is_digit 4 4) (fun y => rx_ret (mo, y))))))).

(** [_start_month_from_status]; [None] is the [IndexError] of
    [txt.split()[0]] on a text with no word. *)
Definition _start_month_from_status (status_val : text) : option text :=
  match status_val with
  | [] => Some []
  | _ =>
      let txt := py_strip status_val in
      match rx_search month_year_rx (fun _ => None) txt with
      | Some (_, (mo, y)) => Some (mo ++ [32%N] ++ y)
      | None => match py_split_ws txt with w :: _ => Some (_normalize_spaces w) | [] => None end
      end
  end.

(** ** Title line *)

Definition open_quote (c : char) : bool := (c =? 8220)%N || (c =? 34)%N.
Definition close_quote (c : char) : bool := (c =? 8221)%N || (c =? 34)%N.

(** The pattern of [_quoted_title_from_title_line], anchored at the
    start: an opening quote (U+201C or the straight double quote), spaces,
    the shortest non-empty run of characters that are not a closing quote
    (U+201D or the straight double quote) as the group, spaces, a closing
    quote. *)
Definition quoted_title_rx : rx text :=
  rx_seq (rx_class open_quote) (rx_seq (rx_star is_space)
    (rx_group (rx_plus_lazy (fun c => negb (close_quote c))) (fun g =>
      rx_seq (rx_star is_space) (rx_seq (rx_class close_quote) (rx_ret g))))).

(** [s[len(TITLE_PREFIX):].lstrip()] when [s] starts with the prefix. *)
Definition drop_title_prefix (s : text) : text :=
  if py_startswith TITLE_PREFIX s then lstrip_ws (drop (length TITLE_PREFIX) s) else s.

Definition _quoted_title_from_title_line (line : text) : text :=
  let s := drop_title_prefix (py_strip line) in
  match rx_match quoted_title_rx (fun _ => None) s with
  | Some g => py_strip g
  | None => py_strip (match py_find (u "  ") s with Some i => take i s | None => s end)
  end.

Definition _type_from_title_line (line : text) : text :=
  let s := py_lower line in
  if py_contains (u "feature film") s || rx_test (rx_seq rx_wb (rx_seq (rx_lit (u "feature")) rx_wb)) s
  then u "Feature Film" else u "Television".

(** ** Exclusion *)

(** [any(k in block_text.lower() for k in EXCLUDE_KEYWORDS)] *)
Definition is_excluded (block : text) : bool :=
  existsb (fun k => py_contains k (py_lower block)) EXCLUDE_KEYWORDS.

(** ** Studio, crew, VFX and company *)

Definition STUDIO_MAP : list (text * text) := dict_of
  [("bridge studios","Bridge Studios");("mammoth studios","Mammoth Studios");
   ("north shore studios","North Shore Studios");("martini film studios","Martini Film Studios");
   ("vancouver film studios","Vancouver Film Studios");("pinewood studios","Pinewood Studios");
   ("studio city","Studio City");("aspect film studios","Aspect Film Studios");
   ("big sky studios","Big Sky Studios");("santa clarita studios","Santa Clarita Studios");
   ("universal lot studios","Universal Lot Studios");("culver city studios","Culver City Studios");
   ("origo studios","Origo Studios")].

(** The two nested loops of [_extract_studio_name], then
    [" | ".join(sorted(...))]. *)
Definition studio_set (lines : list text) : list text :=
  fold_left (fun acc ln =>
    let ll := py_lower ln in
    fold_left (fun acc kn => if py_contains kn.1 ll then set_add kn.2 acc else acc)
      STUDIO_MAP acc) lines [].
Definition _extract_studio_name (lines : list text) : text :=
  py_join (u " | ") (py_sorted (studio_set lines)).

(** [RE_LABEL_LINE = \b([A-Z][A-Z/]{1,30}):\s*(.+)$] (no [re.I]). *)
Definition label_line_rx : rx (text * text) :=
  rx_seq rx_wb (rx_group (rx_seq (rx_class is_ascii_upper)
                                 (rx_rep (fun c => is_ascii_upper c || (c =? 47)%N) 1 30)) (fun lab =>
  rx_seq (rx_lit [58%N]) (rx_seq (rx_star is_space)
  (rx_group (rx_plus (fun c => negb (c =? 10)%N)) (fun v => rx_seq rx_eol (rx_ret (lab, v))))))).

(** [str.title()] on the ASCII labels [RE_LABEL_LINE] captures: a letter
    after a letter is lowered, any other letter raised. *)
Fixpoint ascii_title_aux (after_letter : bool) (s : text) : text :=
  match s with
  | [] => []
  | c :: s' =>
      if is_ascii_letter c then (if after_letter then ascii_lower c else ascii_upper c) :: ascii_title_aux true s'
      else c :: ascii_title_aux false s'
  end.
Definition ascii_title (s : text) : text := ascii_title_aux false s.

Definition CREW_LABELS : list text := set_of ["DIRECTOR"; "PRODUCER"; "SHOWRUNNER"].

(** The entry of one line, if it is a crew credit. *)
Definition crew_entry (ln : text) : option text :=
  match rx_search label_line_rx (fun _ => None) ln with
  | Some (_, (lab, v)) =>
      let label := py_upper lab in
      if mem label CREW_LABELS then Some (ascii_title label ++ u ": " ++ py_strip v) else None
  | None => None
  end.

Definition _gather_director_producer (lines : list text) : text :=
  py_join (u " | ") (omap crew_entry lines).

(** [\bVFX\b|\bVisual Effects\b] under [re.I]. *)
Definition vfx_rx : rx unit :=
  rx_alt (rx_seq rx_wb (rx_seq (rx_lit_ci (u "VFX")) rx_wb))
         (rx_seq rx_wb (rx_seq (rx_lit_ci (u "Visual Effects")) rx_wb)).

Definition _gather_vfx (lines : list text) : text :=
  py_join (u " | ") (map _normalize_spaces (List.filter (rx_test vfx_rx) lines)).

Definition STREET_WORDS : list text := set_of
  ["St."; "Street"; "Rd."; "Road"; "Ave."; "Avenue"; "Blvd."; "Boulevard"; "Suite"; "Floor"; "#"].

(** [\d{2,} .*(St\.|Street|...|Floor|#)] under [re.I]. *)
Definition address_rx : rx unit :=
  rx_seq (rx_atleast is_digit 2) (rx_seq (rx_lit [32%N])
    (rx_seq (rx_star (fun c => negb (c =? 10)%N)) (rx_alts (map rx_lit_ci STREET_WORDS)))).

Definition _addressy (ln : text) : bool := rx_test address_rx ln.

(** [sum(isupper)/len(letters) >= 0.6] as [3 * len <= 5 * upper]: the
    quotient is computed in double precision, and for fewer than 10^15
    letters it is at least the double nearest 0.6 exactly when the
    rational quotient is at least 3/5. *)
Definition _upperish (ln : text) : bool :=
  let letters := List.filter u_isalpha ln in
  let n := length letters in
  negb (n =? 0) && (3 * n <=? 5 * length (List.filter u_isupper letters)).

Definition CREDIT_PREFIXES : list text :=
  set_of ["STATUS:"; "PRODUCER:"; "WRITER:"; "DIRECTOR:"; "CAST:"; "CD:"].

(** The company loop over the lines after the title: [(company_str,
    office_str)]. *)
Fixpoint company_scan (lines : list text) : text * text :=
  match lines with
  | [] => ([], [])
  | ln :: rest =>
      if existsb (fun p => py_startswith p (py_upper ln)) CREDIT_PREFIXES then ([], [])
      else if _upperish ln then
        let company := _normalize_spaces ln in
        (company, match rest with
                  | n :: _ => if _addressy n then company ++ u " | " ++ _normalize_spaces n else company
                  | [] => company
                  end)
      else company_scan rest
  end.

(** ** Contacts and the block-level patterns *)

Definition phone_sep (c : char) : bool := (c =? 45)%N || (c =? 46)%N || is_space c.

(** [RE_PHONE]: [(?:\+?\d{1,2}[-.\s]?)?(?:\(?\d{3}\)?)[-.\s]?\d{3}[-.\s]?\d{4}\b] *)
Definition phone_rx : rx nat :=
  rx_seq (rx_opt (rx_seq (rx_rep (fun c => (c =? 43)%N) 0 1)
                   (rx_seq (rx_rep is_digit 1 2) (rx_rep phone_sep 0 1))))
  (rx_seq (rx_rep (fun c => (c =? 40)%N) 0 1) (rx_seq (rx_rep is_digit 3 3)
  (rx_seq (rx_rep (fun c => (c =? 41)%N) 0 1) (rx_seq (rx_rep phone_sep 0 1)
  (rx_seq (rx_rep is_digit 3 3) (rx_seq (rx_rep phone_sep 0 1)
  (rx_seq (rx_rep is_digit 4 4) rx_wb))))))).

Definition _extract_all_phones (t : text) : text := rx_group0 phone_rx t.

(** [RE_STATUS] and [RE_LOCATION] under [re.I]: the label, a colon,
    spaces, and the shortest run of characters other than a newline
    followed by two spaces or the end; the group is returned. *)
Definition field_rx (label : rx text) : rx text :=
  rx_seq rx_wb (rx_seq label (rx_seq (rx_lit [58%N]) (rx_seq (rx_star is_space)
    (rx_group (rx_plus_lazy (fun c => negb (c =? 10)%N)) (fun g =>
      rx_seq (rx_alt (rx_atleast is_space 2) rx_eol) (rx_ret g)))))).
Definition status_rx : rx text := field_rx (rx_lit_ci (u "STATUS")).
Definition location_rx : rx text :=
  field_rx (rx_seq (rx_lit_ci (u "LOCATION")) (rx_opt (rx_alt (rx_lit_ci (u "S")) (rx_lit_ci (u "(S)"))))).

(** [m.group(1).strip() if m else ""] *)
Definition search_field (a : rx text) (t : text) : text :=
  match rx_search a (fun _ => None) t with Some (_, g) => py_strip g | None => [] end.

(** ** Format label *)

(** [\s+\d{2}-\d{2}-\d{2}\s*ê?$]: a trailing date tag. *)
Definition date_tag_rx : rx nat :=
  rx_seq (rx_plus is_space) (rx_seq (rx_rep is_digit 2 2) (rx_seq (rx_lit [45%N])
  (rx_seq (rx_rep is_digit 2 2) (rx_seq (rx_lit [45%N]) (rx_seq (rx_rep is_digit 2 2)
  (rx_seq (rx_star is_space) (rx_seq (rx_rep (fun c => (c =? 234)%N) 0 1) rx_eol))))))).

(** [re.sub] of a pattern ending in [$]: only the leftmost match can
    occur, since it ends at the end of the text or before a final
    newline. *)
Definition rx_sub_last (a : rx nat) (s : text) : text :=
  match rx_find a s with Some (i, n) => take i s ++ drop (i + n) s | None => s end.

(** The pattern of [_format_label_from_title_line] with [re.match]: the
    quoted title as in [quoted_title_rx], spaces, and the rest of the line
    up to [$] as the group (the tail). *)
Definition title_tail_rx : rx text :=
  rx_seq (rx_class open_quote) (rx_seq (rx_star is_space)
    (rx_seq (rx_plus_lazy (fun c => negb (close_quote c))) (rx_seq (rx_star is_space)
    (rx_seq (rx_class close_quote) (rx_seq (rx_star is_space)
    (rx_group (rx_plus (fun c => negb (c =? 10)%N)) (fun t => rx_seq rx_eol (rx_ret t)))))))).

(** [\bw\b] for a word [w]: the building block of the label rules. *)
Definition rx_word {R} (w : text) : rx R := rx_seq rx_wb (rx_seq (rx_lit w) rx_wb).

Definition any_but_newline (c : char) : bool := negb (c =? 10)%N.
Definition space_or_dash (c : char) : bool := is_space c || (c =? 45)%N.

(** [\bseason\s+(\d{1,2})\b] and [\bS(\d{1,2})\b], both under [re.I]. *)
Definition season_rx : rx text :=
  rx_seq rx_wb (rx_seq (rx_lit_ci (u "season")) (rx_seq (rx_plus is_space)
    (rx_group (rx_rep is_digit 1 2) (fun n => rx_seq rx_wb (rx_ret n))))).
Definition s_season_rx : rx text :=
  rx_seq rx_wb (rx_seq (rx_lit_ci (u "S"))
    (rx_group (rx_rep is_digit 1 2) (fun n => rx_seq rx_wb (rx_ret n)))).

(** The rules of the decision table, in order, each with its label. *)
Definition format_rules : list (rx unit * text) :=
  [(rx_seq (rx_word (u "limited")) (rx_seq (rx_star any_but_newline) (rx_word (u "series"))),
      u "Limited Series");
   (rx_seq rx_wb (rx_seq (rx_lit (u "mini")) (rx_seq (rx_rep space_or_dash 0 1)
      (rx_seq (rx_lit (u "series")) rx_wb))), u "Mini-Series");
   (rx_word (u "anthology"), u "Anthology Series");
   (rx_seq rx_wb (rx_seq (rx_alt
      (rx_seq (rx_lit (u "docu")) (rx_seq (rx_rep space_or_dash 0 1) (rx_lit (u "series"))))
      (rx_seq (rx_lit (u "documentary")) (rx_seq (rx_plus is_space) (rx_lit (u "series"))))) rx_wb),
      u "Docuseries");
   (rx_alt (rx_word (u "telefilm"))
           (rx_seq rx_wb (rx_seq (rx_lit (u "tv")) (rx_seq (rx_star is_space)
              (rx_seq (rx_lit (u "movie")) rx_wb)))), u "Telefilm");
   (rx_word (u "pilot"), u "Pilot");
   (rx_seq (rx_word (u "animated")) (rx_seq (rx_star any_but_newline) (rx_word (u "series"))),
      u "Animated Series");
   (rx_seq rx_wb (rx_seq (rx_lit (u "live")) (rx_seq (rx_rep space_or_dash 0 1)
      (rx_seq (rx_lit (u "action")) (rx_seq rx_wb (rx_seq (rx_star any_but_newline)
      (rx_word (u "series"))))))), u "Live-Action Series");
   (rx_seq rx_wb (rx_seq (rx_lit (u "feature"))
      (rx_seq (rx_opt (rx_seq (rx_plus is_space) (rx_lit (u "film")))) rx_wb)), u "Feature Film");
   (rx_word (u "series"), u "Series")].

(** The first rule that matches, else the empty label. *)
Definition format_label_of (before_slash : text) : text :=
  default [] (snd <$> List.find (fun '(r, _) => rx_test r before_slash) format_rules).

Definition _format_label_from_title_line (line : text) : text :=
  let s := rx_sub_last date_tag_rx (drop_title_prefix (py_strip line)) in
  match default [] (rx_match title_tail_rx (fun _ => None) s) with
  | [] => []
  | tail =>
      let before_slash := py_lower (py_strip (first_piece 47 tail)) in
      let season := match rx_search season_rx (fun _ => None) before_slash with
                    | Some (_, n) => u "Season " ++ n
                    | None => match rx_search s_season_rx (fun _ => None) before_slash with
                              | Some (_, n) => u "Season " ++ n
                              | None => []
                              end
                    end in
      let label := format_label_of before_slash in
      if bool_decide (label = u "Series") && negb (bool_decide (season = [])) then
        label ++ u " (" ++ season ++ u ")"
      else label
  end.

End Extract.

(** The studios as a set comprehension over the map and the lines, with
    no order: the reference [_extract_studio_name] is compared with. *)
Definition studio_reference `{UnicodeDB} (lines : list text) : list text :=
  remove_dups (map snd (List.filter (fun kn => existsb (fun ln => py_contains kn.1 (py_lower ln)) lines)
                          STUDIO_MAP)).

(** ** Start month *)

Section StartMonthProps.
Context `{UnicodeDB}.

(** The month-and-year pattern finds nothing in the empty text. *)
Lemma month_year_rx_nil : rx_search month_year_rx (fun _ => None) [] = None.
Proof. reflexivity. Qed.

(** [C25] [_start_month_from_status] raises [IndexError] exactly on a
    non-empty status made of white space: every other status gives a
    start month (possibly empty). *)
Theorem start_month_from_status_raises s :
  _start_month_from_status s = None <-> s <> [] /\ Forall (fun c => is_space c = true) s.
Proof.
  unfold _start_month_from_status. destruct s as [|c s']; [split; [done|by intros [? _]]|].
  destruct (decide (py_strip (c :: s') = [])) as [E|E].
  - rewrite E, month_year_rx_nil. simpl. split; [|done]. intros _. split; [done|].
    by apply py_strip_nil.
  - assert (Hn : ~ Forall (fun c => is_space c = true) (c :: s')) by by rewrite <- py_strip_nil.
    destruct (rx_search _ _ _) as [[? [? ?]]|]; [split; [done|by intros []]|].
    destruct (py_split_ws (py_strip (c :: s'))) eqn:Es; [|split; [done|by intros []]].
    apply split_ws_aux_nil in Es as [_ Hs]. exfalso. apply Hn, py_strip_blank, Hs.
Qed.

End StartMonthProps.

(** ** Exclusion and studios *)

Section ExtractProps.
Context `{UnicodeDB}.
#[local] Arguments py_startswith : simpl never.

Lemma is_excluded_app pre m post k :
  k ∈ EXCLUDE_KEYWORDS -> py_lower m = k -> is_excluded (pre ++ m ++ post) = true.
Proof.
  intros Hk Hm. unfold is_excluded. apply existsb_exists. exists k.
  split; [by apply list_elem_of_In|]. rewrite !py_lower_app, Hm. apply py_contains_app.
Qed.

(** Exclusion (spec, section 8): a block with the word Hallmark
    anywhere, in any letter case, is excluded. *)
Theorem is_excluded_hallmark pre m post :
  py_lower m = u "hallmark" -> is_excluded (pre ++ m ++ post) = true.
Proof. apply (is_excluded_app _ _ _ (u "hallmark")). by right; left. Qed.

(** Finding: the keyword [gaf] of Great American Family is tested as a
    substring, so any block mentioning a gaffer is excluded. *)
Theorem is_excluded_gaffer pre post : is_excluded (pre ++ u "gaffer" ++ post) = true.
Proof.
  change (u "gaffer") with (u "gaf" ++ u "fer"). rewrite <- app_assoc.
  apply (is_excluded_app _ _ _ (u "gaf")); [by right; right; left|].
  rewrite py_lower_ascii_text; [done|]. by apply ascii_textb_spec.
Qed.

Lemma studio_set_spec lines :
  NoDup (studio_set lines) /\
  forall x, x ∈ studio_set lines <->
            exists ln kn, ln ∈ lines /\ kn ∈ STUDIO_MAP /\ py_contains kn.1 (py_lower ln) = true /\ x = kn.2.
Proof.
  set (p := fun t : text * (text * text) => py_contains t.2.1 (py_lower t.1)).
  set (h := fun t : text * (text * text) => t.2.2).
  assert (Hs : studio_set lines = fold_left (fun acc t => if p t then set_add (h t) acc else acc)
                 (flat_map (fun ln => map (pair ln) STUDIO_MAP) lines) []).
  { rewrite <- fold_left_nested. reflexivity. }
  rewrite Hs. destruct (fold_set_add_spec p h (flat_map (fun ln => map (pair ln) STUDIO_MAP) lines) []
                          (NoDup_nil_2)) as [Hnd Hx].
  split; [done|]. intros x. rewrite Hx. split.
  - intros [?%elem_of_nil|([ln kn] & Ht & Hp & ->)]; [done|].
    apply list_elem_of_In, in_flat_map in Ht as (ln' & Hln & Hm).
    apply in_map_iff in Hm as (kn' & [= -> ->] & Hkn).
    exists ln, kn. rewrite !list_elem_of_In. auto.
  - intros (ln & kn & Hln & Hkn & Hp & ->). right. exists (ln, kn). split; [|done].
    rewrite list_elem_of_In, in_flat_map. exists ln. rewrite <- list_elem_of_In.
    split; [done|]. apply in_map, list_elem_of_In, Hkn.
Qed.

(** [C33] [_extract_studio_name] reports every studio of the map whose
    keyword occurs in a line, each once, sorted: it equals the
    order-free set comprehension. *)
Theorem extract_studio_name_order_free lines :
  _extract_studio_name lines = py_join (u " | ") (py_sorted (studio_reference lines)).
Proof.
  unfold _extract_studio_name, studio_reference. f_equal. apply py_sorted_perm.
  destruct (studio_set_spec lines) as [Hnd Hx].
  apply NoDup_Permutation; [done|apply NoDup_remove_dups|]. intros x.
  rewrite Hx, elem_of_remove_dups, list_elem_of_In, in_map_iff. setoid_rewrite List.filter_In.
  setoid_rewrite existsb_exists. split.
  - intros (ln & kn & Hln & Hkn & Hp & ->). exists kn. rewrite <- list_elem_of_In.
    split; [done|]. split; [done|]. exists ln. rewrite <- list_elem_of_In. done.
  - intros (kn & <- & Hkn & ln & Hln & Hp). exists ln, kn. rewrite !list_elem_of_In. done.
Qed.

Lemma pretty_aliases_spec seen found :
  NoDup (map (fun p => (p.1, py_lower p.2)) (pretty_aliases seen found)) /\
  Forall (fun p => ((p.1, py_lower p.2) ∉ seen) /\ p.2 <> [] /\ (p.1 = u "AKA" \/ p.1 = u "W/T"))
    (pretty_aliases seen found).
Proof.
  revert seen. induction found as [|[label alias] found IH]; intros seen; [split; constructor|].
  cbn [pretty_aliases]. cbv zeta.
  destruct (bool_decide (_ = []) || bool_decide (_ ∈ seen)) eqn:Ec; [apply IH|].
  apply orb_false_iff in Ec as [Hne Hs]. apply bool_decide_eq_false in Hne, Hs.
  match goal with |- context [pretty_aliases (?k :: seen) found] =>
    destruct (IH (k :: seen)) as [Hnd Hall] end.
  rewrite Forall_forall in Hall. split.
  - cbn [map]. constructor; [|done]. intros Hin.
    apply list_elem_of_In, in_map_iff in Hin as (p & Hp & Hin). apply list_elem_of_In, Hall in Hin.
    destruct Hin as [Hn _]. apply Hn. rewrite Hp. by left.
  - constructor.
    + split_and!; [done|done|]. destruct (py_startswith _ _); auto.
    + apply Forall_forall. intros p Hin. destruct (Hall p Hin) as (Hn & ? & ?).
      split_and!; [|done|done]. intros Hin'. apply Hn. by right.
Qed.

(** [C39] Alternative titles (spec, section 4.2): the entries
    [_extract_alt_titles] keeps are labelled AKA or W/T, non-empty, and
    de-duplicated case-insensitively: no two have the same tag and the
    same lower-cased alias. *)
Theorem alt_titles_dedup t :
  NoDup (map (fun p => (p.1, py_lower p.2)) (pretty_aliases [] (alias_matches t))) /\
  Forall (fun p => p.2 <> [] /\ (p.1 = u "AKA" \/ p.1 = u "W/T")) (pretty_aliases [] (alias_matches t)).
Proof.
  destruct (pretty_aliases_spec [] (alias_matches t)) as [Hnd Hall]. split; [done|].
  eapply Forall_impl; [apply Hall|]. intros p (_ & ? & ?). done.
Qed.

End ExtractProps.

(** ** Concrete scans at the Latin-1 database *)

Section ExtractExamples.
#[local] Existing Instance latin1_db.

(** Finding: the status scan keeps the last STATUS line seen before a
    location is found (the spec says the first match wins), and on the
    combined line it cuts the original line at the position of LOCATION
    in the upper-cased line, which is further right when a letter such
    as [ß] upper-cases to two letters. *)
Theorem status_scan_findings :
  _status_and_location_from_lines [u "STATUS: Prep"; u "STATUS: Shooting"; u "LOCATION: Vancouver, BC"]
    = (u "Shooting", u "Vancouver, BC") /\
  _status_and_location_from_lines [u "STATUS: Straße LOCATION: Berlin"] = (u "Straße L", u "Berlin").
Proof. split; vm_compute; reflexivity. Qed.

End ExtractExamples.

Lemma is_excluded_hallmark_witness :
  @is_excluded latin1_db (u "“Holiday Inn” Feature Film, a " ++ u "HALLMARK" ++ u " original") = true.
Proof. apply is_excluded_hallmark. vm_compute. reflexivity. Defined.
