(* ===== verification/Region.v ===== *)
(** * Region: state, province and country tables, and the reporting bucket

    Models, from [src/Scripts/Production_Weekly_Extractor.py]:
    - the tables [US_STATES], [CA_PROV], [FULL_STATE], [FULL_PROV],
      [AU_STATES], [FULL_AU_STATE] (lines 1225-1253), [COUNTRY_ALIASES]
      and [EU_COUNTRIES] (lines 1340-1361): Python sets are lists with a
      membership test, dict literals are association lists in which, as in
      Python, the last binding of a key wins;
    - [_as_country] and [_looks_like_region_token] (lines 1389-1403);
    - [region_bucket] (lines 1622-1664).

    The theorems: the bucket table of the spec, that only the first
    component of a multi-location triple counts, that a country is
    inferred from a bare state or province code, that every result is one
    of the eight bucket names, that on ASCII input the result does not
    depend on the Unicode database, and the two ambiguous codes [NT] and
    [WA]. *)

From S2P Require Import Prelude PyStr.

(** ** Tables *)

Definition US_STATES : list text := set_of
  ["AL";"AK";"AZ";"AR";"CA";"CO";"CT";"DE";"DC";"FL";"GA";"HI";"ID";"IL";"IN";"IA";"KS";
   "KY";"LA";"ME";"MD";"MA";"MI";"MN";"MS";"MO";"MT";"NE";"NV";"NH";"NJ";"NM";"NY";"NC";
   "ND";"OH";"OK";"OR";"PA";"RI";"SC";"SD";"TN";"TX";"UT";"VT";"VA";"WA";"WV";"WI";"WY"].

Definition CA_PROV : list text := set_of
  ["AB";"BC";"MB";"NB";"NL";"NS";"NT";"NU";"ON";"PE";"QC";"SK";"YT"].

Definition FULL_STATE : list (text * text) := dict_of
  [("alabama","AL");("alaska","AK");("arizona","AZ");("arkansas","AR");("california","CA");
   ("colorado","CO");("connecticut","CT");("delaware","DE");("district of columbia","DC");
   ("florida","FL");("georgia","GA");("hawaii","HI");("idaho","ID");("illinois","IL");
   ("indiana","IN");("iowa","IA");("kansas","KS");("kentucky","KY");("louisiana","LA");
   ("maine","ME");("maryland","MD");("massachusetts","MA");("michigan","MI");
   ("minnesota","MN");("mississippi","MS");("missouri","MO");("montana","MT");
   ("nebraska","NE");("nevada","NV");("new hampshire","NH");("new jersey","NJ");
   ("new mexico","NM");("new york","NY");("north carolina","NC");("north dakota","ND");
   ("ohio","OH");("oklahoma","OK");("oregon","OR");("pennsylvania","PA");
   ("rhode island","RI");("south carolina","SC");("south dakota","SD");("tennessee","TN");
   ("texas","TX");("utah","UT");("vermont","VT");("virginia","VA");("washington","WA");
   ("west virginia","WV");("wisconsin","WI");("wyoming","WY")].

(** The literal binds [newfoundland and labrador] twice, to the same code. *)
Definition FULL_PROV : list (text * text) := dict_of
  [("alberta","AB");("british columbia","BC");("manitoba","MB");("new brunswick","NB");
   ("newfoundland and labrador","NL");("nova scotia","NS");("northwest territories","NT");
   ("nunavut","NU");("ontario","ON");("prince edward island","PE");("quebec","QC");
   ("saskatchewan","SK");("yukon","YT");("newfoundland","NL");
   ("newfoundland and labrador","NL")].

Definition AU_STATES : list text := set_of ["NSW";"VIC";"QLD";"WA";"SA";"TAS";"ACT";"NT"].

Definition FULL_AU_STATE : list (text * text) := dict_of
  [("new south wales","NSW");("victoria","VIC");("queensland","QLD");
   ("western australia","WA");("south australia","SA");("tasmania","TAS");
   ("australian capital territory","ACT");("northern territory","NT")].

Definition COUNTRY_ALIASES : list (text * text) := dict_of
  [("usa","USA");("u.s.a.","USA");("u.s.","USA");("us","USA");("united states","USA");
   ("united states of america","USA");("america","USA");
   ("canada","Canada");("can.","Canada");("can","Canada");
   ("united kingdom","United Kingdom");("u.k.","United Kingdom");("uk","United Kingdom");
   ("england","United Kingdom");("scotland","United Kingdom");("wales","United Kingdom");
   ("northern ireland","United Kingdom");
   ("australia","Australia");("aus","Australia");
   ("new zealand","New Zealand");("nz","New Zealand");
   ("ireland","Ireland");("hungary","Hungary");("poland","Poland");
   ("czech republic","Czech Republic");("czechia","Czech Republic");
   ("france","France");("germany","Germany");("spain","Spain");("italy","Italy");
   ("portugal","Portugal");("thailand","Thailand");("egypt","Egypt");("japan","Japan");
   ("korea","South Korea");("south korea","South Korea")].

Definition EU_COUNTRIES : list text := set_of
  ["United Kingdom";"Ireland";"France";"Germany";"Spain";"Italy";"Netherlands";"Belgium";
   "Austria";"Switzerland";"Czech Republic";"Poland";"Romania";"Bulgaria";"Denmark";
   "Sweden";"Norway";"Finland";"Iceland";"Portugal";"Greece";"Slovakia";"Slovenia";
   "Croatia";"Lithuania";"Latvia";"Estonia";"Luxembourg";"Malta";"Hungary";"Serbia"].

(** The eight names [region_bucket] returns. *)
Definition BUCKETS : list text := set_of
  ["West Coast Canada";"Quebec";"East Coast Canada";"United States";"Ireland/Hungary";
   "Australia/New Zealand";"Europe/Other";"Other"].

Section Region.
Context `{UnicodeDB}.

(** [_as_country(token)]: [COUNTRY_ALIASES.get(token.strip().lower(), "")]. *)
Definition _as_country (token : text) : text :=
  default [] (dict_get (py_lower (py_strip token)) COUNTRY_ALIASES).

(** [_looks_like_region_token(token)]: abbreviations first (US, Canada,
    Australia), then full names; [("", "")] when nothing matches. *)
Definition _looks_like_region_token (token : text) : text * text :=
  match token with
  | [] => ([], [])
  | _ =>
      let up := py_upper (py_strip token) in
      let lo := py_lower (py_strip token) in
      if mem up US_STATES then (up, u "USA")
      else if mem up CA_PROV then (up, u "Canada")
      else if mem up AU_STATES then (up, u "Australia")
      else match dict_get lo FULL_STATE with
           | Some a => (a, u "USA")
           | None =>
               match dict_get lo FULL_PROV with
               | Some a => (a, u "Canada")
               | None =>
                   match dict_get lo FULL_AU_STATE with
                   | Some a => (a, u "Australia")
                   | None => ([], [])
                   end
               end
           end
  end.

(** [first_region] and [first_country] of [region_bucket]: the part before
    the first ['+'], stripped (and upper-cased for the region).  The
    [first_city] the code computes is not used. *)
Definition first_region (region : text) : text :=
  py_upper (py_strip (first_piece 43 region)).
Definition first_country (country : text) : text := py_strip (first_piece 43 country).

(** The country [region_bucket] infers from a region code when the
    country is blank. *)
Definition infer_country (fr : text) : text :=
  if mem fr US_STATES || has_key (py_lower fr) FULL_STATE then u "USA"
  else if mem fr CA_PROV || has_key (py_lower fr) FULL_PROV then u "Canada"
  else if mem fr AU_STATES || has_key (py_lower fr) FULL_AU_STATE then u "Australia"
  else [].

(** [ctry = _as_country(first_country.lower()) or first_country]. *)
Definition norm_country (country : text) : text :=
  let fc := first_country country in
  match _as_country (py_lower fc) with [] => fc | c => c end.

(** The country after inference: [if not ctry and first_region: ...]. *)
Definition resolve_country (region country : text) : text :=
  let fr := first_region region in
  let ctry := norm_country country in
  match ctry, fr with [], _ :: _ => infer_country fr | _, _ => ctry end.

(** The decision on the resolved country and the first region. *)
Definition bucket_of (ctry fr : text) : text :=
  if bool_decide (ctry = u "Canada") then
    if bool_decide (fr = u "BC") then u "West Coast Canada"
    else if bool_decide (fr = u "QC") then u "Quebec"
    else u "East Coast Canada"
  else if mem ctry (set_of ["USA"; "United States"]) then u "United States"
  else if mem ctry (set_of ["Ireland"; "Hungary"]) then u "Ireland/Hungary"
  else if mem ctry (set_of ["Australia"; "New Zealand"]) then u "Australia/New Zealand"
  else if mem ctry EU_COUNTRIES then u "Europe/Other"
  else u "Other".

Definition region_bucket (city region country : text) : text :=
  bucket_of (resolve_country region country) (first_region region).

End Region.

(** ** ASCII input: the Unicode database does not matter *)

Lemma ascii_first_country k : ascii_text k -> ascii_text (first_country k).
Proof. intros Hk. unfold first_country. auto with pw. Qed.

Lemma ascii_first_region `{UnicodeDB} r : ascii_text r -> ascii_text (first_region r).
Proof. intros Hr. unfold first_region. auto with pw. Qed.

#[export] Hint Resolve ascii_first_country ascii_first_region : pw.

(** [witness_ascii] proves [ascii_text] of a literal. *)
Ltac witness_ascii := apply ascii_textb_spec; reflexivity.

Section DBIndependence.
Variable db : UnicodeDB.

Lemma first_region_db r : ascii_text r -> @first_region db r = @first_region latin1_db r.
Proof. intros Hr. unfold first_region. rewrite !py_upper_ascii_text by auto with pw. done. Qed.

Lemma norm_country_db k : ascii_text k -> @norm_country db k = @norm_country latin1_db k.
Proof.
  intros Hk. unfold norm_country, _as_country.
  rewrite !py_lower_ascii_text by auto with pw. done.
Qed.

Lemma infer_country_db fr : ascii_text fr -> @infer_country db fr = @infer_country latin1_db fr.
Proof. intros Hfr. unfold infer_country. rewrite !py_lower_ascii_text by auto with pw. done. Qed.

Lemma resolve_country_db r k :
  ascii_text r -> ascii_text k -> @resolve_country db r k = @resolve_country latin1_db r k.
Proof.
  intros Hr Hk. unfold resolve_country.
  rewrite norm_country_db, first_region_db, infer_country_db by auto with pw. done.
Qed.

Lemma looks_like_region_token_db t :
  ascii_text t -> @_looks_like_region_token db t = @_looks_like_region_token latin1_db t.
Proof.
  intros Ht. unfold _looks_like_region_token. destruct t as [|c t]; [done|].
  rewrite !py_upper_ascii_text, !py_lower_ascii_text by auto with pw. done.
Qed.

(** On ASCII region and country text, [region_bucket] computes the same
    bucket whatever the Unicode database behind [str.upper] and
    [str.lower]: the bucket of such a triple is fixed by the tables. *)
Lemma region_bucket_db city r k :
  ascii_text r -> ascii_text k ->
  @region_bucket db city r k = @region_bucket latin1_db city r k.
Proof.
  intros Hr Hk. unfold region_bucket. by rewrite resolve_country_db, first_region_db.
Qed.

End DBIndependence.

(** ** The buckets *)

Section Buckets.
Context `{UnicodeDB}.

Lemma resolve_country_filled r k : norm_country k <> [] -> resolve_country r k = norm_country k.
Proof. unfold resolve_country. by destruct (norm_country k). Qed.

Lemma norm_country_canada : norm_country (u "Canada") = u "Canada".
Proof. rewrite norm_country_db by witness_ascii. reflexivity. Qed.

Lemma norm_country_usa : norm_country (u "USA") = u "USA".
Proof. rewrite norm_country_db by witness_ascii. reflexivity. Qed.

Lemma region_bucket_canada city r :
  region_bucket city r (u "Canada") = bucket_of (u "Canada") (first_region r).
Proof.
  unfold region_bucket. rewrite resolve_country_filled; rewrite norm_country_canada; done.
Qed.

Lemma CA_PROV_ascii p : p ∈ CA_PROV -> ascii_text p.
Proof.
  intros Hp. assert (Hall : forallb ascii_textb CA_PROV = true) by reflexivity.
  rewrite forallb_forall in Hall. apply ascii_textb_spec, Hall. by apply list_elem_of_In.
Qed.

Lemma CA_PROV_not_full_state p :
  p ∈ CA_PROV -> has_key (py_lower p) FULL_STATE = false.
Proof.
  intros Hp. rewrite py_lower_ascii_text by (by apply CA_PROV_ascii).
  assert (Hall : forallb (fun p => negb (has_key (map ascii_lower p) FULL_STATE)) CA_PROV = true)
    by reflexivity.
  rewrite forallb_forall in Hall. apply negb_true, Hall. by apply list_elem_of_In.
Qed.

(** [C11] The bucket table of the spec: region [BC] of Canada is
    [West Coast Canada], [QC] is [Quebec], any other Canadian region is
    [East Coast Canada], and a location in the USA is [United States],
    whatever the city. *)
Theorem region_bucket_spec_table city r :
  region_bucket city (u "BC") (u "Canada") = u "West Coast Canada" /\
  region_bucket city (u "QC") (u "Canada") = u "Quebec" /\
  (first_region r <> u "BC" -> first_region r <> u "QC" ->
   region_bucket city r (u "Canada") = u "East Coast Canada") /\
  region_bucket city r (u "USA") = u "United States".
Proof.
  rewrite !region_bucket_canada, (first_region_db _ (u "BC")), (first_region_db _ (u "QC"))
    by witness_ascii.
  split; [reflexivity|]. split; [reflexivity|]. split.
  - intros Hbc Hqc. unfold bucket_of. rewrite bool_decide_true by done.
    by rewrite !bool_decide_false by done.
  - unfold region_bucket. rewrite resolve_country_filled; rewrite norm_country_usa; done.
Qed.

(** Only the first component of a multi-location triple counts: text
    after the first ['+'] of the region or of the country does not change
    the bucket. *)
Theorem region_bucket_first_component city r1 r2 k1 k2 :
  (43%N ∉ r1) -> (43%N ∉ k1) ->
  region_bucket city (r1 ++ 43%N :: r2) (k1 ++ 43%N :: k2) = region_bucket city r1 k1.
Proof.
  intros Hr Hk. unfold region_bucket, resolve_country, norm_country, first_region, first_country.
  rewrite !first_piece_app by done. by rewrite !first_piece_id by done.
Qed.

(** A bare Canadian province code that is not also a US state code is
    bucketed as if the country were given as Canada. *)
Theorem region_bucket_infers_canada city r :
  mem (first_region r) CA_PROV = true -> mem (first_region r) US_STATES = false ->
  region_bucket city r [] = region_bucket city r (u "Canada").
Proof.
  intros Hca Hus. rewrite region_bucket_canada. unfold region_bucket, resolve_country.
  change (norm_country []) with (@nil N).
  assert (Hinf : infer_country (first_region r) = u "Canada").
  { unfold infer_country. rewrite Hus, Hca, CA_PROV_not_full_state; [done|].
    by apply bool_decide_eq_true in Hca. }
  destruct (first_region r) as [|c fr] eqn:E; [done|]. by rewrite Hinf.
Qed.

(** Every bucket is one of the eight reporting buckets. *)
Theorem region_bucket_in_BUCKETS city r k : region_bucket city r k ∈ BUCKETS.
Proof.
  unfold region_bucket, bucket_of. repeat case_if; apply list_elem_of_In; vm_compute; tauto.
Qed.

(** Finding: the codes [NT] and [WA] are both a Canadian or US code
    and an Australian one.  With no country, [NT] is bucketed in Canada
    and [WA] in the United States, while [_looks_like_region_token] maps
    the full names of the Northern Territory and of Western Australia to
    exactly these codes, with Australia as the country: a triple that
    keeps the code and loses the country changes bucket. *)
Theorem region_bucket_ambiguous_codes city :
  region_bucket city (u "NT") [] = u "East Coast Canada" /\
  region_bucket city (u "WA") [] = u "United States" /\
  _looks_like_region_token (u "Northern Territory") = (u "NT", u "Australia") /\
  _looks_like_region_token (u "Western Australia") = (u "WA", u "Australia") /\
  region_bucket city (u "WA") (u "Australia") = u "Australia/New Zealand".
Proof.
  rewrite (region_bucket_db _ _ (u "NT")), (region_bucket_db _ _ (u "WA")),
    (region_bucket_db _ _ (u "WA") (u "Australia")),
    (looks_like_region_token_db _ (u "Northern Territory")),
    (looks_like_region_token_db _ (u "Western Australia")) by witness_ascii.
  repeat split; reflexivity.
Qed.

End Buckets.

(** ** Witnesses on the Latin-1 database *)

Lemma region_bucket_spec_table_witness :
  first_region (u "ON") <> u "BC" /\ first_region (u "ON") <> u "QC" /\
  region_bucket (u "Toronto") (u "ON") (u "Canada") = u "East Coast Canada".
Proof.
  destruct (region_bucket_spec_table (u "Toronto") (u "ON")) as (_ & _ & W & _).
  assert (Hbc : first_region (u "ON") <> u "BC") by (vm_compute; congruence).
  assert (Hqc : first_region (u "ON") <> u "QC") by (vm_compute; congruence).
  exact (conj Hbc (conj Hqc (W Hbc Hqc))).
Defined.

Lemma region_bucket_first_component_witness :
  region_bucket (u "Toronto + Montreal") (u "ON " ++ 43%N :: u " QC")
    (u "Canada " ++ 43%N :: u " Canada") = u "East Coast Canada".
Proof.
  rewrite (region_bucket_first_component (u "Toronto + Montreal") (u "ON ") (u " QC")
             (u "Canada ") (u " Canada")).
  - reflexivity.
  - apply (bool_decide_unpack (43%N ∉ u "ON ")). vm_compute. reflexivity.
  - apply (bool_decide_unpack (43%N ∉ u "Canada ")). vm_compute. reflexivity.
Defined.

Lemma region_bucket_infers_canada_witness :
  region_bucket (u "Moncton") (u "NB") [] = u "East Coast Canada".
Proof.
  rewrite (region_bucket_infers_canada (u "Moncton") (u "NB")); vm_compute; reflexivity.
Defined.
