(* ===== verification/Location.v ===== *)
(** * Location: the LOCATION(S) parser

    Models, from [src/Scripts/Production_Weekly_Extractor.py]:
    - [CITY_TO_REGION_COUNTRY] and [HUB_SUBSTRINGS] (lines 1254-1337),
      [COMMON_FIXES] as the module finally binds it (lines 1364-1373; the
      earlier binding at 1150 is overwritten) and [_fix_common_typos]
      (1378-1383);
    - [_city_state_country_from_location] (lines 1405-1501): the
      normalisation of the raw text, the country fast path, the split into
      several locations, the decision chain for one location (country,
      bare region token, hub patterns, the city dictionary, the comma
      forms, the gazetteer) and the three [" + "]-joined components.

    [world_lookup_city] (lines 1177-1219) searches the geonames table with
    rapidfuzz: it is the section variable [world_lookup_city], and every
    theorem holds for every gazetteer. *)

From S2P Require Import Prelude PyStr Regex Extract Region.

Abbreviation triple := (text * text * text)%type.

Definition CITY_TO_REGION_COUNTRY : list (text * triple) :=
  map (fun '(k, (c, r, n)) => (u k, (u c, u r, u n)))
  [("los angeles", ("Los Angeles","CA","USA")); ("atlanta", ("Atlanta","GA","USA"));
   ("new york", ("New York","NY","USA")); ("new york city", ("New York","NY","USA"));
   ("brooklyn", ("Brooklyn","NY","USA")); ("albuquerque", ("Albuquerque","NM","USA"));
   ("chicago", ("Chicago","IL","USA"));
   ("vancouver", ("Vancouver","BC","Canada")); ("burnaby", ("Burnaby","BC","Canada"));
   ("richmond", ("Richmond","BC","Canada")); ("surrey", ("Surrey","BC","Canada"));
   ("langley", ("Langley","BC","Canada")); ("victoria", ("Victoria","BC","Canada"));
   ("toronto", ("Toronto","ON","Canada")); ("mississauga", ("Mississauga","ON","Canada"));
   ("hamilton", ("Hamilton","ON","Canada")); ("ottawa", ("Ottawa","ON","Canada"));
   ("montreal", ("Montreal","QC","Canada")); ("quebec city", ("Quebec City","QC","Canada"));
   ("calgary", ("Calgary","AB","Canada")); ("edmonton", ("Edmonton","AB","Canada"));
   ("winnipeg", ("Winnipeg","MB","Canada")); ("halifax", ("Halifax","NS","Canada"));
   ("st. johns", ("St. John's","NL","Canada")); ("st johns", ("St. John's","NL","Canada"));
   ("london, england", ("London","England","United Kingdom"));
   ("sydney", ("Sydney","NSW","Australia")); ("melbourne", ("Melbourne","VIC","Australia"));
   ("brisbane", ("Brisbane","QLD","Australia")); ("gold coast", ("Gold Coast","QLD","Australia"));
   ("perth", ("Perth","WA","Australia")); ("adelaide", ("Adelaide","SA","Australia"));
   ("canberra", ("Canberra","ACT","Australia")); ("hobart", ("Hobart","TAS","Australia"));
   ("darwin", ("Darwin","NT","Australia")); ("auckland", ("Auckland","","New Zealand"));
   ("wellington", ("Wellington","","New Zealand")); ("queenstown", ("Queenstown","","New Zealand"));
   ("christchurch", ("Christchurch","","New Zealand"));
   ("bangkok", ("Bangkok","","Thailand")); ("cairo", ("Cairo","","Egypt"));
   ("tokyo", ("Tokyo","","Japan")); ("kyoto", ("Kyoto","","Japan")); ("osaka", ("Osaka","","Japan"));
   ("st. johns", ("St. John's","NL","Canada")); ("st johns", ("St. John's","NL","Canada"));
   ("japan", ("","","Japan"))].

Definition COMMON_FIXES : list (text * text) := dict_of
  [("ontartio","ontario");("los angles","los angeles");("newyork","new york");
   ("united kindom","united kingdom");("united kngdom","united kingdom");("tokoyo","tokyo");
   ("munchen","munich");("prauge","prague")].

Section Location.
Context `{UnicodeDB}.

(** [\bw1\s+w2...\b] under [re.I]: the words of a hub name separated by
    white space. *)
Fixpoint hub_words (ws : list text) : rx unit :=
  match ws with
  | [] => rx_wb
  | [w] => rx_seq (rx_lit_ci w) rx_wb
  | w :: ws' => rx_seq (rx_lit_ci w) (rx_seq (rx_plus is_space) (hub_words ws'))
  end.
Definition hub_rx (ws : list text) : rx unit := rx_seq rx_wb (hub_words ws).

Definition HUB_SUBSTRINGS : list (rx unit * triple) :=
  map (fun '(ws, (c, r, n)) => (hub_rx (map u ws), (u c, u r, u n)))
    [(["los"; "angeles"], ("Los Angeles","CA","USA")); (["new"; "york"], ("New York","NY","USA"));
     (["atlanta"], ("Atlanta","GA","USA")); (["albuquerque"], ("Albuquerque","NM","USA"));
     (["chicago"], ("Chicago","IL","USA"));
     (["vancouver"], ("Vancouver","BC","Canada")); (["richmond"], ("Richmond","BC","Canada"));
     (["burnaby"], ("Burnaby","BC","Canada")); (["surrey"], ("Surrey","BC","Canada"));
     (["langley"], ("Langley","BC","Canada")); (["victoria"], ("Victoria","BC","Canada"));
     (["toronto"], ("Toronto","ON","Canada")); (["mississauga"], ("Mississauga","ON","Canada"));
     (["hamilton"], ("Hamilton","ON","Canada")); (["ottawa"], ("Ottawa","ON","Canada"));
     (["montreal"], ("Montreal","QC","Canada")); (["calgary"], ("Calgary","AB","Canada"));
     (["winnipeg"], ("Winnipeg","MB","Canada")); (["halifax"], ("Halifax","NS","Canada"))]
  ++ [(rx_seq rx_wb (rx_seq (rx_lit_ci (u "london,")) (rx_seq (rx_star is_space)
         (rx_seq (rx_lit_ci (u "england")) rx_wb))), (u "London", u "England", u "United Kingdom"))]
  ++ map (fun '(ws, (c, r, n)) => (hub_rx (map u ws), (u c, u r, u n)))
    [(["sydney"], ("Sydney","NSW","Australia")); (["melbourne"], ("Melbourne","VIC","Australia"))].

Definition _fix_common_typos (s : text) : text :=
  match s with [] => s | _ => default s (dict_get (py_lower (py_strip s)) COMMON_FIXES) end.

(** [re.sub(r"\s+", " ", s)] *)
Definition collapse_ws (s : text) : text := re_sub (run_plus is_space) [32%N] s.

(** The normalisation of the raw text: dashes, apostrophes, the
    parenthesised notes [\s*\([^)]*\)\s*] replaced by a space, white space
    collapsed, stripped. *)
Definition paren_note_rx : rx nat :=
  rx_seq (rx_star is_space) (rx_seq (rx_lit [40%N])
    (rx_seq (rx_star (fun c => negb (c =? 41)%N)) (rx_seq (rx_lit [41%N]) (rx_star is_space)))).

Definition normalize_location (loc : text) : text :=
  let raw := map (fun c => if (c =? 8211)%N || (c =? 8212)%N then 45%N else c) loc in
  let raw := map (fun c => if (c =? 8217)%N || (c =? 8216)%N || (c =? 96)%N then 39%N else c) raw in
  let raw := re_sub (rx_matcher paren_note_rx) [32%N] raw in
  py_strip (collapse_ws raw).

(** The separators [\s*(?:[;/|&]|-\s+|\s+-)\s*] of the split. *)
Definition location_sep_rx : rx nat :=
  rx_seq (rx_star is_space)
    (rx_seq (rx_alts [rx_class (fun c => bool_decide (c ∈ [59; 47; 124; 38]%N));
                      rx_seq (rx_lit [45%N]) (rx_plus is_space);
                      rx_seq (rx_plus is_space) (rx_lit [45%N])])
      (rx_star is_space)).

Definition split_locations (raw : text) : list text :=
  List.filter (fun p => negb (bool_decide (p = []))) (map py_strip (re_split (rx_matcher location_sep_rx) raw)).

Variable world_lookup_city : text -> triple.

(** The comma forms of one location, [None] when it has neither two nor
    three comma-separated pieces. *)
Definition comma_form (p : text) : option triple :=
  match List.filter (fun t => negb (bool_decide (t = []))) (map py_strip (py_split_sep 44 p)) with
  | [city; regtok; ctrytok] =>
      let '(reg_abbr, inf_ctry) := _looks_like_region_token regtok in
      let region := match reg_abbr with [] => regtok | _ => reg_abbr end in
      let ctry := match _as_country (py_lower ctrytok) with
                  | [] => match inf_ctry with [] => ctrytok | _ => inf_ctry end
                  | c => c end in
      Some (_normalize_spaces city, _normalize_spaces region, _normalize_spaces ctry)
  | [city; tail] =>
      let city := _normalize_spaces city in
      let tail := _normalize_spaces tail in
      match _as_country (py_lower tail) with
      | [] => let '(reg_abbr, inf_ctry) := _looks_like_region_token tail in
              match reg_abbr with [] => Some (city, [], []) | _ => Some (city, reg_abbr, inf_ctry) end
      | c => Some (city, [], c)
      end
  | _ => None
  end.

(** The gazetteer fallback: numeric admin codes are dropped. *)
Definition gazetteer_triple (p : text) : triple :=
  let '(c2, r2, k2) := world_lookup_city p in
  match k2 with
  | [] => (_normalize_spaces p, [], [])
  | _ => (_normalize_spaces (match c2 with [] => p | _ => c2 end),
          _normalize_spaces (if py_isdigit r2 then [] else r2), k2)
  end.

(** The body of [for p in parts] on one location. *)
Definition parse_location_part (p0 : text) : triple :=
  let p := py_strip (collapse_ws (_fix_common_typos p0)) in
  let low := py_lower p in
  match _as_country low with
  | (_ :: _) as ctry => ([], [], ctry)
  | [] =>
      let '(reg_abbr, inf_ctry) := _looks_like_region_token p in
      if negb (bool_decide (reg_abbr = [])) && negb (bool_decide (44%N ∈ p)) then ([], reg_abbr, inf_ctry)
      else match List.find (fun h => rx_test h.1 p) HUB_SUBSTRINGS with
           | Some (_, t) => t
           | None =>
               match dict_get low CITY_TO_REGION_COUNTRY with
               | Some t => t
               | None => match comma_form p with Some t => t | None => gazetteer_triple p end
               end
           end
  end.

(** [" + ".join] of the non-empty components. *)
Definition join_plus (xs : list text) : text :=
  py_join (u " + ") (List.filter (fun x => negb (bool_decide (x = []))) xs).

Definition _city_state_country_from_location (loc_val : text) : triple :=
  match loc_val with
  | [] => ([], [], [])
  | _ =>
      let raw := normalize_location loc_val in
      match _as_country (py_lower raw) with
      | (_ :: _) as c => ([], [], c)
      | [] =>
          match split_locations raw with
          | [] => ([], [], [])
          | parts =>
              let parsed := map parse_location_part parts in
              (join_plus (map (fun t => t.1.1) parsed), join_plus (map (fun t => t.1.2) parsed),
               join_plus (map (fun t => t.2) parsed))
          end
      end
  end.

End Location.

(** ** Concrete locations at the Latin-1 database, for every gazetteer *)

Section LocationExamples.
#[local] Existing Instance latin1_db.

(** [Forall P l] on a closed list, by evaluating [P] at each element
    (evaluating [P] under its binder would run the parser on an unknown
    text). *)
Ltac forall_by_compute :=
  apply List.Forall_forall; intros ?x Hx; vm_compute in Hx;
  repeat (destruct Hx as [<-|Hx]; [vm_compute; repeat constructor|]); destruct Hx.

(** Finding: a location naming the US city Richmond, Virginia is
    read as Richmond, British Columbia, and bucketed as West Coast
    Canada: the hub pattern [\brichmond\b] is tried before the comma form,
    whatever the state after the comma. *)
Theorem location_richmond_va gz :
  _city_state_country_from_location gz (u "Richmond, VA") = (u "Richmond", u "BC", u "Canada") /\
  region_bucket (u "Richmond") (u "BC") (u "Canada") = u "West Coast Canada".
Proof. split; vm_compute; reflexivity. Qed.

(** Finding: the bare location Victoria is read as the Australian
    state (VIC) although the hub table and the city dictionary both map
    it to Victoria, British Columbia: the spec has hubs win over
    ambiguous comma-free tokens, and the code tests region tokens first,
    so both entries are dead for this text. *)
Theorem location_victoria gz :
  _city_state_country_from_location gz (u "Victoria") = ([], u "VIC", u "Australia") /\
  dict_get (u "victoria") CITY_TO_REGION_COUNTRY = Some (u "Victoria", u "BC", u "Canada") /\
  region_bucket [] (u "VIC") (u "Australia") = u "Australia/New Zealand".
Proof. split_and!; vm_compute; reflexivity. Qed.

(** [C12] A region code given alone is read as that region, whatever the
    gazetteer: each of the US codes as the state in the USA (and bucketed
    United States), each province code as the province in Canada, and each
    Australian code as the state in Australia except WA and NT, which the
    US and Canadian tables claim first. *)
Theorem location_region_codes gz :
  Forall (fun st => _city_state_country_from_location gz st = ([], st, u "USA") /\
                    region_bucket [] st (u "USA") = u "United States") US_STATES /\
  Forall (fun p => _city_state_country_from_location gz p = ([], p, u "Canada")) CA_PROV /\
  Forall (fun st => _city_state_country_from_location gz st = ([], st, u "Australia"))
    (List.filter (fun st => negb (bool_decide (st ∈ [u "WA"; u "NT"]))) AU_STATES).
Proof. split_and!; forall_by_compute. Qed.

End LocationExamples.
