(* ===== verification/Reconcile.v ===== *)
(** * Run-to-run reconciliation ([compare_cmd])

    Models, from [src/Scripts/Production_Weekly_Extractor.py]:
    - [SCHEMA] (lines 391-414) and [fill_na] (lines 1685-1691);
    - [_changed_fields] (lines 2060-2067);
    - the matching part of [compare_cmd] (lines 2069-2143): the old rows
      get a ['_matched'] flag, each new row is matched greedily against
      the old rows not yet matched with rapidfuzz's [token_set_ratio] on
      the [_norm_text] of the titles, classified by the thresholds 90 and
      50, and the old rows left unmatched are reported Removed;
    - the summary counts (lines 2160-2162).

    A CSV row ([csv.DictReader]) is a [gmap string text]; a missing value
    reads as the blank, as [(row.get(f, "") or "")] does.  The old rows are
    a list of pairs (row, ['_matched'] flag): the flag the code writes into
    the shared row dict is the second component, so setting it for the
    best match is an update by index in this list.  The ['_matched'] key
    that [dict(o_row)] copies into a Removed row is not kept: the CSV
    writer ignores extra keys.  [token_set_ratio] is a section variable
    with rational scores: every theorem holds for every scoring function.
    Python would raise [TypeError] on [best_match_row['_matched'] = True]
    if no old row were selected; the model returns [None] there, and a
    theorem shows it never happens.

    The theorems: the greedy choice is the first unmatched old row of
    maximal score; the run never fails; the thresholds (exactly 90 is not
    a confident match, exactly 50 is a rename); each new row either claims
    a distinct old row or is New, and each old row is claimed or Removed;
    the summary counts; blank and N/A fields compare equal, and
    [_changed_fields] respects [_equiv] field by field (a [Proper]
    instance); the end-to-end scenario of the spec. *)

From Stdlib Require Import QArith_base.
From S2P Require Import Prelude PyStr KeyNorm.

Abbreviation row := (gmap text text).

(** [(row.get(f, "") or "")] *)
Definition rget (r : row) (f : text) : text := default [] (r !! f).

(** ** The schema and the compared fields *)

Definition SCHEMA : list text := set_of
  ["Production Name"; "Format Label"; "Start Month"; "Shooting Dates";
   "Actively in Production"; "If It Was Pushed"; "Computed Production Length";
   "Description"; "City"; "Province/State"; "Country"; "Type"; "Director/Producer";
   "VFX Team"; "Studio Info"; "Production Office"; "Production Phone";
   "Production Email"; "Production Company"; "Notes"; "Category"; "All Locations"].

(** The [fields] of [_changed_fields]. *)
Definition FIELDS : list text := set_of
  ["Production Name"; "Shooting Dates"; "Start Month"; "City"; "Province/State"; "Country";
   "Type"; "Format Label"; "Director/Producer"; "All Locations";
   "Production Office"; "Production Company"].

(** [score > best] on rapidfuzz's float scores. *)
Definition Qltb (a b : Q) : bool := negb (Qle_bool b a).

Section Compare.
Context `{UnicodeDB}.
Variable token_set_ratio : text -> text -> Q.

(** [fill_na(row)]: every field of [SCHEMA] that is missing or blank after
    [strip()] becomes ["N/A"]. *)
Definition fill_na (r : row) : row :=
  fold_left (fun out k =>
    if bool_decide (py_strip (rget out k) = []) then <[k := u "N/A"]> out else out) SCHEMA r.

Definition _changed_fields (old new : row) : list text :=
  List.filter (fun f => negb (_equiv (rget old f) (rget new f))) FIELDS.

(** ** The greedy search *)

(** The inner loop over the old rows: [i] is the index of the head of
    [os], [best] is [(best_match_row, best_score)]; matched rows are
    skipped and a row replaces the best only on a strictly higher score. *)
Fixpoint best_from (nt : text) (i : nat) (os : list (row * bool)) (best : option nat * Q)
    : option nat * Q :=
  match os with
  | [] => best
  | (o, m) :: os' =>
      let best' :=
        if m then best
        else let score := token_set_ratio nt (_norm_text (rget o (u "Production Name"))) in
             if Qltb best.2 score then (Some i, score) else best in
      best_from nt (S i) os' best'
  end.

Definition best_match (n : row) (os : list (row * bool)) : option nat * Q :=
  best_from (_norm_text (rget n (u "Production Name"))) 0 os (None, 0%Q).

(** ** Output rows *)

Definition with_cat (r : row) (cat note : text) : row :=
  <[u "Notes" := note]> (<[u "Category" := cat]> r).

(** [f"UPDATED ({', '.join(diffs)})"] *)
Definition updated_note (diffs : list text) : text :=
  u "UPDATED (" ++ py_join (u ", ") diffs ++ u ")".

(** [f"UPDATED (Name changed from '{old_name}' to '{new_name}')"] *)
Definition rename_note (old_name new_name : text) : text :=
  u "UPDATED (Name changed from '" ++ old_name ++ u "' to '" ++ new_name ++ u "')".

Definition new_note (label : text) : text := u "NEW – from " ++ label.
Definition removed_note (label : text) : text := u "REMOVED – from " ++ label.

(** [best_match_row['_matched'] = True] *)
Definition claim (i : nat) (os : list (row * bool)) : list (row * bool) :=
  alter (fun p => (p.1, true)) i os.

(** ** One new row *)

Record cstate := {
  c_olds : list (row * bool);
  c_out : list row;
  c_updated : nat
}.

(** The body of [for n_row in new_rows]; [None] is the [TypeError] of
    subscripting [best_match_row] when it is [None]. *)
Definition compare_step (new_label : text) (st : cstate) (n : row) : option cstate :=
  let '(bi, score) := best_match n (c_olds st) in
  if Qltb 90 score then
    i ← bi; '(o, _) ← c_olds st !! i;
    let os := claim i (c_olds st) in
    let diffs := _changed_fields o n in
    Some (match diffs with
          | [] => {| c_olds := os; c_out := c_out st; c_updated := c_updated st |}
          | _ => {| c_olds := os;
                    c_out := c_out st ++ [fill_na (with_cat n (u "Updated") (updated_note diffs))];
                    c_updated := S (c_updated st) |}
          end)
  else if Qle_bool 50 score && Qle_bool score 90 then
    i ← bi; '(o, _) ← c_olds st !! i;
    let note := rename_note (rget o (u "Production Name")) (rget n (u "Production Name")) in
    Some {| c_olds := claim i (c_olds st);
            c_out := c_out st ++ [fill_na (with_cat n (u "Updated") note)];
            c_updated := S (c_updated st) |}
  else
    Some {| c_olds := c_olds st;
            c_out := c_out st ++ [fill_na (with_cat n (u "New") (new_note new_label))];
            c_updated := c_updated st |}.

Fixpoint compare_loop (new_label : text) (st : cstate) (ns : list row) : option cstate :=
  match ns with
  | [] => Some st
  | n :: ns' => st' ← compare_step new_label st n; compare_loop new_label st' ns'
  end.

(** [for o_row in old_rows: if not o_row.get('_matched'): ...] *)
Definition removed_rows (old_label : text) (os : list (row * bool)) : list row :=
  map (fun p => fill_na (with_cat p.1 (u "Removed") (removed_note old_label)))
    (List.filter (fun p => negb p.2) os).

(** The rows [compare_cmd] writes and its [updated_count]. *)
Definition compare_cmd (old_rows new_rows : list row) (old_label new_label : text)
    : option (list row * nat) :=
  st ← compare_loop new_label
         {| c_olds := map (fun o => (o, false)) old_rows; c_out := []; c_updated := 0 |}
         new_rows;
  Some (c_out st ++ removed_rows old_label (c_olds st), c_updated st).

(** [sum(1 for r in out_rows if r.get("Category") == cat)] *)
Definition count_cat (cat : text) (rows : list row) : nat :=
  length (List.filter (fun r => bool_decide (r !! u "Category" = Some cat)) rows).

(** The number of old rows whose ['_matched'] flag is set. *)
Definition num_true (os : list (row * bool)) : nat := length (List.filter snd os).

(** Rows with the same compared fields up to [_equiv]. *)
(** A row written by the loop over the new rows. *)
Definition updated_or_new (r : row) : Prop :=
  r !! u "Category" = Some (u "Updated") \/ r !! u "Category" = Some (u "New").

Definition row_equiv (a b : row) : Prop :=
  Forall (fun f => _equiv (rget a f) (rget b f) = true) FIELDS.

End Compare.

(** ** Rational scores *)

Lemma Qltb_true a b : Qltb a b = true <-> (a < b)%Q.
Proof.
  unfold Qltb. rewrite negb_true, <- Bool.not_true_iff_false, Qle_bool_iff.
  split; [apply Qnot_le_lt | apply Qlt_not_le].
Qed.

Lemma Qltb_false a b : Qltb a b = false <-> (b <= a)%Q.
Proof. unfold Qltb. rewrite Bool.negb_false_iff, Qle_bool_iff. done. Qed.

Section GreedyProps.
Context `{UnicodeDB}.
Variable token_set_ratio : text -> text -> Q.

Local Abbreviation sc nt o := (token_set_ratio nt (_norm_text (rget o (u "Production Name")))).
Local Abbreviation best_from := (best_from token_set_ratio).
Local Abbreviation best_match := (best_match token_set_ratio).

(** One step of the inner loop: the new best is at least the old one and
    at least the score of the row when it is unmatched; it is either the
    old best or this row with a strictly higher score. *)
Lemma best_step (nt : text) (i : nat) (o : row) (m : bool) (b : option nat) (s : Q) :
  exists (b1 : option nat) (s1 : Q),
    (if m then (b, s) else if Qltb s (sc nt o) then (Some i, sc nt o) else (b, s)) = (b1, s1) /\
    (s <= s1)%Q /\ (m = false -> (sc nt o <= s1)%Q) /\
    ((b1 = b /\ s1 = s) \/ (b1 = Some i /\ s1 = sc nt o /\ m = false /\ (s < s1)%Q)).
Proof.
  destruct m; [exists b, s; split_and!; try done; [apply Qle_refl | by left]|].
  destruct (Qltb s (sc nt o)) eqn:E.
  - apply Qltb_true in E. exists (Some i), (sc nt o).
    split_and!; try done; [by apply Qlt_le_weak | intros _; apply Qle_refl | by right].
  - apply Qltb_false in E. exists b, s. split_and!; try done; [apply Qle_refl | by left].
Qed.

(** The invariant of the inner loop, by induction on the old rows. *)
Lemma best_from_spec nt i os b s b' s' :
  best_from nt i os (b, s) = (b', s') ->
  (s <= s')%Q /\
  (forall k o, os !! k = Some (o, false) -> (sc nt o <= s')%Q) /\
  ((b' = b /\ s' = s) \/
   exists j o, b' = Some (i + j) /\ os !! j = Some (o, false) /\ s' = sc nt o /\ (s < s')%Q /\
     forall k o', k < j -> os !! k = Some (o', false) -> (sc nt o' < s')%Q).
Proof.
  revert i b s. induction os as [|[o m] os IH]; intros i b s E; simpl in E.
  - injection E as <- <-. split_and!; [apply Qle_refl | by intros | by left].
  - destruct (best_step nt i o m b s) as (b1 & s1 & Eb & Hs1 & Ho & Hc).
    rewrite Eb in E. destruct (IH _ _ _ E) as (Hs' & Hall & Hr).
    split_and!; [by apply Qle_trans with s1| |].
    { intros [|k] o' Hk; simpl in Hk; [|by eapply Hall].
      injection Hk as -> ->. apply Qle_trans with s1; auto. }
    destruct Hr as [[-> ->]|(j & o' & -> & Hj & -> & Hlt & Hbef)].
    + destruct Hc as [[-> ->]|(-> & -> & -> & Hlt)]; [by left|].
      right. exists 0, o. rewrite Nat.add_0_r. split_and!; try done. intros k ? Hk; lia.
    + right. exists (S j), o'. split_and!; try done.
      * f_equal. lia.
      * by apply Qle_lt_trans with s1.
      * intros [|k] o'' Hk Hk'; simpl in Hk'.
        -- injection Hk' as -> ->. apply Qle_lt_trans with s1; auto.
        -- apply (Hbef k); [lia|done].
Qed.

(** [C4] The greedy choice of [compare_cmd]: when the search selects old
    row [j], that row is not yet matched, its score is the best score,
    every unmatched old row scores at most as much, and every unmatched
    old row before it scores strictly less (ties go to the first row). *)
Theorem best_match_first_max n os j s :
  best_match n os = (Some j, s) ->
  exists o, os !! j = Some (o, false) /\ s = sc (_norm_text (rget n (u "Production Name"))) o /\
    (forall k o', os !! k = Some (o', false) ->
       (sc (_norm_text (rget n (u "Production Name"))) o' <= s)%Q) /\
    (forall k o', k < j -> os !! k = Some (o', false) ->
       (sc (_norm_text (rget n (u "Production Name"))) o' < s)%Q).
Proof.
  unfold best_match. intros E. destruct (best_from_spec _ _ _ _ _ _ _ E) as (_ & Hall & Hr).
  destruct Hr as [[? _]|(j' & o & Hj & Ho & -> & _ & Hbef)]; [done|].
  injection Hj as <-. exists o. by split_and!.
Qed.

(** When no old row is selected the best score is still 0: the branches
    that subscript [best_match_row] (score at least 50) are never taken
    with [best_match_row = None]. *)
Lemma best_match_none n os s : best_match n os = (None, s) -> s = 0%Q.
Proof.
  unfold best_match. intros E. destruct (best_from_spec _ _ _ _ _ _ _ E) as (_ & _ & Hr).
  by destruct Hr as [[_ ->]|(? & ? & ? & _)].
Qed.

Lemma best_match_some n os j s :
  best_match n os = (Some j, s) -> exists o, os !! j = Some (o, false).
Proof.
  unfold best_match. intros E. destruct (best_from_spec _ _ _ _ _ _ _ E) as (_ & _ & Hr).
  destruct Hr as [[? _]|(j' & o & Hj & Ho & _)]; [done|]. injection Hj as <-. by exists o.
Qed.

End GreedyProps.

(** ** Output rows and their categories *)

Section Rows.
Context `{UnicodeDB}.

Lemma fill_na_keep r k v : r !! k = Some v -> py_strip v <> [] -> fill_na r !! k = Some v.
Proof.
  unfold fill_na. generalize SCHEMA as l. intros l. revert r.
  induction l as [|k' l IH]; intros r Hr Hv; simpl; [done|].
  apply IH; [|done]. case_if; [|done].
  destruct (decide (k' = k)) as [->|Hne]; [|by rewrite lookup_insert_ne].
  exfalso. apply bool_decide_eq_true in E. unfold rget in E. by rewrite Hr in E.
Qed.

Lemma category_with_cat r c note :
  py_strip c <> [] -> fill_na (with_cat r c note) !! u "Category" = Some c.
Proof.
  intros Hc. apply fill_na_keep; [|done]. unfold with_cat.
  rewrite lookup_insert_ne by done. apply lookup_insert_eq.
Qed.

Lemma count_cat_nil c : count_cat c [] = 0.
Proof. done. Qed.

Lemma count_cat_app c l1 l2 : count_cat c (l1 ++ l2) = count_cat c l1 + count_cat c l2.
Proof. unfold count_cat. by rewrite List.filter_app, length_app. Qed.

Lemma count_cat_same c rs : Forall (fun r => r !! u "Category" = Some c) rs -> count_cat c rs = length rs.
Proof.
  unfold count_cat. induction 1 as [|r rs Hr _ IH]; simpl; [done|].
  rewrite bool_decide_true by done. simpl. lia.
Qed.

Lemma count_cat_other c c' rs :
  c' <> c -> Forall (fun r => r !! u "Category" = Some c') rs -> count_cat c rs = 0.
Proof.
  intros Hne. unfold count_cat. induction 1 as [|r rs Hr _ IH]; simpl; [done|].
  rewrite bool_decide_false; [done|]. rewrite Hr. congruence.
Qed.

Lemma count_cat_updated_or_new rs :
  Forall updated_or_new rs ->
  length rs = count_cat (u "New") rs + count_cat (u "Updated") rs /\
  count_cat (u "Removed") rs = 0.
Proof.
  unfold count_cat. induction 1 as [|r rs [Hr|Hr] _ IH]; simpl; [done| |];
    rewrite Hr; unfold updated_or_new in *.
  - rewrite (bool_decide_true (Some (u "Updated") = Some (u "Updated"))) by done.
    rewrite !bool_decide_false by (by vm_compute). simpl. lia.
  - rewrite (bool_decide_true (Some (u "New") = Some (u "New"))) by done.
    rewrite !bool_decide_false by (by vm_compute). simpl. lia.
Qed.

(** The categories of the rows, as [compare_cmd] writes them. *)
Lemma updated_new : u "Updated" <> u "New". Proof. by vm_compute. Qed.
Lemma updated_removed : u "Updated" <> u "Removed". Proof. by vm_compute. Qed.
Lemma new_removed : u "New" <> u "Removed". Proof. by vm_compute. Qed.

Lemma cat_updated r note : fill_na (with_cat r (u "Updated") note) !! u "Category" = Some (u "Updated").
Proof. apply category_with_cat. by vm_compute. Qed.
Lemma cat_new r note : fill_na (with_cat r (u "New") note) !! u "Category" = Some (u "New").
Proof. apply category_with_cat. by vm_compute. Qed.
Lemma cat_removed r note : fill_na (with_cat r (u "Removed") note) !! u "Category" = Some (u "Removed").
Proof. apply category_with_cat. by vm_compute. Qed.

Lemma removed_rows_cat ol os :
  Forall (fun r => r !! u "Category" = Some (u "Removed")) (removed_rows ol os).
Proof. unfold removed_rows. apply Forall_map, Forall_forall. intros p _. apply cat_removed. Qed.

Lemma removed_not_new ol os : count_cat (u "New") (removed_rows ol os) = 0.
Proof. apply (count_cat_other _ (u "Removed")); [by vm_compute | apply removed_rows_cat]. Qed.

Lemma removed_not_updated ol os : count_cat (u "Updated") (removed_rows ol os) = 0.
Proof. apply (count_cat_other _ (u "Removed")); [by vm_compute | apply removed_rows_cat]. Qed.

Lemma removed_count ol os : count_cat (u "Removed") (removed_rows ol os) = length (removed_rows ol os).
Proof. apply count_cat_same, removed_rows_cat. Qed.

Lemma length_removed_rows ol os :
  length (removed_rows ol os) + num_true os = length os.
Proof.
  unfold removed_rows, num_true. rewrite length_map.
  induction os as [|[o [|]] os IH]; simpl; lia.
Qed.

End Rows.

#[export] Hint Resolve cat_updated cat_new cat_removed updated_new updated_removed new_removed : pw.

(** ** The loop over the new rows *)

Lemma claim_fst i os : map fst (claim i os) = map fst os.
Proof.
  unfold claim. revert i. induction os as [|p os IH]; intros [|i]; simpl; try done.
  f_equal. apply IH.
Qed.

Lemma num_true_claim i os o :
  os !! i = Some (o, false) -> num_true (claim i os) = S (num_true os).
Proof.
  unfold claim, num_true. revert i. induction os as [|[o' m] os IH]; intros [|i] Hi;
    simpl in *; try done.
  - by injection Hi as -> ->.
  - destruct m; simpl; [f_equal|]; apply IH; done.
Qed.

Section Loop.
Context `{UnicodeDB}.
Variable token_set_ratio : text -> text -> Q.

Local Abbreviation compare_step := (compare_step token_set_ratio).
Local Abbreviation compare_loop := (compare_loop token_set_ratio).

(** What one new row does: it either claims one unmatched old row and
    adds at most one Updated row, or leaves the old rows alone and adds
    one New row.  In particular it never fails. *)
Lemma compare_step_spec nl st n :
  exists st', compare_step nl st n = Some st' /\
    map fst (c_olds st') = map fst (c_olds st) /\
    ((num_true (c_olds st') = S (num_true (c_olds st)) /\
      exists rs, c_out st' = c_out st ++ rs /\
        Forall (fun r => r !! u "Category" = Some (u "Updated")) rs /\
        c_updated st' = c_updated st + length rs) \/
     (c_olds st' = c_olds st /\
      exists r, c_out st' = c_out st ++ [r] /\ r !! u "Category" = Some (u "New") /\
        c_updated st' = c_updated st)).
Proof.
  unfold compare_step. destruct (best_match token_set_ratio n (c_olds st)) as [bi s] eqn:Eb.
  assert (Hsel : (0 < s)%Q -> exists j o, bi = Some j /\ c_olds st !! j = Some (o, false)).
  { intros Hs. destruct bi as [j|].
    - destruct (best_match_some _ _ _ _ _ Eb) as [o Ho]. by exists j, o.
    - apply best_match_none in Eb. subst. by apply Qlt_irrefl in Hs. }
  destruct (Qltb 90 s) eqn:E90.
  - apply Qltb_true in E90.
    destruct Hsel as (j & o & -> & Ho); [by apply Qlt_trans with (90%Q)|]. simpl. rewrite Ho.
    simpl. destruct (_changed_fields o n) as [|d ds]; eexists; split; try done;
      (split; [apply claim_fst|left; split; [by eapply num_true_claim|]]).
    + exists []. rewrite app_nil_r. split_and!; [done|constructor|simpl; lia].
    + eexists. split_and!; [done|repeat constructor; auto with pw|simpl; lia].
  - destruct (Qle_bool 50 s && Qle_bool s 90) eqn:E50.
    + apply andb_true_iff in E50 as [E50 _]. apply Qle_bool_iff in E50.
      destruct Hsel as (j & o & -> & Ho); [by apply Qlt_le_trans with (50%Q)|]. simpl. rewrite Ho.
      eexists. split; [done|]. split; [apply claim_fst|left; split; [by eapply num_true_claim|]].
      eexists. split_and!; [done|repeat constructor; auto with pw|simpl; lia].
    + eexists. split; [done|]. split; [done|right; split; [done|]].
      eexists. split_and!; [done|auto with pw|done].
Qed.

(** The invariant of the loop: each new row either sets one more
    ['_matched'] flag or adds one New row; the old rows themselves are
    never changed; [updated_count] follows the Updated rows; every row
    written is Updated or New. *)
Lemma compare_loop_spec nl st ns :
  exists st', compare_loop nl st ns = Some st' /\
    map fst (c_olds st') = map fst (c_olds st) /\
    num_true (c_olds st') + count_cat (u "New") (c_out st') =
      num_true (c_olds st) + count_cat (u "New") (c_out st) + length ns /\
    c_updated st' + count_cat (u "Updated") (c_out st) =
      c_updated st + count_cat (u "Updated") (c_out st') /\
    (Forall updated_or_new (c_out st) -> Forall updated_or_new (c_out st')).
Proof.
  revert st. induction ns as [|n ns IH]; intros st; simpl.
  - eexists. split_and!; try done; lia.
  - destruct (compare_step_spec nl st n) as (st1 & -> & Hf1 & Hc1). simpl.
    destruct (IH st1) as (st' & -> & Hf & Hn & Hu & Hall). eexists. split; [done|].
    rewrite Hf. destruct Hc1 as [(Ht & rs & Ho & Hrs & Hu1)|(Ho1 & r & Ho & Hr1 & Hu1)];
      rewrite Ho, !count_cat_app in *.
    + rewrite (count_cat_same (u "Updated") rs) in Hu by done.
      rewrite (count_cat_other (u "New") (u "Updated") rs) in Hn by auto with pw.
      split_and!; [done|lia|lia|]. intros Hst. apply Hall, Forall_app. split; [done|].
      eapply Forall_impl; [exact Hrs|]. intros x Hx. by left.
    + rewrite (count_cat_same (u "New") [r]) in Hn by (by constructor).
      rewrite (count_cat_other (u "Updated") (u "New") [r]) in Hu by (auto with pw; by constructor).
      rewrite Ho1 in Hn. simpl in *. split_and!; [done|lia|lia|].
      intros Hst. apply Hall, Forall_app. split; [done|]. constructor; [by right|constructor].
Qed.

End Loop.

(** ** [compare_cmd] *)

Section CompareCmd.
Context `{UnicodeDB}.
Variable token_set_ratio : text -> text -> Q.

Local Abbreviation compare_cmd := (compare_cmd token_set_ratio).

Lemma num_true_unmatched (rs : list row) : num_true (map (fun o => (o, false)) rs) = 0.
Proof. unfold num_true. by induction rs. Qed.

Lemma compare_cmd_result olds news ol nl :
  exists st, compare_loop token_set_ratio nl
      {| c_olds := map (fun o => (o, false)) olds; c_out := []; c_updated := 0 |} news = Some st /\
    compare_cmd olds news ol nl = Some (c_out st ++ removed_rows ol (c_olds st), c_updated st) /\
    length (c_olds st) = length olds /\
    num_true (c_olds st) + count_cat (u "New") (c_out st) = length news /\
    c_updated st = count_cat (u "Updated") (c_out st) /\
    Forall updated_or_new (c_out st).
Proof.
  destruct (compare_loop_spec token_set_ratio nl
    {| c_olds := map (fun o => (o, false)) olds; c_out := []; c_updated := 0 |} news)
    as (st & E & Hf & Hn & Hu & Hall).
  exists st. unfold compare_cmd. rewrite E. simpl in *.
  rewrite num_true_unmatched, !count_cat_nil in *. split_and!; try done; [|lia|by apply Hall].
  rewrite <- (length_map fst (c_olds st)), Hf. by rewrite !length_map.
Qed.

(** [C24] [compare_cmd] always completes: the subscript of
    [best_match_row] never meets [None], whatever the rows and the scores. *)
Theorem compare_cmd_total olds news ol nl :
  exists out upd, compare_cmd olds news ol nl = Some (out, upd).
Proof.
  destruct (compare_cmd_result olds news ol nl) as (st & _ & E & _). by do 2 eexists.
Qed.

(** [C1] Every new row either claims an old row of its own or is reported
    New, and every old row is either claimed or reported Removed: for the
    number [m] of claimed old rows, [New + m] is the number of new rows
    and [Removed + m] the number of old rows. *)
Theorem compare_cmd_partition olds news ol nl out upd :
  compare_cmd olds news ol nl = Some (out, upd) ->
  exists m, count_cat (u "New") out + m = length news /\
            count_cat (u "Removed") out + m = length olds.
Proof.
  destruct (compare_cmd_result olds news ol nl) as (st & _ & -> & Hl & Hn & _ & Hall).
  intros [= <- _]. exists (num_true (c_olds st)).
  destruct (count_cat_updated_or_new _ Hall) as [_ Hr].
  pose proof (length_removed_rows ol (c_olds st)) as Hrem.
  rewrite !count_cat_app, Hr, removed_count, removed_not_new. lia.
Qed.

(** [C22] The summary of [compare_cmd]: [updated_count] is the number of
    Updated rows, and every row written is New, Updated or Removed. *)
Theorem compare_cmd_summary olds news ol nl out upd :
  compare_cmd olds news ol nl = Some (out, upd) ->
  upd = count_cat (u "Updated") out /\
  length out = count_cat (u "New") out + count_cat (u "Updated") out +
               count_cat (u "Removed") out.
Proof.
  destruct (compare_cmd_result olds news ol nl) as (st & _ & -> & _ & _ & Hu & Hall).
  intros [= <- <-]. destruct (count_cat_updated_or_new _ Hall) as [Hl Hr].
  rewrite !count_cat_app, length_app, Hr, removed_count, removed_not_new, removed_not_updated.
  lia.
Qed.

End CompareCmd.

(** ** The three branches of one new row *)

Ltac qlia := unfold Qle, Qlt, Qeq in *; simpl in *; lia.

Section Branches.
Context `{UnicodeDB}.
Variable token_set_ratio : text -> text -> Q.

Local Abbreviation compare_step := (compare_step token_set_ratio).
Local Abbreviation best_match := (best_match token_set_ratio).

Lemma compare_step_confident nl st n j o s :
  best_match n (c_olds st) = (Some j, s) -> c_olds st !! j = Some (o, false) -> (90 < s)%Q ->
  compare_step nl st n =
    Some (match _changed_fields o n with
          | [] => {| c_olds := claim j (c_olds st); c_out := c_out st; c_updated := c_updated st |}
          | diffs => {| c_olds := claim j (c_olds st);
                        c_out := c_out st ++ [fill_na (with_cat n (u "Updated") (updated_note diffs))];
                        c_updated := S (c_updated st) |}
          end).
Proof.
  intros Eb Ho Hs. unfold compare_step. rewrite Eb.
  replace (Qltb 90 s) with true by (symmetry; by apply Qltb_true). simpl. rewrite Ho. simpl.
  by destruct (_changed_fields o n).
Qed.

Lemma compare_step_rename nl st n j o s :
  best_match n (c_olds st) = (Some j, s) -> c_olds st !! j = Some (o, false) ->
  (50 <= s)%Q -> (s <= 90)%Q ->
  compare_step nl st n =
    Some {| c_olds := claim j (c_olds st);
            c_out := c_out st ++ [fill_na (with_cat n (u "Updated")
                       (rename_note (rget o (u "Production Name")) (rget n (u "Production Name"))))];
            c_updated := S (c_updated st) |}.
Proof.
  intros Eb Ho H50 H90. unfold compare_step. rewrite Eb.
  replace (Qltb 90 s) with false by (symmetry; by apply Qltb_false).
  apply Qle_bool_iff in H50, H90. rewrite H50, H90. simpl. by rewrite Ho.
Qed.

Lemma compare_step_new nl st n bi s :
  best_match n (c_olds st) = (bi, s) -> (s < 50)%Q ->
  compare_step nl st n =
    Some {| c_olds := c_olds st;
            c_out := c_out st ++ [fill_na (with_cat n (u "New") (new_note nl))];
            c_updated := c_updated st |}.
Proof.
  intros Eb Hs. unfold compare_step. rewrite Eb.
  replace (Qltb 90 s) with false by (symmetry; apply Qltb_false; qlia).
  replace (Qle_bool 50 s) with false; [done|].
  symmetry. apply Bool.not_true_iff_false. rewrite Qle_bool_iff. qlia.
Qed.

(** [C2] The thresholds of the spec, on one new row whose best unmatched
    old row [o] has score [s]: a score of exactly 90, like one of exactly
    50, is a rename (an Updated row with the old and new titles, not a
    confident match); a score below 50 makes the row New and claims no
    old row; a score above 90 with no changed field claims [o] and writes
    nothing. *)
Theorem compare_step_thresholds nl st n j o s :
  best_match n (c_olds st) = (Some j, s) -> c_olds st !! j = Some (o, false) ->
  ((s == 90)%Q \/ (s == 50)%Q ->
     compare_step nl st n =
       Some {| c_olds := claim j (c_olds st);
               c_out := c_out st ++ [fill_na (with_cat n (u "Updated")
                          (rename_note (rget o (u "Production Name")) (rget n (u "Production Name"))))];
               c_updated := S (c_updated st) |}) /\
  ((s < 50)%Q ->
     compare_step nl st n =
       Some {| c_olds := c_olds st;
               c_out := c_out st ++ [fill_na (with_cat n (u "New") (new_note nl))];
               c_updated := c_updated st |}) /\
  ((90 < s)%Q -> _changed_fields o n = [] ->
     compare_step nl st n =
       Some {| c_olds := claim j (c_olds st); c_out := c_out st; c_updated := c_updated st |}).
Proof.
  intros Eb Ho. split_and!.
  - intros Hs. apply (compare_step_rename _ _ _ _ _ _ Eb Ho); destruct Hs; qlia.
  - by apply compare_step_new with (Some j).
  - intros Hs Hd. by rewrite (compare_step_confident _ _ _ _ _ _ Eb Ho Hs), Hd.
Qed.

End Branches.

(** ** [_changed_fields] and field equivalence *)

Section Changed.
Context `{UnicodeDB}.

Lemma equiv_resp a a' b b' :
  _equiv a a' = true -> _equiv b b' = true -> _equiv a b = _equiv a' b'.
Proof.
  intros Ha Hb. destruct (_equiv a b) eqn:E1, (_equiv a' b') eqn:E2; try done.
  - assert (_equiv a' b' = true); [|congruence].
    apply equiv_trans with a; [by apply equiv_sym|]. by apply equiv_trans with b.
  - assert (_equiv a b = true); [|congruence].
    apply equiv_trans with a'; [done|]. apply equiv_trans with b'; [done|]. by apply equiv_sym.
Qed.

#[export] Instance row_equiv_equivalence : Equivalence row_equiv.
Proof.
  split.
  - intros a. apply Forall_forall. intros f _. apply equiv_refl.
  - intros a b Hab. eapply Forall_impl; [exact Hab|]. intros f. apply equiv_sym.
  - intros a b c Hab Hbc. apply Forall_forall. intros f Hf.
    unfold row_equiv in Hab, Hbc. rewrite List.Forall_forall in Hab, Hbc.
    apply equiv_trans with (rget b f); [apply Hab|apply Hbc]; by apply list_elem_of_In.
Qed.

(** [_changed_fields] only depends on the rows up to [row_equiv]: rows can
    be rewritten by equivalent ones under it. *)
#[export] Instance changed_fields_proper : Proper (row_equiv ==> row_equiv ==> eq) _changed_fields.
Proof.
  intros a a' Ha b b' Hb. unfold _changed_fields. apply List.filter_ext_in. intros f Hf.
  unfold row_equiv in Ha, Hb. rewrite List.Forall_forall in Ha, Hb. f_equal.
  by apply equiv_resp; [apply Ha|apply Hb].
Qed.

Lemma changed_fields_refl a : _changed_fields a a = [].
Proof.
  unfold _changed_fields. apply filter_nil_iff, Forall_forall. intros f _.
  by rewrite equiv_refl.
Qed.

Lemma rget_insert_ne r f g v : f <> g -> rget (<[f := v]> r) g = rget r g.
Proof. intros Hne. unfold rget. by rewrite lookup_insert_ne. Qed.

Lemma rget_insert_eq r f v : rget (<[f := v]> r) f = v.
Proof. unfold rget. by rewrite lookup_insert_eq. Qed.

(** [C36] Run-to-run comparison reports no change between a row and the
    same row with any one field turned from N/A into the blank. *)
Theorem changed_fields_NA_blank r f :
  _changed_fields (<[f := u "N/A"]> r) (<[f := []]> r) = [].
Proof.
  assert (Hr : row_equiv (<[f := u "N/A"]> r) (<[f := []]> r)).
  { apply Forall_forall. intros g _. destruct (decide (f = g)) as [->|Hne].
    - rewrite !rget_insert_eq. apply equiv_NA_blank.
    - rewrite !rget_insert_ne by done. apply equiv_refl. }
  rewrite Hr. apply changed_fields_refl.
Qed.


End Changed.

(** ** The end-to-end scenario of the spec *)

(** A row with only a title. *)
Definition title (t : string) : row := <[u "Production Name" := u t]> ∅.

Section Scenario.
Context `{UnicodeDB}.
Variable tsr : text -> text -> Q.

Local Abbreviation sc nt o := (tsr nt (_norm_text (rget o (u "Production Name")))).

Lemma rget_title t : rget (title t) (u "Production Name") = u t.
Proof. apply rget_insert_eq. Qed.

Lemma compare_loop_cons nl st n ns st1 :
  compare_step tsr nl st n = Some st1 -> compare_loop tsr nl st (n :: ns) = compare_loop tsr nl st1 ns.
Proof. intros E. simpl. by rewrite E. Qed.

Lemma best_from_skip nt i o os b :
  best_from tsr nt i ((o, true) :: os) b = best_from tsr nt (S i) os b.
Proof. done. Qed.

Lemma best_from_take nt i o os b s :
  (s < sc nt o)%Q -> best_from tsr nt i ((o, false) :: os) (b, s) = best_from tsr nt (S i) os (Some i, sc nt o).
Proof. intros Hs. simpl. by replace (Qltb s (sc nt o)) with true by (symmetry; by apply Qltb_true). Qed.

Lemma best_from_keep nt i o os b s :
  (sc nt o <= s)%Q -> best_from tsr nt i ((o, false) :: os) (b, s) = best_from tsr nt (S i) os (b, s).
Proof. intros Hs. simpl. by replace (Qltb s (sc nt o)) with false by (symmetry; by apply Qltb_false). Qed.

(** [C3] The end-to-end scenario of the spec: run A has the titles Alpha
    and Beta, run B has Alpha, Beta v2 and Gamma, Alpha scores above 90
    against itself and at least as much as against Beta, and Beta v2
    scores between 50 and 90 against Beta.  Then Alpha gives no row, Beta
    v2 is Updated with the rename note, Gamma is New, nothing is Removed,
    and one row is counted as updated. *)
Theorem compare_e2e_scenario :
  (90 < tsr (_norm_text (u "Alpha")) (_norm_text (u "Alpha")))%Q ->
  (tsr (_norm_text (u "Alpha")) (_norm_text (u "Beta")) <=
     tsr (_norm_text (u "Alpha")) (_norm_text (u "Alpha")))%Q ->
  (50 <= tsr (_norm_text (u "Beta v2")) (_norm_text (u "Beta")))%Q ->
  (tsr (_norm_text (u "Beta v2")) (_norm_text (u "Beta")) <= 90)%Q ->
  compare_cmd tsr [title "Alpha"; title "Beta"] [title "Alpha"; title "Beta v2"; title "Gamma"]
    (u "A") (u "B") =
  Some ([fill_na (with_cat (title "Beta v2") (u "Updated") (rename_note (u "Beta") (u "Beta v2")));
         fill_na (with_cat (title "Gamma") (u "New") (new_note (u "B")))], 1).
Proof.
  intros H1 H2 H3 H4.
  assert (B1 : best_match tsr (title "Alpha") [(title "Alpha", false); (title "Beta", false)] =
               (Some 0, tsr (_norm_text (u "Alpha")) (_norm_text (u "Alpha")))).
  { unfold best_match. rewrite best_from_take, best_from_keep; rewrite !rget_title; try done.
    by apply Qlt_trans with (90%Q). }
  assert (B2 : best_match tsr (title "Beta v2") [(title "Alpha", true); (title "Beta", false)] =
               (Some 1, tsr (_norm_text (u "Beta v2")) (_norm_text (u "Beta")))).
  { unfold best_match. rewrite best_from_skip, best_from_take; rewrite !rget_title; try done. apply Qlt_le_trans with (50%Q); [qlia|done]. }
  pose proof (compare_step_confident tsr (u "B")
    {| c_olds := [(title "Alpha", false); (title "Beta", false)]; c_out := []; c_updated := 0 |}
    (title "Alpha") 0 (title "Alpha") _ B1 eq_refl H1) as E1.
  rewrite changed_fields_refl in E1.
  pose proof (compare_step_rename tsr (u "B")
    {| c_olds := [(title "Alpha", true); (title "Beta", false)]; c_out := []; c_updated := 0 |}
    (title "Beta v2") 1 (title "Beta") _ B2 eq_refl H3 H4) as E2.
  rewrite !rget_title in E2.
  pose proof (compare_step_new tsr (u "B")
    {| c_olds := [(title "Alpha", true); (title "Beta", true)];
       c_out := [fill_na (with_cat (title "Beta v2") (u "Updated") (rename_note (u "Beta") (u "Beta v2")))];
       c_updated := 1 |}
    (title "Gamma") None 0 eq_refl ltac:(qlia)) as E3.
  unfold compare_cmd. cbn [map].
  rewrite (compare_loop_cons _ _ _ _ _ E1), (compare_loop_cons _ _ _ _ _ E2),
    (compare_loop_cons _ _ _ _ _ E3).
  reflexivity.
Qed.

End Scenario.

(** ** Witnesses on the Latin-1 database and a tabulated scorer *)

(** A scorer with the values of the spec's scenario: 100 for equal
    titles, 70 for [beta v2] against [beta], 90 for [beta v3] against
    [beta], 0 otherwise. *)
Definition demo_ratio (a b : text) : Q :=
  if bool_decide (a = b) then 100%Q
  else if bool_decide (a = u "beta v2" /\ b = u "beta") then 70%Q
  else if bool_decide (a = u "beta v3" /\ b = u "beta") then 90%Q
  else 0%Q.

Definition demo_olds : list row := [title "Alpha"; title "Beta"].
Definition demo_news : list row := [title "Alpha"; title "Beta v2"; title "Gamma"].
Definition demo_out : list row :=
  [fill_na (with_cat (title "Beta v2") (u "Updated") (rename_note (u "Beta") (u "Beta v2")));
   fill_na (with_cat (title "Gamma") (u "New") (new_note (u "B")))].

Lemma compare_e2e_scenario_witness :
  compare_cmd demo_ratio demo_olds demo_news (u "A") (u "B") = Some (demo_out, 1).
Proof. apply compare_e2e_scenario; vm_compute; first [reflexivity | congruence]. Defined.

Lemma compare_cmd_partition_witness :
  exists m, count_cat (u "New") demo_out + m = 3 /\ count_cat (u "Removed") demo_out + m = 2.
Proof.
  apply (compare_cmd_partition demo_ratio demo_olds demo_news (u "A") (u "B") demo_out 1).
  reflexivity.
Defined.

Lemma compare_cmd_summary_witness :
  1 = count_cat (u "Updated") demo_out /\
  length demo_out = count_cat (u "New") demo_out + count_cat (u "Updated") demo_out +
                    count_cat (u "Removed") demo_out.
Proof.
  apply (compare_cmd_summary demo_ratio demo_olds demo_news (u "A") (u "B") demo_out 1).
  reflexivity.
Defined.

Lemma best_match_first_max_witness :
  exists o, [(title "Alpha", true); (title "Beta", false); (title "Beta", false)] !! 1 =
            Some (o, false).
Proof.
  destruct (best_match_first_max demo_ratio (title "Beta")
              [(title "Alpha", true); (title "Beta", false); (title "Beta", false)] 1 100%Q)
    as (o & Ho & _).
  - vm_compute. reflexivity.
  - by exists o.
Defined.

Definition demo_state : cstate :=
  {| c_olds := [(title "Beta", false)]; c_out := []; c_updated := 0 |}.

Lemma compare_step_thresholds_witness :
  compare_step demo_ratio (u "B") demo_state (title "Beta v3") =
    Some {| c_olds := claim 0 (c_olds demo_state);
            c_out := [fill_na (with_cat (title "Beta v3") (u "Updated")
                       (rename_note (rget (title "Beta") (u "Production Name"))
                                    (rget (title "Beta v3") (u "Production Name"))))];
            c_updated := 1 |}.
Proof.
  destruct (compare_step_thresholds demo_ratio (u "B") demo_state (title "Beta v3") 0
              (title "Beta") 90%Q) as [W _].
  - vm_compute. reflexivity.
  - reflexivity.
  - apply W. left. reflexivity.
Defined.
