(* ===== verification/Master.v ===== *)
(** * Comparison against the master table ([master_compare_cmd])

    Models, from [src/Scripts/Production_Weekly_Extractor.py]:
    - the field comparators [_equiv_dates] (lines 81-86), [_TYPE_ALIASES]
      and [_norm_type] (lines 88-94), [_norm_phone_for_compare] (lines
      96-98) and [_norm_email_for_compare] (lines 100-103, its pattern as
      a matcher with the backtracking of the greedy domain written out);
    - [_FIELDS_TO_COMPARE_AGAINST_MASTER] and [_changed_vs_master]
      (lines 883-949) with the asymmetric parsing-miss rule;
    - the header aliases and [_read_master_rows] (lines 787-873) on the
      rows [csv.reader] returns, [_region_from_master] (lines 876-880);
    - the master-schema projection [to_master_row] with the production
      company detection (lines 1798-1914) and [MASTER_SCHEMA] (422-445);
    - [master_compare_cmd] (lines 971-1101): the choice of the master
      file among the candidate names, the key maps, the region filter, the
      per-key rows, push-back detection and the pushed count.

    [to_master_row] can raise [ValueError]; the functions that call it
    return [option].  Files are given by their contents (the rows or the
    lines read), not read. *)

From Stdlib Require Import QArith_base.
From S2P Require Import Prelude PyStr KeyNorm Dates Region Reconcile.

Section Comparators.
Context `{UnicodeDB}.

(** ** Field comparators *)

(** [_equiv_dates(a, b)]: equal flexible spans, or [_equiv] when either
    side has none. *)
Definition _equiv_dates (a b : text) : bool :=
  match _parse_span_flexible a, _parse_span_flexible b with
  | Some pa, Some pb => bool_decide (pa = pb)
  | _, _ => _equiv a b
  end.

Definition _TYPE_ALIASES : list (text * text) := dict_of
  [("television","series");("tv series","series");("tv","series");
   ("feature","feature film");("film","feature film");
   ("feature film","feature film");("series","series")].

(** [_TYPE_ALIASES.get(t, t)] for [t = (s or "").strip().lower()]. *)
Definition _norm_type (s : text) : text :=
  let t := py_lower (py_strip s) in default t (dict_get t _TYPE_ALIASES).

(** [re.sub(r"\D", "", s)[-10:]]: the last ten [\d] digits. *)
Definition _norm_phone_for_compare (s : text) : text :=
  let ds := List.filter is_digit s in drop (length ds - 10) ds.

(** The classes of [[A-Z0-9._%+-]+@[A-Z0-9.-]+\.[A-Z]{2,}] under [re.I]. *)
Definition email_local (c : char) : bool :=
  is_az_ci c || is_ascii_digit c || bool_decide (c ∈ [46; 95; 37; 43; 45]%N).
Definition email_domain (c : char) : bool :=
  is_az_ci c || is_ascii_digit c || (c =? 46)%N || (c =? 45)%N.

(** A dot at [k] followed by two letters. *)
Definition tld_at (R : text) (k : nat) : bool :=
  match drop k R with
  | d :: a :: b :: _ => (d =? 46)%N && is_az_ci a && is_az_ci b
  | _ => false
  end.

(** The backtracking of the greedy [[A-Z0-9.-]+] before [\.]: the
    largest [k >= 1], at most [k0], with [tld_at R k]. *)
Fixpoint last_tld (R : text) (k0 : nat) : option nat :=
  match k0 with
  | 0 => None
  | S k' => if tld_at R k0 then Some k0 else last_tld R k'
  end.

(** The pattern at the start of [s]: the local part is the maximal run
    (no shorter run can be followed by [@]); the domain is cut at the last
    dot of its run followed by two letters, and [[A-Z]{2,}] takes every
    letter after it. *)
Definition email_at (s : text) : option nat :=
  let n1 := span_len email_local s in
  if n1 =? 0 then None else
  match drop n1 s with
  | at_ :: r =>
      if (at_ =? 64)%N then
        let R := take (span_len email_domain r) r in
        match last_tld R (length R) with
        | Some k => Some (n1 + 1 + k + 1 + span_len is_az_ci (drop (S k) R))
        | None => None
        end
      else None
  | [] => None
  end.

(** [m.group(0).lower() if m else ""] *)
Definition _norm_email_for_compare (s : text) : text :=
  match re_search email_at s with
  | Some (p, n) => py_lower (take n (drop p s))
  | None => []
  end.

(** ** [_changed_vs_master] *)

Definition _FIELDS_TO_COMPARE_AGAINST_MASTER : list text := set_of
  ["Production Name"; "Shooting Dates"; "Start Month"; "City"; "Province/State";
   "Country"; "Type"; "Director/Producer"; "Production Company"].

(** The body of the loop for one field [f]: [true] when [f] is reported. *)
Definition field_changed (master weekly : row) (f : text) : bool :=
  let ov := rget master f in
  let nv := rget weekly f in
  if is_na (_norm_text nv) && negb (is_na (_norm_text ov)) then false
  else if bool_decide (f = u "Production Name") then
    negb (bool_decide (_norm_key ov = _norm_key nv))
  else if bool_decide (f = u "Shooting Dates") then negb (_equiv_dates ov nv)
  else if bool_decide (f = u "Type") then negb (bool_decide (_norm_type ov = _norm_type nv))
  else if bool_decide (f = u "Start Month") then
    negb (bool_decide (_start_month_from_span (rget master (u "Shooting Dates")) =
                       _start_month_from_span (rget weekly (u "Shooting Dates"))))
  else if bool_decide (f = u "Production Phone") then
    negb (bool_decide (_norm_phone_for_compare ov = _norm_phone_for_compare nv))
  else if bool_decide (f = u "Production Email") then
    negb (bool_decide (_norm_email_for_compare ov = _norm_email_for_compare nv))
  else negb (_equiv ov nv).

Definition _changed_vs_master (master weekly : row) : list text :=
  List.filter (field_changed master weekly) _FIELDS_TO_COMPARE_AGAINST_MASTER.

End Comparators.

(** ** The master file *)

Definition _MASTER_ALIASES : list (text * text) :=
  dict_of
    [("production name","Production Name");("title","Production Name");
     ("issue link","Issue Link");("start month","Start Month");
     ("shooting dates","Shooting Dates");("actively in production","Actively in Production");
     ("date pushed back?","Date Pushed Back?");("length (days)","Length (Days)");
     ("description","Description");("city","City");("province/state","Province/State");
     ("state/province","Province/State");("country","Country");("type","Type");
     ("director/producer","Director/Producer");("vfx notes","VFX Notes");
     ("imdb link","IMDb Link");("studio name","Studio Name");
     ("production office","Production Office");
     ("production phone/email","Production Phone/Email");
     ("production company","Production Company");("vfx contact","VFX Contact");
     ("region","Region")]
  ++ dict_of
    [("production weekly","Issue Link");("act in prod","Actively in Production");
     ("prod. ph# / email","Production Phone/Email");("prod. co.","Production Company");
     ("colour key:","");("green = reached out or already have it","");
     ("yellow = reach out","");("red = unsure / contact asap or not at all","");
     ("unnamed: 0","");("unnamed: 1","");("unnamed: 2","")].

Section MasterFile.
Context `{UnicodeDB}.

(** [_MASTER_ALIASES.get((name or "").strip().lower(), name)] *)
Definition _canon_header (name : text) : text :=
  default name (dict_get (py_lower (py_strip name)) _MASTER_ALIASES).

(** The header row: the first of the first 20 rows with a cell equal to
    [production name] after [strip().lower()], else the first row. *)
Definition header_index (rows : list (list text)) : nat :=
  default 0 (fst <$> list_find (fun r => u "production name" ∈ map (fun c => py_lower (py_strip c)) r)
                               (take 20 rows)).

(** One record: [rec[h] = r[i] if i < len(r) else ""] for every non-empty
    header, left to right. *)
Definition make_record (headers : list text) (r : list text) : row :=
  fold_left (fun rec '(i, h) => match h with [] => rec | _ => <[h := default [] (r !! i)]> rec end)
    (imap pair headers) ∅.

(** [_read_master_rows] on the rows [csv.reader] returns. *)
Definition _read_master_rows (rows : list (list text)) : list row :=
  match rows with
  | [] => []
  | _ =>
      let hi := header_index rows in
      let headers := map _canon_header (default [] (rows !! hi)) in
      List.filter (fun rec => negb (bool_decide (py_strip (rget rec (u "Production Name")) = [])))
        (map (make_record headers)
           (List.filter (fun r => existsb (fun c => negb (bool_decide (py_strip c = []))) r)
              (drop (S hi) rows)))
  end.

(** [_region_from_master]: the one non-blank [Region] value, if there is
    exactly one. *)
Definition _region_from_master (rows : list row) : text :=
  match remove_dups (List.filter (fun v => negb (bool_decide (v = [])))
                       (map (fun r => py_strip (rget r (u "Region"))) rows)) with
  | [v] => v
  | _ => []
  end.

End MasterFile.

(** ** The master-schema projection *)

Definition MASTER_SCHEMA : list text := set_of
  ["Region Bucket"; "Category"; "Production Name"; "Issue Link"; "Start Month";
   "Shooting Dates"; "Actively in Production"; "Date Pushed Back?"; "Length (Days)";
   "Description"; "City"; "Province/State"; "Country"; "Type"; "Director/Producer";
   "VFX Notes"; "IMDb Link"; "Studio Name"; "Production Office";
   "Production Phone/Email"; "Prod. Co"].

Definition KNOWN_PROD_CO_MAPPING : list (text * text) :=
  dict_of
    [("disney","Disney");("marvel studios","Marvel Studios");("lucasfilm","Lucasfilm");
     ("20th century studios","20th Century Studios");
     ("warner bros. television","Warner Bros.");("warner bros. pictures","Warner Bros.");
     ("warner bros. entertainment","Warner Bros.");("warner bros.","Warner Bros.");
     ("new line cinema","New Line Cinema");("dc studios","DC Studios");
     ("universal pictures","Universal Pictures");("universal television","Universal Pictures");
     ("focus features","Focus Features");("dreamworks","DreamWorks");
     ("sony pictures animation","Sony Pictures");("sony pictures","Sony Pictures");
     ("columbia pictures","Sony Pictures");("tristar pictures","Sony Pictures");
     ("tristar","Sony Pictures");("screen gems","Sony Pictures");
     ("paramount pictures","Paramount Pictures");("nickelodeon movies","Paramount Pictures");
     ("paramount animation","Paramount Pictures");("amazon mgm studios","Amazon MGM Studios");
     ("mgm","Amazon MGM Studios");("orion pictures","Amazon MGM Studios");
     ("orion","Amazon MGM Studios");("netflix studios","Netflix");("netflix","Netflix");
     ("apple original films","Apple");("apple tv+","Apple");("apple studios","Apple");
     ("apple","Apple");("blumhouse productions","Blumhouse Productions");
     ("atomic monster","Atomic Monster");("legendary entertainment","Legendary Entertainment");
     ("bad robot","Bad Robot");("skydance media","Skydance");("skydance","Skydance");
     ("lionsgate films","Lionsgate");("lionesgate","Lionsgate");
     ("summit entertainment","Summit Entertainment");("a24","A24");
     ("toho company","Toho");("toho","Toho");("cj enm","CJ ENM");
     ("tencent pictures","Tencent Pictures");
     ("proximity productions llc","Proximity Productions");
     ("doozer productions","Doozer Productions");
     ("two soups productions","Two Soups Productions")]
  ++ dict_of
    [("amazon studios","Amazon Studios");("playstation productions","PlayStation Productions")].

(** [sorted(KNOWN_PROD_CO_MAPPING.keys(), key=len, reverse=True)] *)
Definition by_len_desc (a b : text) : Prop := length b <= length a.
#[export] Instance by_len_desc_dec : RelDecision by_len_desc.
Proof. intros a b. unfold by_len_desc. apply _. Defined.
Definition sorted_keys : list text := merge_sort by_len_desc (dict_keys KNOWN_PROD_CO_MAPPING).


Section Projection.
Context `{UnicodeDB}.

(** [" ".join([...]).lower()] of [detect_prod_co] *)
Definition search_text (r : row) : text :=
  py_lower (py_join (u " ") [rget r (u "Description"); rget r (u "Studio Info");
                            rget r (u "Production Company"); rget r (u "Director/Producer")]).

Definition detect_prod_co (r : row) : text :=
  let st := search_text r in
  let found := fold_left (fun acc term =>
      if py_contains term st
      then set_add (default [] (dict_get term KNOWN_PROD_CO_MAPPING)) acc else acc)
    sorted_keys [] in
  py_join (u "+") (py_sorted found).

(** The companies as a set comprehension, with no order on the keys: the
    reference [detect_prod_co] is compared with. *)
Definition prod_co_reference (st : text) : text :=
  py_join (u "+") (py_sorted (remove_dups
    (map (fun k => default [] (dict_get k KNOWN_PROD_CO_MAPPING))
       (List.filter (fun k => py_contains k st) (dict_keys KNOWN_PROD_CO_MAPPING))))).


(** [int(s)] on a text of digits: [ValueError] unless every digit is a
    decimal digit. *)
Definition int_of_digits (s : text) : option Z :=
  if forallb is_digit s then Some (digits_value s) else None.

(** [f"{n:02d}"] *)
Definition pad2 (z : Z) : text := let d := show_dec z in repeat 48%N (2 - length d) ++ d.

(** [months] of [to_master_row]: computed and not used; [int(days)] may
    raise. *)
Definition months_of (days : text) : option text :=
  if py_isdigit days then
    d ← int_of_digits days; Some (show_dec (d / 30) ++ [46%N] ++ pad2 (d mod 30))
  else Some [].

(** The dict [to_master_row] returns, in [MASTER_SCHEMA] order. *)
Definition master_list (r : row) (issue_link : text) : list (text * text) :=
  let days := py_strip (rget r (u "Computed Production Length")) in
  let city := rget r (u "City") in
  let region := rget r (u "Province/State") in
  let country := rget r (u "Country") in
  [(u "Region Bucket", region_bucket city region country);
   (u "Category", rget r (u "Category"));
   (u "Production Name", rget r (u "Production Name"));
   (u "Issue Link", issue_link);
   (u "Start Month", rget r (u "Start Month"));
   (u "Shooting Dates", rget r (u "Shooting Dates"));
   (u "Actively in Production", rget r (u "Actively in Production"));
   (u "Date Pushed Back?", rget r (u "If It Was Pushed"));
   (u "Length (Days)", days);
   (u "Description", rget r (u "Description"));
   (u "City", city);
   (u "Province/State", region);
   (u "Country", country);
   (u "Type", rget r (u "Type"));
   (u "Director/Producer", rget r (u "Director/Producer"));
   (u "VFX Notes", rget r (u "VFX Team"));
   (u "IMDb Link", []);
   (u "Studio Name", rget r (u "Studio Info"));
   (u "Production Office", rget r (u "Production Office"));
   (u "Production Phone/Email",
      py_strip (rget r (u "Production Phone") ++ [32%N] ++ rget r (u "Production Email")));
   (u "Prod. Co", detect_prod_co r)].

(** [to_master_row]: the [months] computation first (it may raise), then
    the dict. *)
Definition to_master_row (r : row) (issue_link : text) : option row :=
  _ ← months_of (py_strip (rget r (u "Computed Production Length")));
  Some (list_to_map (master_list r issue_link)).

End Projection.

(** ** [master_compare_cmd] *)

Definition REGION_FILE_MAP : list (text * text) := dict_of
  [("United States","United States");("Quebec","Quebec");
   ("West Coast Canada","West Coast CA");("East Coast Canada","East Coast CA");
   ("Ireland/Hungary","Ireland_Hungary");("Australia/New Zealand","Australia_NewZealand");
   ("Europe/Other","Europe_Other");("Other","Other")].

Section MasterCompare.
Context `{UnicodeDB}.

(** [.lower().replace(" ", "").replace("_", "").replace("-", "")] *)
Definition squash (s : text) : text :=
  List.filter (fun c => negb (bool_decide (c ∈ [32; 95; 45]%N))) (py_lower s).

(** The master file in a directory: the index, among the candidate file
    stems in [glob] order, of the first whose squashed stem contains the
    squashed file key of the region, else the first; [None] is the
    [FileNotFoundError] of an empty directory. *)
Definition choose_master_csv (region : text) (stems : list text) : option nat :=
  let target := squash (default region (dict_get region REGION_FILE_MAP)) in
  match stems with
  | [] => None
  | _ =>
      Some (default 0 (fst <$> list_find
        (fun st => target <> [] /\ py_contains target (squash st) = true) stems))
  end.

(** [baseline_index = {_norm_key(t): i+1 for i, t in enumerate(base_titles)}]
    and its lookup [baseline_index.get(k, 0)]. *)
Definition baseline_index (titles : list text) : list (text * nat) :=
  imap (fun i t => (_norm_key t, S i)) titles.
Definition prod_no (bidx : list (text * nat)) (k : text) : nat := default 0 (dict_get k bidx).

(** [f"{n:03d}"] *)
Definition pad3 (n : nat) : text :=
  let d := show_dec (Z.of_nat n) in repeat 48%N (3 - length d) ++ d.

Definition title_key (r : row) : text := _norm_key (rget r (u "Production Name")).

(** [m_map]: the first row of each non-empty key. *)
Definition key_map (rows : list row) : gmap text row :=
  fold_left (fun m r =>
    let k := title_key r in
    if bool_decide (k = []) || bool_decide (is_Some (m !! k)) then m else <[k := r]> m) rows ∅.

(** [w_map] and [w_order]: the same, with the keys in first-seen order. *)
Definition weekly_keys (rows : list row) : gmap text row * list text :=
  fold_left (fun '(m, ks) r =>
    let k := title_key r in
    if bool_decide (k = []) || bool_decide (is_Some (m !! k)) then (m, ks)
    else (<[k := r]> m, ks ++ [k])) rows (∅, []).

(** The region filter on the weekly rows. *)
Definition in_region (region : text) (r : row) : bool :=
  match region with
  | [] => true
  | _ => bool_decide (region_bucket (rget r (u "City")) (rget r (u "Province/State"))
                        (rget r (u "Country")) = region)
  end.

(** The start dates of push-back detection, falling back to [Start Month]
    when either span gives none. *)
Definition start_dates (mr wr : row) : option date * option date :=
  let ms := _start_date_from_shooting_dates (rget mr (u "Shooting Dates")) in
  let ws := _start_date_from_shooting_dates (rget wr (u "Shooting Dates")) in
  match ms, ws with
  | Some _, Some _ => (ms, ws)
  | _, _ =>
      (match ms with Some _ => ms | None => _approx_start_date_from_start_month (rget mr (u "Start Month")) end,
       match ws with Some _ => ws | None => _approx_start_date_from_start_month (rget wr (u "Start Month")) end)
  end.

(** [pushed = bool(ms and ws and ws > ms)] *)
Definition pushed_back (mr wr : row) : bool :=
  match start_dates mr wr with
  | (Some ms, Some ws) => date_ltb ms ws
  | _ => false
  end.

Definition updated_vs_master_note (diffs : list text) (n : nat) (label : text) (pushed : bool) : text :=
  u "UPDATED vs Master (" ++ py_join (u ", ") diffs ++ u ") – Prod. #" ++ pad3 n ++ u " (" ++ label
  ++ u ")" ++ (if pushed then u " | Date pushed back" else []).

Definition new_to_master_note (n : nat) (label : text) : text :=
  u "NEW to Master – Prod. #" ++ pad3 n ++ u " (" ++ label ++ u ")".

(** The body of [for k in w_order] for the weekly row [wr] of key [k]:
    [Some None] when nothing is written, [None] when [to_master_row]
    raises. *)
Definition master_row_for (mm : gmap text row) (bidx : list (text * nat)) (label k : text)
    (wr : row) : option (option row) :=
  match mm !! k with
  | Some mr =>
      match _changed_vs_master mr wr with
      | [] => Some None
      | diffs =>
          let pushed := pushed_back mr wr in
          let out := <[u "Notes" := updated_vs_master_note diffs (prod_no bidx k) label pushed]>
                       (<[u "Category" := u "Updated vs Master"]> wr) in
          let out := if pushed then <[u "If It Was Pushed" := u "Yes"]> out else out in
          Some <$> to_master_row out label
      end
  | None =>
      Some <$> to_master_row (<[u "Notes" := new_to_master_note (prod_no bidx k) label]>
                                (<[u "Category" := u "New to Master"]> wr)) label
  end.

(** The loop over [w_order]; [w_map[k]] raises [KeyError] ([None]) for a
    key without a row. *)
Fixpoint master_loop (mm : gmap text row) (bidx : list (text * nat)) (label : text)
    (wm : gmap text row) (order : list text) : option (list row) :=
  match order with
  | [] => Some []
  | k :: ks =>
      wr ← wm !! k;
      o ← master_row_for mm bidx label k wr;
      rest ← master_loop mm bidx label wm ks;
      Some (match o with Some r => r :: rest | None => rest end)
  end.

(** The rows [master_compare_cmd] writes, from the master rows, the weekly
    rows, the baseline titles, the region argument and the weekly label. *)
Definition master_compare (master_rows weekly_rows : list row) (base_titles : list text)
    (region label : text) : option (list row) :=
  let bidx := baseline_index base_titles in
  let region := match region with [] => _region_from_master master_rows | _ => region end in
  let mm := key_map master_rows in
  let '(wm, order) := weekly_keys (List.filter (in_region region) weekly_rows) in
  master_loop mm bidx label wm order.

(** [_truthy] and [pushed_count]. *)
Definition _truthy (v : text) : bool := mem (py_lower (py_strip v)) (set_of ["y"; "yes"; "true"; "1"]).
Definition pushed_count (rows : list row) : nat :=
  length (List.filter (fun r => _truthy (rget r (u "Date Pushed Back?"))) rows).

(** [safe_region] of the output file name. *)
Definition safe_region (region : text) : text :=
  map (fun c => if bool_decide (c ∈ [32; 47; 92; 58]%N) then 95%N else c)
    (match region with [] => u "All" | _ => region end).

End MasterCompare.

(** ** The master-schema projection: schema by construction *)

Section ProjectionProps.
Context `{UnicodeDB}.

Lemma master_list_keys r il : (master_list r il).*1 = MASTER_SCHEMA.
Proof. reflexivity. Qed.

Lemma MASTER_SCHEMA_NoDup : NoDup MASTER_SCHEMA.
Proof. apply (bool_decide_unpack (NoDup MASTER_SCHEMA)). vm_compute. reflexivity. Qed.

Lemma to_master_row_some r il out :
  to_master_row r il = Some out -> out = list_to_map (master_list r il).
Proof.
  unfold to_master_row. destruct (months_of _); [|discriminate].
  intros Hs. exact (eq_sym (f_equal (default ∅) Hs)).
Qed.

Lemma to_master_row_lookup r il out k v :
  to_master_row r il = Some out -> (k, v) ∈ master_list r il -> out !! k = Some v.
Proof.
  intros E Hin. apply to_master_row_some in E as ->. apply elem_of_list_to_map_1; [|done].
  rewrite master_list_keys. apply MASTER_SCHEMA_NoDup.
Qed.

Lemma to_master_row_category r il out :
  to_master_row r il = Some out -> out !! u "Category" = Some (rget r (u "Category")).
Proof. intros E. apply (to_master_row_lookup _ _ _ _ _ E). do 1 right. left. Qed.

Lemma Notes_not_in_schema : u "Notes" ∉ MASTER_SCHEMA.
Proof. apply (bool_decide_unpack (u "Notes" ∉ MASTER_SCHEMA)). vm_compute. reflexivity. Qed.

(** Every row [to_master_row] builds has exactly the [MASTER_SCHEMA]
    columns. *)
Lemma to_master_row_schema_dom r il out :
  to_master_row r il = Some out -> dom out = list_to_set MASTER_SCHEMA.
Proof.
  intros E. apply to_master_row_some in E as ->. by rewrite dom_list_to_map_L, master_list_keys.
Qed.

End ProjectionProps.

(** ** The rows of [master_compare_cmd] *)

Section CompareRows.
Context `{UnicodeDB}.

Lemma master_loop_forall (P : row -> Prop) mm bidx label wm order out :
  (forall k wr r, master_row_for mm bidx label k wr = Some (Some r) -> P r) ->
  master_loop mm bidx label wm order = Some out -> Forall P out.
Proof.
  intros HP. revert out. induction order as [|k ks IH]; intros out E; simpl in E.
  - by injection E as <-.
  - destruct (wm !! k) as [wr|]; [|done]. simpl in E.
    destruct (master_row_for mm bidx label k wr) as [o|] eqn:Eo; [|done]. simpl in E.
    destruct (master_loop mm bidx label wm ks) as [rest|]; [|done]. simpl in E.
    injection E as <-. destruct o as [r|]; [constructor; [by eapply HP|]|]; by apply IH.
Qed.

Lemma master_row_for_some mm bidx label k wr r :
  master_row_for mm bidx label k wr = Some (Some r) ->
  exists x, to_master_row x label = Some r /\
    (rget x (u "Category") = u "Updated vs Master" \/ rget x (u "Category") = u "New to Master").
Proof.
  unfold master_row_for. destruct (mm !! k) as [mr|].
  - destruct (_changed_vs_master mr wr) as [|d ds]; [done|].
    destruct (pushed_back mr wr); intros E;
      (destruct (to_master_row _ label) as [r'|] eqn:Et; [|done]); injection E as ->;
      eexists; (split; [exact Et|left]); rewrite ?rget_insert_ne, ?rget_insert_eq by done; done.
  - intros E. destruct (to_master_row _ label) as [r'|] eqn:Et; [|done]. injection E as ->.
    eexists. split; [exact Et|right]. by rewrite rget_insert_ne, rget_insert_eq.
Qed.

Lemma master_compare_forall (P : row -> Prop) mrows wrows bt region label out :
  (forall x r, to_master_row x label = Some r ->
     (rget x (u "Category") = u "Updated vs Master" \/ rget x (u "Category") = u "New to Master") ->
     P r) ->
  master_compare mrows wrows bt region label = Some out -> Forall P out.
Proof.
  intros HP. unfold master_compare. destruct (weekly_keys _) as [wm order].
  apply master_loop_forall. intros k wr r E.
  destruct (master_row_for_some _ _ _ _ _ _ E) as (x & Ex & Hc). by eapply HP.
Qed.

(** Finding: the rows [master_compare_cmd] writes carry no [Notes]:
    the note with the production number ([Prod. #NNN]) and the push-back
    mark is built for every row and dropped by [to_master_row], whose
    columns are [MASTER_SCHEMA]. *)
Theorem master_compare_no_notes mrows wrows bt region label out :
  master_compare mrows wrows bt region label = Some out ->
  Forall (fun r => r !! u "Notes" = None) out.
Proof.
  apply master_compare_forall. intros x r E _.
  apply not_elem_of_dom. rewrite (to_master_row_schema_dom _ _ _ E).
  rewrite elem_of_list_to_set. apply Notes_not_in_schema.
Qed.

(** Master comparison classifies a weekly row as Updated vs Master or
    New to Master and nothing else: unlike the run-to-run comparison it
    reports no master row as removed. *)
Theorem master_compare_categories mrows wrows bt region label out :
  master_compare mrows wrows bt region label = Some out ->
  Forall (fun r => r !! u "Category" = Some (u "Updated vs Master") \/
                   r !! u "Category" = Some (u "New to Master")) out.
Proof.
  apply master_compare_forall. intros x r E Hc.
  rewrite (to_master_row_category _ _ _ E). destruct Hc as [->| ->]; auto.
Qed.

End CompareRows.

(** ** The asymmetric rule and push-back detection *)

Section FieldProps.
Context `{UnicodeDB}.

Lemma filter_elem_of {A} (p : A -> bool) (l : list A) x :
  x ∈ List.filter p l <-> x ∈ l /\ p x = true.
Proof. rewrite !list_elem_of_In. apply List.filter_In. Qed.

(** The fields compared by [_equiv] alone. *)
Definition plain_fields : list text := set_of
  ["City"; "Province/State"; "Country"; "Director/Producer"; "Production Company"].

Lemma field_changed_plain m w f :
  f ∈ plain_fields ->
  field_changed m w f =
    if is_na (_norm_text (rget w f)) && negb (is_na (_norm_text (rget m f))) then false
    else negb (_equiv (rget m f) (rget w f)).
Proof.
  intros Hf. unfold field_changed. destruct (_ && _); [done|].
  unfold plain_fields, set_of in Hf; simpl in Hf.
  repeat (apply elem_of_cons in Hf as [->|Hf]; [by rewrite !bool_decide_false|]).
  by apply elem_of_nil in Hf.
Qed.

(** [C6] The asymmetric rule of master comparison: a field blank or N/A in
    the weekly row while filled in the master is never reported (a parsing
    miss), whereas a field of the plain kind blank in the master and filled
    in the weekly row is always reported. *)
Theorem changed_vs_master_asymmetric m w f :
  (is_na (_norm_text (rget w f)) = true -> is_na (_norm_text (rget m f)) = false ->
   f ∉ _changed_vs_master m w) /\
  (f ∈ plain_fields -> is_na (_norm_text (rget m f)) = true ->
   is_na (_norm_text (rget w f)) = false -> f ∈ _changed_vs_master m w).
Proof.
  split.
  - intros Hw Hm. unfold _changed_vs_master. rewrite filter_elem_of.
    unfold field_changed. rewrite Hw, Hm. simpl. by intros [_ ?].
  - intros Hf Hm Hw. unfold _changed_vs_master. rewrite filter_elem_of. split.
    + unfold plain_fields, set_of in Hf; simpl in Hf.
      repeat (apply elem_of_cons in Hf as [->|Hf]; [by repeat constructor|]).
      by apply elem_of_nil in Hf.
    + rewrite field_changed_plain, Hw by done. simpl. apply negb_true.
      apply Bool.not_true_iff_false. rewrite equiv_true_iff. intros [[_ Hw']|Heq]; [congruence|].
      rewrite <- Heq in Hw. congruence.
Qed.

(** Each side's start date as the spec describes it: the start of the
    explicit span, or the first of the [Start Month]. *)
Definition start_or_month (r : row) : option date :=
  match _start_date_from_shooting_dates (rget r (u "Shooting Dates")) with
  | Some d => Some d
  | None => _approx_start_date_from_start_month (rget r (u "Start Month"))
  end.

(** [C7] Push-back detection: the code's two-phase fallback (to [Start
    Month] only when one of the spans gives no date) flags a row exactly
    when both sides have a start date, each from its span or else from its
    start month, and the weekly start is strictly later. *)
Theorem pushed_back_spec m w :
  pushed_back m w = true <->
  exists a b, start_or_month m = Some a /\ start_or_month w = Some b /\ date_ltb a b = true.
Proof.
  unfold pushed_back, start_dates, start_or_month.
  destruct (_start_date_from_shooting_dates (rget m _)) as [a|],
           (_start_date_from_shooting_dates (rget w _)) as [b|]; simpl;
  repeat match goal with |- context [_approx_start_date_from_start_month ?x] =>
    destruct (_approx_start_date_from_start_month x) end;
  split; try (intros (? & ? & [=] & [=] & ?); subst; done); try done; eauto.
Qed.

End FieldProps.

(** ** Production company detection *)


Section ProdCoProps.
Context `{UnicodeDB}.

(** [C31] The order of the keys does not matter in [detect_prod_co]: the
    result is the sorted set of the companies of every key found in the
    search text, whatever the order the keys are tried in; sorting the
    keys longest first, as the comment intends, prioritises nothing. *)
Theorem detect_prod_co_order_free r : detect_prod_co r = prod_co_reference (search_text r).
Proof.
  unfold detect_prod_co, prod_co_reference. f_equal. apply py_sorted_perm.
  destruct (fold_set_add_spec (fun k => py_contains k (search_text r))
              (fun k => default [] (dict_get k KNOWN_PROD_CO_MAPPING)) sorted_keys [] (NoDup_nil_2))
    as [Hnd Hx].
  apply NoDup_Permutation; [done|apply NoDup_remove_dups|]. intros x.
  rewrite Hx, elem_of_remove_dups, (list_elem_of_In (map _ _) x), in_map_iff.
  setoid_rewrite List.filter_In.
  unfold sorted_keys. setoid_rewrite (merge_sort_Permutation by_len_desc _).
  split.
  - intros [?%elem_of_nil|(t & Ht & Hp & ->)]; [done|]. exists t. rewrite <- list_elem_of_In. auto.
  - intros (t & <- & Ht & Hp). right. exists t. rewrite list_elem_of_In. auto.
Qed.

End ProdCoProps.

(** ** The master file: headers and records *)

Section MasterFileProps.
Context `{UnicodeDB}.

Lemma dict_get_elem {V} k (d : list (text * V)) v : dict_get k d = Some v -> (k, v) ∈ d.
Proof.
  unfold dict_get. destruct (List.find _ (rev d)) as [[k' v']|] eqn:E; simpl; [|done].
  intros [= <-]. apply List.find_some in E as [Hin Hk]. apply bool_decide_eq_true in Hk as ->.
  rewrite <- in_rev in Hin. by apply list_elem_of_In.
Qed.

(** Every canonical name of [_MASTER_ALIASES] is its own canonical name. *)
Lemma canon_header_alias k v : (k, v) ∈ _MASTER_ALIASES -> _canon_header v = v.
Proof.
  intros Hin.
  assert (Hall : forallb (fun '(_, v) => ascii_textb v &&
            bool_decide (default v (dict_get (map ascii_lower (py_strip v)) _MASTER_ALIASES) = v))
            _MASTER_ALIASES = true) by reflexivity.
  rewrite forallb_forall in Hall. apply list_elem_of_In, Hall in Hin.
  apply andb_true_iff in Hin as [Ha Hv]. apply bool_decide_eq_true in Hv.
  unfold _canon_header. rewrite py_lower_ascii_text; [done|].
  apply ascii_strip, ascii_textb_spec, Ha.
Qed.

(** Header canonicalisation is idempotent: a canonical header name
    (an alias's target, or a name with no alias) is left unchanged. *)
Theorem canon_header_idempotent h : _canon_header (_canon_header h) = _canon_header h.
Proof.
  unfold _canon_header at 2 3.
  destruct (dict_get (py_lower (py_strip h)) _MASTER_ALIASES) as [v|] eqn:E; simpl.
  - apply dict_get_elem in E. by eapply canon_header_alias.
  - unfold _canon_header. by rewrite E.
Qed.

Lemma make_record_keys headers r h : is_Some (make_record headers r !! h) -> h <> [].
Proof.
  unfold make_record. revert h.
  apply (fold_left_inv (fun rec => forall h, is_Some (rec !! h) -> h <> [])).
  - intros h [? Hh]. by rewrite lookup_empty in Hh.
  - intros rec [i h'] _ Hrec h. destruct h' as [|c h'']; [apply Hrec|].
    rewrite lookup_insert_is_Some. intros [<-|[_ Hh]]; [done|]. by apply Hrec.
Qed.

(** Every record [_read_master_rows] returns has a non-blank
    Production Name, and every column it holds has a non-empty canonical
    header: the ignored decorative columns map to the empty header and are
    dropped. *)
Theorem read_master_rows_wf rows :
  Forall (fun rec => py_strip (rget rec (u "Production Name")) <> [] /\
                     forall h, is_Some (rec !! h) -> h <> []) (_read_master_rows rows).
Proof.
  unfold _read_master_rows. destruct rows as [|r0 rows']; [constructor|].
  apply Forall_forall. intros rec Hin. apply list_elem_of_In, List.filter_In in Hin as [Hin Hpn].
  split; [by apply negb_true, bool_decide_eq_false in Hpn|].
  apply in_map_iff in Hin as (r & <- & _). apply make_record_keys.
Qed.

End MasterFileProps.

(** ** Master comparison never fails on decimal lengths *)

Section MasterTotal.
Context `{UnicodeDB}.

(** A weekly row whose [Computed Production Length] [to_master_row] can
    convert: [int(days)] does not raise. *)
Definition length_ok (r : row) : Prop :=
  is_Some (months_of (py_strip (rget r (u "Computed Production Length")))).

Lemma to_master_row_ok r il : length_ok r -> is_Some (to_master_row r il).
Proof. unfold to_master_row, length_ok. intros [m ->]. eexists. reflexivity. Qed.

Lemma length_ok_insert r k v : k <> u "Computed Production Length" -> length_ok r -> length_ok (<[k := v]> r).
Proof. intros Hk. unfold length_ok. by rewrite rget_insert_ne by done. Qed.

Lemma master_row_for_ok mm bidx label k wr :
  length_ok wr -> is_Some (master_row_for mm bidx label k wr).
Proof.
  intros Hw. unfold master_row_for.
  destruct (mm !! k); [destruct (_changed_vs_master _ wr); [by eexists|]|];
    [destruct (pushed_back _ wr)|];
    apply fmap_is_Some, to_master_row_ok; repeat apply length_ok_insert; done.
Qed.

Lemma weekly_keys_spec rows :
  let '(wm, order) := weekly_keys rows in
  (forall k, k ∈ order -> is_Some (wm !! k)) /\ (forall k r, wm !! k = Some r -> r ∈ rows).
Proof.
  unfold weekly_keys.
  apply (fold_left_inv (fun '(m, ks) => (forall k, k ∈ ks -> is_Some (m !! k)) /\
                                         (forall k r, m !! k = Some r -> r ∈ rows))).
  - split; [by intros ? ?%elem_of_nil|]. intros k r. by rewrite lookup_empty.
  - intros [m ks] r Hr [Hks Hm]. case_if; [done|]. split.
    + intros k [Hk| ->%list_elem_of_singleton]%elem_of_app.
      * rewrite lookup_insert_is_Some. destruct (decide (title_key r = k)); [by left|].
        right. split; [done|]. by apply Hks.
      * rewrite lookup_insert_eq. by eexists.
    + intros k r'. rewrite lookup_insert. case_decide; [intros [= <-]; by apply list_elem_of_In|].
      apply Hm.
Qed.

(** [C5] [master_compare_cmd] raises neither [KeyError] nor [ValueError]
    when every weekly row's length converts with [int]: then it always
    returns its rows. *)
Theorem master_compare_total mrows wrows bt region label :
  Forall length_ok wrows -> is_Some (master_compare mrows wrows bt region label).
Proof.
  intros Hall. unfold master_compare.
  pose proof (weekly_keys_spec (List.filter (in_region
    (match region with [] => _region_from_master mrows | _ => region end)) wrows)) as Hw.
  destruct (weekly_keys _) as [wm order]. destruct Hw as [Hks Hwm].
  induction order as [|k ks IH]; simpl; [by eexists|].
  destruct (Hks k ltac:(constructor)) as [wr Hwr]. rewrite Hwr. simpl.
  assert (Hok : length_ok wr).
  { apply Hwm in Hwr. apply list_elem_of_In, List.filter_In in Hwr as [Hwr _].
    rewrite List.Forall_forall in Hall. by apply Hall. }
  destruct (master_row_for_ok (key_map mrows) (baseline_index bt) label k wr Hok) as [o ->].
  simpl. destruct IH as [rest ->]; [intros k' Hk'; apply Hks; by right|]. simpl. by eexists.
Qed.

End MasterTotal.

(** ** Concrete runs at the Latin-1 database *)

Section MasterExamples.
#[local] Existing Instance latin1_db.

(** A master row with the span written with both years, and the weekly row
    of the same production carrying the display text [_parse_date_range]
    gives for that span. *)
Definition demo_master_row : row :=
  <[u "Production Name" := u "Alpha"]> (<[u "Shooting Dates" := u "November 3, 2025 - March 15, 2026"]>
    (<[u "Computed Production Length" := u "133"]> ∅)).
Definition demo_weekly_row : row :=
  <[u "Production Name" := u "Alpha"]> (<[u "Shooting Dates" := wrap_display]>
    (<[u "Computed Production Length" := u "133"]> ∅)).
Definition demo_superscript_row : row :=
  <[u "Production Name" := u "Beta"]> (<[u "Computed Production Length" := u "²"]> ∅).
Definition demo_city_row : row := <[u "City" := u "Vancouver, BC"]> ∅.
Definition demo_pineapple_row : row :=
  <[u "Production Name" := u "Gamma"]> (<[u "Description" := u "A pineapple farm drama"]>
    (<[u "Production Company" := u "Warner Bros. Television"]> ∅)).

(** Finding: master comparison reports a production as pushed back
    when the weekly row carries the program's own display text of a span
    crossing the new year: both texts parse to the same span starting on
    3 November 2025, yet the row is written as Updated vs Master with
    [Date Pushed Back?] set to [Yes]. *)
Theorem master_compare_false_pushback :
  _parse_date_range wrap_example = (wrap_display, Some (mkdate 2025 11 3), Some (mkdate 2026 3 15)) /\
  _parse_date_range (u "November 3, 2025 - March 15, 2026") =
    (wrap_display, Some (mkdate 2025 11 3), Some (mkdate 2026 3 15)) /\
  option_map (map (fun r => (r !! u "Category", r !! u "Date Pushed Back?")))
    (master_compare [demo_master_row] [demo_weekly_row] [] [] (u "PW 1")) =
    Some [(Some (u "Updated vs Master"), Some (u "Yes"))].
Proof. split_and!; vm_compute; reflexivity. Qed.

(** Finding: the [isdigit] guard of [to_master_row] does not protect
    [int]: a length of [²] passes it and [int] raises [ValueError], so the
    whole master comparison fails on that row. *)
Theorem master_compare_superscript_length :
  py_isdigit (u "²") = true /\ master_compare [] [demo_superscript_row] [] [] (u "PW 1") = None.
Proof. split; vm_compute; reflexivity. Qed.

(** Finding: production companies are found by substring: the word
    [pineapple] in a description tags the row with Apple. *)
Theorem detect_prod_co_pineapple : detect_prod_co demo_pineapple_row = u "Apple+Warner Bros.".
Proof. vm_compute. reflexivity. Qed.

Lemma master_compare_no_notes_witness :
  exists out, master_compare [demo_master_row] [demo_weekly_row] [] [] (u "PW 1") = Some out /\
              Forall (fun r => r !! u "Notes" = None) out.
Proof.
  case_some (master_compare [demo_master_row] [demo_weekly_row] [] [] (u "PW 1")) as out E.
  exists out. split; [done|]. exact (master_compare_no_notes _ _ _ _ _ _ E).
Defined.

Lemma master_compare_categories_witness :
  exists out, master_compare [demo_master_row] [demo_weekly_row; demo_pineapple_row] [] [] (u "PW 1")
                = Some out /\
              Forall (fun r => r !! u "Category" = Some (u "Updated vs Master") \/
                               r !! u "Category" = Some (u "New to Master")) out.
Proof.
  case_some (master_compare [demo_master_row] [demo_weekly_row; demo_pineapple_row] [] [] (u "PW 1"))
    as out E.
  exists out. split; [done|]. exact (master_compare_categories _ _ _ _ _ _ E).
Defined.

Lemma master_compare_total_witness :
  is_Some (master_compare [demo_master_row] [demo_weekly_row; demo_pineapple_row] [] [] (u "PW 1")).
Proof.
  apply master_compare_total.
  repeat constructor; unfold length_ok; vm_compute; by eexists.
Defined.

Lemma changed_vs_master_asymmetric_witness :
  u "City" ∉ _changed_vs_master demo_city_row ∅ /\ u "City" ∈ _changed_vs_master ∅ demo_city_row.
Proof.
  split.
  - apply (changed_vs_master_asymmetric demo_city_row ∅ (u "City")); vm_compute; reflexivity.
  - apply (changed_vs_master_asymmetric ∅ demo_city_row (u "City"));
      [apply (bool_decide_unpack (u "City" ∈ plain_fields))|..]; vm_compute; reflexivity.
Defined.

End MasterExamples.
