(* ===== verification/Record.v ===== *)
(** * Record: one record per production block, and the build

    Models, from [src/Scripts/Production_Weekly_Extractor.py]:
    - [_first_email], [_extract_all_emails] (lines 592-595, 1693-1694) with
      the [RE_EMAIL] matcher of [Master];
    - [_parse_block_to_row] (lines 690-783): the block's non-blank lines,
      the title with its aliases, type and format label, body, exclusion,
      company and office, studios, status and location with the
      block-level fallbacks, start month, dates, location, crew, VFX,
      contacts, and the record over [SCHEMA];
    - [PROD_BREAK] (line 388), [_load_from_structured] and the titles of
      [load_blocks] (lines 1918-1948);
    - the rows and title lists of [build_cmd] (lines 1951-1977), with
      [safe_label].

    The gazetteer [world_lookup_city] is a section variable: every theorem
    holds for every gazetteer.  [date.today()] is the variable [today].  A record
    is [None] when [_start_month_from_status] raises. *)

From S2P Require Import Prelude PyStr Regex KeyNorm Dates Extract Region Location Reconcile Master.

Definition PROD_BREAK : text := u "----- PRODUCTION BREAK -----".

Section Record.
Context `{UnicodeDB}.

(** [RE_EMAIL.search(text).group(0)], or the empty text. *)
Definition _extract_all_emails (t : text) : text :=
  match re_search email_at t with Some (p, n) => take n (drop p t) | None => [] end.

(** [[ln.strip() for ln in block_text.splitlines() if ln.strip()]] *)
Definition block_lines (block : text) : list text :=
  List.filter (fun ln => negb (bool_decide (ln = []))) (map py_strip (py_splitlines block)).

Variable world_lookup_city : text -> triple.
Variable today : date.

(** The title of [_parse_block_to_row], with its aliases appended. *)
Definition block_title (block : text) : text :=
  let t := _quoted_title_from_title_line (default [] (head (block_lines block))) in
  match _extract_alt_titles block with [] => t | alt => t ++ [32%N] ++ alt end.

(** The status and location, with [RE_STATUS] and [RE_LOCATION] on the
    whole block when the line scan finds none. *)
Definition block_status_location (block : text) : text * text :=
  let '(st, loc) := _status_and_location_from_lines (block_lines block) in
  (match st with [] => search_field status_rx block | _ => st end,
   match loc with [] => search_field location_rx block | _ => loc end).

Definition _parse_block_to_row (block : text) : option (row * text * bool) :=
  let lines := block_lines block in
  let first := default [] (head lines) in
  let title := block_title block in
  let '(company, office) := company_scan (tail lines) in
  let '(status, loc) := block_status_location block in
  start_month ← _start_month_from_status status;
  let '(sd_text, sd, ed) := _parse_date_range block in
  let '(city, region, country) := _city_state_country_from_location world_lookup_city loc in
  Some (list_to_map
    [(u "Production Name", title);
     (u "Format Label", _format_label_from_title_line first);
     (u "Start Month", start_month);
     (u "Shooting Dates", sd_text);
     (u "Actively in Production", _active_today today sd ed);
     (u "If It Was Pushed", []);
     (u "Computed Production Length", _inclusive_days sd ed);
     (u "Description", py_strip (py_join [10%N] (tail lines)));
     (u "City", city);
     (u "Province/State", region);
     (u "Country", country);
     (u "Type", _type_from_title_line first);
     (u "Director/Producer", _gather_director_producer lines);
     (u "VFX Team", _gather_vfx lines);
     (u "Studio Info", _extract_studio_name lines);
     (u "Production Office", office);
     (u "Production Phone", _extract_all_phones block);
     (u "Production Email", _extract_all_emails block);
     (u "Production Company", company);
     (u "Notes", []);
     (u "Category", []);
     (u "All Locations", loc)], title, is_excluded block).

(** ** Loading and building *)

(** [s.split(sep)] for a non-empty separator; [fuel] is the length of
    the text, each step consuming at least one character. *)
Fixpoint split_text_aux (sep : text) (fuel : nat) (cur s : text) : list text :=
  match fuel with
  | 0 => [rev cur ++ s]
  | S f =>
      match s with
      | [] => [rev cur]
      | c :: s' =>
          if py_startswith sep s then rev cur :: split_text_aux sep f [] (drop (length sep) s)
          else split_text_aux sep f (c :: cur) s'
      end
  end.
Definition py_split_text (sep s : text) : list text := split_text_aux sep (length s) [] s.

(** [[ln for ln in text.splitlines() if ln.strip()]] *)
Definition nonblank_lines (t : text) : list text :=
  List.filter (fun ln => negb (bool_decide (py_strip ln = []))) (py_splitlines t).

(** One chunk of [_load_from_structured]: kept when its first non-blank
    line starts with the title prefix or an opening quote. *)
Definition block_of_chunk (c : text) : option text :=
  match nonblank_lines (py_strip c) with
  | l0 :: rest =>
      let l := lstrip_ws l0 in
      if py_startswith TITLE_PREFIX l || match l with q :: _ => open_quote q | [] => false end
      then Some (py_join [10%N] (l0 :: rest)) else None
  | [] => None
  end.

Definition _load_from_structured (txt : text) : list text := omap block_of_chunk (py_split_text PROD_BREAK txt).

(** The titles of [load_blocks]: the quoted title of each block's first
    non-blank line, aliases not included. *)
Definition load_titles (blocks : list text) : list text :=
  map (fun b => _quoted_title_from_title_line (default [] (head (nonblank_lines b)))) blocks.

(** The loop of [build_cmd]: the kept rows (through [fill_na]) and the
    filtered titles, in block order; [None] when a block raises. *)
Fixpoint build_rows (blocks : list text) : option (list row * list text) :=
  match blocks with
  | [] => Some ([], [])
  | b :: bs =>
      match _parse_block_to_row b, build_rows bs with
      | Some (r, t, ex), Some (rows, filt) =>
          Some (if ex then (rows, t :: filt) else (fill_na r :: rows, filt))
      | _, _ => None
      end
  end.

(** [re.sub(r"[^A-Za-z0-9_.-]+", "_", label).strip("_")] *)
Definition safe_label (label : text) : text :=
  py_strip_chars [95%N]
    (re_sub (run_plus (fun c => negb (is_ascii_letter c || is_ascii_digit c || bool_decide (c ∈ [95; 46; 45]%N))))
       [95%N] label).

(** [build_cmd]: the rows of the full-schema file, the baseline titles
    (every block) and the filtered titles. *)
Definition build_cmd (txt : text) : option (list row * list text * list text) :=
  let blocks := _load_from_structured txt in
  '(rows, filt) ← build_rows blocks;
  Some (rows, load_titles blocks, filt).

End Record.

(** ** The build *)

Lemma some_triple_inj {A B C} (x x' : A) (y y' : B) (z z' : C) :
  Some (x, y, z) = Some (x', y', z') -> x = x' /\ y = y' /\ z = z'.
Proof.
  intros Hs. split_and!.
  - exact (f_equal (fun o => match o with Some (a, _, _) => a | None => x end) Hs).
  - exact (f_equal (fun o => match o with Some (_, b, _) => b | None => y end) Hs).
  - exact (f_equal (fun o => match o with Some (_, _, c) => c | None => z end) Hs).
Qed.

(** ** The split on the break marker *)

(** Any fuel at least the length of the text gives the same pieces: each
    step reads one character or skips a non-empty separator. *)
Lemma split_text_fuel sep f1 f2 cur s : sep <> [] ->
  (length s <= f1)%nat -> (length s <= f2)%nat -> split_text_aux sep f1 cur s = split_text_aux sep f2 cur s.
Proof.
  intros Hsep. revert f2 cur s. induction f1 as [|f1 IH]; intros f2 cur s H1 H2.
  - destruct s; [|simpl in H1; lia]. destruct f2; simpl; by rewrite ?app_nil_r.
  - destruct f2 as [|f2]; [destruct s; [simpl; by rewrite app_nil_r|simpl in H2; lia]|].
    destruct s as [|c s]; [done|]. simpl. destruct (py_startswith sep (c :: s)).
    + f_equal. apply IH; rewrite length_drop; destruct sep; simpl in *; first [done | lia].
    + apply IH; simpl in *; lia.
Qed.

Section RecordProps.
Context `{UnicodeDB}.
Variable gz : text -> triple.
Variable today : date.

Lemma parse_block_shape b r t ex :
  _parse_block_to_row gz today b = Some (r, t, ex) -> t = block_title b /\ ex = is_excluded b.
Proof.
  unfold _parse_block_to_row. destruct (company_scan _), (block_status_location _).
  destruct (_start_month_from_status _); [|discriminate]. cbn [mbind option_bind].
  destruct (_parse_date_range b) as [[? ?] ?], (_city_state_country_from_location gz _) as [[? ?] ?].
  intros (_ & <- & <-)%some_triple_inj. done.
Qed.

(** Each kept row comes from its block, through [fill_na]. *)
Definition kept_row (b : text) (r : row) : Prop :=
  exists r0, _parse_block_to_row gz today b = Some (r0, block_title b, false) /\ r = fill_na r0.

Lemma build_rows_spec bs rows filt :
  build_rows gz today bs = Some (rows, filt) ->
  filt = map (block_title) (List.filter is_excluded bs) /\
  Forall2 kept_row (List.filter (fun b => negb (is_excluded b)) bs) rows.
Proof.
  revert rows filt. induction bs as [|b bs IH]; intros rows filt; simpl.
  - intros [= <- <-]. split; constructor.
  - destruct (_parse_block_to_row gz today b) as [[[r t] ex]|] eqn:Eb; [|done].
    destruct (build_rows gz today bs) as [[rows' filt']|]; [|done].
    destruct (parse_block_shape _ _ _ _ Eb) as [-> ->].
    destruct (IH _ _ eq_refl) as [Hf Hr].
    destruct (is_excluded b) eqn:Ex; simpl; intros [= <- <-].
    + split; [by rewrite Hf|done].
    + split; [done|]. constructor; [|done]. exists r. split; [|done]. rewrite Eb. by rewrite ?Ex.
Qed.

(** [C13] The build (spec, Record Builder and section 8): every block of
    the file is in the baseline titles in order (so it keeps its ordinal),
    the filtered titles are the titles of the excluded blocks in order,
    and the rows are the records of the other blocks, one per block, in
    order, through [fill_na]. *)
Theorem build_cmd_partition txt rows titles filt :
  build_cmd gz today txt = Some (rows, titles, filt) ->
  titles = load_titles (_load_from_structured txt) /\
  filt = map (block_title) (List.filter is_excluded (_load_from_structured txt)) /\
  Forall2 kept_row (List.filter (fun b => negb (is_excluded b)) (_load_from_structured txt)) rows.
Proof.
  unfold build_cmd. destruct (build_rows gz today _) as [[rows' filt']|] eqn:E; [|done].
  intros (<- & <- & <-)%some_triple_inj. split; [done|]. by apply build_rows_spec.
Qed.

End RecordProps.

(** ** Concrete builds at the Latin-1 database *)

Section RecordExamples.
#[local] Existing Instance latin1_db.

(** A gazetteer that knows no city. *)
Definition demo_gazetteer (_ : text) : triple := ([], [], []).

Definition demo_issue : text :=
  u "### “Alpha” Series" ++ [10%N] ++ u "STATUS: March 2, 2026 LOCATION(S): Vancouver, BC"
  ++ [10%N] ++ PROD_BREAK ++ [10%N]
  ++ u "“Beta” Feature Film, a Hallmark original" ++ [10%N].

(** Finding: one STATUS line whose value [strip(" :-\t")] leaves as a
    no-break space makes [_start_month_from_status] raise, and the whole
    build fails, for every alias extractor, location parser and day: the
    spec says the extractors never raise. *)
Theorem build_cmd_nbsp_status gz today :
  build_cmd gz today (u "### “A” Series" ++ [10%N] ++ u "STATUS" ++ [160%N] ++ u "-") = None.
Proof. vm_compute. reflexivity. Qed.

Lemma build_cmd_partition_witness :
  exists rows titles filt,
    build_cmd demo_gazetteer (mkdate 2026 3 10) demo_issue = Some (rows, titles, filt) /\
    titles = load_titles (_load_from_structured demo_issue) /\
    filt = map block_title (List.filter is_excluded (_load_from_structured demo_issue)) /\
    Forall2 (kept_row demo_gazetteer (mkdate 2026 3 10))
      (List.filter (fun b => negb (is_excluded b)) (_load_from_structured demo_issue)) rows.
Proof.
  case_some (build_cmd demo_gazetteer (mkdate 2026 3 10) demo_issue) as res E.
  destruct res as [[rows titles] filt]. exists rows, titles, filt.
  split; [done|]. exact (build_cmd_partition _ _ _ _ _ _ E).
Defined.

End RecordExamples.
