(* ===== verification/Segment.v ===== *)
(** * Segment: the layout reader that splits an issue into productions

    Models the pure part of [extract_text_structured]
    (src/Scripts/Production_Weekly_Extractor.py, lines 111-261):
    - [TITLE_PATTERNS], [HEADER_KILL] and [looks_like_title] (lines 119-147);
    - the gathering of the text blocks of one page from PyMuPDF's
      [page.get_text("dict")] (lines 164-188): the page is given as its
      width and its raw blocks (an image block has no lines), a line as
      its spans with text, size and font;
    - [col_idx] and the reading-order sort (lines 191-201), with Python's
      stable sort as a stable insertion sort;
    - the size threshold, the rank [int(0.85 * (n - 1))] of the sorted
      sizes (lines 203-206);
    - the split into productions, line by line, with the flush at each
      title and at each page boundary (lines 208-251), and the text of
      the structured file (lines 254-258).

    Coordinates, sizes and the margin are rationals ([Q]).  Python
    computes [mid - col_margin] and [mid + col_margin] in double precision,
    which rounds only for values that are not sums of a few powers of two;
    the model computes them exactly.  The rank [int(0.85 * m)] is
    [17 * m / 20]: the double nearest to 0.85 is below it by less than
    [2.3e-17], so [0.85 * m] rounds to [17 * m / 20] when this is an integer
    and stays within the same integer interval otherwise, for every [m]
    below [2^50].  The ratio test [upper / letters >= 0.5] is
    [2 * upper >= letters] for the same reason.  The per-page dump files
    and the per-production files are output only and are not modelled. *)

From Stdlib Require Import QArith_base Qminmax Lqa.
From S2P Require Import Prelude PyStr Regex Dates Extract Record.

Open Scope N_scope.

(** ** Pages as PyMuPDF gives them *)

Record span := { sp_text : text; sp_size : Q; sp_font : text }.

(** A block of [d["blocks"]]: [None] lines for an image block. *)
Record raw_block := { rb_lines : option (list (list span)); rb_bbox : Q * Q * Q * Q }.

Record page := { pg_width : Q; pg_blocks : list raw_block }.

(** The dictionary a text block becomes. *)
Record block := { b_bbox : Q * Q * Q * Q; b_text : text; b_max_size : Q; b_bold : bool }.

Section Segment.
Context `{UnicodeDB}.

(** ** Python's stable sort

    [list.sort] is stable: blocks with equal keys keep their order.  The
    model sorts by insertion, an element going before the first element
    not below it; [le] is the [<=] of the keys. *)

Section StableSort.
Context {A : Type} (le : A -> A -> bool).

Fixpoint insert_by (x : A) (l : list A) : list A :=
  match l with
  | [] => [x]
  | y :: l' => if le x y then x :: l else y :: insert_by x l'
  end.

Definition sort_by (l : list A) : list A := fold_right insert_by [] l.

End StableSort.

(** ** Title patterns and header noise *)

Definition rx_ci_words {R} (ws : list string) : rx R := rx_alts (map (fun w => rx_lit_ci (u w)) ws).

(** [\d{2}-\d{2}-\d{2}\s*ê?] under [re.I] (where [ê] also matches [Ê]). *)
Definition title_date_rx : rx unit :=
  rx_seq (rx_rep is_digit 2 2) (rx_seq (rx_lit [45]) (rx_seq (rx_rep is_digit 2 2)
  (rx_seq (rx_lit [45]) (rx_seq (rx_rep is_digit 2 2)
  (rx_seq (rx_star is_space) (rx_rep (fun c => (c =? 234) || (c =? 202)) 0 1)))))).

(** [Series|Feature(?:\s*Film)?|Limited|Mini(?:series)?|Pilot|Short|Docu(?:series|mentary)?] *)
Definition title_types_1 : rx unit :=
  rx_alts [rx_lit_ci (u "Series");
           rx_seq (rx_lit_ci (u "Feature")) (rx_opt (rx_seq (rx_star is_space) (rx_lit_ci (u "Film"))));
           rx_lit_ci (u "Limited");
           rx_seq (rx_lit_ci (u "Mini")) (rx_opt (rx_lit_ci (u "series")));
           rx_lit_ci (u "Pilot"); rx_lit_ci (u "Short");
           rx_seq (rx_lit_ci (u "Docu")) (rx_opt (rx_ci_words ["series"; "mentary"]))].

(** [Series|Feature(?:\s*Film)?|Telefilm|Pilot|Short|Docu] *)
Definition title_types_2 : rx unit :=
  rx_alts [rx_lit_ci (u "Series");
           rx_seq (rx_lit_ci (u "Feature")) (rx_opt (rx_seq (rx_star is_space) (rx_lit_ci (u "Film"))));
           rx_lit_ci (u "Telefilm"); rx_lit_ci (u "Pilot"); rx_lit_ci (u "Short"); rx_lit_ci (u "Docu")].

(** The quoted-title pattern: [^], spaces, an optional [###] and spaces, an
    opening quote, spaces, the title [.+?], a closing quote, [\s+.*?\b],
    a type, [\b.*?], an optional date and [$]. *)
Definition title_pat_quoted : rx unit :=
  rx_seq (rx_star is_space) (rx_seq (rx_opt (rx_seq (rx_lit (u "###")) (rx_star is_space)))
  (rx_seq (rx_class open_quote) (rx_seq (rx_star is_space)
  (rx_seq (rx_plus_lazy any_but_newline) (rx_seq (rx_class close_quote)
  (rx_seq (rx_plus is_space) (rx_seq (rx_star_lazy any_but_newline)
  (rx_seq rx_wb (rx_seq title_types_1 (rx_seq rx_wb (rx_seq (rx_star_lazy any_but_newline)
  (rx_seq (rx_opt title_date_rx) rx_eol)))))))))))).

(** The headline pattern, under [re.I], where [[A-Z0-9]] is any ASCII
    letter or digit and [[^a-z]] is any character but an ASCII letter:
    [^[A-Z0-9][^a-z]{1,120}\b(types)\b.*?(?:/\s*\w.*?)?(?:date)?$]. *)
Definition title_pat_headline : rx unit :=
  rx_seq (rx_class (fun c => is_az_ci c || is_ascii_digit c))
  (rx_seq (rx_rep (fun c => negb (is_az_ci c)) 1 120)
  (rx_seq rx_wb (rx_seq title_types_2 (rx_seq rx_wb (rx_seq (rx_star_lazy any_but_newline)
  (rx_seq (rx_opt (rx_seq (rx_lit [47]) (rx_seq (rx_star is_space)
            (rx_seq (rx_class py_word_char) (rx_star_lazy any_but_newline)))))
  (rx_seq (rx_opt title_date_rx) rx_eol))))))).

Definition TITLE_PATTERNS : list (rx unit) := [title_pat_quoted; title_pat_headline].

(** [^\s*LAST UPDATED:], [^\s*issue\s+\w+], [^\s*#\d+\s+\d{2}/\d{2}\s*$], under [re.I]. *)
Definition HEADER_KILL : list (rx unit) :=
  [rx_seq (rx_star is_space) (rx_lit_ci (u "LAST UPDATED:"));
   rx_seq (rx_star is_space) (rx_seq (rx_lit_ci (u "issue")) (rx_seq (rx_plus is_space)
     (rx_plus py_word_char)));
   rx_seq (rx_star is_space) (rx_seq (rx_lit [35]) (rx_seq (rx_plus is_digit) (rx_seq (rx_plus is_space)
     (rx_seq (rx_rep is_digit 2 2) (rx_seq (rx_lit [47]) (rx_seq (rx_rep is_digit 2 2)
     (rx_seq (rx_star is_space) rx_eol)))))))].

Definition header_kill (t : text) : bool := existsb (fun pat => rx_test_start pat t) HEADER_KILL.

(** [upper_ratio >= 0.5], the ratio being 0 without letters. *)
Definition upper_half (letters : text) : bool :=
  match letters with
  | [] => false
  | _ => Nat.leb (length letters) (2 * length (List.filter u_isupper letters))
  end.

Definition looks_like_title (line : text) (max_size : Q) (is_bold : bool) (size_thr : Q) : bool :=
  let s := py_strip line in
  match s with
  | [] => false
  | _ => existsb (fun pat => rx_test_start pat s) TITLE_PATTERNS
         || (Qle_bool size_thr max_size && (is_bold || upper_half (List.filter u_isalpha s))
             && Nat.leb (length s) 120)
  end.

(** ** The blocks of a page *)

Definition line_text (ln : list span) : text := List.concat (map sp_text ln).

(** [max(sizes) if sizes else 0.0]: the first of the largest. *)
Definition list_max (l : list Q) : Q :=
  match l with [] => 0%Q | x :: xs => fold_left Qmax xs x end.

Definition bold_font (f : text) : bool :=
  py_contains (u "Bold") f || py_contains (u "Black") f || py_contains (u "Heavy") f.

Definition gather_block (b : raw_block) : option block :=
  match rb_lines b with
  | None => None
  | Some lns =>
      let text_lines := List.filter (fun t => negb (bool_decide (py_strip t = []))) (map line_text lns) in
      let spans := List.concat lns in
      match text_lines with
      | [] => None
      | _ => Some {| b_bbox := rb_bbox b; b_text := py_strip (py_join [10] text_lines);
                     b_max_size := list_max (map sp_size spans);
                     b_bold := existsb bold_font (map sp_font spans) |}
      end
  end.

Definition Qltb (x y : Q) : bool := match (x ?= y)%Q with Lt => true | _ => false end.

Definition col_idx (columns : text) (mid col_margin : Q) (bl : block) : nat :=
  let '(x0, _, x1, _) := b_bbox bl in
  if bool_decide (columns = u "1") then 0%nat
  else if bool_decide (columns = u "2") then (if Qltb x1 (mid - col_margin) then 0%nat else 1%nat)
  else if Qltb x1 (mid - col_margin) then 0%nat
  else if Qltb (mid + col_margin) x0 then 1%nat
  else 0%nat.

(** The key [(col_idx(bl), y0, x0)], compared as Python compares tuples. *)
Definition reading_key (columns : text) (mid col_margin : Q) (bl : block) : nat * Q * Q :=
  let '(x0, y0, _, _) := b_bbox bl in (col_idx columns mid col_margin bl, y0, x0).

Definition key_leb (a b : nat * Q * Q) : bool :=
  let '(c1, y1, x1) := a in
  let '(c2, y2, x2) := b in
  match Nat.compare c1 c2 with
  | Lt => true
  | Gt => false
  | Eq => match (y1 ?= y2)%Q with Lt => true | Gt => false | Eq => Qle_bool x1 x2 end
  end.

(** The text blocks of a page in reading order. *)
Definition page_blocks (columns : text) (col_margin : Q) (pg : page) : list block :=
  let mid := (pg_width pg / 2)%Q in
  sort_by (fun a b => key_leb (reading_key columns mid col_margin a) (reading_key columns mid col_margin b))
    (omap gather_block (pg_blocks pg)).

(** [q = max(0, int(0.85 * (len(sizes_sorted) - 1)))] *)
Definition size_rank (n : nat) : nat := (17 * (n - 1) / 20)%nat.

Definition size_threshold (blocks : list block) : Q :=
  let sizes_sorted := sort_by Qle_bool (map b_max_size blocks) in
  match sizes_sorted with
  | [] => 0%Q
  | _ => nth (size_rank (length sizes_sorted)) sizes_sorted 0%Q
  end.

(** ** Splitting into productions *)

Record seg_state := { cur_prod_lines : list text; all_prods : list text }.

(** [re.sub(r"\n{3,}", "\n\n", t)] *)
Definition is_nl (c : char) : bool := c =? 10.

Definition compress_blank (t : text) : text :=
  re_sub (rx_matcher (rx_atleast is_nl 3)) [10; 10] t.

(** Close the current production: its text, when not blank, is appended. *)
Definition flush (st : seg_state) : seg_state :=
  match cur_prod_lines st with
  | [] => st
  | ls =>
      let t := compress_blank (py_strip (py_join [10] ls)) in
      {| cur_prod_lines := [];
         all_prods := if bool_decide (t = []) then all_prods st else all_prods st ++ [t] |}
  end.

(** One physical line of a block. *)
Definition seg_line (size_thr : Q) (bl : block) (st : seg_state) (raw : text) : seg_state :=
  let line := py_strip raw in
  match line with
  | [] => st
  | _ =>
      if looks_like_title line (b_max_size bl) (b_bold bl) size_thr
      then {| cur_prod_lines := [TITLE_PREFIX ++ line]; all_prods := all_prods (flush st) |}
      else {| cur_prod_lines := cur_prod_lines st ++ [line]; all_prods := all_prods st |}
  end.

Definition seg_block (size_thr : Q) (st : seg_state) (bl : block) : seg_state :=
  if header_kill (b_text bl) then st
  else fold_left (seg_line size_thr bl) (py_splitlines (b_text bl)) st.

(** One page, closed by the forced production break. *)
Definition seg_page (columns : text) (col_margin : Q) (st : seg_state) (pg : page) : seg_state :=
  let blocks := page_blocks columns col_margin pg in
  flush (fold_left (seg_block (size_threshold blocks)) blocks st).

(** [all_prods] after every page and the final flush. *)
Definition extract_text_structured (columns : text) (col_margin : Q) (pages : list page) : list text :=
  all_prods (flush (fold_left (seg_page columns col_margin) pages
                      {| cur_prod_lines := []; all_prods := [] |})).

End Segment.

(** The separator of the structured file. *)
Definition PROD_SEP : text := [10; 10] ++ PROD_BREAK ++ [10; 10].

Definition structured_text (prods : list text) : text := py_join PROD_SEP prods.

(** ** The stable sort *)

Section StableSortLemmas.
Context {A : Type} (le : A -> A -> bool).

Lemma insert_by_perm x l : insert_by le x l ≡ₚ x :: l.
Proof.
  induction l as [|y l IH]; simpl; [done|]. destruct (le x y); [done|].
  etrans; [by apply perm_skip|]. apply perm_swap.
Qed.

Lemma sort_by_perm l : sort_by le l ≡ₚ l.
Proof. induction l as [|x l IH]; simpl; [done|]. by rewrite insert_by_perm, IH. Qed.

Lemma length_sort_by l : length (sort_by le l) = length l.
Proof. apply Permutation_length, sort_by_perm. Qed.

(** Two elements are equivalent when each is [<=] the other. *)
Definition eqv (k x : A) : bool := le x k && le k x.

Hypothesis le_trans : forall a b c, le a b = true -> le b c = true -> le a c = true.

Lemma insert_by_filter k x l :
  List.filter (eqv k) (insert_by le x l) = List.filter (eqv k) (x :: l).
Proof.
  induction l as [|y l IH]; [done|]. cbn [insert_by].
  destruct (le x y) eqn:Exy; [done|]. cbn [List.filter]. rewrite IH. cbn [List.filter].
  destruct (eqv k y) eqn:Ey, (eqv k x) eqn:Ex; try done.
  unfold eqv in Ex, Ey. apply andb_prop in Ex as [Hx _], Ey as [_ Hy].
  by rewrite (le_trans _ _ _ Hx Hy) in Exy.
Qed.

(** Stability: the elements equivalent to any [k] keep their order. *)
Lemma sort_by_stable k l : List.filter (eqv k) (sort_by le l) = List.filter (eqv k) l.
Proof.
  induction l as [|x l IH]; [done|]. cbn [sort_by fold_right].
  rewrite insert_by_filter. cbn [List.filter]. fold (sort_by le l). by rewrite IH.
Qed.

Hypothesis le_total : forall a b, le a b = false -> le b a = true.

Lemma insert_by_hd y x l :
  le y x = true -> HdRel (fun a b => le a b = true) y l -> HdRel (fun a b => le a b = true) y (insert_by le x l).
Proof.
  intros Hyx Hl. destruct l as [|z l]; simpl; [by constructor|].
  destruct (le x z); constructor; [done|]. by inversion Hl.
Qed.

Lemma insert_by_sorted x l :
  Sorted (fun a b => le a b = true) l -> Sorted (fun a b => le a b = true) (insert_by le x l).
Proof.
  induction 1 as [|y l Hl IH Hy]; simpl; [by repeat constructor|].
  destruct (le x y) eqn:E.
  - constructor; [by constructor|]. by constructor.
  - constructor; [done|]. apply insert_by_hd; [by apply le_total|done].
Qed.

Lemma sort_by_sorted l : Sorted (fun a b => le a b = true) (sort_by le l).
Proof. induction l as [|x l IH]; simpl; [constructor|]. by apply insert_by_sorted. Qed.

End StableSortLemmas.

Lemma length_filter_perm {A} (f : A -> bool) (l l' : list A) :
  l ≡ₚ l' -> length (List.filter f l) = length (List.filter f l').
Proof. induction 1; simpl; repeat case_match; simpl; lia. Qed.

(** ** The key order *)

Ltac key_solve := first [done | lia | lra | (exfalso; lia) | (exfalso; lra)].

Lemma key_leb_spec c1 y1 x1 c2 y2 x2 :
  key_leb (c1, y1, x1) (c2, y2, x2) = true <->
  (c1 < c2)%nat \/ (c1 = c2 /\ ((y1 < y2)%Q \/ (y1 == y2 /\ x1 <= x2)%Q)).
Proof.
  unfold key_leb. destruct (Nat.compare_spec c1 c2); [subst|..];
    [destruct (Qcompare_spec y1 y2); [rewrite Qle_bool_iff|..]|..];
    split; intros; intuition key_solve.
Qed.

Lemma key_leb_trans a b c : key_leb a b = true -> key_leb b c = true -> key_leb a c = true.
Proof.
  destruct a as [[c1 y1] x1], b as [[c2 y2] x2], c as [[c3 y3] x3]. rewrite !key_leb_spec.
  intros H1 H2. intuition (subst; key_solve).
Qed.

Lemma key_leb_total a b : key_leb a b = false -> key_leb b a = true.
Proof.
  destruct a as [[c1 y1] x1], b as [[c2 y2] x2]. intros H. apply key_leb_spec.
  assert (Hn : ~ ((c1 < c2)%nat \/ (c1 = c2 /\ ((y1 < y2)%Q \/ (y1 == y2 /\ x1 <= x2)%Q))))
    by (rewrite <- key_leb_spec; congruence).
  destruct (Nat.lt_total c1 c2) as [?|[<-|?]]; [exfalso; apply Hn; tauto| |left; lia].
  right. split; [done|].
  destruct (Q_dec y1 y2) as [[Hl|Hl]|He]; [exfalso; apply Hn; tauto|by left|].
  right. split; [lra|]. destruct (Qlt_le_dec x2 x1) as [?|Hx]; [lra|]. exfalso; apply Hn; tauto.
Qed.

Lemma Qle_bool_trans a b c : Qle_bool a b = true -> Qle_bool b c = true -> Qle_bool a c = true.
Proof. rewrite !Qle_bool_iff. apply Qle_trans. Qed.

Lemma Qle_bool_total a b : Qle_bool a b = false -> Qle_bool b a = true.
Proof. intros H. apply Qle_bool_iff. destruct (Qlt_le_dec a b) as [Hl|]; [|done].
  apply Qlt_le_weak in Hl. apply Qle_bool_iff in Hl. congruence. Qed.

Lemma StronglySorted_lookup {B} (R : B -> B -> Prop) (l : list B) i j a b :
  StronglySorted R l -> (i < j)%nat -> l !! i = Some a -> l !! j = Some b -> R a b.
Proof.
  intros Hs. revert i j. induction Hs as [|x l _ IH Hf]; intros i j Hij Hi Hj; [done|].
  destruct i, j; simpl in *; try lia.
  - simplify_eq. rewrite List.Forall_forall in Hf. apply Hf, list_elem_of_In.
    by eapply list_elem_of_lookup_2.
  - eapply IH; [|done..]. lia.
Qed.

Lemma Qltb_lt_iff x y : Qltb x y = true <-> (x < y)%Q.
Proof. unfold Qltb. rewrite Qlt_alt. destruct (x ?= y)%Q; split; congruence. Qed.

Lemma Qltb_ge_iff x y : Qltb x y = false <-> (y <= x)%Q.
Proof.
  split; intros H.
  - apply Qnot_lt_le. rewrite <- Qltb_lt_iff. congruence.
  - destruct (Qltb x y) eqn:E; [|done]. apply Qltb_lt_iff in E. lra.
Qed.

(** [col_idx] is [1] exactly for the blocks of the right-hand column. *)
Lemma col_idx_right columns mid m bl :
  (col_idx columns mid m bl <= 1)%nat /\
  (col_idx columns mid m bl = 1%nat <-> let '(x0, _, x1, _) := b_bbox bl in
     columns <> u "1" /\ (mid - m <= x1)%Q /\ (columns = u "2" \/ (mid + m < x0)%Q)).
Proof.
  unfold col_idx. destruct (b_bbox bl) as [[[x0 y0] x1] y1].
  repeat case_bool_decide; subst; try (split; [lia|]; split; [done|intros (? & _); done]);
    repeat match goal with |- context [Qltb ?a ?b] =>
      let E := fresh in destruct (Qltb a b) eqn:E; [apply Qltb_lt_iff in E|apply Qltb_ge_iff in E] end;
    (split; [lia|]); split; intros; intuition (try lra; try discriminate; try congruence).
Qed.

(** [C16] Reading order (spec, Layout Segmenter: ordering): the blocks of
    a page are the text blocks PyMuPDF gives, reordered into reading
    order. Of two blocks, the earlier one is in the left-hand column or
    the later one is in the right-hand column (a block is in the
    right-hand column when columns is not 1, its right edge reaches
    [mid - col_margin], and columns is 2 or its left edge passes
    [mid + col_margin]); two blocks of the same column are ordered by
    their top edge [y0], then by their left edge [x0]. Blocks with equal
    keys keep the order they had on the page (Python's sort is stable). *)
Theorem page_blocks_reading_order columns col_margin pg :
  let mid := (pg_width pg / 2)%Q in
  let right (bl : block) := let '(x0, _, x1, _) := b_bbox bl in
    columns <> u "1" /\ (mid - col_margin <= x1)%Q /\ (columns = u "2" \/ (mid + col_margin < x0)%Q) in
  let above (a b : block) :=
    let '(ax0, ay0, _, _) := b_bbox a in let '(bx0, by0, _, _) := b_bbox b in
    (ay0 < by0)%Q \/ (ay0 == by0 /\ ax0 <= bx0)%Q in
  let le a b := key_leb (reading_key columns mid col_margin a) (reading_key columns mid col_margin b) in
  page_blocks columns col_margin pg ≡ₚ omap gather_block (pg_blocks pg) /\
  (forall i j a b, (i < j)%nat ->
     page_blocks columns col_margin pg !! i = Some a ->
     page_blocks columns col_margin pg !! j = Some b ->
     (right a -> right b) /\ ((right a <-> right b) -> above a b)) /\
  (forall k, List.filter (eqv le k) (page_blocks columns col_margin pg)
             = List.filter (eqv le k) (omap gather_block (pg_blocks pg))).
Proof.
  intros mid right above le. split_and!.
  - apply sort_by_perm.
  - intros i j a b Hij Ha Hb.
    assert (Hab : le a b = true).
    { eapply (StronglySorted_lookup (fun a b => le a b = true)); [|done..].
      apply Sorted_StronglySorted; [intros ???; apply key_leb_trans|].
      apply sort_by_sorted. intros ??; apply key_leb_total. }
    destruct (col_idx_right columns mid col_margin a) as [Ca1 Ca].
    destruct (col_idx_right columns mid col_margin b) as [Cb1 Cb].
    unfold le, reading_key in Hab. unfold right, above.
    set (ca := col_idx columns mid col_margin a) in *. set (cb := col_idx columns mid col_margin b) in *.
    clearbody ca cb. destruct (b_bbox a) as [[[ax0 ay0] ax1] ay1], (b_bbox b) as [[[bx0 by0] bx1] by1].
    apply key_leb_spec in Hab. rewrite <- Ca, <- Cb. split; intros; intuition lia.
  - intros k. apply sort_by_stable. intros a b c. apply key_leb_trans.
Qed.

(** ** The size threshold *)

Lemma size_rank_lt n : (0 < n)%nat -> (size_rank n < n)%nat.
Proof. unfold size_rank. pose proof (Nat.Div0.mul_div_le (17 * (n - 1)) 20). lia. Qed.

Lemma size_threshold_nth blocks :
  size_threshold blocks = nth (size_rank (length blocks)) (sort_by Qle_bool (map b_max_size blocks)) 0%Q.
Proof.
  unfold size_threshold. cbv zeta. destruct (sort_by Qle_bool (map b_max_size blocks)) eqn:E; [by destruct (size_rank _)|].
  by rewrite <- E, length_sort_by, length_map.
Qed.

#[local] Instance Qle_bool_Transitive : Transitive (fun a b => Qle_bool a b = true).
Proof. intros a b c. apply Qle_bool_trans. Qed.

(** The elements of a sorted list from rank [q] on are at least its [q]-th. *)
Lemma sorted_drop_ge (ss : list Q) q :
  Sorted (fun a b => Qle_bool a b = true) ss -> (q < length ss)%nat ->
  List.filter (Qle_bool (nth q ss 0%Q)) (drop q ss) = drop q ss.
Proof.
  intros Hs Hq. apply Sorted_StronglySorted in Hs; [|apply _].
  rewrite <- (take_drop q ss) in Hs. apply StronglySorted_app in Hs as (_ & _ & Hd).
  assert (Hn : nth q ss 0%Q = nth 0 (drop q ss) 0%Q).
  { rewrite <- (take_drop q ss) at 1. rewrite app_nth2; rewrite length_take; [|lia].
    by rewrite Nat.min_l, Nat.sub_diag by lia. }
  rewrite Hn. destruct (drop q ss) as [|y rest] eqn:Ed.
  { apply (f_equal length) in Ed. rewrite length_drop in Ed. simpl in Ed. lia. }
  apply StronglySorted_inv in Hd as [_ Hf]. simpl.
  replace (Qle_bool y y) with true by (symmetry; apply Qle_bool_iff, Qle_refl).
  f_equal. clear -Hf. induction Hf as [|z r Hz _ IH]; [done|]. simpl. by rewrite Hz, IH.
Qed.

Lemma filter_id {B} (f : B -> bool) (l : list B) : Forall (fun x => f x = true) l -> List.filter f l = l.
Proof. induction 1 as [|x l Hx _ IH]; simpl; [done|]. by rewrite Hx, IH. Qed.

(** The first [q + 1] elements of a sorted list are at most its [q]-th. *)
Lemma sorted_take_le (ss : list Q) q :
  Sorted (fun a b => Qle_bool a b = true) ss -> (q < length ss)%nat ->
  List.filter (fun s => Qle_bool s (nth q ss 0%Q)) (take (S q) ss) = take (S q) ss.
Proof.
  intros Hs Hq. apply Sorted_StronglySorted in Hs; [|apply _].
  destruct (lookup_lt_is_Some_2 ss q) as [y Hy]; [lia|]. rewrite (nth_lookup_Some ss q 0%Q y Hy).
  apply filter_id, List.Forall_forall. intros x Hx.
  apply list_elem_of_In, list_elem_of_lookup in Hx as [i Hi]. apply lookup_take_Some in Hi as [Hi Hin].
  destruct (decide (i = q)) as [->|Hne].
  - simplify_eq. apply Qle_bool_iff, Qle_refl.
  - apply (StronglySorted_lookup (fun a b => Qle_bool a b = true) ss i q); [done| |done|done]. lia.
Qed.

(** [C27] The size threshold (spec, title detection: the page's 85th
    percentile size): on a page with [n] blocks it is the size of one of
    them and it sits at rank [q = int(0.85 * (n - 1))] of the sizes in
    ascending order: at most [q] blocks are strictly smaller (so at least
    [n - q] reach it) and at least [q + 1] are no larger. *)
Theorem size_threshold_bounds (blocks : list block) :
  blocks <> [] ->
  size_threshold blocks ∈ map b_max_size blocks /\
  (length blocks - size_rank (length blocks)
     <= length (List.filter (Qle_bool (size_threshold blocks)) (map b_max_size blocks)))%nat /\
  (size_rank (length blocks)
     < length (List.filter (fun s => Qle_bool s (size_threshold blocks)) (map b_max_size blocks)))%nat.
Proof.
  intros Hne. rewrite size_threshold_nth.
  set (ss := sort_by Qle_bool (map b_max_size blocks)).
  assert (Hp : ss ≡ₚ map b_max_size blocks) by apply sort_by_perm.
  assert (Hl : length ss = length blocks) by (by rewrite Hp, length_map).
  assert (Hq : (size_rank (length blocks) < length ss)%nat).
  { rewrite Hl. apply size_rank_lt. destruct blocks; [done|simpl; lia]. }
  assert (Hs : Sorted (fun a b => Qle_bool a b = true) ss) by apply (sort_by_sorted _ Qle_bool_total).
  split_and!.
  - rewrite <- Hp. apply list_elem_of_In, nth_In, Hq.
  - rewrite <- (length_filter_perm _ _ _ Hp).
    pose proof (sorted_drop_ge ss _ Hs Hq) as Hd.
    rewrite <- (take_drop (size_rank (length blocks)) ss) at 2.
    rewrite List.filter_app, length_app, Hd, length_drop. lia.
  - rewrite <- (length_filter_perm _ _ _ Hp).
    pose proof (sorted_take_le ss _ Hs Hq) as Ht.
    set (thr := nth (size_rank (length blocks)) ss 0%Q) in *.
    rewrite <- (take_drop (S (size_rank (length blocks))) ss).
    rewrite List.filter_app, length_app, Ht, length_take. lia.
Qed.

(** ** The productions the splitter emits *)

Definition no_break (l : text) : Prop := Forall (fun c => is_line_break c = false) l.

(** A line of a production: stripped, not empty, without line break. *)
Definition good_line (l : text) : Prop := l <> [] /\ py_strip l = l /\ no_break l.

(** A production: its good lines joined by newlines. *)
Definition good_prod (p : text) : Prop :=
  exists ls, ls <> [] /\ Forall good_line ls /\ p = py_join [10] ls.

Definition seg_inv (st : seg_state) : Prop :=
  Forall good_line (cur_prod_lines st) /\ Forall good_prod (all_prods st).

Lemma splitlines_aux_no_break n cur s :
  (length s <= n)%nat -> no_break cur -> Forall no_break (splitlines_aux cur s).
Proof.
  revert cur s. induction n as [|n IH]; intros cur s Hl Hc.
  - destruct s; [|simpl in Hl; lia]. simpl.
    destruct cur; [constructor|]. constructor; [by apply Forall_rev|constructor].
  - destruct s as [|c s]; simpl.
    + destruct cur; [constructor|]. constructor; [by apply Forall_rev|constructor].
    + destruct (is_line_break c) eqn:E.
      * constructor; [by apply Forall_rev|]. apply IH; [|constructor]. simpl in Hl.
        repeat case_match; simpl in *; lia.
      * apply IH; [simpl in Hl; lia|]. by constructor.
Qed.

Lemma splitlines_no_break t : Forall no_break (py_splitlines t).
Proof. apply (splitlines_aux_no_break (length t)); [done|constructor]. Qed.

Lemma good_line_strip raw : no_break raw -> py_strip raw <> [] -> good_line (py_strip raw).
Proof. intros Hb Hne. split_and!; [done|apply py_strip_idem|by apply Forall_py_strip]. Qed.

Lemma good_line_ends l : good_line l ->
  (forall c, hd_error l = Some c -> is_space c = false) /\
  (forall c, hd_error (rev l) = Some c -> is_space c = false).
Proof. intros (_ & Hs & _). rewrite <- Hs. split; [apply py_strip_hd|apply py_strip_last]. Qed.

Lemma rev_nonempty {A} (l : list A) : l <> [] -> rev l <> [].
Proof. intros Hl E. apply (f_equal (@rev _)) in E. by rewrite rev_involutive in E. Qed.

Lemma good_line_title l : good_line l -> good_line (TITLE_PREFIX ++ l).
Proof.
  intros Hl. destruct (good_line_ends l Hl) as [_ Hr]. destruct Hl as (Hne & _ & Hb).
  change TITLE_PREFIX with [35; 35; 35; 32]. split_and!; [done| |].
  - apply py_strip_id; [by intros c [= <-]|]. intros c. rewrite rev_app_distr, hd_error_app_l; [apply Hr|].
    by apply rev_nonempty.
  - apply Forall_app. split; [repeat constructor|done].
Qed.

Lemma py_join_cons_ex sep w ws : exists suf, py_join sep (w :: ws) = w ++ suf.
Proof. destruct ws; simpl; [exists []; by rewrite app_nil_r|by eexists]. Qed.

Lemma py_join_snoc_ex sep ws w : exists pre, py_join sep (ws ++ [w]) = pre ++ w.
Proof.
  induction ws as [|v ws [pre IH]]; [by exists []|]. simpl.
  destruct (ws ++ [w]) as [|x l] eqn:E; [by destruct ws|]. rewrite IH.
  exists (v ++ sep ++ pre). by rewrite !app_assoc.
Qed.

Lemma good_join_ends ls : ls <> [] -> Forall good_line ls ->
  (forall c, hd_error (py_join [10] ls) = Some c -> is_space c = false) /\
  (forall c, hd_error (rev (py_join [10] ls)) = Some c -> is_space c = false).
Proof.
  intros Hne Hg. split.
  - destruct ls as [|w ws]; [done|]. apply Forall_cons in Hg as [Hw _].
    destruct (py_join_cons_ex [10] w ws) as [suf ->].
    rewrite hd_error_app_l by apply Hw. apply (good_line_ends _ Hw).
  - destruct (exists_last Hne) as (ws & w & ->). apply Forall_app in Hg as [_ [Hw _]%Forall_cons].
    destruct (py_join_snoc_ex [10] ws w) as [pre ->].
    rewrite rev_app_distr, hd_error_app_l by (apply rev_nonempty, Hw). apply (good_line_ends _ Hw).
Qed.

Lemma good_join_nonempty ls : ls <> [] -> Forall good_line ls -> py_join [10] ls <> [].
Proof.
  intros Hne Hg. destruct ls as [|w ws]; [done|]. apply Forall_cons in Hg as [[Hw _] _].
  destruct (py_join_cons_ex [10] w ws) as [suf ->]. intros [? _]%app_eq_nil. done.
Qed.

Lemma span_nl_no_break w rest : no_break w -> w <> [] -> span_len is_nl (w ++ rest) = 0%nat.
Proof.
  destruct w as [|c w]; [done|]. intros Hb _. inversion Hb as [|? ? Hc _]; subst.
  apply span_len_stop. apply N.eqb_neq. intros ->. done.
Qed.

(** Between two lines there is one newline: no run of two. *)
Lemma join_nl_runs ls : Forall good_line ls ->
  forall k, (span_len is_nl (drop k (py_join [10%N] ls)) <= 1)%nat.
Proof.
  induction 1 as [|w ws Hw Hws IH]; intros k; [cbn [py_join]; rewrite drop_nil; simpl; lia|].
  destruct Hw as (Hne & _ & Hb).
  destruct ws as [|w' ws'].
  - simpl. destruct (decide (k < length w)%nat).
    + rewrite <- (app_nil_r (drop k w)), span_nl_no_break; [lia|by apply Forall_drop|].
      intros E. apply (f_equal length) in E. rewrite length_drop in E. simpl in E. lia.
    + rewrite drop_ge by lia. simpl. lia.
  - change (py_join [10] (w :: w' :: ws')) with (w ++ [10] ++ py_join [10] (w' :: ws')).
    destruct (decide (k < length w)%nat).
    + rewrite drop_app_le by lia. rewrite span_nl_no_break; [lia|by apply Forall_drop|].
      intros E. apply (f_equal length) in E. rewrite length_drop in E. simpl in E. lia.
    + rewrite drop_app_ge by lia. destruct (k - length w)%nat as [|m] eqn:Ek.
      * destruct (py_join_cons_ex [10] w' ws') as [suf ->]. cbn [app drop span_len is_nl N.eqb].
        inversion Hws as [|? ? [Hne' [_ Hb']] _]; subst. rewrite span_nl_no_break; done.
      * cbn [app drop]. apply IH.
Qed.

Lemma rx_matcher_nl3_none s :
  (span_len is_nl s <= 2)%nat -> rx_matcher (rx_atleast is_nl 3) s = None.
Proof.
  intros H. unfold rx_matcher, rx_atleast, rx_rep, rep_counts. cbn [snd].
  replace (S (Nat.min (length s) (span_len is_nl s)) - 3)%nat with 0%nat by lia. done.
Qed.

(** The text of a production is its lines joined: [strip] and the
    compression of blank lines leave it as it is. *)
Lemma flush_text ls : ls <> [] -> Forall good_line ls ->
  compress_blank (py_strip (py_join [10] ls)) = py_join [10] ls.
Proof.
  intros Hne Hg. destruct (good_join_ends ls Hne Hg). rewrite py_strip_id by done.
  apply re_sub_nomatch. intros k. apply rx_matcher_nl3_none. pose proof (join_nl_runs ls Hg k). lia.
Qed.

Section Invariant.
Context `{UnicodeDB}.

Lemma flush_inv st : seg_inv st -> seg_inv (flush st) /\ cur_prod_lines (flush st) = [].
Proof.
  destruct st as [cur prods]. intros [Hc Hp]. unfold flush. cbn [cur_prod_lines all_prods].
  destruct cur as [|l ls]; [done|].
  rewrite flush_text by done. case_bool_decide as Ht.
  - by destruct (good_join_nonempty (l :: ls)).
  - split; [|done]. split; [constructor|]. apply Forall_app. split; [done|].
    constructor; [|constructor]. by exists (l :: ls).
Qed.

Lemma seg_line_inv thr bl st raw : seg_inv st -> no_break raw -> seg_inv (seg_line thr bl st raw).
Proof.
  intros Hi Hb. unfold seg_line. cbv zeta.
  destruct (py_strip raw) as [|c r] eqn:E; [done|].
  assert (Hl : good_line (c :: r)) by (rewrite <- E; apply good_line_strip; [done|by rewrite E]).
  destruct (looks_like_title _ _ _ _).
  - destruct (flush_inv st Hi) as [[_ Hp] _]. split; cbn [cur_prod_lines all_prods]; [|done].
    constructor; [by apply good_line_title|constructor].
  - destruct Hi as [Hc Hp]. split; cbn [cur_prod_lines all_prods]; [|done].
    apply Forall_app. split; [done|by constructor].
Qed.

Lemma seg_block_inv thr st bl : seg_inv st -> seg_inv (seg_block thr st bl).
Proof.
  unfold seg_block. destruct (header_kill _); [done|]. intros Hi.
  apply fold_left_inv; [done|]. intros st' raw Hraw Hi'. apply seg_line_inv; [done|].
  pose proof (splitlines_no_break (b_text bl)) as Hs. rewrite List.Forall_forall in Hs. by apply Hs.
Qed.

Lemma seg_page_inv columns m st pg : seg_inv st -> seg_inv (seg_page columns m st pg).
Proof.
  intros Hi. unfold seg_page. apply flush_inv, fold_left_inv; [done|]. intros. by apply seg_block_inv.
Qed.

(** Every production of the structured file is made of good lines. *)
Lemma extract_good columns m pages : Forall good_prod (extract_text_structured columns m pages).
Proof.
  unfold extract_text_structured. apply flush_inv, fold_left_inv; [done|].
  intros. by apply seg_page_inv.
Qed.

End Invariant.

(** ** Reading the structured file back *)

(** A production [load_blocks] keeps: its first line starts with the
    title prefix or an opening quote. *)
Definition loadable (p : text) : bool :=
  py_startswith TITLE_PREFIX p || match p with q :: _ => open_quote q | [] => false end.

Lemma py_startswith_nl sep x y : Forall (fun c => c <> 10) sep ->
  py_startswith sep (x ++ 10 :: y) = true -> py_startswith sep x = true.
Proof.
  revert x. induction sep as [|a sep IH]; intros x Hs; [done|].
  inversion Hs as [|? ? Ha Hs']; subst. destruct x as [|b x]; simpl.
  - intros [Hab _]%andb_prop. apply N.eqb_eq in Hab. congruence.
  - intros [-> Hr]%andb_prop. by apply IH.
Qed.

Lemma py_startswith_app_r p x y : py_startswith p x = true -> py_startswith p (x ++ y) = true.
Proof.
  revert x. induction p as [|a p IH]; intros x; [done|]. destruct x as [|b x]; [done|].
  simpl. intros [-> Hr]%andb_prop. by apply IH.
Qed.

Lemma no_nl_forallb s : forallb (fun c => negb (c =? 10)) s = true -> Forall (fun c => c <> 10) s.
Proof.
  intros H. apply Forall_forall. intros c Hc%list_elem_of_In.
  apply (proj1 (forallb_forall _ _) H), negb_true_iff, N.eqb_neq in Hc. done.
Qed.

Lemma PROD_BREAK_no_nl : Forall (fun c => c <> 10) PROD_BREAK.
Proof. apply no_nl_forallb. by vm_compute. Qed.

Lemma TITLE_PREFIX_no_nl : Forall (fun c => c <> 10) TITLE_PREFIX.
Proof. apply no_nl_forallb. by vm_compute. Qed.

Lemma PROD_BREAK_nl y : py_startswith PROD_BREAK (10 :: y) = false.
Proof. by vm_compute. Qed.

Lemma contains_drop sep s j : py_contains sep s = false -> py_startswith sep (drop j s) = false.
Proof.
  revert j. induction s as [|c s IH]; intros j H; simpl in H.
  - rewrite drop_nil. by apply orb_false_iff in H as [? _].
  - apply orb_false_iff in H as [H0 H1]. destruct j; [done|]. by apply IH.
Qed.

(** The marker starts nowhere in a production followed by a newline. *)
Lemma no_break_in_prod p j y : py_contains PROD_BREAK p = false ->
  py_startswith PROD_BREAK (drop j p ++ 10 :: y) = false.
Proof.
  intros Hp. destruct (py_startswith _ _) eqn:E; [|done].
  apply py_startswith_nl in E; [|apply PROD_BREAK_no_nl]. by rewrite contains_drop in E.
Qed.

(** *** [s.split(sep)] on joined pieces *)

Lemma split_text_nomatch sep f cur w s :
  (forall j, (j < length w)%nat -> py_startswith sep (drop j w ++ s) = false) ->
  split_text_aux sep (length w + f) cur (w ++ s) = split_text_aux sep f (rev w ++ cur) s.
Proof.
  revert cur. induction w as [|c w IH]; intros cur Hw; [done|].
  cbn [length plus app split_text_aux]. pose proof (Hw 0%nat ltac:(simpl; lia)) as H0. cbn [drop app] in H0. rewrite H0.
  rewrite IH; [cbn [rev]; by rewrite <- app_assoc|]. intros j Hj. apply (Hw (S j)). simpl. lia.
Qed.

Lemma split_text_sep sep f cur s : sep <> [] ->
  split_text_aux sep (S f) cur (sep ++ s) = rev cur :: split_text_aux sep f [] s.
Proof.
  destruct sep as [|a sep']; [done|]. intros _. cbn [app split_text_aux].
  replace (py_startswith (a :: sep') (a :: sep' ++ s)) with true
    by (symmetry; apply (py_startswith_app (a :: sep'))).
  f_equal. f_equal. apply (drop_app_length (a :: sep')).
Qed.

Lemma drop_nl_prefix pre j x : Forall (fun c => c = 10) pre -> (j < length pre)%nat ->
  exists t, drop j (pre ++ x) = 10 :: t.
Proof.
  revert j. induction pre as [|c pre IH]; intros j Hp Hj; [simpl in Hj; lia|].
  inversion Hp; subst. destruct j as [|j]; [by eexists|]. apply IH; [done|simpl in Hj; lia].
Qed.

Lemma nl_spaces pre : Forall (fun c => c = 10) pre -> Forall (fun c => is_space c = true) pre.
Proof. intros Hp. eapply Forall_impl; [exact Hp|]. by intros c ->. Qed.

Lemma good_prod_strip p : good_prod p -> py_strip p = p /\ p <> [].
Proof.
  intros (ls & Hne & Hg & ->). split; [|by apply good_join_nonempty].
  destruct (good_join_ends ls Hne Hg). by apply py_strip_id.
Qed.

(** The marker starts nowhere in [pre ++ p ++ "\n\n"]. *)
Lemma chunk_nomatch pre p s j : Forall (fun c => c = 10) pre -> py_contains PROD_BREAK p = false ->
  (j < length (pre ++ p ++ [10%N; 10%N]))%nat -> py_startswith PROD_BREAK (drop j (pre ++ p ++ [10; 10]) ++ s) = false.
Proof.
  intros Hpre Hp Hj. destruct (decide (j < length pre)%nat).
  { destruct (drop_nl_prefix pre j (p ++ [10; 10]) Hpre) as [t ->]; [done|]. apply PROD_BREAK_nl. }
  rewrite drop_app_ge by lia. rewrite !length_app in Hj. simpl in Hj.
  destruct (decide (j - length pre <= length p)%nat).
  - rewrite drop_app_le by lia. rewrite <- app_assoc. by apply no_break_in_prod.
  - rewrite drop_app_ge by lia. replace (j - length pre - length p)%nat with 1%nat by lia.
    apply PROD_BREAK_nl.
Qed.

Definition prod_ok (p : text) : Prop := good_prod p /\ py_contains PROD_BREAK p = false.

Lemma PROD_BREAK_nonempty : PROD_BREAK <> [].
Proof. by vm_compute. Qed.

(** The pieces of [text.split(PROD_BREAK)] are the productions, padded
    with the newlines of the separator. *)
Lemma split_structured pre ps f : Forall (fun c => c = 10) pre -> ps <> [] -> Forall prod_ok ps ->
  (length (pre ++ py_join PROD_SEP ps) <= f)%nat ->
  Forall2 (fun c p => py_strip c = p) (split_text_aux PROD_BREAK f [] (pre ++ py_join PROD_SEP ps)) ps.
Proof.
  revert pre f. induction ps as [|p ps IH]; intros pre f Hpre Hne Hok Hf; [done|].
  inversion Hok as [|? ? [Hg Hc] Hok']; subst. destruct (good_prod_strip p Hg) as [Hs _].
  destruct ps as [|p' ps'].
  - cbn [py_join] in *.
    rewrite (split_text_fuel _ _ (length (pre ++ p) + 0) _ _ PROD_BREAK_nonempty Hf) by lia.
    pose proof (split_text_nomatch PROD_BREAK 0 [] (pre ++ p) []) as E. rewrite !app_nil_r in E.
    rewrite E; cbn [split_text_aux].
    + rewrite !app_nil_r, rev_involutive. constructor; [|constructor].
      pose proof (py_strip_pad pre p [] (nl_spaces _ Hpre) ltac:(constructor) Hs) as Hp.
      by rewrite app_nil_r in Hp.
    + intros j Hj. rewrite app_nil_r. destruct (decide (j < length pre)%nat).
      * destruct (drop_nl_prefix pre j p Hpre) as [t ->]; [done|]. apply PROD_BREAK_nl.
      * rewrite drop_app_ge by lia. by apply contains_drop.
  - set (J := py_join PROD_SEP (p' :: ps')).
    assert (Eq : pre ++ py_join PROD_SEP (p :: p' :: ps') =
                 (pre ++ p ++ [10; 10]) ++ PROD_BREAK ++ ([10; 10] ++ J)).
    { change (py_join PROD_SEP (p :: p' :: ps')) with (p ++ PROD_SEP ++ J). unfold PROD_SEP.
      by rewrite <- !app_assoc. }
    rewrite Eq in Hf |- *.
    rewrite (split_text_fuel _ _ (length (pre ++ p ++ [10; 10]) + S (length PROD_BREAK + length ([10; 10] ++ J)))
      _ _ PROD_BREAK_nonempty Hf) by (rewrite !length_app in *; lia).
    rewrite split_text_nomatch by (intros j Hj; by apply chunk_nomatch).
    rewrite split_text_sep by apply PROD_BREAK_nonempty.
    rewrite app_nil_r, rev_involutive. constructor.
    + apply py_strip_pad; [by apply nl_spaces|by repeat constructor|done].
    + apply (IH [10; 10]); [by repeat constructor|done|done|unfold J; rewrite !length_app; lia].
Qed.

Lemma splitlines_aux_app cur w s : no_break w -> splitlines_aux cur (w ++ s) = splitlines_aux (rev w ++ cur) s.
Proof.
  revert cur. induction w as [|c w IH]; intros cur Hw; [done|].
  inversion Hw as [|? ? Hc Hw']; subst. cbn [app splitlines_aux]. rewrite Hc, IH by done.
  cbn [rev]. by rewrite <- app_assoc.
Qed.

Lemma splitlines_join ls : ls <> [] -> Forall good_line ls -> py_splitlines (py_join [10] ls) = ls.
Proof.
  unfold py_splitlines. induction ls as [|w ws IH]; intros Hne Hg; [done|].
  inversion Hg as [|? ? (Hw & _ & Hb) Hg']; subst. destruct ws as [|w' ws'].
  - cbn [py_join]. pose proof (splitlines_aux_app [] w [] Hb) as E. rewrite !app_nil_r in E.
    rewrite E. cbn [splitlines_aux]. destruct (rev w) as [|c r] eqn:Er; [by apply rev_nonempty in Hw|].
    by rewrite <- Er, rev_involutive.
  - change (py_join [10] (w :: w' :: ws')) with (w ++ 10 :: py_join [10] (w' :: ws')).
    rewrite splitlines_aux_app by done. cbn [splitlines_aux].
    replace (is_line_break 10) with true by reflexivity. replace (10 =? 13) with false by reflexivity.
    cbv beta iota. rewrite app_nil_r, rev_involutive, IH; done.
Qed.

Lemma nonblank_join ls : ls <> [] -> Forall good_line ls -> nonblank_lines (py_join [10] ls) = ls.
Proof.
  intros Hne Hg. unfold nonblank_lines. rewrite splitlines_join by done. clear Hne.
  induction Hg as [|l ls' (Hl & Hs & _) _ IH]; [done|]. cbn [List.filter].
  rewrite Hs, bool_decide_false by done. cbn [negb]. by rewrite IH.
Qed.

(** A piece whose [strip()] is a production gives the production when it
    starts like a title, and is dropped otherwise. *)
Lemma block_of_chunk_prod c p : good_prod p -> py_strip c = p ->
  block_of_chunk c = if loadable p then Some p else None.
Proof.
  intros Hp Hc. destruct Hp as (ls & Hne & Hg & Ep). unfold block_of_chunk.
  rewrite Hc, Ep, nonblank_join by done. destruct ls as [|l0 rest]; [done|].
  inversion Hg as [|? ? Hl0 _]; subst. rewrite (lstrip_ws_id l0) by apply (good_line_ends _ Hl0).
  replace (loadable (py_join [10] (l0 :: rest)))
    with (py_startswith TITLE_PREFIX l0 || match l0 with q :: _ => open_quote q | [] => false end); [done|].
  unfold loadable. f_equal.
  - destruct rest as [|l1 rest']; [done|].
    change (py_join [10] (l0 :: l1 :: rest')) with (l0 ++ 10 :: py_join [10] (l1 :: rest')).
    destruct (py_startswith TITLE_PREFIX l0) eqn:E; [symmetry; by apply py_startswith_app_r|].
    destruct (py_startswith TITLE_PREFIX (l0 ++ _)) eqn:E'; [|done].
    apply py_startswith_nl in E'; [congruence|apply TITLE_PREFIX_no_nl].
  - destruct (py_join_cons_ex [10] l0 rest) as [suf ->]. destruct l0; [by destruct Hl0|done].
Qed.

Lemma omap_chunks cs ps : Forall2 (fun c p => py_strip c = p) cs ps -> Forall good_prod ps ->
  omap block_of_chunk cs = List.filter loadable ps.
Proof.
  induction 1 as [|c q cs' qs Hc _ IH]; intros Hg; [done|]. apply Forall_cons in Hg as [Hq Hg'].
  cbn [omap list_omap]. rewrite (block_of_chunk_prod c q Hq Hc).
  cbn [List.filter]. destruct (loadable q); [f_equal|]; by apply IH.
Qed.

Lemma load_structured_prods ps : Forall prod_ok ps ->
  _load_from_structured (structured_text ps) = List.filter loadable ps.
Proof.
  intros Hok. destruct ps as [|p ps']; [by vm_compute|].
  unfold _load_from_structured, py_split_text, structured_text.
  apply omap_chunks; [|eapply Forall_impl; [exact Hok|]; by intros ? []].
  apply (split_structured [] (p :: ps')); [constructor|done|done|simpl; lia].
Qed.

Section SegmentProps.
Context `{UnicodeDB}.

(** [C14] Round trip through the structured file (spec, Input text format
    and Layout Segmenter): writing the productions with the break marker
    and reading them back with [_load_from_structured] gives exactly the
    productions whose first line starts with the title prefix or an
    opening quote, in order, when no production contains the marker. *)
Theorem structured_roundtrip columns col_margin pages :
  Forall (fun p => py_contains PROD_BREAK p = false) (extract_text_structured columns col_margin pages) ->
  _load_from_structured (structured_text (extract_text_structured columns col_margin pages))
  = List.filter loadable (extract_text_structured columns col_margin pages).
Proof. intros Hc. apply load_structured_prods, Forall_and. split; [apply extract_good|done]. Qed.

(** Finding: under [re.I] the class [[^a-z]] excludes every ASCII
    letter, so the headline pattern of [TITLE_PATTERNS] (the comment says
    an unquoted short headline with a type token) never matches a line
    whose second character is a letter, such as [THE BOYS SERIES]: such
    headlines are titles only through the size fallback. *)
Theorem headline_pattern_needs_nonletter c1 c2 rest :
  is_az_ci c2 = true -> rx_test_start title_pat_headline (c1 :: c2 :: rest) = false.
Proof.
  intros Hc. unfold rx_test_start, rx_match, title_pat_headline, rx_seq, rx_class. cbn [snd].
  destruct (is_az_ci c1 || is_ascii_digit c1); [|done].
  unfold rx_rep, rep_counts. cbn [snd span_len negb]. rewrite Hc. done.
Qed.

End SegmentProps.

(** ** Concrete issues at the Latin-1 database *)

Section SegmentExamples.
#[local] Existing Instance latin1_db.

(** A block of one-span lines, each with its size and font. *)
Definition demo_block (y0 : Q) (lines : list (string * Q * string)) : raw_block :=
  {| rb_lines := Some (map (fun '(t, sz, f) => [{| sp_text := u t; sp_size := sz; sp_font := u f |}]) lines);
     rb_bbox := (36%Q, y0, 300%Q, (y0 + 12)%Q) |}.

Definition demo_page (blocks : list raw_block) : page := {| pg_width := 612%Q; pg_blocks := blocks |}.

(** A production continued on the next page. *)
Definition demo_continued : list page :=
  [demo_page [demo_block 100 [("“Alpha” Series", 12%Q, "Helvetica-Bold")];
              demo_block 120 [("Shooting in Vancouver", 9%Q, "Helvetica")]];
   demo_page [demo_block 50 [("Director: Jane Roe", 9%Q, "Helvetica")];
              demo_block 100 [("“Beta” Series", 12%Q, "Helvetica-Bold")];
              demo_block 120 [("Shooting in Toronto", 9%Q, "Helvetica")]]].


(** Title and body in one block; a page in one size. *)
Definition demo_block_level : list page :=
  [demo_page [demo_block 100 [("“Alpha” Series", 12%Q, "Helvetica-Bold");
                              ("Director: Jane Roe", 9%Q, "Helvetica")]];
   demo_page [demo_block 100 [("“Beta” Series", 10%Q, "Helvetica");
                              ("STATUS: March 2026", 10%Q, "Helvetica")]]].

(** Finding: the size fallback of [looks_like_title] tests the
    block's largest size and the block's boldness, not the line's (the
    spec says: it is bold).  A body line in the block of a bold title
    starts a production of its own, and so does a label line such as
    [STATUS: March 2026] (more than half its letters upper case) on a page
    whose blocks have one size; both load as productions. *)
Theorem title_fallback_block_level :
  extract_text_structured (u "auto") 12 demo_block_level =
    [TITLE_PREFIX ++ u "“Alpha” Series"; TITLE_PREFIX ++ u "Director: Jane Roe";
     TITLE_PREFIX ++ u "“Beta” Series"; TITLE_PREFIX ++ u "STATUS: March 2026"].
Proof. vm_compute. reflexivity. Qed.

(** Finding: [HEADER_KILL] is tested on the whole text of a block and
    skips the block, where the spec drops noise lines: a production whose
    title shares a block with a [LAST UPDATED:] line is lost. *)
Theorem header_kill_drops_block :
  extract_text_structured (u "auto") 12
    [demo_page [demo_block 100 [("LAST UPDATED: 03/02/26", 9%Q, "Helvetica");
                                ("“Gamma” Series", 12%Q, "Helvetica-Bold");
                                ("Shooting in Atlanta", 9%Q, "Helvetica")]]] = [].
Proof. vm_compute. reflexivity. Qed.

Lemma structured_roundtrip_witness :
  Forall (fun p => py_contains PROD_BREAK p = false) (extract_text_structured (u "auto") 12 demo_continued) /\
  _load_from_structured (structured_text (extract_text_structured (u "auto") 12 demo_continued))
  = List.filter loadable (extract_text_structured (u "auto") 12 demo_continued).
Proof.
  assert (Hc : Forall (fun p => py_contains PROD_BREAK p = false) (extract_text_structured (u "auto") 12 demo_continued))
    by (apply (bool_decide_unpack _); vm_compute; reflexivity).
  split; [exact Hc|exact (structured_roundtrip _ _ _ Hc)].
Defined.

Lemma headline_pattern_needs_nonletter_witness :
  is_az_ci 72 = true /\ rx_test_start title_pat_headline (u "THE BOYS SERIES") = false.
Proof.
  split; [reflexivity|]. change (u "THE BOYS SERIES") with (84 :: 72 :: u "E BOYS SERIES").
  apply headline_pattern_needs_nonletter. reflexivity.
Defined.

Definition demo_blocks : list block :=
  omap gather_block (pg_blocks (demo_page [demo_block 50 [("Director: Jane Roe", 9%Q, "Helvetica")];
                                           demo_block 100 [("“Beta” Series", 12%Q, "Helvetica-Bold")];
                                           demo_block 120 [("Shooting in Toronto", 9%Q, "Helvetica")]])).

Lemma size_threshold_bounds_witness :
  demo_blocks <> [] /\
  size_threshold demo_blocks ∈ map b_max_size demo_blocks /\
  (length demo_blocks - size_rank (length demo_blocks)
     <= length (List.filter (Qle_bool (size_threshold demo_blocks)) (map b_max_size demo_blocks)))%nat /\
  (size_rank (length demo_blocks)
     < length (List.filter (fun s => Qle_bool s (size_threshold demo_blocks)) (map b_max_size demo_blocks)))%nat.
Proof.
  assert (Hne : demo_blocks <> []) by (vm_compute; intros E; discriminate E).
  split; [exact Hne|exact (size_threshold_bounds demo_blocks Hne)].
Defined.

End SegmentExamples.
