(* ===== verification/Collapse.v ===== *)
(** * Collapse: duplicate titles and the completeness score

    Models [_collapse_dupes] (src/Scripts/Production_Weekly_Extractor.py,
    lines 1985-1998): one pass over the rows with the dictionary [best]
    from matching key to row, the list [order] of keys in first-seen order
    and the list [dupes] of (title, kept title) pairs; a row replaces the
    kept row of its key when its completeness [score] (the number of seven
    fields neither blank nor [N/A]) is strictly larger.

    The theorems compare the pass with a reference that works key by key:
    the kept keys are the distinct non-empty keys in first-seen order, the
    kept row of a key is the first of its rows with the largest score, and
    every other row with a key is one duplicate.  The maps of
    [master_compare_cmd] ([key_map] of [Master]) instead keep the first
    row of each key whatever its score; [_collapse_dupes] is called
    nowhere in the program. *)

From S2P Require Import Prelude PyStr KeyNorm Reconcile Master.

Section Collapse.
Context `{UnicodeDB}.

Definition SCORE_FIELDS : list text :=
  map u ["Shooting Dates"; "Description"; "Director/Producer"; "All Locations"; "City";
         "Province/State"; "Country"].

(** [(row.get(f) or "").strip()] neither empty nor [N/A]. *)
Definition filled (r : row) (f : text) : bool :=
  let v := py_strip (rget r f) in negb (bool_decide (v = [])) && negb (bool_decide (v = u "N/A")).

Definition score (r : row) : nat := length (List.filter (filled r) SCORE_FIELDS).

Record cd_state := { cd_order : list text; cd_best : gmap text row; cd_dupes : list (text * text) }.

(** One row of the loop. *)
Definition cd_step (st : cd_state) (r : row) : cd_state :=
  let k := title_key r in
  if bool_decide (k = []) then st
  else match cd_best st !! k with
       | None => {| cd_order := cd_order st ++ [k]; cd_best := <[k := r]> (cd_best st);
                    cd_dupes := cd_dupes st |}
       | Some b =>
           {| cd_order := cd_order st;
              cd_best := if Nat.ltb (score b) (score r) then <[k := r]> (cd_best st) else cd_best st;
              cd_dupes := cd_dupes st ++ [(rget r (u "Production Name"), rget b (u "Production Name"))] |}
       end.

Definition cd_init : cd_state := {| cd_order := []; cd_best := ∅; cd_dupes := [] |}.

(** [({k: best[k] for k in order}, dupes)], the dictionary as its items. *)
Definition _collapse_dupes (rows : list row) : list (text * row) * list (text * text) :=
  let st := fold_left cd_step rows cd_init in
  (omap (fun k => pair k <$> cd_best st !! k) (cd_order st), cd_dupes st).

(** ** The reference, key by key *)

(** The rows of one key, in order. *)
Definition krows (k : text) (rows : list row) : list row :=
  List.filter (fun r => bool_decide (title_key r = k)) rows.

(** The non-empty keys, each once, in first-seen order. *)
Definition key_order (rows : list row) : list text :=
  dedup_first [] (List.filter (fun k => negb (bool_decide (k = []))) (map title_key rows)).

(** The first row of largest score. *)
Definition better (b r : row) : row := if Nat.ltb (score b) (score r) then r else b.

Definition first_max (l : list row) : option row :=
  match l with [] => None | x :: xs => Some (fold_left better xs x) end.

Definition keyed (r : row) : bool := negb (bool_decide (title_key r = [])).

End Collapse.

(** ** The pass refines the reference *)

Section CollapseProps.
Context `{UnicodeDB}.

Lemma krows_snoc k l r :
  krows k (l ++ [r]) = krows k l ++ (if bool_decide (title_key r = k) then [r] else []).
Proof. unfold krows. by rewrite List.filter_app. Qed.

Lemma first_max_snoc l r :
  first_max (l ++ [r]) = Some (match first_max l with None => r | Some b => better b r end).
Proof. destruct l as [|x l]; [done|]. simpl. by rewrite fold_left_app. Qed.

Lemma dedup_first_snoc seen l x :
  dedup_first seen (l ++ [x]) = dedup_first seen l ++ (if bool_decide (x ∈ seen \/ x ∈ l) then [] else [x]).
Proof.
  revert seen. induction l as [|y l IH]; intros seen; cbn [app dedup_first].
  - repeat case_bool_decide; first [done | exfalso; set_solver].
  - case_bool_decide; rewrite IH; [|cbn [app]; f_equal; f_equal];
      repeat case_bool_decide; first [done | exfalso; set_solver].
Qed.

Lemma keys_krows x l :
  x ∈ List.filter (fun k => negb (bool_decide (k = []))) (map title_key l) <-> x <> [] /\ krows x l <> [].
Proof.
  induction l as [|r l IH]; cbn [map List.filter krows]; [set_solver|].
  unfold krows in IH |- *. cbn [List.filter].
  repeat case_bool_decide; cbn [negb]; rewrite ?elem_of_cons, IH; naive_solver.
Qed.

Lemma key_order_snoc l r :
  key_order (l ++ [r]) =
  key_order l ++ (if bool_decide (title_key r = [] \/ krows (title_key r) l <> []) then [] else [title_key r]).
Proof.
  unfold key_order. rewrite map_app, List.filter_app. cbn [map List.filter].
  case_bool_decide as Hk; cbn [negb].
  - rewrite app_nil_r, bool_decide_true by tauto. by rewrite app_nil_r.
  - rewrite dedup_first_snoc. f_equal. erewrite bool_decide_ext; [reflexivity|].
    rewrite keys_krows. set_solver.
Qed.

Lemma filter_keyed_snoc l r :
  length (List.filter keyed (l ++ [r])) = length (List.filter keyed l) + (if keyed r then 1 else 0).
Proof. rewrite List.filter_app, length_app. cbn [List.filter]. by destruct (keyed r). Qed.

Lemma krows_nil_first_max k l : first_max (krows k l) = None <-> krows k l = [].
Proof. by destruct (krows k l). Qed.

(** What the state holds after the rows [pre]. *)
Definition cd_inv (pre : list row) (st : cd_state) : Prop :=
  (forall k, k <> [] -> cd_best st !! k = first_max (krows k pre)) /\ cd_best st !! [] = None /\
  cd_order st = key_order pre /\
  length (cd_dupes st) + length (key_order pre) = length (List.filter keyed pre).

Lemma lookup_cond_insert_ne (m : gmap text row) k k' r (c : bool) :
  k <> k' -> (if c then <[k := r]> m else m) !! k' = m !! k'.
Proof. intros Hk. destruct c; [by apply lookup_insert_ne|done]. Qed.

Lemma cd_inv_step pre st r : cd_inv pre st -> cd_inv (pre ++ [r]) (cd_step st r).
Proof.
  intros (Hb & Hnil & Ho & Hd). unfold cd_inv, cd_step. cbv zeta.
  rewrite key_order_snoc, filter_keyed_snoc. unfold keyed at 2.
  set (kr := title_key r).
  assert (Hother : forall k, k <> kr -> krows k (pre ++ [r]) = krows k pre).
  { intros k Hk. rewrite krows_snoc, bool_decide_false by done. apply app_nil_r. }
  case_bool_decide as Hk.
  - rewrite bool_decide_true by tauto. cbn [negb]. rewrite app_nil_r.
    split_and!; [|done|done|lia]. intros k Hk'. rewrite Hother by congruence. by apply Hb.
  - cbn [negb]. pose proof (Hb kr Hk) as Hbk.
    destruct (cd_best st !! kr) as [b|] eqn:Eb.
    + assert (Hne : krows kr pre <> []) by (intros E; rewrite E in Hbk; discriminate).
      rewrite bool_decide_true by tauto. rewrite app_nil_r.
      split_and!; cbn [cd_best cd_order cd_dupes]; [| |done|rewrite length_app; simpl; lia].
      * intros k Hk'. destruct (decide (k = kr)) as [->|Hne'].
        -- rewrite krows_snoc, bool_decide_true, first_max_snoc, <- Hbk by done. unfold better.
           destruct (score b <? score r); [by rewrite lookup_insert_eq|done].
        -- rewrite Hother, lookup_cond_insert_ne by congruence. by apply Hb.
      * by rewrite lookup_cond_insert_ne by congruence.
    + assert (Hnil' : krows kr pre = []) by (apply krows_nil_first_max; by rewrite <- Hbk).
      rewrite bool_decide_false by tauto.
      split_and!; cbn [cd_best cd_order cd_dupes].
      * intros k Hk'. destruct (decide (k = kr)) as [->|Hne'].
        -- by rewrite lookup_insert_eq, krows_snoc, bool_decide_true, Hnil'.
        -- rewrite lookup_insert_ne, Hother by congruence. by apply Hb.
      * by rewrite lookup_insert_ne by congruence.
      * by rewrite Ho.
      * rewrite length_app. simpl. lia.
Qed.

Lemma cd_inv_rows rows : cd_inv rows (fold_left cd_step rows cd_init).
Proof.
  induction rows as [|r rows IH] using rev_ind; [by split_and!|].
  rewrite fold_left_app. by apply cd_inv_step.
Qed.

(** The reference picks the first row whose score is the largest. *)
Lemma first_max_spec l r : first_max l = Some r ->
  exists pre post, l = pre ++ r :: post /\
    Forall (fun x => score x < score r) pre /\ Forall (fun x => score x <= score r) post.
Proof.
  revert r. induction l as [|x l IH] using rev_ind; intros r; [done|].
  rewrite first_max_snoc. intros Hr. injection Hr as <-.
  destruct (first_max l) as [b|] eqn:E.
  - destruct (IH b eq_refl) as (pre & post & -> & Hpre & Hpost). unfold better.
    destruct (Nat.ltb_spec (score b) (score x)) as [Hlt|Hge].
    + exists (pre ++ b :: post), []. split_and!; [by rewrite <- app_assoc| |constructor].
      apply Forall_app. split; [|constructor; [done|]].
      * eapply Forall_impl; [exact Hpre|]. simpl. lia.
      * eapply Forall_impl; [exact Hpost|]. simpl. lia.
    + exists pre, (post ++ [x]). split_and!; [by rewrite <- app_assoc|done|].
      apply Forall_app. split; [done|]. constructor; [lia|constructor].
  - destruct l; [|done]. exists [], []. split_and!; constructor.
Qed.

Lemma elem_of_dedup_first x seen l : x ∈ dedup_first seen l -> x ∈ l.
Proof.
  revert seen. induction l as [|y l IH]; intros seen; cbn [dedup_first]; [done|].
  case_bool_decide; [intros ?%IH; by right|]. intros [->|?%IH]%elem_of_cons; [by left|by right].
Qed.

Lemma key_order_rows k rows : k ∈ key_order rows -> k <> [] /\ krows k rows <> [].
Proof. intros Hk%elem_of_dedup_first. by apply keys_krows. Qed.

Lemma map_fst_omap (m : gmap text row) ks : (forall k, k ∈ ks -> is_Some (m !! k)) ->
  map fst (omap (fun k => pair k <$> m !! k) ks) = ks.
Proof.
  induction ks as [|k ks IH]; intros Hks; [done|]. cbn [omap list_omap].
  destruct (Hks k ltac:(by left)) as [v Hv]. rewrite Hv. cbn [fmap option_fmap option_map map fst].
  f_equal. apply IH. intros k' ?. apply Hks. by right.
Qed.

End CollapseProps.

(** ** The maps of [master_compare_cmd] *)

(** The loop of [m_map] (and of [w_map]) in [master_compare_cmd]. *)
Definition km_step `{UnicodeDB} (m : gmap text row) (r : row) : gmap text row :=
  let k := title_key r in
  if bool_decide (k = []) || bool_decide (is_Some (m !! k)) then m else <[k := r]> m.

Section KeyMaps.
Context `{UnicodeDB}.

Lemma key_map_fold rows : key_map rows = fold_left km_step rows ∅.
Proof. reflexivity. Qed.

Lemma key_map_inv rows :
  (forall k, k <> [] -> key_map rows !! k = hd_error (krows k rows)) /\ key_map rows !! [] = None.
Proof.
  rewrite key_map_fold. induction rows as [|r rows IH] using rev_ind; [done|].
  rewrite fold_left_app. cbn [fold_left]. destruct IH as [IHk IHnil].
  set (m := fold_left km_step rows ∅) in *. unfold km_step. cbv zeta.
  set (kr := title_key r).
  assert (Hother : forall k, k <> kr -> krows k (rows ++ [r]) = krows k rows).
  { intros k Hk. rewrite krows_snoc, bool_decide_false by done. apply app_nil_r. }
  case_bool_decide as Hr; cbn [orb].
  { split; [|done]. intros k Hk. rewrite Hother by congruence. by apply IHk. }
  case_bool_decide as Hs.
  - split; [|done]. intros k Hk. destruct (decide (k = kr)) as [->|Hne]; [|rewrite Hother by done; by apply IHk].
    rewrite IHk in Hs by done. rewrite krows_snoc, hd_error_app_l; [by apply IHk|].
    intros E. rewrite E in Hs. by destruct Hs.
  - split; [|by rewrite lookup_insert_ne by congruence].
    intros k Hk. destruct (decide (k = kr)) as [->|Hne].
    + rewrite lookup_insert_eq, krows_snoc, bool_decide_true by done.
      rewrite IHk in Hs by done. destruct (krows kr rows); [done|]. exfalso. apply Hs. by eexists.
    + rewrite lookup_insert_ne, Hother by congruence. by apply IHk.
Qed.

(** [w_map] and [w_order] are [m_map] and the reference's key order. *)
Lemma weekly_keys_key_map rows : weekly_keys rows = (key_map rows, key_order rows).
Proof.
  induction rows as [|r rows IH] using rev_ind; [done|].
  unfold weekly_keys in *. rewrite fold_left_app, IH, (key_map_fold (rows ++ [r])), fold_left_app, <- key_map_fold.
  rewrite key_order_snoc. cbn [fold_left]. unfold km_step. cbv zeta.
  set (kr := title_key r).
  assert (Hs : is_Some (key_map rows !! kr) <-> kr <> [] /\ krows kr rows <> []).
  { destruct (decide (kr = [])) as [->|Hk].
    - rewrite (proj2 (key_map_inv rows)). split; [intros []; done|tauto].
    - rewrite (proj1 (key_map_inv rows) kr Hk). destruct (krows kr rows); naive_solver. }
  repeat case_bool_decide; cbn [orb]; rewrite ?app_nil_r; first [done | exfalso; tauto].
Qed.

End KeyMaps.

Section CollapseClaims.
Context `{UnicodeDB}.

(** [C17] Collapse refines the reference (spec, MatchKey: collisions are
    resolved by a completeness score, not by insertion order): the kept
    keys are the distinct non-empty keys in first-seen order; the row kept
    for a key is a row of that key with the largest score, every row of
    the key before it having a smaller score; every other keyed row is
    reported once as a duplicate. *)
Theorem collapse_dupes_spec rows :
  map fst (_collapse_dupes rows).1 = key_order rows /\
  (forall k r, (k, r) ∈ (_collapse_dupes rows).1 ->
     exists pre post, krows k rows = pre ++ r :: post /\
       Forall (fun x => score x < score r) pre /\ Forall (fun x => score x <= score r) post) /\
  length (_collapse_dupes rows).2 = length (List.filter keyed rows) - length (key_order rows).
Proof.
  destruct (cd_inv_rows rows) as (Hb & _ & Ho & Hd). unfold _collapse_dupes. cbn [fst snd].
  set (st := fold_left cd_step rows cd_init) in *. split_and!; [|  |lia].
  - rewrite Ho. apply map_fst_omap. intros k (Hk & Hne)%key_order_rows.
    rewrite Hb by done. by destruct (krows k rows).
  - intros k r (k' & Hk' & E)%list_elem_of_omap. rewrite Ho in Hk'.
    apply fmap_Some in E as (r' & Er & Ekr). injection Ekr as -> ->.
    apply key_order_rows in Hk' as [Hk' _]. rewrite Hb in Er by done. by apply first_max_spec.
Qed.

(** [C32] Finding: the maps [m_map] and [w_map] of [master_compare_cmd]
    keep the first row of each non-empty key, whatever the completeness
    of the later rows: the spec resolves such collisions by the
    completeness score, which only the unused [_collapse_dupes] computes.
    [w_order] lists the non-empty keys once each, in first-seen order. *)
Theorem key_map_first rows k :
  k <> [] ->
  key_map rows !! k = hd_error (krows k rows) /\
  (weekly_keys rows).1 !! k = hd_error (krows k rows) /\
  (weekly_keys rows).2 = key_order rows.
Proof.
  intros Hk. rewrite weekly_keys_key_map. cbn [fst snd].
  split_and!; [by apply key_map_inv..|done].
Qed.

End CollapseClaims.

(** ** Two rows of one production at the Latin-1 database *)

Section CollapseExamples.
#[local] Existing Instance latin1_db.

Definition demo_sparse : row := list_to_map [(u "Production Name", u "Alpha")].
Definition demo_complete : row :=
  list_to_map [(u "Production Name", u "ALPHA"); (u "Description", u "A drama"); (u "City", u "Vancouver")].

(** The master maps keep the sparse row, [_collapse_dupes] the complete one. *)
Example collapse_keeps_complete_row :
  key_map [demo_sparse; demo_complete] !! u "alpha" = Some demo_sparse /\
  _collapse_dupes [demo_sparse; demo_complete] = ([(u "alpha", demo_complete)], [(u "ALPHA", u "Alpha")]).
Proof. split; vm_compute; reflexivity. Qed.

Lemma key_map_first_witness :
  u "alpha" <> [] /\
  key_map [demo_sparse; demo_complete] !! u "alpha" = hd_error (krows (u "alpha") [demo_sparse; demo_complete]) /\
  (weekly_keys [demo_sparse; demo_complete]).1 !! u "alpha"
    = hd_error (krows (u "alpha") [demo_sparse; demo_complete]) /\
  (weekly_keys [demo_sparse; demo_complete]).2 = key_order [demo_sparse; demo_complete].
Proof.
  assert (Hk : u "alpha" <> []) by (vm_compute; intros E; discriminate E).
  split; [exact Hk|exact (key_map_first _ _ Hk)].
Defined.

End CollapseExamples.
