(* ===== verification/Pipeline.v ===== *)
(** * Pipeline: one PDF from layout to rows, and the batch over a folder

    Models, from [src/Scripts/Production_Weekly_Extractor.py]:
    - the per-production files [extract_text_structured] writes
      ([<stem>_prod<idx:04d>.txt], lines 264-266) into the productions
      folder, given as the map from file name to contents it holds;
    - [_load_from_productions_folder] (lines 1929-1935): the files matching
      [*_prod*.txt], sorted by name, stripped, the blank ones skipped;
    - [load_blocks] (lines 1937-1948) on a structured file or a folder;
    - [pipeline_build_one] (lines 271-299): extract into the productions
      folder of the PDF (the stem of the cleaned PDF is [<stem>_cleaned]),
      then [build_cmd] on the folder;
    - [batch_build_cmd] (lines 2170-2244): the sorted matches of its glob
      pattern in a folder ([fnmatch] for [*] and [?]), the resume check, the pipeline under a handler, one index row per PDF.

    Paths are texts with [/] separators.  Cleaning the PDF, reading it and
    counting the rows of a written CSV are effects: the pages after
    cleaning are given, and the batch takes the existence test of a
    FullSchema file, the row count and the outcome of one pipeline run
    (its paths or the exception it raised) as section variables. *)

From Stdlib Require Import QArith_base.
From S2P Require Import Prelude PyStr Regex KeyNorm Dates Extract Location Reconcile Master Record Segment.

Open Scope N_scope.

(** ** Paths and file names *)

(** [f"{idx:04d}"] *)
Definition pad4 (n : nat) : text :=
  let d := show_dec (Z.of_nat n) in repeat 48 (4 - length d) ++ d.

(** [f"{stem}_prod{idx:04d}.txt"] *)
Definition prod_file (stem : text) (idx : nat) : text := stem ++ u "_prod" ++ pad4 idx ++ u ".txt".

(** The names of the files of [n] productions, [enumerate(all_prods, 1)]. *)
Definition prod_names (stem : text) (n : nat) : list text := map (prod_file stem) (seq 1 n).

Definition py_endswith (suf s : text) : bool := py_startswith (rev suf) (rev s).

(** [fnmatch(name, "*_prod*.txt")]: [name = a + "_prod" + b + ".txt"]. *)
Definition prod_glob (name : text) : bool :=
  py_endswith (u ".txt") name && py_contains (u "_prod") (take (length name - 4) name).

(** ** The productions folder *)

(** The writes of [extract_text_structured], one file per production. *)
Definition write_prods (dir : gmap text text) (stem : text) (prods : list text) : gmap text text :=
  fold_left (fun d '(f, p) => <[f := p]> d) (zip (prod_names stem (length prods)) prods) dir.

(** One file of [_load_from_productions_folder]: its stripped text, when
    not blank. *)
Definition prod_block (dir : gmap text text) (f : text) : option text :=
  match dir !! f with
  | Some c => let t := py_strip c in if bool_decide (t = []) then None else Some t
  | None => None
  end.

Definition _load_from_productions_folder (dir : gmap text text) : list text :=
  omap (prod_block dir) (py_sorted (List.filter prod_glob (map fst (map_to_list dir)))).

(** The input of [build_cmd]: a structured file (its text) or a folder
    (its [productions] subfolder). *)
Inductive build_input :=
  | InputFile (txt : text)
  | InputDir (prods_dir : gmap text text).

Definition load_blocks (i : build_input) : list text :=
  match i with
  | InputFile txt => _load_from_structured txt
  | InputDir d => _load_from_productions_folder d
  end.

Section Pipeline.
Context `{UnicodeDB}.
Variable world_lookup_city : text -> triple.
Variable today : date.

(** [build_cmd] on any input: the rows, the baseline and the filtered titles. *)
Definition build_blocks (blocks : list text) : option (list row * list text * list text) :=
  match build_rows world_lookup_city today blocks with
  | Some (rows, filt) => Some (rows, load_titles blocks, filt)
  | None => None
  end.

Definition build_cmd_input (i : build_input) : option (list row * list text * list text) :=
  build_blocks (load_blocks i).

(** [pipeline_build_one]: the productions folder after the run and the
    blocks [build_cmd] reads back from it, with the defaults
    [columns="auto"] and [col_margin=12.0]. *)
Definition pipeline_blocks (old : gmap text text) (stem : text) (pages : list page) :
    gmap text text * list text :=
  let prods := extract_text_structured (u "auto") 12%Q pages in
  let dir := write_prods old (stem ++ u "_cleaned") prods in
  (dir, load_blocks (InputDir dir)).

Definition pipeline_build_one (old : gmap text text) (stem : text) (pages : list page)
    : option (list row * list text * list text) :=
  build_blocks (pipeline_blocks old stem pages).2.

End Pipeline.

(** ** File names sort in production order *)

Lemma text_ltb_app_l p a b : text_ltb (p ++ a) (p ++ b) = text_ltb a b.
Proof. induction p as [|c p IH]; [done|]. cbn [app text_ltb]. by rewrite N.ltb_irrefl, N.eqb_refl, IH. Qed.

Lemma text_ltb_app_len a b s t : length a = length b -> a <> b -> text_ltb (a ++ s) (b ++ t) = text_ltb a b.
Proof.
  revert b. induction a as [|x a IH]; intros [|y b] Hl Hne; cbn [length] in Hl; try lia; [done|].
  cbn [app text_ltb]. destruct (N.eqb_spec x y) as [<-|Hxy]; [|done].
  cbn [andb]. rewrite IH; [done|lia|congruence].
Qed.

(** The value of a text of ASCII digits. *)
Definition dval (ds : text) : Z := fold_left (fun acc c => (acc * 10 + Z.of_N (c - 48))%Z) ds 0%Z.

Lemma dval_acc ds acc :
  fold_left (fun acc c => (acc * 10 + Z.of_N (c - 48))%Z) ds acc = (acc * 10 ^ Z.of_nat (length ds) + dval ds)%Z.
Proof.
  unfold dval. revert acc. induction ds as [|c ds IH]; intros acc; cbn [fold_left length]; [lia|].
  rewrite IH, (IH (0 * 10 + _)%Z), Nat2Z.inj_succ, Z.pow_succ_r by lia. lia.
Qed.

Lemma dval_cons c ds : dval (c :: ds) = (Z.of_N (c - 48) * 10 ^ Z.of_nat (length ds) + dval ds)%Z.
Proof. unfold dval at 1. cbn [fold_left]. rewrite dval_acc. lia. Qed.

Definition ascii_digits (ds : text) : Prop := Forall (fun c => is_ascii_digit c = true) ds.

Lemma ascii_digit_range c : is_ascii_digit c = true -> (48 <= c <= 57)%N.
Proof. unfold is_ascii_digit, in_range. intros [?%N.leb_le ?%N.leb_le]%andb_prop. lia. Qed.

Lemma dval_bound ds : ascii_digits ds -> (0 <= dval ds < 10 ^ Z.of_nat (length ds))%Z.
Proof.
  intros Hds. induction Hds as [|c l Hc _ IH]; [unfold dval; simpl; lia|]. rewrite dval_cons.
  apply ascii_digit_range in Hc. cbn [length]. rewrite Nat2Z.inj_succ, Z.pow_succ_r by lia. nia.
Qed.

(** On digit texts of one length, the order of [str] is the order of the numbers. *)
Lemma text_ltb_digits a b : ascii_digits a -> ascii_digits b -> length a = length b ->
  text_ltb a b = true <-> (dval a < dval b)%Z.
Proof.
  revert b. induction a as [|x a IH]; intros [|y b] Ha Hb Hl; cbn [length] in Hl; try lia.
  { unfold dval. simpl. split; [done|lia]. }
  inversion Ha as [|? ? Hx Ha']; inversion Hb as [|? ? Hy Hb']; subst.
  apply ascii_digit_range in Hx, Hy. rewrite !dval_cons. injection Hl as Hl. rewrite Hl.
  pose proof (dval_bound a Ha') as Ba. pose proof (dval_bound b Hb') as Bb. rewrite Hl in Ba.
  rewrite !N2Z.inj_sub by lia. cbn [text_ltb].
  set (P := (10 ^ Z.of_nat (length b))%Z) in *.
  destruct (N.ltb_spec x y); [split; [intros _; nia|done]|].
  destruct (N.eqb_spec x y) as [->|]; cbn [orb andb].
  - rewrite IH by done. lia.
  - split; [done|]. intros. nia.
Qed.

Lemma length_show_fuel_le f n : (length (show_fuel f n) <= f)%nat.
Proof.
  revert n. induction f as [|f IH]; intros n; [done|]. cbn [show_fuel].
  destruct (n <? 10)%N; [simpl; lia|]. rewrite length_app. specialize (IH (n / 10)%N). simpl. lia.
Qed.

Lemma dval_zeros k ds : dval (repeat 48 k ++ ds) = dval ds.
Proof.
  unfold dval. rewrite fold_left_app. f_equal. induction k as [|k IH]; [done|]. cbn [repeat fold_left].
  replace (0 * 10 + Z.of_N (48 - 48))%Z with 0%Z by lia. done.
Qed.

(** [f"{n:04d}"] has four digits and the value [n], below 10000. *)
Lemma pad4_digits n : (N.of_nat n < 10000)%N ->
  ascii_digits (pad4 n) /\ length (pad4 n) = 4%nat /\ dval (pad4 n) = Z.of_nat n.
Proof.
  intros Hn. unfold pad4.
  assert (Hl : (length (show_dec (Z.of_nat n)) <= 4)%nat).
  { assert (Hz : Z.to_N (Z.of_nat n) = N.of_nat n) by lia.
    rewrite (show_dec_fuel _ 3) by (rewrite Hz; change (10 ^ N.of_nat 4)%N with 10000%N; lia). apply length_show_fuel_le. }
  split_and!.
  - apply Forall_app. split; [|apply show_dec_ascii].
    apply List.Forall_forall. intros c ->%repeat_spec. reflexivity.
  - rewrite length_app, repeat_length. lia.
  - rewrite dval_zeros. unfold dval. rewrite <- (@digits_value_ascii latin1_db) by apply show_dec_ascii.
    apply (@show_dec_value latin1_db). lia.
Qed.

Lemma prod_file_lt stem i j : (i < j)%nat -> (N.of_nat j < 10000)%N ->
  text_ltb (prod_file stem i) (prod_file stem j) = true.
Proof.
  intros Hij Hj. unfold prod_file. rewrite !text_ltb_app_l.
  destruct (pad4_digits i ltac:(lia)) as (Di & Li & Vi), (pad4_digits j ltac:(lia)) as (Dj & Lj & Vj).
  rewrite text_ltb_app_len by (congruence || (intros E; rewrite E in Vi; lia)).
  apply text_ltb_digits; [done|done|congruence|lia].
Qed.

Lemma prod_names_sorted stem start n : (N.of_nat (start + n) <= 10000)%N ->
  Sorted text_le (map (prod_file stem) (seq start n)).
Proof.
  revert start. induction n as [|n IH]; intros start Hn; [constructor|].
  cbn [seq map]. constructor; [apply IH; lia|].
  destruct n as [|n]; [constructor|]. cbn [seq map]. constructor.
  unfold text_le. apply text_ltb_asym, prod_file_lt; lia.
Qed.

Lemma prod_names_nodup stem start n : (N.of_nat (start + n) <= 10000)%N ->
  NoDup (map (prod_file stem) (seq start n)).
Proof.
  revert start. induction n as [|n IH]; intros start Hn; [constructor|].
  cbn [seq map]. apply NoDup_cons. split; [|apply IH; lia].
  rewrite list_elem_of_In, in_map_iff. intros (j & Ej & Hj). apply in_seq in Hj.
  pose proof (prod_file_lt stem start j ltac:(lia) ltac:(lia)) as Hlt.
  rewrite Ej, text_ltb_irrefl in Hlt. discriminate.
Qed.

Lemma py_sorted_id xs : Sorted text_le xs -> py_sorted xs = xs.
Proof.
  intros Hs. unfold py_sorted. apply (Sorted_unique text_le); [apply Sorted_merge_sort; apply _|done|].
  apply merge_sort_Permutation.
Qed.

Lemma prod_glob_file stem i : prod_glob (prod_file stem i) = true.
Proof.
  unfold prod_glob, py_endswith, prod_file. apply andb_true_intro. split.
  - rewrite !app_assoc, rev_app_distr. apply py_startswith_app.
  - replace (take (length _ - 4) _) with (stem ++ u "_prod" ++ pad4 i).
    + apply py_contains_app.
    + rewrite !app_assoc, take_app_length'; [done|]. rewrite !length_app. change (length (u ".txt")) with 4%nat. lia.
Qed.

(** ** The productions folder after a run *)

Lemma fold_insert_union (kvs : list (text * text)) (d : gmap text text) :
  fold_left (fun d '(f, p) => <[f := p]> d) kvs d = list_to_map (rev kvs) ∪ d.
Proof.
  induction kvs as [|[f p] kvs IH] using rev_ind.
  { cbn [rev fold_left]. rewrite list_to_map_nil. by rewrite (left_id_L ∅ (∪)). }
  rewrite fold_left_app, IH, rev_app_distr. cbn [rev app fold_left]. rewrite list_to_map_cons.
  by rewrite insert_union_l.
Qed.

Lemma write_prods_union dir stem prods :
  write_prods dir stem prods = list_to_map (rev (zip (prod_names stem (length prods)) prods)) ∪ dir.
Proof. apply fold_insert_union. Qed.

Lemma fst_zip_names (stem : text) (prods : list text) : (zip (prod_names stem (length prods)) prods).*1 = prod_names stem (length prods).
Proof. apply fst_zip. unfold prod_names. by rewrite length_map, length_seq. Qed.

Lemma map_fmap_list {A B} (f : A -> B) (l : list A) : map f l = f <$> l.
Proof. induction l as [|x l IH]; [done|]. cbn. by rewrite IH. Qed.

Lemma filter_Forall_id {A} (f : A -> bool) (l : list A) : List.Forall (fun x => f x = true) l -> List.filter f l = l.
Proof. induction 1 as [|x l Hx _ IH]; [done|]. cbn [List.filter]. by rewrite Hx, IH. Qed.

Lemma Forall2_of_zip {A B} (R : A -> B -> Prop) (l : list A) (k : list B) :
  length l = length k -> (forall x y, (x, y) ∈ zip l k -> R x y) -> Forall2 R l k.
Proof.
  revert k. induction l as [|x l IH]; intros [|y k] Hl HR; try done.
  constructor; [apply HR; by left|]. apply IH; [simpl in Hl; lia|]. intros x' y' Hin. apply HR. by right.
Qed.

Lemma omap_prod_block dir (ns ps : list text) :
  Forall2 (fun f p => dir !! f = Some p) ns ps -> Forall (fun p => py_strip p = p /\ p <> []) ps ->
  omap (prod_block dir) ns = ps.
Proof.
  induction 1 as [|f p ns ps Hf _ IH]; intros Hps; [done|]. apply Forall_cons in Hps as [[Hs Hne] Hps].
  cbn [omap list_omap]. unfold prod_block at 1. rewrite Hf, Hs, bool_decide_false by done. f_equal. by apply IH.
Qed.

(** A fresh folder reads back the productions written into it, in order,
    when there are fewer than 10000 of them. *)
Lemma load_fresh_folder stem prods :
  (N.of_nat (length prods) < 10000)%N -> Forall (fun p => py_strip p = p /\ p <> []) prods ->
  _load_from_productions_folder (write_prods ∅ stem prods) = prods.
Proof.
  intros Hn Hp. rewrite write_prods_union, (right_id_L ∅ (∪)).
  set (names := prod_names stem (length prods)). set (kvs := zip names prods).
  assert (Hnd : NoDup kvs.*1) by (unfold kvs, names; rewrite fst_zip_names; apply prod_names_nodup; lia).
  assert (Hnd' : NoDup (rev kvs).*1).
  { rewrite <- !map_fmap_list in *. rewrite map_rev. by rewrite <- Permutation_rev. }
  assert (Hkeys : map fst (map_to_list (list_to_map (rev kvs) : gmap text text)) ≡ₚ names).
  { rewrite (map_to_list_to_map _ Hnd'), map_rev, <- Permutation_rev, map_fmap_list.
    unfold kvs, names. by rewrite fst_zip_names. }
  unfold _load_from_productions_folder.
  rewrite (filter_Forall_id prod_glob).
  2:{ apply List.Forall_forall. intros f Hf. apply (Permutation_in _ Hkeys) in Hf.
      apply in_map_iff in Hf as (i & <- & _). apply prod_glob_file. }
  rewrite (py_sorted_perm _ _ Hkeys), py_sorted_id by (apply prod_names_sorted; lia).
  apply omap_prod_block; [|done]. apply Forall2_of_zip.
  - unfold names, prod_names. by rewrite length_map, length_seq.
  - intros f p Hfp. apply elem_of_list_to_map; [done|]. by rewrite list_elem_of_In, <- in_rev, <- list_elem_of_In.
Qed.

Section PipelineProps.
Context `{UnicodeDB}.

(** [C15] The pipeline reads back what the segmenter wrote (spec, Layout
    Segmenter output consumed by the Record Builder): on a fresh output
    folder with fewer than 10000 productions, the blocks [build_cmd] reads
    from the productions folder are exactly the productions of
    [extract_text_structured], in order, title-less ones included. *)
Theorem pipeline_reads_back stem pages :
  (N.of_nat (length (extract_text_structured (u "auto") 12%Q pages)) < 10000)%N ->
  (pipeline_blocks ∅ stem pages).2 = extract_text_structured (u "auto") 12%Q pages.
Proof.
  intros Hn. apply load_fresh_folder; [done|].
  eapply Forall_impl; [apply extract_good|]. intros p Hp. by apply good_prod_strip.
Qed.

(** Finding: a production file left in the folder by an earlier run
    (a file [*_prod*.txt] the new run does not overwrite, e.g. when the
    issue now has fewer productions) is read back as a block of the new
    build. *)
Theorem pipeline_loads_stale_file old stem pages f c :
  prod_glob f = true -> old !! f = Some c -> py_strip c <> [] ->
  f ∉ prod_names (stem ++ u "_cleaned") (length (extract_text_structured (u "auto") 12%Q pages)) ->
  py_strip c ∈ (pipeline_blocks old stem pages).2.
Proof.
  intros Hg Hf Hc Hnew. unfold pipeline_blocks. cbv zeta. cbn [snd load_blocks].
  set (prods := extract_text_structured (u "auto") 12%Q pages) in *.
  set (dir := write_prods old (stem ++ u "_cleaned") prods).
  assert (Hd : dir !! f = Some c).
  { unfold dir. rewrite write_prods_union, lookup_union_r; [done|]. apply not_elem_of_list_to_map.
    rewrite <- map_fmap_list, map_rev, list_elem_of_In, <- in_rev, <- list_elem_of_In, map_fmap_list, fst_zip_names.
    done. }
  unfold _load_from_productions_folder. apply list_elem_of_omap. exists f. split.
  - unfold py_sorted. rewrite (merge_sort_Permutation text_le), list_elem_of_In, filter_In. split; [|done].
    apply in_map_iff. exists (f, c). split; [done|]. by apply list_elem_of_In, elem_of_map_to_list.
  - unfold prod_block. rewrite Hd, bool_decide_false by done. done.
Qed.

End PipelineProps.

(** ** The batch over a folder *)

Definition path_join (a b : text) : text := a ++ [47] ++ b.

(** [PurePath.name] and [PurePath.stem]. *)
Definition path_name (p : text) : text := default [] (last (py_split_sep 47 p)).

Definition path_stem (p : text) : text :=
  let name := path_name p in
  match py_find [46] (rev name) with
  | Some j => let i := (length name - 1 - j)%nat in
              if (0 <? i)%nat && (i <? length name - 1)%nat then take i name else name
  | None => name
  end.

(** One row of [batch_index.csv]. *)
Record batch_row := {
  b_pdf : text; b_outdir : text; b_fullschema : text; b_baseline : text;
  b_filtered : text; b_rows : text; b_status : text }.

(** What [pipeline_build_one] did for one PDF: its paths, or the class
    and message of the exception it raised. *)
Inductive run_outcome :=
  | RunOk (csv baseline per_dir : text)
  | RunRaised (exc_class msg : text).

(** [fnmatch] as [Path.glob] uses it on one name (POSIX, case-sensitive),
    for patterns made of literals, [*] and [?]. *)
Fixpoint fnmatch (pat s : text) : bool :=
  match pat with
  | [] => match s with [] => true | _ => false end
  | c :: pat' =>
      if (c =? 42)%N then existsb (fun i => fnmatch pat' (drop i s)) (seq 0 (S (length s)))
      else match s with
           | [] => false
           | d :: s' => ((c =? 63)%N || (c =? d)%N) && fnmatch pat' s'
           end
  end.

Section Batch.
Variable fullschema_exists : text -> bool.
Variable count_rows : text -> text.
Variable run_one : text -> run_outcome.

Definition fullschema_path (out_root pdf : text) : text :=
  path_join (path_join out_root (path_stem pdf)) (path_stem pdf ++ u "_FullSchema.csv").

(** The body of the loop of [batch_build_cmd] for one PDF. *)
Definition batch_one (out_root : text) (resume : bool) (pdf : text) : batch_row :=
  let per_pdf_out := path_join out_root (path_stem pdf) in
  let fullschema := fullschema_path out_root pdf in
  if resume && fullschema_exists fullschema then
    {| b_pdf := pdf; b_outdir := per_pdf_out; b_fullschema := fullschema;
       b_baseline := path_join per_pdf_out (path_stem pdf ++ u "_baseline_titles.txt");
       b_filtered := path_join per_pdf_out (path_stem pdf ++ u "_filtered_titles.txt");
       b_rows := count_rows fullschema; b_status := u "skipped (resume)" |}
  else
    match run_one pdf with
    | RunOk csv baseline per_dir =>
        {| b_pdf := pdf; b_outdir := per_dir; b_fullschema := csv; b_baseline := baseline;
           b_filtered := path_join per_dir (path_stem pdf ++ u "_filtered_titles.txt");
           b_rows := count_rows csv; b_status := u "ok" |}
    | RunRaised cls msg =>
        {| b_pdf := pdf; b_outdir := per_pdf_out; b_fullschema := []; b_baseline := [];
           b_filtered := []; b_rows := []; b_status := u "error: " ++ cls ++ u ": " ++ msg |}
    end.

(** [sorted(input_dir.glob(glob_pattern))] over the names the folder holds. *)
Definition batch_pdfs (input_dir glob_pattern : text) (names : list text) : list text :=
  map (path_join input_dir) (py_sorted (List.filter (fnmatch glob_pattern) names)).

(** [batch_build_cmd]: the index rows, [None] for [FileNotFoundError]. *)
Definition batch_build_cmd (input_dir : text) (names : list text) (out_root glob_pattern : text) (resume : bool)
    : option (list batch_row) :=
  match batch_pdfs input_dir glob_pattern names with
  | [] => None
  | pdfs => Some (map (batch_one out_root resume) pdfs)
  end.

(** [C26] The batch indexes every PDF (spec, batch driver): when the folder
    holds a PDF, every PDF gets its row, in sorted order, whatever the
    others do; a PDF is skipped exactly when resuming finds its FullSchema
    file, and a run that raises gives an error row with the exception
    instead of stopping the batch. *)
Theorem batch_indexes_every_pdf input_dir glob_pattern names out_root resume :
  batch_pdfs input_dir glob_pattern names <> [] ->
  exists rows, batch_build_cmd input_dir names out_root glob_pattern resume = Some rows /\
  Forall2 (fun pdf r =>
      b_pdf r = pdf /\
      (b_status r = u "skipped (resume)" <-> resume && fullschema_exists (fullschema_path out_root pdf) = true) /\
      (forall cls msg, run_one pdf = RunRaised cls msg ->
         resume && fullschema_exists (fullschema_path out_root pdf) = false ->
         b_status r = u "error: " ++ cls ++ u ": " ++ msg))
    (batch_pdfs input_dir glob_pattern names) rows.
Proof.
  intros Hne. unfold batch_build_cmd. destruct (batch_pdfs input_dir glob_pattern names) as [|p ps] eqn:E; [done|].
  rewrite <- E. eexists. split; [done|]. clear p ps E Hne.
  induction (batch_pdfs input_dir glob_pattern names) as [|pdf pdfs IH]; constructor; [|done].
  unfold batch_one. cbv zeta. destruct (resume && fullschema_exists _) eqn:Es.
  - split_and!; [done|done|]. intros ? ? _ ?. done.
  - destruct (run_one pdf) as [csv baseline per_dir|cls msg] eqn:Er.
    + split_and!; [done| |intros ? ? Hr; discriminate].
      split; [intros Hs; vm_compute in Hs; discriminate Hs|done].
    + split_and!; [done| |intros cls' msg' Hr _; by injection Hr as -> ->].
      split; [|done]. intros Hs. apply (f_equal (@head _)) in Hs. vm_compute in Hs. discriminate Hs.
Qed.

End Batch.

(** ** Concrete runs at the Latin-1 database *)

Section PipelineExamples.
#[local] Existing Instance latin1_db.

(** Finding: in the pipeline, the lines a production continues with
    after a page break are a file of their own in the productions folder,
    and [build_cmd] makes them a record whose Production Name is their
    first line: the issue of [Segment.demo_continued] gives the records
    Alpha, Director: Jane Roe and Beta, for every gazetteer and day. *)
Theorem pipeline_continuation_record gz today :
  option_map (fun '(rows, _, _) => map (fun r => rget r (u "Production Name")) rows)
    (pipeline_build_one gz today ∅ (u "PW1") demo_continued)
  = Some [u "Alpha"; u "Director: Jane Roe"; u "Beta"].
Proof. vm_compute. reflexivity. Qed.

Lemma pipeline_reads_back_witness :
  (N.of_nat (length (extract_text_structured (u "auto") 12%Q demo_continued)) < 10000)%N /\
  (pipeline_blocks ∅ (u "PW1") demo_continued).2 = extract_text_structured (u "auto") 12%Q demo_continued.
Proof.
  assert (Hn : (N.of_nat (length (extract_text_structured (u "auto") 12%Q demo_continued)) < 10000)%N)
    by (vm_compute; reflexivity).
  split; [exact Hn|exact (pipeline_reads_back _ _ Hn)].
Defined.

(** The folder of an earlier run holding a fourth production. *)
Definition demo_stale_name : text := prod_file (u "PW1_cleaned") 4.
Definition demo_stale_dir : gmap text text := {[ demo_stale_name := u "### “Gamma” Series" ]}.

Lemma pipeline_loads_stale_file_witness :
  prod_glob demo_stale_name = true /\ demo_stale_dir !! demo_stale_name = Some (u "### “Gamma” Series") /\
  py_strip (u "### “Gamma” Series") <> [] /\
  (demo_stale_name ∉ prod_names (u "PW1" ++ u "_cleaned")
                       (length (extract_text_structured (u "auto") 12%Q demo_continued))) /\
  (py_strip (u "### “Gamma” Series") ∈ (pipeline_blocks demo_stale_dir (u "PW1") demo_continued).2).
Proof.
  assert (H1 : prod_glob demo_stale_name = true) by (vm_compute; reflexivity).
  assert (H2 : demo_stale_dir !! demo_stale_name = Some (u "### “Gamma” Series")) by (apply lookup_singleton_eq).
  assert (H3 : py_strip (u "### “Gamma” Series") <> []) by (vm_compute; intros E; discriminate E).
  assert (H4 : demo_stale_name ∉ prod_names (u "PW1" ++ u "_cleaned")
                 (length (extract_text_structured (u "auto") 12%Q demo_continued)))
    by (apply (bool_decide_unpack _); vm_compute; reflexivity).
  split_and!; [exact H1|exact H2|exact H3|exact H4|].
  exact (pipeline_loads_stale_file _ _ _ _ _ H1 H2 H3 H4).
Defined.

Lemma batch_indexes_every_pdf_witness :
  batch_pdfs (u "in") (u "*.pdf") [u "b.pdf"; u "notes.txt"; u "a.pdf"] <> [] /\
  exists rows,
    batch_build_cmd (fun _ => false) (fun _ => []) (fun _ => RunRaised (u "ValueError") (u "bad page"))
      (u "in") [u "b.pdf"; u "notes.txt"; u "a.pdf"] (u "out") (u "*.pdf") true = Some rows /\
    Forall2 (fun pdf r =>
      b_pdf r = pdf /\
      (b_status r = u "skipped (resume)" <-> true && false = true) /\
      (forall cls msg, RunRaised (u "ValueError") (u "bad page") = RunRaised cls msg ->
         true && false = false -> b_status r = u "error: " ++ cls ++ u ": " ++ msg))
      (batch_pdfs (u "in") (u "*.pdf") [u "b.pdf"; u "notes.txt"; u "a.pdf"]) rows.
Proof.
  assert (Hne : batch_pdfs (u "in") (u "*.pdf") [u "b.pdf"; u "notes.txt"; u "a.pdf"] <> [])
    by (vm_compute; intros E; discriminate E).
  split; [exact Hne|].
  exact (batch_indexes_every_pdf (fun _ => false) (fun _ => []) (fun _ => RunRaised (u "ValueError") (u "bad page"))
           _ _ _ _ _ Hne).
Defined.

End PipelineExamples.
