(* ===== verification/Watermark.v ===== *)
(** * Watermark: the bottom-strip remover [src/remove_bottom_watermark.py]

    The script cleans a PDF before the extractor reads it: it cuts a strip
    of [--strip] units from the bottom of every page (crop mode) or paints
    it white and removes what lies under it (redact mode), writes the
    result to a temporary file beside the destination, checks that the
    temporary file opens, and moves it onto the destination with
    [os.replace], retrying ten times when the destination is locked.

    The model threads a state through a small state-and-exception monad
    [M]: the state holds the file system, as a map from resolved paths to
    their bytes, and the list of the [time.sleep] durations of the retry
    loop; a raised exception is a value of [exc] with its message.  What
    the operating system and PyMuPDF decide (path resolution, the process
    id, whether a document opens and what its pages are, the bytes
    [doc.save] writes, the outcome of each [os.replace] attempt) is the
    record [os_env], on which every theorem quantifies.  A page is its
    rectangle and the list of calls the script issues on it. *)

From Stdlib Require Import QArith_base Qminmax Lqa.
From S2P Require Import Prelude PyStr Dates Extract Segment Pipeline.

Open Scope N_scope.

(** ** Exceptions and the state-and-exception monad *)

(** The exceptions the script raises or lets through, with their messages;
    [FitzError] stands for the exception PyMuPDF raises on a file it cannot
    open, [SystemExit] for [sys.exit(code)] and [SystemExitMsg] for
    [raise SystemExit(message)]. *)
Inductive exc :=
  | FileNotFoundError (msg : text)
  | ValueError (msg : text)
  | ZeroDivisionError (msg : text)
  | PermissionError (msg : text)
  | FitzError (msg : text)
  | SystemExit (code : N)
  | SystemExitMsg (msg : text).

Inductive outcome (A : Type) := Ok (a : A) | Raised (e : exc).
Arguments Ok {A} a.
Arguments Raised {A} e.

Record wm_state := { ws_fs : gmap text text; ws_sleeps : list Q }.

Definition M (A : Type) : Type := wm_state -> wm_state * outcome A.

Definition mret {A} (a : A) : M A := fun s => (s, Ok a).
Definition raise {A} (e : exc) : M A := fun s => (s, Raised e).
Definition mbind {A B} (m : M A) (f : A -> M B) : M B := fun s =>
  match m s with (s', Ok a) => f a s' | (s', Raised e) => (s', Raised e) end.
Definition lift {A} (o : outcome A) : M A := fun s => (s, o).

Declare Scope wm_scope.
Delimit Scope wm_scope with wm.
Notation "'do' x <- m ; k" := (mbind m (fun x => k))
  (at level 10, x name, m at level 100, k at level 200) : wm_scope.
Open Scope wm_scope.

(** ** Rectangles and pages *)

(** [fitz.Rect], with its coordinates as rationals (y grows downwards). *)
Record qrect := { x0 : Q; y0 : Q; x1 : Q; y1 : Q }.

(** [Rect.height]: [max(y1 - y0, 0)]. *)
Definition rect_height (r : qrect) : Q := Qmax (y1 r - y0 r) 0.

(** The calls the script issues on a page. *)
Inductive page_edit :=
  | SetCropBox (r : qrect)
  | SetMediaBox (r : qrect)
  | AddRedactAnnot (r : qrect)        (* fill=(1, 1, 1) *)
  | ApplyRedactions.                  (* images=fitz.PDF_REDACT_IMAGE_NONE *)

(** A page of the saved document: its [page.rect] and the calls made on it. *)
Definition wm_page : Type := qrect * list page_edit.

(** What the operating system and PyMuPDF decide. *)
Inductive os_err := ErrPermission (msg : text) | ErrOS (msg : text).

Record os_env := {
  resolve : text -> text;                 (* Path(p).resolve() *)
  getpid : N;                             (* os.getpid() *)
  path_open_ok : text -> bool;            (* fitz.open(p) by path gets past the path *)
  fitz_open : text -> option (list qrect); (* the page rects of a document, None if unreadable *)
  fitz_save : list wm_page -> text;       (* the bytes doc.save writes *)
  os_replace : nat -> option os_err;      (* attempt k of os.replace: None on success *)
  os_remove_ok : bool                     (* os.remove(tmp_out) succeeds *)
}.

(** ** Paths *)

(** [PurePath.suffix], with the condition of [path_stem]. *)
Definition path_suffix (p : text) : text :=
  let name := path_name p in
  match py_find [46] (rev name) with
  | Some j => let i := (length name - 1 - j)%nat in
              if (0 <? i)%nat && (i <? length name - 1)%nat then drop i name else []
  | None => []
  end.

(** [PurePath.with_name]: the parent, then the new name. *)
Definition path_with_name (p n : text) : text :=
  take (length p - length (path_name p)) p ++ n.

(** ** The script's functions *)

(** [px_to_points]: [(px / dpi) * 72.0]; a zero [dpi] raises. *)
Definition px_to_points (px dpi : Q) : outcome Q :=
  if Qeq_bool dpi 0 then Raised (ZeroDivisionError (u "float division by zero"))
  else Ok ((px / dpi) * 72)%Q.

(** [bytes.lower()] changes the ASCII capitals only. *)
Definition html_marker (head : text) : bool :=
  let lower := map ascii_lower head in
  py_contains (u "<html") lower || py_contains (u "<!doctype html") lower.

(** [_preflight_pdf]. *)
Definition _preflight_pdf (p : text) : M unit := fun s =>
  match ws_fs s !! p with
  | None => (s, Raised (FileNotFoundError (u "Input PDF not found: " ++ p)))
  | Some b =>
      if decide (length b = 0%nat) then (s, Raised (ValueError (u "Input file is empty (0 bytes): " ++ p)))
      else
        let head := take 2048 b in
        if html_marker head then
          (s, Raised (ValueError (u "Not a PDF: looks like an HTML page saved as .pdf: " ++ p ++ [10]
             ++ u "Tip: download the actual PDF (right-click → Save link as…) or open in Acrobat and Save As.")))
        else if negb (py_contains (u "%PDF-") (take 1024 head)) then
          (s, Raised (ValueError (u "Not a valid PDF (missing %PDF- header in first 1KB): " ++ p)))
        else (s, Ok tt)
  end.

Section Process.
Variable env : os_env.

(** [p.read_bytes()]. *)
Definition read_bytes (p : text) : M text := fun s =>
  match ws_fs s !! p with
  | Some b => (s, Ok b)
  | None => (s, Raised (FileNotFoundError (u "No such file or directory: " ++ p)))
  end.

Definition open_stream (b : text) : outcome (list qrect) :=
  match fitz_open env b with Some d => Ok d | None => Raised (FitzError (u "Failed to open stream")) end.

(** [fitz.open(p)] by path: the path must get through, then the bytes
    must read as a document. *)
Definition fitz_open_path (p : text) (s : wm_state) : option (list qrect) :=
  if path_open_ok env p then ws_fs s !! p ≫= fitz_open env else None.

(** [_open_with_fallback]: by path, and on any exception from the bytes. *)
Definition _open_with_fallback (p : text) : M (list qrect) := fun s =>
  match fitz_open_path p s with
  | Some d => (s, Ok d)
  | None => (do b <- read_bytes p; lift (open_stream b)) s
  end.

(** The temporary file [f"{out_path.stem}.tmp-{os.getpid()}{out_path.suffix}"]
    beside the destination. *)
Definition tmp_path (out : text) : text :=
  path_with_name out (path_stem out ++ u ".tmp-" ++ show_dec (Z.of_N (getpid env)) ++ path_suffix out).

Definition fs_write (p b : text) : M unit := fun s =>
  ({| ws_fs := <[p := b]> (ws_fs s); ws_sleeps := ws_sleeps s |}, Ok tt).

Definition sleep (d : Q) : M unit := fun s =>
  ({| ws_fs := ws_fs s; ws_sleeps := ws_sleeps s ++ [d] |}, Ok tt).

(** The loop body: [page.rect], the bottom strip, and in crop mode the
    rectangle that keeps all but the strip, at least one point high. *)
Definition bottom_strip (rect : qrect) (strip_pt : Q) : qrect :=
  {| x0 := x0 rect; y0 := y1 rect - strip_pt; x1 := x1 rect; y1 := y1 rect |}.

Definition crop_rect (rect : qrect) (strip_pt : Q) : qrect :=
  let new_rect := {| x0 := x0 rect; y0 := y0 rect; x1 := x1 rect;
                     y1 := Qmax (y0 rect) (y1 rect - strip_pt) |} in
  if Qle_bool (rect_height new_rect) 0
  then {| x0 := x0 rect; y0 := y0 rect; x1 := x1 rect; y1 := y0 rect + 1 |}
  else new_rect.

Definition edit_page (mode : text) (strip_pt : Q) (rect : qrect) : wm_page :=
  if decide (mode = u "crop") then
    let new_rect := crop_rect rect strip_pt in (rect, [SetCropBox new_rect; SetMediaBox new_rect])
  else (rect, [AddRedactAnnot (bottom_strip rect strip_pt); ApplyRedactions]).

(** [strip_pt = px_to_points(strip, dpi) if units == "pixels" else strip]. *)
Definition strip_points (strip : Q) (units : text) (dpi : Q) : outcome Q :=
  if decide (units = u "pixels") then px_to_points strip dpi else Ok strip.

(** The check that the temporary output opens: [fitz.open(tmp_out)], by
    path and with no fallback. *)
Definition validate (p : text) : M unit := fun s =>
  match fitz_open_path p s with
  | Some _ => (s, Ok tt)
  | None => (s, Raised (FitzError (u "cannot open document")))
  end.

(** One [os.replace(tmp_out, out_path)]: on success the temporary file
    becomes the destination. *)
Definition try_replace (attempt : nat) (src dst : text) : M (option os_err) := fun s =>
  match os_replace env attempt, ws_fs s !! src with
  | None, Some b => ({| ws_fs := <[dst := b]> (delete src (ws_fs s)); ws_sleeps := ws_sleeps s |}, Ok None)
  | None, None => (s, Ok (Some (ErrOS (u "No such file or directory"))))
  | Some e, _ => (s, Ok (Some e))
  end.

(** [time.sleep(0.5 + 0.2 * attempt)]. *)
Definition backoff (attempt : nat) : Q := (1 # 2) + (1 # 5) * inject_Z (Z.of_nat attempt).

(** [for attempt in range(10)]: [tries] attempts left from [attempt] on;
    the result is [last_err]. *)
Fixpoint replace_loop (tries attempt : nat) (src dst : text) (last_err : option os_err)
    : M (option os_err) :=
  match tries with
  | O => mret last_err
  | S t =>
      do r <- try_replace attempt src dst;
      match r with
      | None => mret None
      | Some e => do _ <- sleep (backoff attempt); replace_loop t (S attempt) src dst (Some e)
      end
  end.

(** [try: os.remove(tmp_out) except Exception: pass]. *)
Definition try_remove (p : text) : M unit := fun s =>
  if os_remove_ok env then ({| ws_fs := delete p (ws_fs s); ws_sleeps := ws_sleeps s |}, Ok tt)
  else (s, Ok tt).

Definition err_msg (e : os_err) : text := match e with ErrPermission m | ErrOS m => m end.

(** [process_pdf]. *)
Definition process_pdf (in_path out_path : text) (strip : Q) (units : text) (dpi : Q) (mode : text)
    : M unit :=
  let ri := resolve env in_path in
  let ro := resolve env out_path in
  if decide (ri = ro) then raise (ValueError (u "Refusing to overwrite source: " ++ ri)) else
  do _ <- _preflight_pdf ri;
  do strip_pt <- lift (strip_points strip units dpi);
  if Qle_bool strip_pt 0 then raise (ValueError (u "--strip must be > 0")) else
  let tmp := tmp_path ro in
  do pages <- _open_with_fallback ri;
  do _ <- fs_write tmp (fitz_save env (map (edit_page mode strip_pt) pages));
  do _ <- validate tmp;
  do last_err <- replace_loop 10 0 tmp ro None;
  match last_err with
  | None => mret tt
  | Some e =>
      do _ <- try_remove tmp;
      raise (PermissionError (u "Could not write output " ++ ro ++ u " (destination in use). "
        ++ u "Close Acrobat/Edge and disable Explorer Preview Pane, then retry. "
        ++ u "Last error: " ++ err_msg e))
  end.

(** [main] after argument parsing: [input_pdf] and [output_pdf] are the
    optional positionals; a missing or empty input prints the usage and
    exits with status 2; the default output is [<stem>_cleaned.pdf] beside
    the input.  The result is the output path that [Done:] prints. *)
Definition default_output (in_path : text) : text :=
  path_with_name in_path (path_stem in_path ++ u "_cleaned.pdf").

(** The options [parser.parse_args(remaining)] gives, and their defaults. *)
Record wm_args := { a_strip : Q; a_units : text; a_dpi : Q; a_mode : text }.

Definition default_args : wm_args :=
  {| a_strip := 100; a_units := u "pixels"; a_dpi := 72; a_mode := u "redact" |}.

Definition main (input_pdf output_pdf : option text) (args : wm_args) : M text :=
  match input_pdf with
  | None | Some [] => raise (SystemExit 2)
  | Some in_path =>
      let out_path := match output_pdf with Some (_ :: _ as o) => o | _ => default_output in_path end in
      do _ <- process_pdf in_path out_path (a_strip args) (a_units args) (a_dpi args) (a_mode args);
      mret out_path
  end.

End Process.

(** ** The monad's laws used below *)

Lemma mbind_Ok {A B} (m : M A) (f : A -> M B) s s' a :
  m s = (s', Ok a) -> mbind m f s = f a s'.
Proof. intros E. unfold mbind. by rewrite E. Qed.

Lemma mbind_Raised {A B} (m : M A) (f : A -> M B) s s' e :
  m s = (s', Raised e) -> mbind m f s = (s', Raised e).
Proof. intros E. unfold mbind. by rewrite E. Qed.

(** ** Frames: the files a step leaves alone *)

(** [keeps p m]: running [m] never changes the file at [p]. *)
Definition keeps {A} (p : text) (m : M A) : Prop :=
  forall s, ws_fs (m s).1 !! p = ws_fs s !! p.

(** [readonly m]: [m] changes nothing of the state. *)
Definition readonly {A} (m : M A) : Prop := forall s, (m s).1 = s.

Create HintDb wm.

Lemma readonly_keeps {A} p (m : M A) : readonly m -> keeps p m.
Proof. intros H s. by rewrite H. Qed.

Lemma keeps_bind {A B} p (m : M A) (f : A -> M B) :
  keeps p m -> (forall a, keeps p (f a)) -> keeps p (mbind m f).
Proof.
  intros Hm Hf s. unfold mbind. specialize (Hm s).
  destruct (m s) as [s' [a|e]]; simpl in *; [by rewrite Hf|done].
Qed.

Lemma readonly_bind {A B} (m : M A) (f : A -> M B) :
  readonly m -> (forall a, readonly (f a)) -> readonly (mbind m f).
Proof.
  intros Hm Hf s. unfold mbind. specialize (Hm s).
  destruct (m s) as [s' [a|e]]; simpl in *; subst; [apply Hf|done].
Qed.

Lemma readonly_ret {A} (a : A) : readonly (mret a).
Proof. done. Qed.
Lemma readonly_raise {A} e : readonly (@raise A e).
Proof. done. Qed.
Lemma readonly_lift {A} (o : outcome A) : readonly (lift o).
Proof. done. Qed.
Lemma readonly_preflight p : readonly (_preflight_pdf p).
Proof. intros s. unfold _preflight_pdf. destruct (ws_fs s !! p); repeat case_match; done. Qed.

Section Frames.
Variable env : os_env.

Lemma readonly_read_bytes p : readonly (read_bytes p).
Proof. intros s. unfold read_bytes. by case_match. Qed.
Lemma readonly_open p : readonly (_open_with_fallback env p).
Proof.
  intros s. unfold _open_with_fallback. case_match; [done|].
  by apply readonly_bind; [apply readonly_read_bytes|intros; apply readonly_lift].
Qed.
Lemma readonly_validate p : readonly (validate env p).
Proof. intros s. unfold validate. by case_match. Qed.

Lemma keeps_sleep p d : keeps p (sleep d).
Proof. done. Qed.

Lemma keeps_write p q b : q <> p -> keeps p (fs_write q b).
Proof. intros Hq s. simpl. by rewrite lookup_insert_ne. Qed.

Lemma keeps_try_replace p k src dst : src <> p -> dst <> p -> keeps p (try_replace env k src dst).
Proof.
  intros Hs Hd s. unfold try_replace.
  destruct (os_replace env k), (ws_fs s !! src); simpl; try done.
  by rewrite lookup_insert_ne, lookup_delete_ne.
Qed.

Lemma keeps_replace_loop p n k src dst last :
  src <> p -> dst <> p -> keeps p (replace_loop env n k src dst last).
Proof.
  intros Hs Hd. revert k last. induction n as [|n IH]; intros k last; simpl; [done|].
  apply keeps_bind; [by apply keeps_try_replace|]. intros [e|]; [|done].
  apply keeps_bind; [apply keeps_sleep|]. intros _. apply IH.
Qed.

Lemma keeps_try_remove p q : q <> p -> keeps p (try_remove env q).
Proof. intros Hq s. unfold try_remove. case_match; simpl; [by rewrite lookup_delete_ne|done]. Qed.

End Frames.

#[export] Hint Resolve readonly_keeps readonly_ret readonly_raise readonly_lift readonly_preflight
  readonly_read_bytes readonly_open readonly_validate keeps_sleep : wm.

(** [keeps_steps] walks a chain of binds, leaving the steps that write. *)
Ltac keeps_steps :=
  repeat first
    [ apply keeps_bind; [first [eauto with wm | idtac] | intros ?]
    | case_decide | case_match ].

(** ** The contract of [process_pdf] *)

(** The three checks of [_preflight_pdf], as one test on the bytes. *)
Definition preflight_ok (b : text) : bool :=
  if decide (length b = 0%nat) then false
  else negb (html_marker (take 2048 b)) && py_contains (u "%PDF-") (take 1024 b).

Definition replace_succeeds (env : os_env) (k : nat) : bool :=
  match os_replace env k with None => true | Some _ => false end.

(** What a successful run does to the file system, and when it succeeds:
    the destination holds the saved document of the input's pages, each
    edited for the mode, and no temporary file remains; it succeeds when
    the paths differ, the input passes the preflight, the strip is
    positive, both documents open and one of the ten moves goes through. *)
Definition clean_contract (env : os_env) (in_path out_path : text) (strip : Q) (units : text)
    (dpi : Q) (mode : text) (fs : gmap text text) : option (gmap text text) :=
  let ri := resolve env in_path in
  let ro := resolve env out_path in
  let tmp := tmp_path env ro in
  if decide (ri = ro) then None else
  b ← fs !! ri;
  if negb (preflight_ok b) then None else
  sp ← match strip_points strip units dpi with Ok sp => Some sp | Raised _ => None end;
  if Qle_bool sp 0 then None else
  pages ← fitz_open env b;
  let out := fitz_save env (map (edit_page mode sp) pages) in
  if path_open_ok env tmp && bool_decide (is_Some (fitz_open env out))
     && existsb (replace_succeeds env) (seq 0 10)
  then Some (<[ro := out]> (delete tmp fs)) else None.

(** ** Lemmas on the steps *)

Lemma take_take_2048 (b : text) : take 1024 (take 2048 b) = take 1024 b.
Proof. by rewrite take_take. Qed.

Lemma preflight_run p s b :
  ws_fs s !! p = Some b ->
  if preflight_ok b then _preflight_pdf p s = (s, Ok tt) else exists e, _preflight_pdf p s = (s, Raised e).
Proof.
  intros Hb. unfold preflight_ok, _preflight_pdf. rewrite Hb, take_take_2048.
  destruct (decide _); simpl; [eauto|].
  destruct (html_marker _); simpl; [eauto|].
  destruct (py_contains _ _); simpl; eauto.
Qed.

Lemma preflight_missing p s :
  ws_fs s !! p = None -> _preflight_pdf p s = (s, Raised (FileNotFoundError (u "Input PDF not found: " ++ p))).
Proof. intros Hb. unfold _preflight_pdf. by rewrite Hb. Qed.

Section Steps.
Variable env : os_env.

Lemma open_run p s b :
  ws_fs s !! p = Some b -> _open_with_fallback env p s = (s, open_stream env b).
Proof.
  intros Hb. unfold _open_with_fallback, fitz_open_path. rewrite Hb. simpl.
  destruct (path_open_ok env p); simpl;
    [destruct (fitz_open env b) eqn:E; [unfold open_stream; by rewrite E|]|];
    unfold mbind, read_bytes; by rewrite Hb.
Qed.

Lemma validate_run p s :
  validate env p s =
  (s, match ws_fs s !! p ≫= fun b => if path_open_ok env p then fitz_open env b else None with
      | Some _ => Ok tt | None => Raised (FitzError (u "cannot open document")) end).
Proof.
  unfold validate, fitz_open_path.
  destruct (path_open_ok env p), (ws_fs s !! p); simpl; try done. by destruct (fitz_open env _).
Qed.

Lemma replace_loop_S t k src dst last :
  replace_loop env (S t) k src dst last =
  do r <- try_replace env k src dst;
  match r with
  | None => mret None
  | Some e => do _ <- sleep (backoff k); replace_loop env t (S k) src dst (Some e)
  end.
Proof. reflexivity. Qed.

Lemma try_replace_run k src dst s c :
  ws_fs s !! src = Some c ->
  try_replace env k src dst s =
  match os_replace env k with
  | None => ({| ws_fs := <[dst := c]> (delete src (ws_fs s)); ws_sleeps := ws_sleeps s |}, Ok None)
  | Some e => (s, Ok (Some e))
  end.
Proof. intros Hc. unfold try_replace. rewrite Hc. by destruct (os_replace env k). Qed.

(** The retry loop from attempt [k] with [S n] attempts left: the first
    attempt that goes through moves the file, after one sleep per failed
    attempt; when none goes through, the file system is unchanged, every
    attempt has slept, and the last error is reported. *)
Lemma replace_loop_run n k src dst last s c :
  ws_fs s !! src = Some c ->
  let r := replace_loop env (S n) k src dst last s in
  if existsb (replace_succeeds env) (seq k (S n)) then
    ws_fs r.1 = <[dst := c]> (delete src (ws_fs s)) /\ r.2 = Ok None /\
    exists j, (j <= n)%nat /\ ws_sleeps r.1 = ws_sleeps s ++ map backoff (seq k j)
  else
    ws_fs r.1 = ws_fs s /\ (exists e, r.2 = Ok (Some e)) /\
    ws_sleeps r.1 = ws_sleeps s ++ map backoff (seq k (S n)).
Proof.
  revert k last s. induction n as [|n IH]; intros k last s Hc; cbn zeta;
    rewrite replace_loop_S; pose proof (try_replace_run k src dst s c Hc) as Ht;
    cbn [seq existsb]; unfold replace_succeeds at 1;
    destruct (os_replace env k) as [e|]; rewrite (mbind_Ok _ _ s _ _ Ht); cbn [mbind sleep mret fst snd orb].
  - split_and!; [done|eauto|]. simpl; by rewrite ?app_nil_r.
  - split_and!; [done|done|]. exists 0%nat. split; [lia|]. simpl; by rewrite ?app_nil_r.
  - specialize (IH (S k) (Some e) {| ws_fs := ws_fs s; ws_sleeps := ws_sleeps s ++ [backoff k] |} Hc).
    cbn zeta in IH. cbn [seq existsb] in IH.
    destruct (replace_succeeds env (S k) || existsb (replace_succeeds env) (seq (S (S k)) n));
      cbn [fst snd ws_fs ws_sleeps] in IH |- *.
    + destruct IH as (-> & -> & j & Hj & ->). split_and!; [done|done|].
      exists (S j). split; [lia|]. simpl. by rewrite <- app_assoc.
    + destruct IH as (-> & He & ->). split_and!; [done|done|]. simpl. by rewrite <- app_assoc.
  - split_and!; [done|done|]. exists 0%nat. split; [lia|]. simpl; by rewrite ?app_nil_r.
Qed.

End Steps.

(** ** [process_pdf] against its contract *)

(** The run of [process_pdf] against [clean_contract], step by step. *)
Lemma process_pdf_contract env i o strip units dpi mode s :
  clean_contract env i o strip units dpi mode (ws_fs s) =
  match process_pdf env i o strip units dpi mode s with
  | (s', Ok _) => Some (ws_fs s')
  | (_, Raised _) => None
  end.
Proof.
  unfold clean_contract, process_pdf. cbv zeta.
  case_decide as Hio; [done|].
  destruct (ws_fs s !! resolve env i) as [b|] eqn:Hb; simpl;
    [|by rewrite (mbind_Raised _ _ s s _ (preflight_missing _ _ Hb))].
  pose proof (preflight_run _ _ _ Hb) as Hp. destruct (preflight_ok b); simpl;
    [|destruct Hp as [e He]; by rewrite (mbind_Raised _ _ _ _ _ He)].
  rewrite (mbind_Ok _ _ _ _ _ Hp).
  destruct (strip_points strip units dpi) as [sp|e]; simpl; [|done].
  rewrite (mbind_Ok (lift (Ok sp)) _ s s sp eq_refl).
  destruct (Qle_bool sp 0); simpl; [done|].
  pose proof (open_run env _ _ _ Hb) as Hop. unfold open_stream in Hop.
  destruct (fitz_open env b) as [pages|]; simpl;
    [rewrite (mbind_Ok _ _ _ _ _ Hop)|by rewrite (mbind_Raised _ _ _ _ _ Hop)].
  set (tmp := tmp_path env (resolve env o)).
  set (out := fitz_save env (map (edit_page mode sp) pages)).
  set (s1 := {| ws_fs := <[tmp := out]> (ws_fs s); ws_sleeps := ws_sleeps s |}).
  rewrite (mbind_Ok (fs_write tmp out) _ s s1 tt eq_refl).
  assert (Hs1 : ws_fs s1 !! tmp = Some out) by apply lookup_insert_eq.
  pose proof (validate_run env tmp s1) as Hv. rewrite Hs1 in Hv. simpl in Hv.
  destruct (path_open_ok env tmp); simpl in Hv |- *; [|by rewrite (mbind_Raised _ _ _ _ _ Hv)].
  destruct (fitz_open env out); simpl in Hv |- *; [|by rewrite (mbind_Raised _ _ _ _ _ Hv)].
  rewrite (mbind_Ok _ _ _ _ _ Hv).
  pose proof (replace_loop_run env 9 0 tmp (resolve env o) None s1 out) as Hl.
  cbn zeta in Hl. specialize (Hl Hs1). cbn [seq existsb] in Hl.
  destruct (replace_succeeds env 0 || _).
  - destruct Hl as (Hfs & Hr & _).
    destruct (replace_loop env 10 0 tmp (resolve env o) None s1) as [s2 r] eqn:El.
    simpl in Hfs, Hr. subst r. rewrite (mbind_Ok _ _ s1 s2 None El). simpl.
    rewrite Hfs. subst s1. simpl. by rewrite delete_insert_eq.
  - destruct Hl as (_ & [e He] & _).
    destruct (replace_loop env 10 0 tmp (resolve env o) None s1) as [s2 r] eqn:El.
    simpl in He. subst r. rewrite (mbind_Ok _ _ s1 s2 (Some e) El).
    unfold mbind. by destruct (try_remove env tmp s2) as [? []].
Qed.

(** What a successful contract says of the destination. *)
Lemma clean_contract_some env i o strip units dpi mode fs fs' :
  clean_contract env i o strip units dpi mode fs = Some fs' ->
  exists b sp pages,
    fs !! resolve env i = Some b /\ strip_points strip units dpi = Ok sp /\ fitz_open env b = Some pages /\
    fs' = <[resolve env o := fitz_save env (map (edit_page mode sp) pages)]> (delete (tmp_path env (resolve env o)) fs).
Proof.
  unfold clean_contract. cbv zeta. case_decide; [done|].
  destruct (fs !! resolve env i) as [b|] eqn:Hb; simpl; [|done].
  destruct (negb (preflight_ok b)); [done|].
  destruct (strip_points strip units dpi) as [sp|] eqn:Hs; simpl; [|done].
  destruct (Qle_bool sp 0); [done|].
  destruct (fitz_open env b) as [pages|] eqn:Ho; simpl; [|done].
  case_match; [|done]. intros [= <-]. by exists b, sp, pages.
Qed.

(** [C18] Refinement: [process_pdf] implements [clean_contract].  It
    succeeds exactly when the contract gives a file system, and then leaves
    that file system: the destination holds the saved document of the
    input's pages, each edited for the mode, the temporary file is gone and
    every other file is as it was.  On every failure the contract gives
    nothing. *)
Theorem process_pdf_refines env i o strip units dpi mode s :
  clean_contract env i o strip units dpi mode (ws_fs s) =
  match process_pdf env i o strip units dpi mode s with
  | (s', Ok _) => Some (ws_fs s')
  | (_, Raised _) => None
  end.
Proof. apply process_pdf_contract. Qed.

(** The frame of [process_pdf]: the files it may change. *)
Lemma process_pdf_keeps env i o strip units dpi mode s :
  resolve env i <> tmp_path env (resolve env o) ->
  ws_fs (process_pdf env i o strip units dpi mode s).1 !! resolve env i = ws_fs s !! resolve env i.
Proof.
  intros Htmp. revert s. change (keeps (resolve env i) (process_pdf env i o strip units dpi mode)).
  unfold process_pdf. cbv zeta. case_decide as Hio; [auto with wm|].
  apply keeps_bind; [auto with wm|intros _].
  apply keeps_bind; [auto with wm|intros sp].
  case_match; [auto with wm|].
  apply keeps_bind; [auto with wm|intros pages].
  apply keeps_bind; [apply keeps_write; congruence|intros _].
  apply keeps_bind; [auto with wm|intros _].
  apply keeps_bind; [apply keeps_replace_loop; congruence|intros [e|]]; [|auto with wm].
  apply keeps_bind; [apply keeps_try_remove; congruence|auto with wm].
Qed.

(** [C19] Safety: [process_pdf] never changes the input file, whatever the
    outcome, as long as the input is not the temporary file of the
    destination.  The guard [in_path == out_path] protects it from the final
    move; nothing protects it when it bears the temporary file's name (see
    [process_pdf_overwrites_input_named_like_tmp]). *)
Theorem process_pdf_keeps_source env i o strip units dpi mode s :
  resolve env i <> tmp_path env (resolve env o) ->
  ws_fs (process_pdf env i o strip units dpi mode s).1 !! resolve env i = ws_fs s !! resolve env i.
Proof. apply process_pdf_keeps. Qed.

(** Equivalence: opening by path with the fallback to the bytes is
    opening the bytes.  Whether [fitz.open(p)] gets past the path or not,
    [_open_with_fallback] gives the pages the bytes of [p] hold, or the
    error of reading them, and changes nothing. *)
Theorem open_with_fallback_bytes env p s :
  _open_with_fallback env p s =
  (s, match ws_fs s !! p with
      | Some b => open_stream env b
      | None => Raised (FileNotFoundError (u "No such file or directory: " ++ p))
      end).
Proof.
  destruct (ws_fs s !! p) eqn:Hb; [by apply open_run|].
  unfold _open_with_fallback, fitz_open_path. rewrite Hb.
  destruct (path_open_ok env p); simpl; unfold mbind, read_bytes; by rewrite Hb.
Qed.

(** ** Rectangles *)

Lemma Qmax_l_eq (a b : Q) : (b <= a)%Q -> Qmax a b = a.
Proof.
  intros H. unfold Qmax, GenericMinMax.gmax. destruct (a ?= b)%Q eqn:E; try done.
  apply Qlt_alt in E. lra.
Qed.

Lemma Qmax_r_eq (a b : Q) : (a < b)%Q -> Qmax a b = b.
Proof.
  intros H. unfold Qmax, GenericMinMax.gmax. destruct (a ?= b)%Q eqn:E; try done.
  - apply Qeq_alt in E. lra.
  - apply Qgt_alt in E. lra.
Qed.

(** [C29] Bounds: in crop mode the new page box keeps the page's left,
    right and top edges and is always at least of positive height: a strip
    shorter than the page is cut off the bottom exactly, and a strip as
    high as the page or higher leaves a box one point high at the top. *)
Theorem crop_rect_bounds rect sp :
  let c := crop_rect rect sp in
  (x0 c = x0 rect /\ x1 c = x1 rect /\ y0 c = y0 rect /\ 0 < rect_height c /\
   (sp < y1 rect - y0 rect -> y1 c = y1 rect - sp) /\
   (y1 rect - y0 rect <= sp -> y1 c = y0 rect + 1))%Q.
Proof.
  cbv zeta. unfold crop_rect, rect_height. cbn [x0 y0 x1 y1].
  destruct (Qlt_le_dec sp (y1 rect - y0 rect)) as [Hlt|Hge].
  - rewrite (Qmax_r_eq (y0 rect) (y1 rect - sp)) by lra.
    rewrite (Qmax_l_eq (y1 rect - sp - y0 rect) 0) by lra.
    assert (Hb : Qle_bool (y1 rect - sp - y0 rect) 0 = false).
    { apply not_true_iff_false. rewrite Qle_bool_iff. lra. }
    rewrite Hb. cbn [x0 y0 x1 y1]. rewrite (Qmax_l_eq (y1 rect - sp - y0 rect) 0) by lra.
    split_and!; try done; lra.
  - rewrite (Qmax_l_eq (y0 rect) (y1 rect - sp)) by lra.
    rewrite (Qmax_l_eq (y0 rect - y0 rect) 0) by lra.
    assert (Hb : Qle_bool (y0 rect - y0 rect) 0 = true) by (apply Qle_bool_iff; lra).
    rewrite Hb. cbn [x0 y0 x1 y1]. rewrite (Qmax_l_eq (y0 rect + 1 - y0 rect) 0) by lra.
    split_and!; try done; lra.
Qed.

(** ** The preflight *)

(** [%PDF-] starts within the first KB. *)
Definition pdf_magic_at (b : text) : Prop :=
  exists k, (k + 5 <= 1024)%nat /\ take 5 (drop k b) = u "%PDF-".

(** [<html] or [<!doctype html], in any ASCII case, lies within the first 2 KB. *)
Definition html_at (b : text) : Prop :=
  exists m k, (m = u "<html" \/ m = u "<!doctype html") /\ (k + length m <= 2048)%nat /\
    map ascii_lower (take (length m) (drop k b)) = m.

Lemma html_marker_at b : html_marker (take 2048 b) = true <-> html_at b.
Proof.
  unfold html_marker, html_at. rewrite orb_true_iff, !py_contains_map_take. split.
  - intros [[k Hk]|[k Hk]]; [exists (u "<html"), k|exists (u "<!doctype html"), k]; split; auto.
  - intros (m & k & [->| ->] & Hk & E); [left|right]; eauto.
Qed.

Lemma pdf_magic_take b : py_contains (u "%PDF-") (take 1024 b) = true <-> pdf_magic_at b.
Proof.
  rewrite <- (map_id (take 1024 b)), (py_contains_map_take (fun c => c)). unfold pdf_magic_at.
  change (length (u "%PDF-")) with 5%nat. by setoid_rewrite map_id.
Qed.

(** [C20] Error behaviour of [_preflight_pdf]: it changes nothing, and it
    passes exactly when the file exists, is not empty, has [%PDF-] within
    its first KB and no HTML marker in its first 2 KB; a missing file
    raises [FileNotFoundError] and every other refusal [ValueError]. *)
Theorem preflight_pdf_spec p s :
  (_preflight_pdf p s).1 = s /\
  match (_preflight_pdf p s).2 with
  | Ok _ => exists b, ws_fs s !! p = Some b /\ b <> [] /\ pdf_magic_at b /\ ~ html_at b
  | Raised (FileNotFoundError _) => ws_fs s !! p = None
  | Raised (ValueError _) => exists b, ws_fs s !! p = Some b /\ (b = [] \/ html_at b \/ ~ pdf_magic_at b)
  | Raised _ => False
  end.
Proof.
  split; [apply readonly_preflight|].
  unfold _preflight_pdf. destruct (ws_fs s !! p) as [b|] eqn:Hb; simpl; [|done].
  destruct (decide _) as [H0|H0]; simpl.
  { exists b. split; [done|left]. by apply nil_length_inv. }
  rewrite take_take_2048. destruct (html_marker (take 2048 b)) eqn:Hh; simpl.
  { exists b. split; [done|right; left]. by apply html_marker_at. }
  destruct (py_contains _ (take 1024 b)) eqn:Hm; simpl.
  - exists b. split_and!; [done|intros ->; simpl in H0; lia|by apply pdf_magic_take|].
    rewrite <- html_marker_at. congruence.
  - exists b. split; [done|right; right]. rewrite <- pdf_magic_take. congruence.
Qed.

(** ** Paths *)

Lemma py_find_at p s j : py_find p s = Some j -> py_startswith p (drop j s) = true.
Proof.
  revert j. induction s as [|c s IH]; intros j H; simpl in H;
    destruct (py_startswith p _) eqn:E; try (injection H as <-; done); [discriminate|].
  destruct (py_find p s) eqn:E'; simpl in H; [injection H as <-; by apply IH|discriminate].
Qed.

(** The last dot of a name, found in its reverse. *)
Lemma rev_find_dot name j :
  py_find [46] (rev name) = Some j -> (j < length name)%nat /\ name !! (length name - S j)%nat = Some 46.
Proof.
  intros H. apply py_find_at in H.
  destruct (drop j (rev name)) as [|c t] eqn:E; [done|].
  cbn [py_startswith] in H. rewrite andb_true_r, N.eqb_eq in H. subst c.
  assert (Hl : rev name !! j = Some 46) by (rewrite <- (Nat.add_0_r j), <- lookup_drop, E; done).
  rewrite rev_alt in Hl. apply reverse_lookup_Some in Hl as [? ?]. done.
Qed.

(** A name is its stem and its suffix, and a suffix is empty or starts with a dot. *)
Lemma path_name_parts p :
  path_name p = path_stem p ++ path_suffix p /\ (path_suffix p = [] \/ exists t, path_suffix p = 46 :: t).
Proof.
  unfold path_stem, path_suffix. set (name := path_name p).
  destruct (py_find [46] (rev name)) as [j|] eqn:Ej; [|rewrite app_nil_r; auto].
  destruct (rev_find_dot _ _ Ej) as [Hj Hd]. cbv zeta.
  case_if; [|rewrite app_nil_r; auto].
  split; [by rewrite take_drop|right]. eexists. apply drop_S.
  replace (length name - 1 - j)%nat with (length name - S j)%nat by lia. exact Hd.
Qed.

Lemma path_name_suffix p : exists pre, p = pre ++ path_name p.
Proof.
  unfold path_name. pose proof (split_sep_aux_nonnil 47 [] p) as Hn.
  destruct (exists_last Hn) as (l & x & E). fold (py_split_sep 47 p) in E.
  rewrite E, last_snoc. simpl. destruct (py_join_snoc_ex [47] l x) as [pre Hpre].
  exists pre. rewrite <- Hpre, <- E. by rewrite py_split_sep_join.
Qed.

Lemma path_with_name_app p n : exists pre, p = pre ++ path_name p /\ path_with_name p n = pre ++ n.
Proof.
  destruct (path_name_suffix p) as [pre Hp]. exists pre. split; [done|].
  unfold path_with_name. set (nm := path_name p) in *. rewrite Hp, length_app, Nat.add_sub.
  by rewrite take_app_length.
Qed.

(** Safety of [main]'s default output: [<stem>_cleaned.pdf] beside the
    input is never the input itself, so a run given only an input cannot
    trip the guard against overwriting the source on the paths as written. *)
Theorem default_output_differs p : default_output p <> p.
Proof.
  unfold default_output. destruct (path_with_name_app p (path_stem p ++ u "_cleaned.pdf")) as (pre & Hp & ->).
  destruct (path_name_parts p) as [Hn Hs]. rewrite Hn in Hp.
  remember (path_stem p) as st. remember (path_suffix p) as sf. intros E. rewrite Hp in E.
  do 2 apply app_inv_head in E.
  destruct Hs as [Hs|[t Hs]]; rewrite Hs in E; vm_compute in E; discriminate E.
Qed.

(** ** The retry loop's sleeps *)

Definition qsum (l : list Q) : Q := fold_right Qplus 0%Q l.

Lemma qsum_app a b : (qsum (a ++ b) == qsum a + qsum b)%Q.
Proof. induction a as [|x a IH]; simpl; [lra|]. rewrite IH. lra. Qed.

Lemma qsum_backoff_nonneg l : (0 <= qsum (map backoff l))%Q.
Proof.
  unfold qsum. induction l as [|k l IH]; cbn [map fold_right]; [lra|]. unfold backoff at 1.
  assert (0 <= inject_Z (Z.of_nat k))%Q by (change 0%Q with (inject_Z 0); rewrite <- Zle_Qle; lia). lra.
Qed.

Lemma qsum_backoff_10 : (qsum (map backoff (seq 0 10)) == 14)%Q.
Proof. vm_compute. reflexivity. Qed.

Lemma qsum_backoff_le j : (j <= 10)%nat -> (qsum (map backoff (seq 0 j)) <= 14)%Q.
Proof.
  intros Hj. assert (E : seq 0 (j + (10 - j)) = seq 0 j ++ seq (0 + j) (10 - j)) by apply seq_app.
  replace (j + (10 - j))%nat with 10%nat in E by lia.
  pose proof qsum_backoff_10 as H. rewrite E, map_app, qsum_app in H.
  pose proof (qsum_backoff_nonneg (seq (0 + j) (10 - j))). lra.
Qed.

(** [C28] Bounds of the retry loop: the ten attempts of [os.replace] sleep
    at most ten times and at most 14 seconds in all, and exactly 14
    seconds when none goes through, where the comment says about 5. *)
Theorem replace_loop_sleeps env src dst s c :
  ws_fs s !! src = Some c ->
  exists slept, ws_sleeps (replace_loop env 10 0 src dst None s).1 = ws_sleeps s ++ slept /\
    (length slept <= 10)%nat /\ (qsum slept <= 14)%Q /\
    (existsb (replace_succeeds env) (seq 0 10) = false -> qsum slept == 14)%Q.
Proof.
  intros Hc. pose proof (replace_loop_run env 9 0 src dst None s c Hc) as H. cbn zeta in H.
  destruct (existsb (replace_succeeds env) (seq 0 10)).
  - destruct H as (_ & _ & j & Hj & ->). exists (map backoff (seq 0 j)).
    rewrite length_map, length_seq. split_and!; [done|lia|apply qsum_backoff_le; lia|done].
  - destruct H as (_ & _ & ->). exists (map backoff (seq 0 10)).
    rewrite length_map, length_seq. pose proof qsum_backoff_10.
    split_and!; [done|lia|lra|intros _; done].
Qed.

(** ** Runs on a concrete system *)

Section WatermarkExamples.

(** A one-page US-letter document; PyMuPDF reads any bytes that start with
    [%PDF-]; the destination is locked for the first two attempts. *)
Definition demo_rect : qrect := {| x0 := 0; y0 := 0; x1 := 612; y1 := 792 |}.

Definition demo_env_with (open_ok : text -> bool) (replace : nat -> option os_err) : os_env := {|
  resolve := fun p => p; getpid := 4242; path_open_ok := open_ok;
  fitz_open := fun b => if py_startswith (u "%PDF-") b then Some [demo_rect] else None;
  fitz_save := fun _ => u "%PDF-1.7 cleaned";
  os_replace := replace;
  os_remove_ok := true |}.

Definition demo_env : os_env :=
  demo_env_with (fun _ => true) (fun k => if (k <? 2)%nat then Some (ErrPermission (u "locked")) else None).

Definition demo_pdf : text := u "%PDF-1.4 scan".
Definition demo_state : wm_state := {| ws_fs := <[u "/d/in.pdf" := demo_pdf]> ∅; ws_sleeps := [] |}.

Lemma process_pdf_keeps_source_witness :
  resolve demo_env (u "/d/in.pdf") <> tmp_path demo_env (resolve demo_env (u "/d/out.pdf")) /\
  ws_fs (process_pdf demo_env (u "/d/in.pdf") (u "/d/out.pdf") 100 (u "pixels") 72 (u "redact") demo_state).1
    !! u "/d/in.pdf" = ws_fs demo_state !! u "/d/in.pdf".
Proof.
  assert (H : resolve demo_env (u "/d/in.pdf") <> tmp_path demo_env (resolve demo_env (u "/d/out.pdf")))
    by (vm_compute; intros E; discriminate E).
  split; [exact H|exact (process_pdf_keeps_source demo_env _ _ _ _ _ _ demo_state H)].
Defined.

Lemma replace_loop_sleeps_witness :
  ws_fs demo_state !! u "/d/in.pdf" = Some demo_pdf /\
  exists slept,
    ws_sleeps (replace_loop demo_env 10 0 (u "/d/in.pdf") (u "/d/out.pdf") None demo_state).1 = ws_sleeps demo_state ++ slept /\
    (length slept <= 10)%nat /\ (qsum slept <= 14)%Q /\
    (existsb (replace_succeeds demo_env) (seq 0 10) = false -> qsum slept == 14)%Q.
Proof.
  assert (H : ws_fs demo_state !! u "/d/in.pdf" = Some demo_pdf) by reflexivity.
  split; [exact H|exact (replace_loop_sleeps demo_env _ _ _ _ H)].
Defined.

(** With the default options, [main] given an input only writes
    [<stem>_cleaned.pdf] beside it, the strip being 100 pixels at 72 dpi,
    that is 100 points. *)
Example main_default_run :
  let r := main demo_env (Some (u "/d/in.pdf")) None default_args demo_state in
  r.2 = Ok (u "/d/in_cleaned.pdf") /\ ws_fs r.1 !! u "/d/in_cleaned.pdf" = Some (u "%PDF-1.7 cleaned") /\
  match strip_points (a_strip default_args) (a_units default_args) (a_dpi default_args) with
  | Ok sp => (sp == 100)%Q | Raised _ => False end.
Proof. vm_compute. split_and!; reflexivity. Qed.

(** The demo run: two locked attempts, 0.5 s and 0.7 s of sleep, then the
    cleaned file replaces nothing and lands at the destination. *)
Example process_pdf_demo_run :
  let r := process_pdf demo_env (u "/d/in.pdf") (u "/d/out.pdf") 100 (u "pixels") 72 (u "redact") demo_state in
  r.2 = Ok tt /\ length (ws_sleeps r.1) = 2%nat /\ (qsum (ws_sleeps r.1) == 6 # 5)%Q /\
  ws_fs r.1 !! u "/d/out.pdf" = Some (u "%PDF-1.7 cleaned") /\ ws_fs r.1 !! u "/d/out.tmp-4242.pdf" = None.
Proof. vm_compute. split_and!; reflexivity. Qed.

(** Finding: an input that bears the temporary file's name is destroyed.
    When [fitz.open] refuses the path and the document is opened from its
    bytes, [doc.save] writes the cleaned document over the input (PyMuPDF
    refuses such a save only for a document opened from that very file,
    which the model does not record), and the run then fails validation:
    the input now holds the cleaned bytes and the run raises. *)
Example process_pdf_overwrites_input_named_like_tmp :
  let env := demo_env_with (fun _ => false) (fun _ => None) in
  let st := {| ws_fs := <[u "/d/out.tmp-4242.pdf" := demo_pdf]> ∅; ws_sleeps := [] |} in
  let r := process_pdf env (u "/d/out.tmp-4242.pdf") (u "/d/out.pdf") 100 (u "pixels") 72 (u "redact") st in
  r.2 = Raised (FitzError (u "cannot open document")) /\
  ws_fs r.1 !! u "/d/out.tmp-4242.pdf" = Some (u "%PDF-1.7 cleaned").
Proof. vm_compute. split; reflexivity. Qed.

(** Finding: a real PDF whose first 2 KB mention [<HTML] (an XMP packet,
    an embedded page name) is refused as an HTML page. *)
Example preflight_refuses_pdf_mentioning_html :
  let st := {| ws_fs := <[u "/d/in.pdf" := u "%PDF-1.7 /Title (export.<HTML>)"]> ∅; ws_sleeps := [] |} in
  exists m, (_preflight_pdf (u "/d/in.pdf") st).2 = Raised (ValueError m).
Proof. vm_compute. eexists. reflexivity. Qed.

(** Finding: the input is opened with the fallback to its bytes, but the
    temporary output is checked with [fitz.open] by path only: when the
    path does not get through, the run raises and leaves the temporary file
    behind. *)
Example validate_without_fallback_leaves_tmp :
  let env := demo_env_with (fun _ => false) (fun _ => None) in
  let r := process_pdf env (u "/d/in.pdf") (u "/d/out.pdf") 100 (u "pixels") 72 (u "redact") demo_state in
  r.2 = Raised (FitzError (u "cannot open document")) /\
  ws_fs r.1 !! u "/d/out.tmp-4242.pdf" = Some (u "%PDF-1.7 cleaned").
Proof. vm_compute. split; reflexivity. Qed.

(** Finding: when every move fails with an [OSError] that is not a
    [PermissionError], the run still reports [PermissionError] and blames
    a destination in use. *)
Example os_error_reported_as_permission :
  let env := demo_env_with (fun _ => true) (fun _ => Some (ErrOS (u "Invalid argument"))) in
  let r := process_pdf env (u "/d/in.pdf") (u "/d/out.pdf") 100 (u "pixels") 72 (u "redact") demo_state in
  (exists m, r.2 = Raised (PermissionError m)) /\ qsum (ws_sleeps r.1) == 14 /\
  ws_fs r.1 !! u "/d/out.tmp-4242.pdf" = None.
Proof. vm_compute. split_and!; [eexists; reflexivity|reflexivity|reflexivity]. Qed.

End WatermarkExamples.
