(* ===== verification/Driver.v ===== *)
(** * Driver: the cleaning step, the segmenter's command line and the run folders

    [src/Scripts/Production_Weekly_Extractor.py] imports the watermark
    remover as [clean_pdf] ([from remove_bottom_watermark import
    process_pdf as clean_pdf]) and calls it from [pipeline_build_one]
    (lines 271-299) and from the segmenter's command line [main(argv)]
    (lines 302-361), unless a cleaned copy newer than the source can be
    reused.  This file composes [Watermark.process_pdf] with that reuse
    test, models [main(argv)] over its targets and [resolve_run_folder]
    (lines 896-906), and characterises the clean step of
    [pipeline_build_one]: the name of the cleaned copy, the reuse test on
    the modification times and the [clean_pdf] call it makes otherwise. *)

From Stdlib Require Import QArith_base.
From S2P Require Import Prelude PyStr Extract Pipeline Watermark.

Open Scope N_scope.
Open Scope wm_scope.

(** ** Paths and patterns *)

(** [s.replace(old, new)] for a non-empty [old]: [re.sub] on the literal. *)
Definition lit_matcher (old : text) : matcher :=
  fun s => if py_startswith old s then Some (length old) else None.
Definition py_replace (old new s : text) : text := re_sub (lit_matcher old) new s.

(** [PurePath.parent]: everything before the last slash, ["/"] for a
    file at the root and ["."] for a bare name. *)
Definition path_parent (p : text) : text :=
  match rev (take (length p - length (path_name p)) p) with
  | [] => u "."
  | _ :: [] => [47]
  | _ :: r => rev r
  end.

(** [a / b]: joining onto ["."] gives [b]. *)
Definition path_div (a b : text) : text := if decide (a = u ".") then b else path_join a b.

Section Driver.
Variable env : os_env.
(** [path.stat().st_mtime], [None] when [stat] raises. *)
Variable st_mtime : text -> option Q.

(** [need_clean]: reuse the cleaned copy only when asked to, when it
    exists and when it is not older than the source; a failing [stat]
    means clean again. *)
Definition need_clean (skip_clean : bool) (pdf cleaned : text) (s : wm_state) : bool :=
  if skip_clean && bool_decide (is_Some (ws_fs s !! resolve env cleaned)) then
    match st_mtime cleaned, st_mtime pdf with
    | Some mc, Some mp => negb (Qle_bool mp mc)
    | _, _ => true
    end
  else true.

(** [if need_clean: clean_pdf(pdf, cleaned, ...)]. *)
Definition clean_if_needed (skip_clean : bool) (pdf cleaned : text) (strip : Q) (units : text) (dpi : Q)
    (mode : text) : M unit := fun s =>
  if need_clean skip_clean pdf cleaned s then process_pdf env pdf cleaned strip units dpi mode s
  else (s, Ok tt).

(** The clean step of [pipeline_build_one]: the per-PDF folder, the
    cleaned copy in it, and [clean_pdf] with the fixed options. *)
Definition per_pdf_out (out_root pdf : text) : text := path_div out_root (path_stem pdf).
Definition cleaned_path (out_dir pdf : text) : text := path_div out_dir (path_stem pdf ++ u "_cleaned.pdf").

Definition pipeline_clean (skip_clean : bool) (out_root pdf : text) : M unit :=
  clean_if_needed skip_clean pdf (cleaned_path (per_pdf_out out_root pdf) pdf) 100 (u "pixels") 72 (u "redact").

(** ** The segmenter's [main(argv)] *)

Record seg_args := {
  sa_input : text; sa_glob : text; sa_strip : Q; sa_units : text; sa_dpi : Q; sa_mode : text;
  sa_outdir : text;        (* [--outdir]; the empty text when not given *)
  sa_skip_clean : bool }.

Definition seg_defaults (input : text) : seg_args :=
  {| sa_input := input; sa_glob := u "*.pdf"; sa_strip := 100; sa_units := u "pixels"; sa_dpi := 72;
     sa_mode := u "redact"; sa_outdir := []; sa_skip_clean := false |}.

(** What the folder holds, in the order [os.scandir] gives it, and whether
    a path is a folder. *)
Variable listdir : text -> list text.
Variable is_dir : text -> bool.
(** [extract_text_structured(cleaned, out_struct, per_page_dir, per_prod_dir)]. *)
Variable extract : text -> text -> text -> text -> M unit.

(** The targets: the file itself, or the sorted matches of the glob. *)
Definition seg_targets (args : seg_args) (s : wm_state) : outcome (list text) :=
  let src := sa_input args in
  if bool_decide (is_Some (ws_fs s !! resolve env src)) then Ok [src]
  else if is_dir src then
    match py_sorted (List.filter (fnmatch (sa_glob args)) (listdir src)) with
    | [] => Raised (SystemExitMsg (u "No PDFs matched."))
    | names => Ok (map (path_div src) names)
    end
  else Raised (SystemExitMsg (u "Not found: " ++ src)).

(** The loop body for one PDF; its result is the folder [main] prints. *)
Definition seg_one (args : seg_args) (pdf : text) : M text :=
  let out_root := match sa_outdir args with [] => path_div (path_parent pdf) (u "pw_output") | d => d end in
  let out_dir := path_div out_root (path_stem pdf) in
  let cleaned := path_div out_dir (path_stem pdf ++ u "_cleaned.pdf") in
  let out_struct := path_div out_dir (path_stem pdf ++ u "_cleaned.structured.txt") in
  do _ <- clean_if_needed (sa_skip_clean args) pdf cleaned (sa_strip args) (sa_units args) (sa_dpi args)
            (sa_mode args);
  do _ <- extract cleaned out_struct (path_div out_dir (u "pages")) (path_div out_dir (u "productions"));
  mret out_dir.

Fixpoint seg_loop (args : seg_args) (pdfs : list text) : M (list text) :=
  match pdfs with
  | [] => mret []
  | pdf :: rest => do d <- seg_one args pdf; do ds <- seg_loop args rest; mret (d :: ds)
  end.

Definition seg_main (args : seg_args) : M (list text) := fun s =>
  match seg_targets args s with
  | Ok pdfs => seg_loop args pdfs s
  | Raised e => (s, Raised e)
  end.

(** ** [resolve_run_folder] *)

(** [(csv, baseline, label)] of a run folder: the first entries, in the
    folder's order, matching each glob, and the csv's stem without
    [_FullSchema]. *)
Definition resolve_run_folder (run_dir : text) : outcome (text * text * text) :=
  let names := listdir run_dir in
  match List.filter (fnmatch (u "*_FullSchema.csv")) names,
        List.filter (fnmatch (u "*_baseline_titles.txt")) names with
  | c :: _, b :: _ =>
      Ok (path_div run_dir c, path_div run_dir b, py_replace (u "_FullSchema") [] (path_stem c))
  | _, _ => Raised (FileNotFoundError (u "Run folder " ++ run_dir ++ u " missing expected files"))
  end.

End Driver.

(** ** Globs *)

Lemma fnmatch_lit lit t :
  Forall (fun c => c <> 42 /\ c <> 63) lit -> fnmatch lit t = bool_decide (t = lit).
Proof.
  revert t. induction lit as [|c lit IH]; intros t Hl; simpl.
  - destruct t; [by rewrite bool_decide_true|by rewrite bool_decide_false].
  - apply Forall_cons in Hl as [[H42 H63] Hl].
    rewrite (proj2 (N.eqb_neq c 42) H42). destruct t as [|d t]; [by rewrite bool_decide_false|].
    rewrite (proj2 (N.eqb_neq c 63) H63), IH by done. simpl.
    destruct (N.eqb_spec c d) as [->|Hcd]; simpl.
    + apply bool_decide_ext. split; [by intros ->|by intros [= ->]].
    + rewrite bool_decide_false; [done|by intros [= ? ?]].
Qed.

Lemma existsb_ext_eq {A} (f g : A -> bool) l : (forall x, f x = g x) -> existsb f l = existsb g l.
Proof. intros H. induction l as [|x l IH]; simpl; [done|]. by rewrite H, IH. Qed.

Lemma existsb_drop_suffix (lit s : text) :
  existsb (fun i => bool_decide (drop i s = lit)) (seq 0 (S (length s))) = true <-> exists pre, s = pre ++ lit.
Proof.
  rewrite existsb_exists. split.
  - intros [i [_ Hi]]. apply bool_decide_eq_true in Hi. exists (take i s). by rewrite <- Hi, take_drop.
  - intros [pre ->]. exists (length pre). split.
    + apply in_seq. rewrite length_app. lia.
    + apply bool_decide_eq_true. by rewrite drop_app_length.
Qed.

Lemma py_endswith_suffix (suf s : text) : py_endswith suf s = true <-> exists pre, s = pre ++ suf.
Proof.
  unfold py_endswith. rewrite py_startswith_take, length_rev. split.
  - intros E. exists (rev (drop (length suf) (rev s))).
    rewrite <- (rev_involutive s) at 1. rewrite <- (take_drop (length suf) (rev s)) at 1.
    by rewrite E, rev_app_distr, rev_involutive.
  - intros [pre ->]. rewrite rev_app_distr, <- (length_rev suf). by rewrite take_app_length.
Qed.

(** [*] followed by a literal is a suffix test. *)
Lemma fnmatch_star_suffix lit s :
  Forall (fun c => c <> 42 /\ c <> 63) lit -> fnmatch (42 :: lit) s = py_endswith lit s.
Proof.
  intros Hl. cbn [fnmatch]. rewrite N.eqb_refl.
  rewrite (existsb_ext_eq _ (fun i => bool_decide (drop i s = lit))) by (intros; by apply fnmatch_lit).
  apply Bool.eq_iff_eq_true. by rewrite existsb_drop_suffix, py_endswith_suffix.
Qed.
(** ** The names of the pipeline's files *)

Lemma split_sep_aux_nosep sep cur n :
  Forall (fun c => c <> sep) n -> split_sep_aux sep cur n = [rev cur ++ n].
Proof.
  revert cur. induction n as [|c n IH]; intros cur Hn; simpl; [by rewrite app_nil_r|].
  apply Forall_cons in Hn as [Hc Hn]. rewrite (proj2 (N.eqb_neq c sep) Hc), IH by done.
  simpl. by rewrite <- app_assoc.
Qed.

Lemma split_sep_aux_pieces sep cur s :
  Forall (fun c => c <> sep) cur -> Forall (Forall (fun c => c <> sep)) (split_sep_aux sep cur s).
Proof.
  revert cur. induction s as [|c s IH]; intros cur Hcur; simpl.
  - constructor; [by apply Forall_rev|constructor].
  - destruct (N.eqb_spec c sep) as [->|Hc].
    + constructor; [by apply Forall_rev|]. apply IH. constructor.
    + apply IH. by constructor.
Qed.

Lemma split_sep_aux_last sep cur x n :
  Forall (fun c => c <> sep) n -> last (split_sep_aux sep cur (x ++ sep :: n)) = Some n.
Proof.
  intros Hn. revert cur. induction x as [|c x IH]; intros cur; simpl.
  - rewrite N.eqb_refl, split_sep_aux_nosep by done. done.
  - destruct (c =? sep)%N; [|apply IH].
    pose proof (split_sep_aux_nonnil sep [] (x ++ sep :: n)) as Hne. specialize (IH []).
    destruct (split_sep_aux sep [] (x ++ sep :: n)); [done|exact IH].
Qed.

Lemma path_name_nosep p : Forall (fun c => c <> 47) (path_name p).
Proof.
  unfold path_name. destruct (last (py_split_sep 47 p)) as [w|] eqn:E; simpl; [|constructor].
  apply last_Some_elem_of in E. pose proof (split_sep_aux_pieces 47 [] p (List.Forall_nil _)) as H.
  rewrite Forall_forall in H. by apply H.
Qed.

Lemma path_name_div a n : Forall (fun c => c <> 47) n -> path_name (path_div a n) = n.
Proof.
  intros Hn. unfold path_div, path_name. case_decide.
  - unfold py_split_sep. by rewrite split_sep_aux_nosep.
  - unfold path_join, py_split_sep. change ([47] ++ n) with (47 :: n). by rewrite split_sep_aux_last.
Qed.

(** The cleaned copy [<out_root>/<stem>/<stem>_cleaned.pdf] is named
    [<stem>_cleaned.pdf] and so never names the source PDF. *)
Lemma cleaned_path_name out_root pdf :
  path_name (cleaned_path (per_pdf_out out_root pdf) pdf) = path_stem pdf ++ u "_cleaned.pdf".
Proof.
  unfold cleaned_path. apply path_name_div. apply Forall_app. split.
  - pose proof (path_name_nosep pdf) as H. rewrite (proj1 (path_name_parts pdf)) in H.
    by apply Forall_app in H as [? _].
  - apply (bool_decide_unpack _). vm_compute. exact I.
Qed.

Lemma cleaned_path_differs out_root pdf : cleaned_path (per_pdf_out out_root pdf) pdf <> pdf.
Proof.
  intros E. pose proof (cleaned_path_name out_root pdf) as Hc. destruct (path_name_parts pdf) as [Hn Hs].
  rewrite E, Hn in Hc. apply app_inv_head in Hc.
  destruct Hs as [Hs|[t Hs]]; rewrite Hs in Hc; vm_compute in Hc; discriminate Hc.
Qed.

(** ** The clean step of [pipeline_build_one] *)

(** The reuse test of [pipeline_build_one], as the code writes it: the
    cleaned copy is reused exactly when [skip_clean] is set, the copy
    exists, both [stat] calls succeed and the source is not newer. *)
Lemma need_clean_false env st_mtime skip pdf cleaned s :
  need_clean env st_mtime skip pdf cleaned s = false <->
  skip = true /\ is_Some (ws_fs s !! resolve env cleaned) /\
  exists mc mp, st_mtime cleaned = Some mc /\ st_mtime pdf = Some mp /\ (mp <= mc)%Q.
Proof.
  unfold need_clean. destruct skip; cbn [andb]; [|naive_solver].
  case_bool_decide as He; [|naive_solver].
  destruct (st_mtime cleaned) as [mc|], (st_mtime pdf) as [mp|]; try naive_solver.
  rewrite negb_false_iff, Qle_bool_iff. naive_solver.
Qed.

(** [C21] The clean step of [pipeline_build_one] (lines 276-292): the
    cleaned copy is [<stem>_cleaned.pdf], so never the source; it is
    reused, and nothing changes, exactly when [skip_clean] is set, the
    copy exists and its [st_mtime] is not older than the source's (both
    [stat] calls succeeding); otherwise the step is the call
    [clean_pdf(pdf, cleaned, strip=100, units="pixels", dpi=72.0,
    mode="redact")]. *)
Theorem pipeline_clean_output env st_mtime skip out_root pdf s :
  let cleaned := cleaned_path (per_pdf_out out_root pdf) pdf in
  let reuse := skip = true /\ is_Some (ws_fs s !! resolve env cleaned) /\
    exists mc mp, st_mtime cleaned = Some mc /\ st_mtime pdf = Some mp /\ (mp <= mc)%Q in
  path_name cleaned = path_stem pdf ++ u "_cleaned.pdf" /\ cleaned <> pdf /\
  (reuse -> pipeline_clean env st_mtime skip out_root pdf s = (s, Ok tt)) /\
  (~ reuse -> pipeline_clean env st_mtime skip out_root pdf s
              = process_pdf env pdf cleaned 100 (u "pixels") 72 (u "redact") s).
Proof.
  intros cleaned reuse. split_and!; [apply cleaned_path_name|apply cleaned_path_differs|..];
    unfold pipeline_clean, clean_if_needed; fold cleaned; intros Hr.
  - by rewrite (proj2 (need_clean_false env st_mtime skip pdf cleaned s) Hr).
  - destruct (need_clean env st_mtime skip pdf cleaned s) eqn:E; [done|].
    exfalso. by apply Hr, need_clean_false.
Qed.

(** ** Runs on a concrete system *)

Section DriverExamples.

Definition demo_mtime (p : text) : option Q :=
  if decide (p = u "/in/PW1.pdf") then Some 10%Q else Some 20%Q.

(** The pipeline cleans [/in/PW1.pdf] into its per-PDF folder. *)
Example pipeline_clean_demo :
  let st := {| ws_fs := <[u "/in/PW1.pdf" := demo_pdf]> ∅; ws_sleeps := [] |} in
  let r := pipeline_clean demo_env demo_mtime true (u "/out") (u "/in/PW1.pdf") st in
  r.2 = Ok tt /\ ws_fs r.1 !! u "/out/PW1/PW1_cleaned.pdf" = Some (u "%PDF-1.7 cleaned").
Proof. vm_compute. split; reflexivity. Qed.

(** Finding: [--skip-clean] reuses a cleaned copy newer than the source
    whatever the options of the new run: asking for crop mode over a copy
    redacted earlier keeps the redacted copy. *)
Example skip_clean_ignores_options :
  let st := {| ws_fs := <[u "/out/PW1/PW1_cleaned.pdf" := u "%PDF-1.7 redacted"]>
                          (<[u "/in/PW1.pdf" := demo_pdf]> ∅); ws_sleeps := [] |} in
  clean_if_needed demo_env demo_mtime true (u "/in/PW1.pdf") (u "/out/PW1/PW1_cleaned.pdf")
    100 (u "pixels") 72 (u "crop") st = (st, Ok tt).
Proof. vm_compute. reflexivity. Qed.

(** Finding: [resolve_run_folder] takes the first FullSchema file and the
    first baseline list in the folder's order, independently: a folder
    holding two runs can pair one run's rows with the other's titles. *)
Example resolve_run_folder_mismatched_pair :
  let listing := fun _ : text =>
    [u "B_FullSchema.csv"; u "A_baseline_titles.txt"; u "A_FullSchema.csv"; u "B_baseline_titles.txt"] in
  resolve_run_folder listing (u "/runs/r1") =
  Ok (u "/runs/r1/B_FullSchema.csv", u "/runs/r1/A_baseline_titles.txt", u "B").
Proof. vm_compute. reflexivity. Qed.

(** The segmenter over a folder: the PDFs in sorted order, each cleaned
    into [pw_output/<stem>] beside it. *)
Example seg_main_demo :
  let st := {| ws_fs := <[u "/in/b.pdf" := demo_pdf]> (<[u "/in/a.pdf" := demo_pdf]> ∅); ws_sleeps := [] |} in
  let r := seg_main demo_env demo_mtime (fun _ => [u "b.pdf"; u "notes.txt"; u "a.pdf"])
             (fun d => bool_decide (d = u "/in")) (fun _ _ _ _ => mret tt) (seg_defaults (u "/in")) st in
  r.2 = Ok [u "/in/pw_output/a"; u "/in/pw_output/b"] /\
  ws_fs r.1 !! u "/in/pw_output/b/b_cleaned.pdf" = Some (u "%PDF-1.7 cleaned").
Proof. vm_compute. split; reflexivity. Qed.

(** The clean step reuses a copy newer than the source. *)
Lemma pipeline_clean_output_witness :
  let st := {| ws_fs := <[u "/out/PW1/PW1_cleaned.pdf" := u "%PDF-1.7 redacted"]>
                          (<[u "/in/PW1.pdf" := demo_pdf]> ∅); ws_sleeps := [] |} in
  pipeline_clean demo_env demo_mtime true (u "/out") (u "/in/PW1.pdf") st = (st, Ok tt).
Proof.
  intros st. pose proof (pipeline_clean_output demo_env demo_mtime true (u "/out") (u "/in/PW1.pdf") st) as H.
  cbv zeta in H. destruct H as (_ & _ & Hre & _). apply Hre.
  split; [reflexivity|]. split; [vm_compute; eexists; reflexivity|].
  exists 20%Q, 10%Q. split_and!; [vm_compute; reflexivity|vm_compute; reflexivity|].
  apply Qle_bool_iff. vm_compute. reflexivity.
Defined.

End DriverExamples.
