(* ===== verification/Gui.v ===== *)
(** * Gui: the build handler of the desktop window

    [ProductionWeeklyGUI.run_build] (lines 2851-2906 of
    [src/Scripts/Production_Weekly_Extractor.py]) reads three entries,
    cleans and extracts a PDF input into a per-PDF folder (or takes a
    folder as it is), runs [build_cmd], and previews the newest FullSchema
    file of the output folder; any [Exception] becomes an error dialog.
    The handler's visible effects are a list of [gui_event]s (status line,
    dialogs, preview); its file effects go through the monad of
    [Watermark]; extraction, the build and the modification times are
    section variables. *)

From Stdlib Require Import QArith_base.
From S2P Require Import Prelude PyStr Dates Reconcile Master Pipeline Watermark Driver.

Open Scope N_scope.
Open Scope wm_scope.

Inductive gui_event :=
  | Status (text_ : text)                 (* self._set_status(...) *)
  | ErrorBox (title msg : text)           (* messagebox.showerror *)
  | InfoBox (title msg : text)            (* messagebox.showinfo *)
  | Preview (path : text).                (* self._show_preview(...) *)

(** [Path(t)] of an entry's text: [Path("")] is [Path(".")]. *)
Definition py_path (t : text) : text := match t with [] => u "." | _ => t end.

(** [e.__class__.__name__] and [str(e)]. *)
Definition exc_text (e : exc) : text :=
  match e with
  | FileNotFoundError m => u "FileNotFoundError: " ++ m
  | ValueError m => u "ValueError: " ++ m
  | ZeroDivisionError m => u "ZeroDivisionError: " ++ m
  | PermissionError m => u "PermissionError: " ++ m
  | FitzError m => u "FileDataError: " ++ m
  | SystemExit _ | SystemExitMsg _ => []
  end.

(** [except Exception]: [SystemExit] is not an [Exception] and goes through. *)
Definition catch_exception {A} (m : M A) (h : exc -> M A) : M A := fun s =>
  match m s with
  | (s', Raised (SystemExit c)) => (s', Raised (SystemExit c))
  | (s', Raised (SystemExitMsg t)) => (s', Raised (SystemExitMsg t))
  | (s', Raised e) => h e s'
  | r => r
  end.

(** [max(paths, key=lambda p: p.stat().st_mtime)]: the first path of
    largest time; [ValueError] on no path. *)
Fixpoint newest (mtime : text -> Q) (best : text) (ps : list text) : text :=
  match ps with
  | [] => best
  | p :: ps' => newest mtime (if Qle_bool (mtime p) (mtime best) then best else p) ps'
  end.

Section Gui.
Variable env : os_env.
Variable mtime : text -> Q.
Variable listdir : text -> list text.
Variable is_dir : text -> bool.
Variable extract : text -> text -> text -> text -> M unit.
(** [build_cmd(input, outdir, label)]: [(csv_path, baseline, filtered)]. *)
Variable build : text -> text -> text -> M (text * text * text).

Definition path_exists (p : text) (s : wm_state) : bool :=
  bool_decide (is_Some (ws_fs s !! resolve env p)) || is_dir p.

(** The branch for a PDF input: the per-PDF folder under [outdir] (or
    beside the input when [str(outdir)] is empty), clean and extract. *)
Definition gui_out_root (input_path outdir : text) : text :=
  if decide (outdir <> []) then outdir else path_div (path_parent input_path) (u "pw_output").

Definition build_pdf_input (input_path outdir label : text) : M (text * text) :=
  let pdf_outdir := path_div (gui_out_root input_path outdir) (path_stem input_path) in
  let cleaned := path_div pdf_outdir (path_stem input_path ++ u "_cleaned.pdf") in
  let out_struct := path_div pdf_outdir (path_stem input_path ++ u "_cleaned.structured.txt") in
  do _ <- process_pdf env input_path cleaned 100 (u "pixels") 72 (u "redact");
  do _ <- extract cleaned out_struct (path_div pdf_outdir (u "pages")) (path_div pdf_outdir (u "productions"));
  mret (pdf_outdir, match label with [] => path_stem input_path | _ => label end).

(** The preview target: the newest [*_FullSchema.csv] of [outdir], else
    the csv just written. *)
Definition preview_target (outdir csv : text) : text :=
  match List.filter (fnmatch (u "*_FullSchema.csv")) (listdir outdir) with
  | [] => csv
  | p :: ps => newest mtime (path_div outdir p) (map (path_div outdir) ps)
  end.

Definition run_build_body (input_e outdir_e label_e : text) : M (list gui_event) := fun s =>
  let input_path := py_path (py_strip input_e) in
  let outdir := py_path (py_strip outdir_e) in
  let label := py_strip label_e in
  if negb (path_exists input_path s) then
    (s, Ok [Status (u "Error"); ErrorBox (u "Error") (u "Input not found: " ++ input_path)])
  else
    (do inp <- (if decide (py_lower (path_suffix input_path) = u ".pdf")
                then do r <- build_pdf_input input_path outdir label; mret (Some r)
                else if is_dir input_path
                then mret (Some (input_path, match label with [] => path_name input_path | _ => label end))
                else mret None);
     match inp with
     | None => mret [Status (u "Error"); ErrorBox (u "Error") (u "Unsupported input: " ++ input_path)]
     | Some (input_for_build, label') =>
         do r <- build input_for_build outdir label';
         let '(csv, _, _) := r in
         mret [InfoBox (u "Build Complete") (u "Wrote CSV:" ++ [10] ++ csv);
               Preview (preview_target outdir csv); Status (u "Ready")]
     end) s.

(** [run_build]. *)
Definition run_build (input_e outdir_e label_e : text) : M (list gui_event) :=
  do evs <- catch_exception (run_build_body input_e outdir_e label_e)
              (fun e => mret [Status (u "Error"); ErrorBox (u "Error") (exc_text e)]);
  mret (Status (u "Running build…") :: evs).

End Gui.

(** ** Postconditions *)

(** [spec_ok P m]: every run of [m] returns a value satisfying [P] or
    raises an [Exception] (never [SystemExit]). *)
Definition spec_ok {A} (P : A -> Prop) (m : M A) : Prop :=
  forall s, match (m s).2 with
            | Ok a => P a
            | Raised (SystemExit _) | Raised (SystemExitMsg _) => False
            | Raised _ => True
            end.

Lemma spec_ok_bind {A B} (P : B -> Prop) (m : M A) (f : A -> M B) :
  spec_ok (fun _ => True) m -> (forall a, spec_ok P (f a)) -> spec_ok P (mbind m f).
Proof.
  intros Hm Hf s. unfold mbind. specialize (Hm s).
  destruct (m s) as [s' [a|e]]; simpl in *; [apply Hf|done].
Qed.

Lemma spec_ok_ret {A} (P : A -> Prop) a : P a -> spec_ok P (mret a).
Proof. by intros H s. Qed.

Lemma spec_ok_raise {A} (P : A -> Prop) e :
  match e with SystemExit _ | SystemExitMsg _ => False | _ => True end -> spec_ok P (raise e).
Proof. by intros H s. Qed.

Lemma spec_ok_lift_strip strip units dpi : spec_ok (fun _ => True) (lift (strip_points strip units dpi)).
Proof.
  intros s. unfold strip_points, px_to_points. simpl.
  destruct (decide _); [destruct (Qeq_bool dpi 0)|]; exact I.
Qed.

Lemma spec_ok_replace_loop env n k src dst last : spec_ok (fun _ => True) (replace_loop env n k src dst last).
Proof.
  revert k last. induction n as [|n IH]; intros k last; simpl; [by apply spec_ok_ret|].
  apply spec_ok_bind; [intros s; unfold try_replace; by repeat case_match|].
  intros [e|]; [|by apply spec_ok_ret]. apply spec_ok_bind; [done|intros _; apply IH].
Qed.

Lemma spec_ok_open env p : spec_ok (fun _ => True) (_open_with_fallback env p).
Proof.
  intros s. destruct (ws_fs s !! p) eqn:Hb.
  - rewrite (open_run _ _ _ _ Hb). unfold open_stream. simpl. by destruct (fitz_open env _).
  - unfold _open_with_fallback, fitz_open_path. rewrite Hb.
    destruct (path_open_ok env p); simpl; unfold mbind, read_bytes; rewrite Hb; exact I.
Qed.

(** [process_pdf] raises only [Exception]s. *)
Lemma spec_ok_process_pdf env i o strip units dpi mode :
  spec_ok (fun _ => True) (process_pdf env i o strip units dpi mode).
Proof.
  unfold process_pdf. cbv zeta. case_decide; [by apply spec_ok_raise|].
  apply spec_ok_bind; [intros s; unfold _preflight_pdf; by repeat case_match|intros _].
  apply spec_ok_bind; [apply spec_ok_lift_strip|intros sp].
  case_match; [by apply spec_ok_raise|].
  apply spec_ok_bind; [apply spec_ok_open|intros pages].
  apply spec_ok_bind; [done|intros _].
  apply spec_ok_bind; [intros s; unfold validate; by repeat case_match|intros _].
  apply spec_ok_bind; [apply spec_ok_replace_loop|intros [e|]]; [|by apply spec_ok_ret].
  apply spec_ok_bind; [intros s; unfold try_remove; by repeat case_match|intros _]. by apply spec_ok_raise.
Qed.

(** The last event of a handler: the status [Ready], or an error dialog. *)
Definition ends_ok (evs : list gui_event) : Prop :=
  last evs = Some (Status (u "Ready")) \/ exists m, last evs = Some (ErrorBox (u "Error") m).

Section GuiProps.
Variable env : os_env.
Variable mtime : text -> Q.
Variable listdir : text -> list text.
Variable is_dir : text -> bool.
Variable extract : text -> text -> text -> text -> M unit.
Variable build : text -> text -> text -> M (text * text * text).
Hypothesis extract_ok : forall a b c d, spec_ok (fun _ => True) (extract a b c d).
Hypothesis build_ok : forall a b c, spec_ok (fun _ => True) (build a b c).

Lemma spec_ok_build_pdf i o l : spec_ok (fun _ => True) (build_pdf_input env extract i o l).
Proof.
  unfold build_pdf_input. apply spec_ok_bind; [apply spec_ok_process_pdf|intros _].
  apply spec_ok_bind; [apply extract_ok|intros _]. by apply spec_ok_ret.
Qed.

Lemma spec_ok_build_body i o l : spec_ok ends_ok (run_build_body env mtime listdir is_dir extract build i o l).
Proof.
  intros s. unfold run_build_body. cbv zeta.
  destruct (negb (path_exists env is_dir _ s)); [simpl; unfold ends_ok; right; by eexists|].
  match goal with |- context [mbind ?X ?K s] => apply (spec_ok_bind ends_ok X K) end.
  - case_decide; [apply spec_ok_bind; [apply spec_ok_build_pdf|intros; by apply spec_ok_ret]|].
    case_match; by apply spec_ok_ret.
  - intros [[ib l']|]; [|apply spec_ok_ret; unfold ends_ok; right; by eexists].
    apply spec_ok_bind; [apply build_ok|]. intros [[csv ?] ?]. apply spec_ok_ret. unfold ends_ok. by left.
Qed.

End GuiProps.

(** Error behaviour of [run_build]: when extraction and the build raise
    only [Exception]s, the handler always returns; its events start with
    the busy status and end with the status [Ready] or an error dialog,
    whatever the entries and the files. *)
Theorem run_build_reports_errors env mtime listdir is_dir extract build i o l s :
  (forall a b c d, spec_ok (fun _ => True) (extract a b c d)) ->
  (forall a b c, spec_ok (fun _ => True) (build a b c)) ->
  exists evs, (run_build env mtime listdir is_dir extract build i o l s).2 = Ok (Status (u "Running build…") :: evs)
    /\ ends_ok evs.
Proof.
  intros Hx Hb. pose proof (spec_ok_build_body env mtime listdir is_dir extract build Hx Hb i o l s) as H.
  unfold run_build, mbind at 1, catch_exception.
  destruct (run_build_body env mtime listdir is_dir extract build i o l s) as [s' [evs|e]]; simpl in H.
  - exists evs. by split.
  - destruct e; try contradiction; (eexists; split; [reflexivity|unfold ends_ok; right; by eexists]).
Qed.

(** Finding: [str(Path(""))] is ["."], so [str(outdir) or ...] never
    falls back to [pw_output] beside the input: an empty output entry
    puts the per-PDF folder in the working directory. *)
Lemma gui_out_root_entry input t : gui_out_root input (py_path t) = py_path t.
Proof.
  unfold gui_out_root. rewrite decide_True; [done|]. unfold py_path.
  destruct t; [vm_compute; discriminate|discriminate].
Qed.

Example gui_build_empty_outdir :
  path_div (gui_out_root (u "/scans/PW1.pdf") (py_path (py_strip []))) (path_stem (u "/scans/PW1.pdf")) = u "PW1".
Proof. vm_compute. reflexivity. Qed.

(** A build that writes nothing and an extraction that does nothing. *)
Definition demo_extract : text -> text -> text -> text -> M unit := fun _ _ _ _ => mret tt.
Definition demo_build : text -> text -> text -> M (text * text * text) := fun x _ _ => mret (x, x, x).

Lemma run_build_reports_errors_witness :
  (forall a b c d, spec_ok (fun _ => True) (demo_extract a b c d)) /\
  (forall a b c, spec_ok (fun _ => True) (demo_build a b c)) /\
  exists evs, (run_build demo_env (fun _ => 0%Q) (fun _ => []) (fun _ => false) demo_extract demo_build
                 (u "/in/PW1.pdf") [] [] demo_state).2 = Ok (Status (u "Running build…") :: evs) /\ ends_ok evs.
Proof.
  assert (H1 : forall a b c d, spec_ok (fun _ => True) (demo_extract a b c d)) by (intros; by apply spec_ok_ret).
  assert (H2 : forall a b c, spec_ok (fun _ => True) (demo_build a b c)) by (intros; by apply spec_ok_ret).
  split_and!; [exact H1|exact H2|exact (run_build_reports_errors _ _ _ _ _ _ _ _ _ _ H1 H2)].
Defined.

(** ** The master-compare handler: file names and the shared summary *)

Section MasterGui.
Context `{UnicodeDB}.

(** The GUI's own [safe_region] for the file it previews. *)
Definition gui_safe_region (region : text) : text :=
  map (fun c => if bool_decide (c ∈ [47; 92; 58; 42; 63; 34; 60; 62; 124; 32]%N) then 95%N else c)
    (match region with [] => u "All" | _ => region end).

(** [out_master.name] in [master_compare_cmd]: named after the region
    once an empty one has been read from the master rows. *)
Definition master_out_name (latest region : text) (master_rows : list row) : text :=
  let region := match region with [] => _region_from_master master_rows | _ => region end in
  u "PW_" ++ latest ++ u "_VS_MASTER_" ++ safe_region region ++ u ".csv".

(** [out_file.name] in [run_master_compare] for one region. *)
Definition gui_master_out_name (latest region : text) : text :=
  u "PW_" ++ latest ++ u "_VS_MASTER_" ++ gui_safe_region region ++ u ".csv".

(** [summary_acc], the dict the batch over all regions passes to every
    [master_compare_cmd] call: [setdefault("files", [])] returns the dict's
    own list, so each call's append is seen through the dict. *)
Record summary_acc := {
  acc_total_pw : option nat;                       (* absent until the first call *)
  acc_pushed_total : nat;
  acc_files : list (text * text * text * text) }.   (* region, weekly csv, baseline, master compare *)

Definition summary_init : summary_acc := {| acc_total_pw := None; acc_pushed_total := 0; acc_files := [] |}.

Definition summary_step (acc : summary_acc) (total_pw pushed : nat) (region weekly_csv weekly_baseline out_master : text)
    : summary_acc :=
  {| acc_total_pw := match acc_total_pw acc with None => Some total_pw | t => t end;
     acc_pushed_total := acc_pushed_total acc + pushed;
     acc_files := acc_files acc ++
       [(match region with [] => u "All Regions" | _ => region end, path_name weekly_csv,
         path_name weekly_baseline, out_master)] |}.

Section AllRegions.
(** The rows of the master file [master_compare_cmd] picks for a region. *)
Variable master_of : text -> list row.
Variables (weekly_rows : list row) (base_titles : list text) (label latest weekly_csv weekly_baseline : text).

(** One call with [summary_acc]: [None] when it raises. *)
Definition master_cmd_acc (acc : summary_acc) (reg : text) : option summary_acc :=
  rows ← master_compare (master_of reg) weekly_rows base_titles reg label;
  Some (summary_step acc (length base_titles) (pushed_count rows) reg weekly_csv weekly_baseline
          (master_out_name latest reg (master_of reg))).

Fixpoint all_regions (regs : list text) (acc : summary_acc) : option summary_acc :=
  match regs with
  | [] => Some acc
  | r :: rs => acc' ← master_cmd_acc acc r; all_regions rs acc'
  end.

(** [for reg in REGION_FILE_MAP.keys(): master_compare_cmd(..., summary_acc=summary_acc)]. *)
Definition gui_all_regions : option summary_acc := all_regions (map fst REGION_FILE_MAP) summary_init.

(** The combined summary the handler writes. *)
Definition batch_summary_lines (acc : summary_acc) : list text :=
  [u "Production Weekly Summary — " ++ label ++ u " (ALL REGIONS)"; [];
   u "Total productions this issue (including filtered): " ++ show_dec (Z.of_nat (default 0%nat (acc_total_pw acc)));
   u "Productions with DATE PUSHED BACK (all regions): " ++ show_dec (Z.of_nat (acc_pushed_total acc)); [];
   u "Files:"] ++ map (fun f => u "- " ++ f.1.1.1 ++ u ": " ++ f.2) (acc_files acc).

End AllRegions.
End MasterGui.

Section MasterGuiProps.
Context `{UnicodeDB}.
Variable master_of : text -> list row.
Variables (weekly_rows : list row) (base_titles : list text) (label latest weekly_csv weekly_baseline : text).

Definition region_or_all (r : text) : text := match r with [] => u "All Regions" | _ => r end.

(** The accumulator after a run of calls, from the one before. *)
Lemma all_regions_spec regs acc acc' :
  all_regions master_of weekly_rows base_titles label latest weekly_csv weekly_baseline regs acc = Some acc' ->
  exists rowss,
    Forall2 (fun reg rows => master_compare (master_of reg) weekly_rows base_titles reg label = Some rows) regs rowss /\
    acc_total_pw acc' = match acc_total_pw acc, regs with
                        | Some t, _ => Some t | None, [] => None | None, _ => Some (length base_titles) end /\
    acc_pushed_total acc' = (acc_pushed_total acc + sum_list_with pushed_count rowss)%nat /\
    map (fun f => f.1.1.1) (acc_files acc') = map (fun f => f.1.1.1) (acc_files acc) ++ map region_or_all regs.
Proof.
  revert acc. induction regs as [|r rs IH]; intros acc Hrun; simpl in Hrun.
  - injection Hrun as <-. exists []. split_and!; [constructor|by destruct (acc_total_pw acc)|simpl; lia|].
    by rewrite app_nil_r.
  - unfold master_cmd_acc in Hrun.
    destruct (master_compare (master_of r) weekly_rows base_titles r label) as [rows|] eqn:Er; [|discriminate].
    simpl in Hrun. apply IH in Hrun as (rowss & HF & Ht & Hp & Hf).
    exists (rows :: rowss). split_and!; [by constructor| |simpl in *; lia|].
    + rewrite Ht. simpl. destruct (acc_total_pw acc); [done|by destruct rs].
    + rewrite Hf. simpl. rewrite map_app, <- app_assoc. done.
Qed.

(** [C23] The summary the batch over all regions accumulates in the one
    [summary_acc] dict its calls share: when every call succeeds, it holds
    the issue's total from the first call, the sum of the pushed-back
    counts of the eight regions' outputs, and one file entry per region in
    the order of [REGION_FILE_MAP]. *)
Theorem gui_all_regions_summary acc :
  gui_all_regions master_of weekly_rows base_titles label latest weekly_csv weekly_baseline = Some acc ->
  exists rowss,
    Forall2 (fun reg rows => master_compare (master_of reg) weekly_rows base_titles reg label = Some rows)
      (map fst REGION_FILE_MAP) rowss /\
    acc_total_pw acc = Some (length base_titles) /\
    acc_pushed_total acc = sum_list_with pushed_count rowss /\
    map (fun f => f.1.1.1) (acc_files acc) = map fst REGION_FILE_MAP.
Proof.
  intros Hrun. apply all_regions_spec in Hrun as (rowss & HF & Ht & Hp & Hf).
  exists rowss. split_and!; [done|done|done|]. rewrite Hf. vm_compute. reflexivity.
Qed.

End MasterGuiProps.

(** [C35] The file the master-compare handler previews is the file
    [master_compare_cmd] writes whenever the region is given and has none
    of the six characters (codes 42, 63, 34, 60, 62, 124: star, question
    mark, double quote, angle brackets, bar) the GUI also replaces: both names put
    the same [safe_region] after [PW_<date>_VS_MASTER_].  With no region
    the two differ (see [gui_master_name_detected_region]). *)
Theorem gui_master_name_agrees `{UnicodeDB} latest region master_rows :
  region <> [] -> Forall (fun c => c ∉ [42; 63; 34; 60; 62; 124]%N) region ->
  gui_master_out_name latest region = master_out_name latest region master_rows.
Proof.
  intros Hne Hc. unfold gui_master_out_name, master_out_name, gui_safe_region, safe_region.
  destruct region as [|c r]; [done|]. cbv zeta.
  rewrite (map_ext_in _ (fun d => if bool_decide (d ∈ [32; 47; 92; 58]%N) then 95%N else d)); [done|].
  intros d Hd. apply list_elem_of_In in Hd. rewrite Forall_forall in Hc. specialize (Hc d Hd).
  assert (E : bool_decide (d ∈ [47; 92; 58; 42; 63; 34; 60; 62; 124; 32]%N) = bool_decide (d ∈ [32; 47; 92; 58]%N)).
  { apply bool_decide_ext. rewrite !elem_of_cons, elem_of_nil in *. tauto. }
  by rewrite E.
Qed.

Section GuiExamples.
#[local] Existing Instance latin1_db.

(** Finding: with the region left empty, [master_compare_cmd] names its
    output after the region it reads from the master rows, while the
    handler looks for [..._VS_MASTER_All.csv] and reports the file as not
    found. *)
Example gui_master_name_detected_region :
  let rows : list row := [{[ u "Production Name" := u "Alpha"; u "Region" := u "Quebec" ]}] in
  gui_master_out_name (u "Sep_04_2025") [] = u "PW_Sep_04_2025_VS_MASTER_All.csv" /\
  master_out_name (u "Sep_04_2025") [] rows = u "PW_Sep_04_2025_VS_MASTER_Quebec.csv".
Proof. vm_compute. split; reflexivity. Qed.

Lemma gui_master_name_agrees_witness :
  u "Ireland/Hungary" <> [] /\ Forall (fun c => c ∉ [42; 63; 34; 60; 62; 124]%N) (u "Ireland/Hungary") /\
  gui_master_out_name (u "Sep_04_2025") (u "Ireland/Hungary") = master_out_name (u "Sep_04_2025") (u "Ireland/Hungary") [].
Proof.
  assert (H1 : u "Ireland/Hungary" <> []) by (vm_compute; discriminate).
  assert (H2 : Forall (fun c => c ∉ [42; 63; 34; 60; 62; 124]%N) (u "Ireland/Hungary"))
    by (apply (bool_decide_unpack _); vm_compute; exact I).
  split_and!; [exact H1|exact H2|exact (gui_master_name_agrees _ _ _ H1 H2)].
Defined.

Lemma gui_all_regions_summary_witness :
  let run := gui_all_regions (fun _ => []) [] [u "Alpha"] (u "PW1") (u "Sep_04_2025")
               (u "/runs/PW1/PW1_FullSchema.csv") (u "/runs/PW1/PW1_baseline_titles.txt") in
  run = Some (default summary_init run) /\
  exists rowss,
    Forall2 (fun reg rows => master_compare [] [] [u "Alpha"] reg (u "PW1") = Some rows)
      (map fst REGION_FILE_MAP) rowss /\
    acc_total_pw (default summary_init run) = Some (length [u "Alpha"]) /\
    acc_pushed_total (default summary_init run) = sum_list_with pushed_count rowss /\
    map (fun f => f.1.1.1) (acc_files (default summary_init run)) = map fst REGION_FILE_MAP.
Proof.
  cbv zeta.
  assert (H : gui_all_regions (fun _ => []) [] [u "Alpha"] (u "PW1") (u "Sep_04_2025")
               (u "/runs/PW1/PW1_FullSchema.csv") (u "/runs/PW1/PW1_baseline_titles.txt") =
              Some (default summary_init (gui_all_regions (fun _ => []) [] [u "Alpha"] (u "PW1") (u "Sep_04_2025")
               (u "/runs/PW1/PW1_FullSchema.csv") (u "/runs/PW1/PW1_baseline_titles.txt"))))
    by (vm_compute; reflexivity).
  split; [exact H|exact (gui_all_regions_summary _ _ _ _ _ _ _ _ H)].
Defined.

End GuiExamples.
